(** * A shallow embedding of the runtime search worker of zmh-search

    The source is [src/worker/searchWorker.ts].  JavaScript numbers that the
    worker keeps as integers are modelled as [Z]; the 32-bit wrap-around of
    the bit operators ([|], [<<], [&], [|0]) is written out with [toInt32].
    Strings are lists of UTF-16 code units ([list Z]); typed arrays are lists
    read with [zlookup] (reading out of range gives [undefined]) and written
    with stdpp's list insert (writing out of range does nothing, as for a
    typed array). *)

From Stdlib Require Import ZArith QArith Lia Sorted.
From Stdlib Require Import String Ascii.
From stdpp Require Import base list gmap.

Open Scope Z_scope.

(* ------------------------------------------------------------------ *)
(** ** JavaScript number helpers *)

(** [ToInt32]: the conversion applied by every bit operator. *)
Definition toInt32 (z : Z) : Z := (z + 2 ^ 31) mod 2 ^ 32 - 2 ^ 31.

(** [a[i]] for a typed array or an array: [None] stands for [undefined]
    (a negative or too large index). *)
Definition zlookup {A} (l : list A) (i : Z) : option A :=
  if i <? 0 then None else l !! Z.to_nat i.

(** [a[i] = v] on a typed array: a write out of range does nothing. *)
Definition zinsert {A} (i : Z) (v : A) (l : list A) : list A :=
  if i <? 0 then l else <[Z.to_nat i := v]> l.

(** [a[i] ?? 0] *)
Definition zget0 (l : list Z) (i : Z) : Z :=
  match zlookup l i with Some v => v | None => 0 end.

(* ------------------------------------------------------------------ *)
(** ** decodePostings *)

(** The inner [while (true)] loop of [decodePostings]: one varint group,
    read from the bytes that start at [i].  Reading past the end of the
    array gives [undefined], for which [b & 0x7f] is [0] and
    [(b & 0x80) === 0] holds, so the group ends there.  The result is the
    group's value and the number of bytes consumed ([i += 1] per byte). *)
Fixpoint readGroup (bs : list Z) (shift value : Z) : Z * Z :=
  match bs with
  | [] => (toInt32 value, 1)
  | b :: bs' =>
      let value' := toInt32 (Z.lor value (toInt32 (Z.shiftl (Z.land b 127) (shift mod 32)))) in
      if Z.land b 128 =? 0 then (value', 1)
      else let '(v, n) := readGroup bs' (shift + 7) value' in (v, n + 1)
  end.

(** The outer [while (i < end)] loop; each group consumes at least one
    byte, so [fuel = length] iterations are enough for the loop to reach
    [end].  The doc-ids passed to [onDoc] are returned in order. *)
Fixpoint decodeLoop (fuel : nat) (index : list Z) (i end_ prev : Z) : list Z :=
  match fuel with
  | O => []
  | S fuel' =>
      if i <? end_ then
        let '(value, n) := readGroup (drop (Z.to_nat i) index) 0 0 in
        let prev' := prev + value in
        prev' :: decodeLoop fuel' index (i + n) end_ prev'
      else []
  end.

Definition decodePostings (index : list Z) (offset length : Z) : list Z :=
  decodeLoop (Z.to_nat length) index offset (offset + length) (-1).

(** The unsigned LEB128 delta encoding of §6 of the format description
    (builder side): 7 bits per byte, low group first, high bit set on every
    byte but the last; the deltas are taken from [prev = -1]. *)
Fixpoint lebEncodeN (fuel : nat) (v : Z) : list Z :=
  match fuel with
  | O => [v]
  | S f => if v <? 128 then [v] else (Z.land v 127 + 128) :: lebEncodeN f (Z.shiftr v 7)
  end.

Definition lebEncode (v : Z) : list Z := lebEncodeN (S (Z.to_nat (Z.log2 v))) v.

Fixpoint deltaEncode (prev : Z) (ids : list Z) : list Z :=
  match ids with
  | [] => []
  | d :: ids' => lebEncode (d - prev) ++ deltaEncode d ids'
  end.

(* ------------------------------------------------------------------ *)
(** ** Strings *)

(** A literal of the source, as UTF-16 code units. *)
Definition lit (s : String.string) : list Z :=
  map (fun a => Z.of_nat (Ascii.nat_of_ascii a)) (String.list_ascii_of_string s).

(** Decimal digits of a non-negative integer ([log2 n + 1] digits are
    always enough). *)
Fixpoint decDigits (fuel : nat) (n : Z) (acc : list Z) : list Z :=
  match fuel with
  | O => acc
  | S f => let acc' := (48 + n mod 10) :: acc in
           if n <? 10 then acc' else decDigits f (n / 10) acc'
  end.

(** [`${n}`] for an integral number. *)
Definition numToString (n : Z) : list Z :=
  if n <? 0 then 45 :: decDigits (S (Z.to_nat (Z.log2 (- n)))) (- n) []
  else decDigits (S (Z.to_nat (Z.log2 n))) n [].

(** [parts.join(sep)] *)
Fixpoint join (sep : list Z) (parts : list (list Z)) : list Z :=
  match parts with
  | [] => []
  | [p] => p
  | p :: ps => p ++ sep ++ join sep ps
  end.

(** [a < b] on strings: lexicographic order of the code units; this is the
    order of the default [Array.prototype.sort]. *)
Fixpoint strLt (a b : list Z) : bool :=
  match a, b with
  | _, [] => false
  | [], _ :: _ => true
  | x :: a', y :: b' => (x <? y) || ((x =? y) && strLt a' b')
  end.

(** [haystack.includes(needle)] *)
Fixpoint includes (hay needle : list Z) : bool :=
  match hay with
  | [] => bool_decide (needle = [])
  | _ :: hay' => bool_decide (take (length needle) hay = needle) || includes hay' needle
  end.

(** [Array.prototype.sort] with a comparator: a stable sort that puts [x]
    after [y] unless [cmp(y, x) > 0]; [gt y x] is [cmp(y, x) > 0]. *)
Fixpoint insertBy {A} (gt : A -> A -> bool) (x : A) (l : list A) : list A :=
  match l with
  | [] => [x]
  | y :: l' => if gt y x then x :: y :: l' else y :: insertBy gt x l'
  end.

Definition sortBy {A} (gt : A -> A -> bool) (l : list A) : list A :=
  fold_left (fun acc x => insertBy gt x acc) l [].

(** [set.add(x)] on a JavaScript [Set]: insertion order is kept. *)
Definition setAdd (x : list Z) (st : list (list Z)) : list (list Z) :=
  if bool_decide (x ∈ st) then st else st ++ [x].

(* ------------------------------------------------------------------ *)
(** ** Query parsing *)

(** The code units matched by [\s] (and removed by [trim]). *)
Definition isWS (c : Z) : bool :=
  (9 <=? c) && (c <=? 13) || (c =? 32) || (c =? 160) || (c =? 5760)
  || (8192 <=? c) && (c <=? 8202) || (c =? 8232) || (c =? 8233) || (c =? 8239)
  || (c =? 8287) || (c =? 12288) || (c =? 65279).

Fixpoint dropWS (s : list Z) : list Z :=
  match s with
  | c :: s' => if isWS c then dropWS s' else s
  | [] => []
  end.

(** [raw.trim()] *)
Definition trim (s : list Z) : list Z := rev (dropWS (rev (dropWS s))).

(** Split at every whitespace code unit.  Dropping the empty pieces
    ([filter(Boolean)]) from this gives the same parts as dropping them from
    [split(/\s+/u)]. *)
Fixpoint splitWS (s : list Z) : list (list Z) :=
  match s with
  | [] => [[]]
  | c :: s' =>
      if isWS c then [] :: splitWS s'
      else match splitWS s' with
           | p :: ps => (c :: p) :: ps
           | [] => [[c]]
           end
  end.

(** [raw.trim().split(/\s+/u).filter(Boolean)] *)
Definition queryParts (raw : list Z) : list (list Z) :=
  filter (fun p => bool_decide (p <> [])) (splitWS (trim raw)).

(** [const head = p[0] ?? "";
     const isExclude = (head === "-" || head === "－") && p.length > 1;] *)
Definition partIsExclude (p : list Z) : bool :=
  let head := match p with c :: _ => Some c | [] => None end in
  bool_decide (head = Some 45 \/ head = Some 65293) && (1 <? Z.of_nat (length p)).

Record ParsedQuery := { pq_include : list (list Z); pq_exclude : list (list Z) }.

(* ------------------------------------------------------------------ *)
(** ** normText

    [normText] calls three built-in functions: [text.normalize("NFKC")],
    [toLowerCase()] and [replace(NON_ALNUM_RE, "")].  They are modelled on
    code points with the tables of the Unicode Character Database, version
    14.0: NFKC as specified by UAX #15, the full lower-case mapping with the [Final_Sigma] rule, and the
    general categories L and N.  A string is a list of UTF-16 code units;
    each built-in reads its code points (a lone surrogate reads as itself)
    and writes them back as code units. *)

(** Binary search trees keyed by code points: the Unicode tables. *)
Inductive UTree (A : Type) : Type :=
| ULeaf
| UNode (l : UTree A) (k : Z) (v : A) (r : UTree A).
Arguments ULeaf {A}.
Arguments UNode {A} _ _ _ _.

Fixpoint ulookup {A} (t : UTree A) (c : Z) : option A :=
  match t with
  | ULeaf => None
  | UNode l k v r =>
      match Z.compare c k with
      | Eq => Some v
      | Lt => ulookup l c
      | Gt => ulookup r c
      end
  end.

(** A tree of disjoint ranges [lo..hi], keyed by [lo]. *)
Fixpoint inRanges (t : UTree Z) (c : Z) : bool :=
  match t with
  | ULeaf => false
  | UNode l lo hi r => if c <? lo then inRanges l c else if c <=? hi then true else inRanges r c
  end.
(** Full compatibility decomposition (the [Decomposition_Mapping] of
    UnicodeData.txt, canonical and compatibility, applied recursively) of
    every code point that has one, the Hangul syllables apart. *)
Definition decompTable : UTree (list Z) :=
  (UNode (UNode (UNode (UNode (UNode (UNode (UNode (UNode (UNode (UNode (UNode (UNode (UNode ULeaf 160 [32] ULeaf) 168 [32; 776] ULeaf) 170 [97] (UNode (UNode ULeaf 175 [32; 772] ULeaf) 178 [50] ULeaf)) 179 [51] (UNode (UNode (UNode ULeaf 180 [32; 769] ULeaf) 181 [956] ULeaf) 184 [32; 807] (UNode (UNode ULeaf 185 [49] ULeaf) 186 [111] ULeaf))) 188 [49; 8260; 52] (UNode (UNode (UNode (UNode ULeaf 189 [49; 8260; 50] ULeaf) 190 [51; 8260; 52] ULeaf) 192 [65; 768] (UNode (UNode ULeaf 193 [65; 769] ULeaf) 194 [65; 770] ULeaf)) 195 [65; 771] (UNode (UNode (UNode ULeaf 196 [65; 776] ULeaf) 197 [65; 778] ULeaf) 199 [67; 807] (UNode ULeaf 200 [69; 768] ULeaf)))) 201 [69; 769] (UNode (UNode (UNode (UNode (UNode ULeaf 202 [69; 770] ULeaf) 203 [69; 776] ULeaf) 204 [73; 768] (UNode (UNode ULeaf 205 [73; 769] ULeaf) 206 [73; 770] ULeaf)) 207 [73; 776] (UNode (UNode (UNode ULeaf 209 [78; 771] ULeaf) 210 [79; 768] ULeaf) 211 [79; 769] (UNode (UNode ULeaf 212 [79; 770] ULeaf) 213 [79; 771] ULeaf))) 214 [79; 776] (UNode (UNode (UNode (UNode ULeaf 217 [85; 768] ULeaf) 218 [85; 769] ULeaf) 219 [85; 770] (UNode (UNode ULeaf 220 [85; 776] ULeaf) 221 [89; 769] ULeaf)) 224 [97; 768] (UNode (UNode (UNode ULeaf 225 [97; 769] ULeaf) 226 [97; 770] ULeaf) 227 [97; 771] (UNode ULeaf 228 [97; 776] ULeaf))))) 229 [97; 778] (UNode (UNode (UNode (UNode (UNode (UNode ULeaf 231 [99; 807] ULeaf) 232 [101; 768] ULeaf) 233 [101; 769] (UNode (UNode ULeaf 234 [101; 770] ULeaf) 235 [101; 776] ULeaf)) 236 [105; 768] (UNode (UNode (UNode ULeaf 237 [105; 769] ULeaf) 238 [105; 770] ULeaf) 239 [105; 776] (UNode (UNode ULeaf 241 [110; 771] ULeaf) 242 [111; 768] ULeaf))) 243 [111; 769] (UNode (UNode (UNode (UNode ULeaf 244 [111; 770] ULeaf) 245 [111; 771] ULeaf) 246 [111; 776] (UNode (UNode ULeaf 249 [117; 768] ULeaf) 250 [117; 769] ULeaf)) 251 [117; 770] (UNode (UNode (UNode ULeaf 252 [117; 776] ULeaf) 253 [121; 769] ULeaf) 255 [121; 776] (UNode ULeaf 256 [65; 772] ULeaf)))) 257 [97; 772] (UNode (UNode (UNode (UNode (UNode ULeaf 258 [65; 774] ULeaf) 259 [97; 774] ULeaf) 260 [65; 808] (UNode (UNode ULeaf 261 [97; 808] ULeaf) 262 [67; 769] ULeaf)) 263 [99; 769] (UNode (UNode (UNode ULeaf 264 [67; 770] ULeaf) 265 [99; 770] ULeaf) 266 [67; 775] (UNode ULeaf 267 [99; 775] ULeaf))) 268 [67; 780] (UNode (UNode (UNode (UNode ULeaf 269 [99; 780] ULeaf) 270 [68; 780] ULeaf) 271 [100; 780] (UNode (UNode ULeaf 274 [69; 772] ULeaf) 275 [101; 772] ULeaf)) 276 [69; 774] (UNode (UNode (UNode ULeaf 277 [101; 774] ULeaf) 278 [69; 775] ULeaf) 279 [101; 775] (UNode ULeaf 280 [69; 808] ULeaf)))))) 281 [101; 808] (UNode (UNode (UNode (UNode (UNode (UNode (UNode ULeaf 282 [69; 780] ULeaf) 283 [101; 780] ULeaf) 284 [71; 770] (UNode (UNode ULeaf 285 [103; 770] ULeaf) 286 [71; 774] ULeaf)) 287 [103; 774] (UNode (UNode (UNode ULeaf 288 [71; 775] ULeaf) 289 [103; 775] ULeaf) 290 [71; 807] (UNode (UNode ULeaf 291 [103; 807] ULeaf) 292 [72; 770] ULeaf))) 293 [104; 770] (UNode (UNode (UNode (UNode ULeaf 296 [73; 771] ULeaf) 297 [105; 771] ULeaf) 298 [73; 772] (UNode (UNode ULeaf 299 [105; 772] ULeaf) 300 [73; 774] ULeaf)) 301 [105; 774] (UNode (UNode (UNode ULeaf 302 [73; 808] ULeaf) 303 [105; 808] ULeaf) 304 [73; 775] (UNode ULeaf 306 [73; 74] ULeaf)))) 307 [105; 106] (UNode (UNode (UNode (UNode (UNode ULeaf 308 [74; 770] ULeaf) 309 [106; 770] ULeaf) 310 [75; 807] (UNode (UNode ULeaf 311 [107; 807] ULeaf) 313 [76; 769] ULeaf)) 314 [108; 769] (UNode (UNode (UNode ULeaf 315 [76; 807] ULeaf) 316 [108; 807] ULeaf) 317 [76; 780] (UNode (UNode ULeaf 318 [108; 780] ULeaf) 319 [76; 183] ULeaf))) 320 [108; 183] (UNode (UNode (UNode (UNode ULeaf 323 [78; 769] ULeaf) 324 [110; 769] ULeaf) 325 [78; 807] (UNode (UNode ULeaf 326 [110; 807] ULeaf) 327 [78; 780] ULeaf)) 328 [110; 780] (UNode (UNode (UNode ULeaf 329 [700; 110] ULeaf) 332 [79; 772] ULeaf) 333 [111; 772] (UNode ULeaf 334 [79; 774] ULeaf))))) 335 [111; 774] (UNode (UNode (UNode (UNode (UNode (UNode ULeaf 336 [79; 779] ULeaf) 337 [111; 779] ULeaf) 340 [82; 769] (UNode (UNode ULeaf 341 [114; 769] ULeaf) 342 [82; 807] ULeaf)) 343 [114; 807] (UNode (UNode (UNode ULeaf 344 [82; 780] ULeaf) 345 [114; 780] ULeaf) 346 [83; 769] (UNode (UNode ULeaf 347 [115; 769] ULeaf) 348 [83; 770] ULeaf))) 349 [115; 770] (UNode (UNode (UNode (UNode ULeaf 350 [83; 807] ULeaf) 351 [115; 807] ULeaf) 352 [83; 780] (UNode (UNode ULeaf 353 [115; 780] ULeaf) 354 [84; 807] ULeaf)) 355 [116; 807] (UNode (UNode (UNode ULeaf 356 [84; 780] ULeaf) 357 [116; 780] ULeaf) 360 [85; 771] (UNode ULeaf 361 [117; 771] ULeaf)))) 362 [85; 772] (UNode (UNode (UNode (UNode (UNode ULeaf 363 [117; 772] ULeaf) 364 [85; 774] ULeaf) 365 [117; 774] (UNode (UNode ULeaf 366 [85; 778] ULeaf) 367 [117; 778] ULeaf)) 368 [85; 779] (UNode (UNode (UNode ULeaf 369 [117; 779] ULeaf) 370 [85; 808] ULeaf) 371 [117; 808] (UNode ULeaf 372 [87; 770] ULeaf))) 373 [119; 770] (UNode (UNode (UNode (UNode ULeaf 374 [89; 770] ULeaf) 375 [121; 770] ULeaf) 376 [89; 776] (UNode (UNode ULeaf 377 [90; 769] ULeaf) 378 [122; 769] ULeaf)) 379 [90; 775] (UNode (UNode (UNode ULeaf 380 [122; 775] ULeaf) 381 [90; 780] ULeaf) 382 [122; 780] (UNode ULeaf 383 [115] ULeaf))))))) 416 [79; 795] (UNode (UNode (UNode (UNode (UNode (UNode (UNode (UNode ULeaf 417 [111; 795] ULeaf) 431 [85; 795] ULeaf) 432 [117; 795] (UNode (UNode ULeaf 452 [68; 90; 780] ULeaf) 453 [68; 122; 780] ULeaf)) 454 [100; 122; 780] (UNode (UNode (UNode ULeaf 455 [76; 74] ULeaf) 456 [76; 106] ULeaf) 457 [108; 106] (UNode (UNode ULeaf 458 [78; 74] ULeaf) 459 [78; 106] ULeaf))) 460 [110; 106] (UNode (UNode (UNode (UNode ULeaf 461 [65; 780] ULeaf) 462 [97; 780] ULeaf) 463 [73; 780] (UNode (UNode ULeaf 464 [105; 780] ULeaf) 465 [79; 780] ULeaf)) 466 [111; 780] (UNode (UNode (UNode ULeaf 467 [85; 780] ULeaf) 468 [117; 780] ULeaf) 469 [85; 776; 772] (UNode ULeaf 470 [117; 776; 772] ULeaf)))) 471 [85; 776; 769] (UNode (UNode (UNode (UNode (UNode ULeaf 472 [117; 776; 769] ULeaf) 473 [85; 776; 780] ULeaf) 474 [117; 776; 780] (UNode (UNode ULeaf 475 [85; 776; 768] ULeaf) 476 [117; 776; 768] ULeaf)) 478 [65; 776; 772] (UNode (UNode (UNode ULeaf 479 [97; 776; 772] ULeaf) 480 [65; 775; 772] ULeaf) 481 [97; 775; 772] (UNode (UNode ULeaf 482 [198; 772] ULeaf) 483 [230; 772] ULeaf))) 486 [71; 780] (UNode (UNode (UNode (UNode ULeaf 487 [103; 780] ULeaf) 488 [75; 780] ULeaf) 489 [107; 780] (UNode (UNode ULeaf 490 [79; 808] ULeaf) 491 [111; 808] ULeaf)) 492 [79; 808; 772] (UNode (UNode (UNode ULeaf 493 [111; 808; 772] ULeaf) 494 [439; 780] ULeaf) 495 [658; 780] (UNode ULeaf 496 [106; 780] ULeaf))))) 497 [68; 90] (UNode (UNode (UNode (UNode (UNode (UNode ULeaf 498 [68; 122] ULeaf) 499 [100; 122] ULeaf) 500 [71; 769] (UNode (UNode ULeaf 501 [103; 769] ULeaf) 504 [78; 768] ULeaf)) 505 [110; 768] (UNode (UNode (UNode ULeaf 506 [65; 778; 769] ULeaf) 507 [97; 778; 769] ULeaf) 508 [198; 769] (UNode (UNode ULeaf 509 [230; 769] ULeaf) 510 [216; 769] ULeaf))) 511 [248; 769] (UNode (UNode (UNode (UNode ULeaf 512 [65; 783] ULeaf) 513 [97; 783] ULeaf) 514 [65; 785] (UNode (UNode ULeaf 515 [97; 785] ULeaf) 516 [69; 783] ULeaf)) 517 [101; 783] (UNode (UNode (UNode ULeaf 518 [69; 785] ULeaf) 519 [101; 785] ULeaf) 520 [73; 783] (UNode ULeaf 521 [105; 783] ULeaf)))) 522 [73; 785] (UNode (UNode (UNode (UNode (UNode ULeaf 523 [105; 785] ULeaf) 524 [79; 783] ULeaf) 525 [111; 783] (UNode (UNode ULeaf 526 [79; 785] ULeaf) 527 [111; 785] ULeaf)) 528 [82; 783] (UNode (UNode (UNode ULeaf 529 [114; 783] ULeaf) 530 [82; 785] ULeaf) 531 [114; 785] (UNode ULeaf 532 [85; 783] ULeaf))) 533 [117; 783] (UNode (UNode (UNode (UNode ULeaf 534 [85; 785] ULeaf) 535 [117; 785] ULeaf) 536 [83; 806] (UNode (UNode ULeaf 537 [115; 806] ULeaf) 538 [84; 806] ULeaf)) 539 [116; 806] (UNode (UNode (UNode ULeaf 542 [72; 780] ULeaf) 543 [104; 780] ULeaf) 550 [65; 775] (UNode ULeaf 551 [97; 775] ULeaf)))))) 552 [69; 807] (UNode (UNode (UNode (UNode (UNode (UNode (UNode ULeaf 553 [101; 807] ULeaf) 554 [79; 776; 772] ULeaf) 555 [111; 776; 772] (UNode (UNode ULeaf 556 [79; 771; 772] ULeaf) 557 [111; 771; 772] ULeaf)) 558 [79; 775] (UNode (UNode (UNode ULeaf 559 [111; 775] ULeaf) 560 [79; 775; 772] ULeaf) 561 [111; 775; 772] (UNode (UNode ULeaf 562 [89; 772] ULeaf) 563 [121; 772] ULeaf))) 688 [104] (UNode (UNode (UNode (UNode ULeaf 689 [614] ULeaf) 690 [106] ULeaf) 691 [114] (UNode (UNode ULeaf 692 [633] ULeaf) 693 [635] ULeaf)) 694 [641] (UNode (UNode (UNode ULeaf 695 [119] ULeaf) 696 [121] ULeaf) 728 [32; 774] (UNode ULeaf 729 [32; 775] ULeaf)))) 730 [32; 778] (UNode (UNode (UNode (UNode (UNode ULeaf 731 [32; 808] ULeaf) 732 [32; 771] ULeaf) 733 [32; 779] (UNode (UNode ULeaf 736 [611] ULeaf) 737 [108] ULeaf)) 738 [115] (UNode (UNode (UNode ULeaf 739 [120] ULeaf) 740 [661] ULeaf) 832 [768] (UNode ULeaf 833 [769] ULeaf))) 835 [787] (UNode (UNode (UNode (UNode ULeaf 836 [776; 769] ULeaf) 884 [697] ULeaf) 890 [32; 837] (UNode (UNode ULeaf 894 [59] ULeaf) 900 [32; 769] ULeaf)) 901 [32; 776; 769] (UNode (UNode (UNode ULeaf 902 [913; 769] ULeaf) 903 [183] ULeaf) 904 [917; 769] (UNode ULeaf 905 [919; 769] ULeaf))))) 906 [921; 769] (UNode (UNode (UNode (UNode (UNode (UNode ULeaf 908 [927; 769] ULeaf) 910 [933; 769] ULeaf) 911 [937; 769] (UNode (UNode ULeaf 912 [953; 776; 769] ULeaf) 938 [921; 776] ULeaf)) 939 [933; 776] (UNode (UNode (UNode ULeaf 940 [945; 769] ULeaf) 941 [949; 769] ULeaf) 942 [951; 769] (UNode (UNode ULeaf 943 [953; 769] ULeaf) 944 [965; 776; 769] ULeaf))) 970 [953; 776] (UNode (UNode (UNode (UNode ULeaf 971 [965; 776] ULeaf) 972 [959; 769] ULeaf) 973 [965; 769] (UNode (UNode ULeaf 974 [969; 769] ULeaf) 976 [946] ULeaf)) 977 [952] (UNode (UNode (UNode ULeaf 978 [933] ULeaf) 979 [933; 769] ULeaf) 980 [933; 776] (UNode ULeaf 981 [966] ULeaf)))) 982 [960] (UNode (UNode (UNode (UNode (UNode ULeaf 1008 [954] ULeaf) 1009 [961] ULeaf) 1010 [962] (UNode (UNode ULeaf 1012 [920] ULeaf) 1013 [949] ULeaf)) 1017 [931] (UNode (UNode (UNode ULeaf 1024 [1045; 768] ULeaf) 1025 [1045; 776] ULeaf) 1027 [1043; 769] (UNode ULeaf 1031 [1030; 776] ULeaf))) 1036 [1050; 769] (UNode (UNode (UNode (UNode ULeaf 1037 [1048; 768] ULeaf) 1038 [1059; 774] ULeaf) 1049 [1048; 774] (UNode (UNode ULeaf 1081 [1080; 774] ULeaf) 1104 [1077; 768] ULeaf)) 1105 [1077; 776] (UNode (UNode (UNode ULeaf 1107 [1075; 769] ULeaf) 1111 [1110; 776] ULeaf) 1116 [1082; 769] (UNode ULeaf 1117 [1080; 768] ULeaf)))))))) 1118 [1091; 774] (UNode (UNode (UNode (UNode (UNode (UNode (UNode (UNode (UNode ULeaf 1142 [1140; 783] ULeaf) 1143 [1141; 783] ULeaf) 1217 [1046; 774] (UNode (UNode ULeaf 1218 [1078; 774] ULeaf) 1232 [1040; 774] ULeaf)) 1233 [1072; 774] (UNode (UNode (UNode ULeaf 1234 [1040; 776] ULeaf) 1235 [1072; 776] ULeaf) 1238 [1045; 774] (UNode (UNode ULeaf 1239 [1077; 774] ULeaf) 1242 [1240; 776] ULeaf))) 1243 [1241; 776] (UNode (UNode (UNode (UNode ULeaf 1244 [1046; 776] ULeaf) 1245 [1078; 776] ULeaf) 1246 [1047; 776] (UNode (UNode ULeaf 1247 [1079; 776] ULeaf) 1250 [1048; 772] ULeaf)) 1251 [1080; 772] (UNode (UNode (UNode ULeaf 1252 [1048; 776] ULeaf) 1253 [1080; 776] ULeaf) 1254 [1054; 776] (UNode ULeaf 1255 [1086; 776] ULeaf)))) 1258 [1256; 776] (UNode (UNode (UNode (UNode (UNode ULeaf 1259 [1257; 776] ULeaf) 1260 [1069; 776] ULeaf) 1261 [1101; 776] (UNode (UNode ULeaf 1262 [1059; 772] ULeaf) 1263 [1091; 772] ULeaf)) 1264 [1059; 776] (UNode (UNode (UNode ULeaf 1265 [1091; 776] ULeaf) 1266 [1059; 779] ULeaf) 1267 [1091; 779] (UNode (UNode ULeaf 1268 [1063; 776] ULeaf) 1269 [1095; 776] ULeaf))) 1272 [1067; 776] (UNode (UNode (UNode (UNode ULeaf 1273 [1099; 776] ULeaf) 1415 [1381; 1410] ULeaf) 1570 [1575; 1619] (UNode (UNode ULeaf 1571 [1575; 1620] ULeaf) 1572 [1608; 1620] ULeaf)) 1573 [1575; 1621] (UNode (UNode (UNode ULeaf 1574 [1610; 1620] ULeaf) 1653 [1575; 1652] ULeaf) 1654 [1608; 1652] (UNode ULeaf 1655 [1735; 1652] ULeaf))))) 1656 [1610; 1652] (UNode (UNode (UNode (UNode (UNode (UNode ULeaf 1728 [1749; 1620] ULeaf) 1730 [1729; 1620] ULeaf) 1747 [1746; 1620] (UNode (UNode ULeaf 2345 [2344; 2364] ULeaf) 2353 [2352; 2364] ULeaf)) 2356 [2355; 2364] (UNode (UNode (UNode ULeaf 2392 [2325; 2364] ULeaf) 2393 [2326; 2364] ULeaf) 2394 [2327; 2364] (UNode (UNode ULeaf 2395 [2332; 2364] ULeaf) 2396 [2337; 2364] ULeaf))) 2397 [2338; 2364] (UNode (UNode (UNode (UNode ULeaf 2398 [2347; 2364] ULeaf) 2399 [2351; 2364] ULeaf) 2507 [2503; 2494] (UNode (UNode ULeaf 2508 [2503; 2519] ULeaf) 2524 [2465; 2492] ULeaf)) 2525 [2466; 2492] (UNode (UNode (UNode ULeaf 2527 [2479; 2492] ULeaf) 2611 [2610; 2620] ULeaf) 2614 [2616; 2620] (UNode ULeaf 2649 [2582; 2620] ULeaf)))) 2650 [2583; 2620] (UNode (UNode (UNode (UNode (UNode ULeaf 2651 [2588; 2620] ULeaf) 2654 [2603; 2620] ULeaf) 2888 [2887; 2902] (UNode (UNode ULeaf 2891 [2887; 2878] ULeaf) 2892 [2887; 2903] ULeaf)) 2908 [2849; 2876] (UNode (UNode (UNode ULeaf 2909 [2850; 2876] ULeaf) 2964 [2962; 3031] ULeaf) 3018 [3014; 3006] (UNode ULeaf 3019 [3015; 3006] ULeaf))) 3020 [3014; 3031] (UNode (UNode (UNode (UNode ULeaf 3144 [3142; 3158] ULeaf) 3264 [3263; 3285] ULeaf) 3271 [3270; 3285] (UNode (UNode ULeaf 3272 [3270; 3286] ULeaf) 3274 [3270; 3266] ULeaf)) 3275 [3270; 3266; 3285] (UNode (UNode (UNode ULeaf 3402 [3398; 3390] ULeaf) 3403 [3399; 3390] ULeaf) 3404 [3398; 3415] (UNode ULeaf 3546 [3545; 3530] ULeaf)))))) 3548 [3545; 3535] (UNode (UNode (UNode (UNode (UNode (UNode (UNode ULeaf 3549 [3545; 3535; 3530] ULeaf) 3550 [3545; 3551] ULeaf) 3635 [3661; 3634] (UNode (UNode ULeaf 3763 [3789; 3762] ULeaf) 3804 [3755; 3737] ULeaf)) 3805 [3755; 3745] (UNode (UNode (UNode ULeaf 3852 [3851] ULeaf) 3907 [3906; 4023] ULeaf) 3917 [3916; 4023] (UNode (UNode ULeaf 3922 [3921; 4023] ULeaf) 3927 [3926; 4023] ULeaf))) 3932 [3931; 4023] (UNode (UNode (UNode (UNode ULeaf 3945 [3904; 4021] ULeaf) 3955 [3953; 3954] ULeaf) 3957 [3953; 3956] (UNode (UNode ULeaf 3958 [4018; 3968] ULeaf) 3959 [4018; 3953; 3968] ULeaf)) 3960 [4019; 3968] (UNode (UNode (UNode ULeaf 3961 [4019; 3953; 3968] ULeaf) 3969 [3953; 3968] ULeaf) 3987 [3986; 4023] (UNode ULeaf 3997 [3996; 4023] ULeaf)))) 4002 [4001; 4023] (UNode (UNode (UNode (UNode (UNode ULeaf 4007 [4006; 4023] ULeaf) 4012 [4011; 4023] ULeaf) 4025 [3984; 4021] (UNode (UNode ULeaf 4134 [4133; 4142] ULeaf) 4348 [4316] ULeaf)) 6918 [6917; 6965] (UNode (UNode (UNode ULeaf 6920 [6919; 6965] ULeaf) 6922 [6921; 6965] ULeaf) 6924 [6923; 6965] (UNode ULeaf 6926 [6925; 6965] ULeaf))) 6930 [6929; 6965] (UNode (UNode (UNode (UNode ULeaf 6971 [6970; 6965] ULeaf) 6973 [6972; 6965] ULeaf) 6976 [6974; 6965] (UNode (UNode ULeaf 6977 [6975; 6965] ULeaf) 6979 [6978; 6965] ULeaf)) 7468 [65] (UNode (UNode (UNode ULeaf 7469 [198] ULeaf) 7470 [66] ULeaf) 7472 [68] (UNode ULeaf 7473 [69] ULeaf))))) 7474 [398] (UNode (UNode (UNode (UNode (UNode (UNode ULeaf 7475 [71] ULeaf) 7476 [72] ULeaf) 7477 [73] (UNode (UNode ULeaf 7478 [74] ULeaf) 7479 [75] ULeaf)) 7480 [76] (UNode (UNode (UNode ULeaf 7481 [77] ULeaf) 7482 [78] ULeaf) 7484 [79] (UNode (UNode ULeaf 7485 [546] ULeaf) 7486 [80] ULeaf))) 7487 [82] (UNode (UNode (UNode (UNode ULeaf 7488 [84] ULeaf) 7489 [85] ULeaf) 7490 [87] (UNode (UNode ULeaf 7491 [97] ULeaf) 7492 [592] ULeaf)) 7493 [593] (UNode (UNode (UNode ULeaf 7494 [7426] ULeaf) 7495 [98] ULeaf) 7496 [100] (UNode ULeaf 7497 [101] ULeaf)))) 7498 [601] (UNode (UNode (UNode (UNode (UNode ULeaf 7499 [603] ULeaf) 7500 [604] ULeaf) 7501 [103] (UNode (UNode ULeaf 7503 [107] ULeaf) 7504 [109] ULeaf)) 7505 [331] (UNode (UNode (UNode ULeaf 7506 [111] ULeaf) 7507 [596] ULeaf) 7508 [7446] (UNode ULeaf 7509 [7447] ULeaf))) 7510 [112] (UNode (UNode (UNode (UNode ULeaf 7511 [116] ULeaf) 7512 [117] ULeaf) 7513 [7453] (UNode (UNode ULeaf 7514 [623] ULeaf) 7515 [118] ULeaf)) 7516 [7461] (UNode (UNode (UNode ULeaf 7517 [946] ULeaf) 7518 [947] ULeaf) 7519 [948] (UNode ULeaf 7520 [966] ULeaf))))))) 7521 [967] (UNode (UNode (UNode (UNode (UNode (UNode (UNode (UNode ULeaf 7522 [105] ULeaf) 7523 [114] ULeaf) 7524 [117] (UNode (UNode ULeaf 7525 [118] ULeaf) 7526 [946] ULeaf)) 7527 [947] (UNode (UNode (UNode ULeaf 7528 [961] ULeaf) 7529 [966] ULeaf) 7530 [967] (UNode (UNode ULeaf 7544 [1085] ULeaf) 7579 [594] ULeaf))) 7580 [99] (UNode (UNode (UNode (UNode ULeaf 7581 [597] ULeaf) 7582 [240] ULeaf) 7583 [604] (UNode (UNode ULeaf 7584 [102] ULeaf) 7585 [607] ULeaf)) 7586 [609] (UNode (UNode (UNode ULeaf 7587 [613] ULeaf) 7588 [616] ULeaf) 7589 [617] (UNode ULeaf 7590 [618] ULeaf)))) 7591 [7547] (UNode (UNode (UNode (UNode (UNode ULeaf 7592 [669] ULeaf) 7593 [621] ULeaf) 7594 [7557] (UNode (UNode ULeaf 7595 [671] ULeaf) 7596 [625] ULeaf)) 7597 [624] (UNode (UNode (UNode ULeaf 7598 [626] ULeaf) 7599 [627] ULeaf) 7600 [628] (UNode (UNode ULeaf 7601 [629] ULeaf) 7602 [632] ULeaf))) 7603 [642] (UNode (UNode (UNode (UNode ULeaf 7604 [643] ULeaf) 7605 [427] ULeaf) 7606 [649] (UNode (UNode ULeaf 7607 [650] ULeaf) 7608 [7452] ULeaf)) 7609 [651] (UNode (UNode (UNode ULeaf 7610 [652] ULeaf) 7611 [122] ULeaf) 7612 [656] (UNode ULeaf 7613 [657] ULeaf))))) 7614 [658] (UNode (UNode (UNode (UNode (UNode (UNode ULeaf 7615 [952] ULeaf) 7680 [65; 805] ULeaf) 7681 [97; 805] (UNode (UNode ULeaf 7682 [66; 775] ULeaf) 7683 [98; 775] ULeaf)) 7684 [66; 803] (UNode (UNode (UNode ULeaf 7685 [98; 803] ULeaf) 7686 [66; 817] ULeaf) 7687 [98; 817] (UNode (UNode ULeaf 7688 [67; 807; 769] ULeaf) 7689 [99; 807; 769] ULeaf))) 7690 [68; 775] (UNode (UNode (UNode (UNode ULeaf 7691 [100; 775] ULeaf) 7692 [68; 803] ULeaf) 7693 [100; 803] (UNode (UNode ULeaf 7694 [68; 817] ULeaf) 7695 [100; 817] ULeaf)) 7696 [68; 807] (UNode (UNode (UNode ULeaf 7697 [100; 807] ULeaf) 7698 [68; 813] ULeaf) 7699 [100; 813] (UNode ULeaf 7700 [69; 772; 768] ULeaf)))) 7701 [101; 772; 768] (UNode (UNode (UNode (UNode (UNode ULeaf 7702 [69; 772; 769] ULeaf) 7703 [101; 772; 769] ULeaf) 7704 [69; 813] (UNode (UNode ULeaf 7705 [101; 813] ULeaf) 7706 [69; 816] ULeaf)) 7707 [101; 816] (UNode (UNode (UNode ULeaf 7708 [69; 807; 774] ULeaf) 7709 [101; 807; 774] ULeaf) 7710 [70; 775] (UNode ULeaf 7711 [102; 775] ULeaf))) 7712 [71; 772] (UNode (UNode (UNode (UNode ULeaf 7713 [103; 772] ULeaf) 7714 [72; 775] ULeaf) 7715 [104; 775] (UNode (UNode ULeaf 7716 [72; 803] ULeaf) 7717 [104; 803] ULeaf)) 7718 [72; 776] (UNode (UNode (UNode ULeaf 7719 [104; 776] ULeaf) 7720 [72; 807] ULeaf) 7721 [104; 807] (UNode ULeaf 7722 [72; 814] ULeaf)))))) 7723 [104; 814] (UNode (UNode (UNode (UNode (UNode (UNode (UNode ULeaf 7724 [73; 816] ULeaf) 7725 [105; 816] ULeaf) 7726 [73; 776; 769] (UNode (UNode ULeaf 7727 [105; 776; 769] ULeaf) 7728 [75; 769] ULeaf)) 7729 [107; 769] (UNode (UNode (UNode ULeaf 7730 [75; 803] ULeaf) 7731 [107; 803] ULeaf) 7732 [75; 817] (UNode (UNode ULeaf 7733 [107; 817] ULeaf) 7734 [76; 803] ULeaf))) 7735 [108; 803] (UNode (UNode (UNode (UNode ULeaf 7736 [76; 803; 772] ULeaf) 7737 [108; 803; 772] ULeaf) 7738 [76; 817] (UNode (UNode ULeaf 7739 [108; 817] ULeaf) 7740 [76; 813] ULeaf)) 7741 [108; 813] (UNode (UNode (UNode ULeaf 7742 [77; 769] ULeaf) 7743 [109; 769] ULeaf) 7744 [77; 775] (UNode ULeaf 7745 [109; 775] ULeaf)))) 7746 [77; 803] (UNode (UNode (UNode (UNode (UNode ULeaf 7747 [109; 803] ULeaf) 7748 [78; 775] ULeaf) 7749 [110; 775] (UNode (UNode ULeaf 7750 [78; 803] ULeaf) 7751 [110; 803] ULeaf)) 7752 [78; 817] (UNode (UNode (UNode ULeaf 7753 [110; 817] ULeaf) 7754 [78; 813] ULeaf) 7755 [110; 813] (UNode ULeaf 7756 [79; 771; 769] ULeaf))) 7757 [111; 771; 769] (UNode (UNode (UNode (UNode ULeaf 7758 [79; 771; 776] ULeaf) 7759 [111; 771; 776] ULeaf) 7760 [79; 772; 768] (UNode (UNode ULeaf 7761 [111; 772; 768] ULeaf) 7762 [79; 772; 769] ULeaf)) 7763 [111; 772; 769] (UNode (UNode (UNode ULeaf 7764 [80; 769] ULeaf) 7765 [112; 769] ULeaf) 7766 [80; 775] (UNode ULeaf 7767 [112; 775] ULeaf))))) 7768 [82; 775] (UNode (UNode (UNode (UNode (UNode (UNode ULeaf 7769 [114; 775] ULeaf) 7770 [82; 803] ULeaf) 7771 [114; 803] (UNode (UNode ULeaf 7772 [82; 803; 772] ULeaf) 7773 [114; 803; 772] ULeaf)) 7774 [82; 817] (UNode (UNode (UNode ULeaf 7775 [114; 817] ULeaf) 7776 [83; 775] ULeaf) 7777 [115; 775] (UNode (UNode ULeaf 7778 [83; 803] ULeaf) 7779 [115; 803] ULeaf))) 7780 [83; 769; 775] (UNode (UNode (UNode (UNode ULeaf 7781 [115; 769; 775] ULeaf) 7782 [83; 780; 775] ULeaf) 7783 [115; 780; 775] (UNode (UNode ULeaf 7784 [83; 803; 775] ULeaf) 7785 [115; 803; 775] ULeaf)) 7786 [84; 775] (UNode (UNode (UNode ULeaf 7787 [116; 775] ULeaf) 7788 [84; 803] ULeaf) 7789 [116; 803] (UNode ULeaf 7790 [84; 817] ULeaf)))) 7791 [116; 817] (UNode (UNode (UNode (UNode (UNode ULeaf 7792 [84; 813] ULeaf) 7793 [116; 813] ULeaf) 7794 [85; 804] (UNode (UNode ULeaf 7795 [117; 804] ULeaf) 7796 [85; 816] ULeaf)) 7797 [117; 816] (UNode (UNode (UNode ULeaf 7798 [85; 813] ULeaf) 7799 [117; 813] ULeaf) 7800 [85; 771; 769] (UNode ULeaf 7801 [117; 771; 769] ULeaf))) 7802 [85; 772; 776] (UNode (UNode (UNode (UNode ULeaf 7803 [117; 772; 776] ULeaf) 7804 [86; 771] ULeaf) 7805 [118; 771] (UNode (UNode ULeaf 7806 [86; 803] ULeaf) 7807 [118; 803] ULeaf)) 7808 [87; 768] (UNode (UNode (UNode ULeaf 7809 [119; 768] ULeaf) 7810 [87; 769] ULeaf) 7811 [119; 769] (UNode ULeaf 7812 [87; 776] ULeaf))))))))) 7813 [119; 776] (UNode (UNode (UNode (UNode (UNode (UNode (UNode (UNode (UNode (UNode ULeaf 7814 [87; 775] ULeaf) 7815 [119; 775] ULeaf) 7816 [87; 803] (UNode (UNode ULeaf 7817 [119; 803] ULeaf) 7818 [88; 775] ULeaf)) 7819 [120; 775] (UNode (UNode (UNode ULeaf 7820 [88; 776] ULeaf) 7821 [120; 776] ULeaf) 7822 [89; 775] (UNode (UNode ULeaf 7823 [121; 775] ULeaf) 7824 [90; 770] ULeaf))) 7825 [122; 770] (UNode (UNode (UNode (UNode ULeaf 7826 [90; 803] ULeaf) 7827 [122; 803] ULeaf) 7828 [90; 817] (UNode (UNode ULeaf 7829 [122; 817] ULeaf) 7830 [104; 817] ULeaf)) 7831 [116; 776] (UNode (UNode (UNode ULeaf 7832 [119; 778] ULeaf) 7833 [121; 778] ULeaf) 7834 [97; 702] (UNode ULeaf 7835 [115; 775] ULeaf)))) 7840 [65; 803] (UNode (UNode (UNode (UNode (UNode ULeaf 7841 [97; 803] ULeaf) 7842 [65; 777] ULeaf) 7843 [97; 777] (UNode (UNode ULeaf 7844 [65; 770; 769] ULeaf) 7845 [97; 770; 769] ULeaf)) 7846 [65; 770; 768] (UNode (UNode (UNode ULeaf 7847 [97; 770; 768] ULeaf) 7848 [65; 770; 777] ULeaf) 7849 [97; 770; 777] (UNode (UNode ULeaf 7850 [65; 770; 771] ULeaf) 7851 [97; 770; 771] ULeaf))) 7852 [65; 803; 770] (UNode (UNode (UNode (UNode ULeaf 7853 [97; 803; 770] ULeaf) 7854 [65; 774; 769] ULeaf) 7855 [97; 774; 769] (UNode (UNode ULeaf 7856 [65; 774; 768] ULeaf) 7857 [97; 774; 768] ULeaf)) 7858 [65; 774; 777] (UNode (UNode (UNode ULeaf 7859 [97; 774; 777] ULeaf) 7860 [65; 774; 771] ULeaf) 7861 [97; 774; 771] (UNode ULeaf 7862 [65; 803; 774] ULeaf))))) 7863 [97; 803; 774] (UNode (UNode (UNode (UNode (UNode (UNode ULeaf 7864 [69; 803] ULeaf) 7865 [101; 803] ULeaf) 7866 [69; 777] (UNode (UNode ULeaf 7867 [101; 777] ULeaf) 7868 [69; 771] ULeaf)) 7869 [101; 771] (UNode (UNode (UNode ULeaf 7870 [69; 770; 769] ULeaf) 7871 [101; 770; 769] ULeaf) 7872 [69; 770; 768] (UNode (UNode ULeaf 7873 [101; 770; 768] ULeaf) 7874 [69; 770; 777] ULeaf))) 7875 [101; 770; 777] (UNode (UNode (UNode (UNode ULeaf 7876 [69; 770; 771] ULeaf) 7877 [101; 770; 771] ULeaf) 7878 [69; 803; 770] (UNode (UNode ULeaf 7879 [101; 803; 770] ULeaf) 7880 [73; 777] ULeaf)) 7881 [105; 777] (UNode (UNode (UNode ULeaf 7882 [73; 803] ULeaf) 7883 [105; 803] ULeaf) 7884 [79; 803] (UNode ULeaf 7885 [111; 803] ULeaf)))) 7886 [79; 777] (UNode (UNode (UNode (UNode (UNode ULeaf 7887 [111; 777] ULeaf) 7888 [79; 770; 769] ULeaf) 7889 [111; 770; 769] (UNode (UNode ULeaf 7890 [79; 770; 768] ULeaf) 7891 [111; 770; 768] ULeaf)) 7892 [79; 770; 777] (UNode (UNode (UNode ULeaf 7893 [111; 770; 777] ULeaf) 7894 [79; 770; 771] ULeaf) 7895 [111; 770; 771] (UNode ULeaf 7896 [79; 803; 770] ULeaf))) 7897 [111; 803; 770] (UNode (UNode (UNode (UNode ULeaf 7898 [79; 795; 769] ULeaf) 7899 [111; 795; 769] ULeaf) 7900 [79; 795; 768] (UNode (UNode ULeaf 7901 [111; 795; 768] ULeaf) 7902 [79; 795; 777] ULeaf)) 7903 [111; 795; 777] (UNode (UNode (UNode ULeaf 7904 [79; 795; 771] ULeaf) 7905 [111; 795; 771] ULeaf) 7906 [79; 795; 803] (UNode ULeaf 7907 [111; 795; 803] ULeaf)))))) 7908 [85; 803] (UNode (UNode (UNode (UNode (UNode (UNode (UNode ULeaf 7909 [117; 803] ULeaf) 7910 [85; 777] ULeaf) 7911 [117; 777] (UNode (UNode ULeaf 7912 [85; 795; 769] ULeaf) 7913 [117; 795; 769] ULeaf)) 7914 [85; 795; 768] (UNode (UNode (UNode ULeaf 7915 [117; 795; 768] ULeaf) 7916 [85; 795; 777] ULeaf) 7917 [117; 795; 777] (UNode (UNode ULeaf 7918 [85; 795; 771] ULeaf) 7919 [117; 795; 771] ULeaf))) 7920 [85; 795; 803] (UNode (UNode (UNode (UNode ULeaf 7921 [117; 795; 803] ULeaf) 7922 [89; 768] ULeaf) 7923 [121; 768] (UNode (UNode ULeaf 7924 [89; 803] ULeaf) 7925 [121; 803] ULeaf)) 7926 [89; 777] (UNode (UNode (UNode ULeaf 7927 [121; 777] ULeaf) 7928 [89; 771] ULeaf) 7929 [121; 771] (UNode ULeaf 7936 [945; 787] ULeaf)))) 7937 [945; 788] (UNode (UNode (UNode (UNode (UNode ULeaf 7938 [945; 787; 768] ULeaf) 7939 [945; 788; 768] ULeaf) 7940 [945; 787; 769] (UNode (UNode ULeaf 7941 [945; 788; 769] ULeaf) 7942 [945; 787; 834] ULeaf)) 7943 [945; 788; 834] (UNode (UNode (UNode ULeaf 7944 [913; 787] ULeaf) 7945 [913; 788] ULeaf) 7946 [913; 787; 768] (UNode ULeaf 7947 [913; 788; 768] ULeaf))) 7948 [913; 787; 769] (UNode (UNode (UNode (UNode ULeaf 7949 [913; 788; 769] ULeaf) 7950 [913; 787; 834] ULeaf) 7951 [913; 788; 834] (UNode (UNode ULeaf 7952 [949; 787] ULeaf) 7953 [949; 788] ULeaf)) 7954 [949; 787; 768] (UNode (UNode (UNode ULeaf 7955 [949; 788; 768] ULeaf) 7956 [949; 787; 769] ULeaf) 7957 [949; 788; 769] (UNode ULeaf 7960 [917; 787] ULeaf))))) 7961 [917; 788] (UNode (UNode (UNode (UNode (UNode (UNode ULeaf 7962 [917; 787; 768] ULeaf) 7963 [917; 788; 768] ULeaf) 7964 [917; 787; 769] (UNode (UNode ULeaf 7965 [917; 788; 769] ULeaf) 7968 [951; 787] ULeaf)) 7969 [951; 788] (UNode (UNode (UNode ULeaf 7970 [951; 787; 768] ULeaf) 7971 [951; 788; 768] ULeaf) 7972 [951; 787; 769] (UNode (UNode ULeaf 7973 [951; 788; 769] ULeaf) 7974 [951; 787; 834] ULeaf))) 7975 [951; 788; 834] (UNode (UNode (UNode (UNode ULeaf 7976 [919; 787] ULeaf) 7977 [919; 788] ULeaf) 7978 [919; 787; 768] (UNode (UNode ULeaf 7979 [919; 788; 768] ULeaf) 7980 [919; 787; 769] ULeaf)) 7981 [919; 788; 769] (UNode (UNode (UNode ULeaf 7982 [919; 787; 834] ULeaf) 7983 [919; 788; 834] ULeaf) 7984 [953; 787] (UNode ULeaf 7985 [953; 788] ULeaf)))) 7986 [953; 787; 768] (UNode (UNode (UNode (UNode (UNode ULeaf 7987 [953; 788; 768] ULeaf) 7988 [953; 787; 769] ULeaf) 7989 [953; 788; 769] (UNode (UNode ULeaf 7990 [953; 787; 834] ULeaf) 7991 [953; 788; 834] ULeaf)) 7992 [921; 787] (UNode (UNode (UNode ULeaf 7993 [921; 788] ULeaf) 7994 [921; 787; 768] ULeaf) 7995 [921; 788; 768] (UNode ULeaf 7996 [921; 787; 769] ULeaf))) 7997 [921; 788; 769] (UNode (UNode (UNode (UNode ULeaf 7998 [921; 787; 834] ULeaf) 7999 [921; 788; 834] ULeaf) 8000 [959; 787] (UNode (UNode ULeaf 8001 [959; 788] ULeaf) 8002 [959; 787; 768] ULeaf)) 8003 [959; 788; 768] (UNode (UNode (UNode ULeaf 8004 [959; 787; 769] ULeaf) 8005 [959; 788; 769] ULeaf) 8008 [927; 787] (UNode ULeaf 8009 [927; 788] ULeaf))))))) 8010 [927; 787; 768] (UNode (UNode (UNode (UNode (UNode (UNode (UNode (UNode ULeaf 8011 [927; 788; 768] ULeaf) 8012 [927; 787; 769] ULeaf) 8013 [927; 788; 769] (UNode (UNode ULeaf 8016 [965; 787] ULeaf) 8017 [965; 788] ULeaf)) 8018 [965; 787; 768] (UNode (UNode (UNode ULeaf 8019 [965; 788; 768] ULeaf) 8020 [965; 787; 769] ULeaf) 8021 [965; 788; 769] (UNode (UNode ULeaf 8022 [965; 787; 834] ULeaf) 8023 [965; 788; 834] ULeaf))) 8025 [933; 788] (UNode (UNode (UNode (UNode ULeaf 8027 [933; 788; 768] ULeaf) 8029 [933; 788; 769] ULeaf) 8031 [933; 788; 834] (UNode (UNode ULeaf 8032 [969; 787] ULeaf) 8033 [969; 788] ULeaf)) 8034 [969; 787; 768] (UNode (UNode (UNode ULeaf 8035 [969; 788; 768] ULeaf) 8036 [969; 787; 769] ULeaf) 8037 [969; 788; 769] (UNode ULeaf 8038 [969; 787; 834] ULeaf)))) 8039 [969; 788; 834] (UNode (UNode (UNode (UNode (UNode ULeaf 8040 [937; 787] ULeaf) 8041 [937; 788] ULeaf) 8042 [937; 787; 768] (UNode (UNode ULeaf 8043 [937; 788; 768] ULeaf) 8044 [937; 787; 769] ULeaf)) 8045 [937; 788; 769] (UNode (UNode (UNode ULeaf 8046 [937; 787; 834] ULeaf) 8047 [937; 788; 834] ULeaf) 8048 [945; 768] (UNode (UNode ULeaf 8049 [945; 769] ULeaf) 8050 [949; 768] ULeaf))) 8051 [949; 769] (UNode (UNode (UNode (UNode ULeaf 8052 [951; 768] ULeaf) 8053 [951; 769] ULeaf) 8054 [953; 768] (UNode (UNode ULeaf 8055 [953; 769] ULeaf) 8056 [959; 768] ULeaf)) 8057 [959; 769] (UNode (UNode (UNode ULeaf 8058 [965; 768] ULeaf) 8059 [965; 769] ULeaf) 8060 [969; 768] (UNode ULeaf 8061 [969; 769] ULeaf))))) 8064 [945; 787; 837] (UNode (UNode (UNode (UNode (UNode (UNode ULeaf 8065 [945; 788; 837] ULeaf) 8066 [945; 787; 768; 837] ULeaf) 8067 [945; 788; 768; 837] (UNode (UNode ULeaf 8068 [945; 787; 769; 837] ULeaf) 8069 [945; 788; 769; 837] ULeaf)) 8070 [945; 787; 834; 837] (UNode (UNode (UNode ULeaf 8071 [945; 788; 834; 837] ULeaf) 8072 [913; 787; 837] ULeaf) 8073 [913; 788; 837] (UNode (UNode ULeaf 8074 [913; 787; 768; 837] ULeaf) 8075 [913; 788; 768; 837] ULeaf))) 8076 [913; 787; 769; 837] (UNode (UNode (UNode (UNode ULeaf 8077 [913; 788; 769; 837] ULeaf) 8078 [913; 787; 834; 837] ULeaf) 8079 [913; 788; 834; 837] (UNode (UNode ULeaf 8080 [951; 787; 837] ULeaf) 8081 [951; 788; 837] ULeaf)) 8082 [951; 787; 768; 837] (UNode (UNode (UNode ULeaf 8083 [951; 788; 768; 837] ULeaf) 8084 [951; 787; 769; 837] ULeaf) 8085 [951; 788; 769; 837] (UNode ULeaf 8086 [951; 787; 834; 837] ULeaf)))) 8087 [951; 788; 834; 837] (UNode (UNode (UNode (UNode (UNode ULeaf 8088 [919; 787; 837] ULeaf) 8089 [919; 788; 837] ULeaf) 8090 [919; 787; 768; 837] (UNode (UNode ULeaf 8091 [919; 788; 768; 837] ULeaf) 8092 [919; 787; 769; 837] ULeaf)) 8093 [919; 788; 769; 837] (UNode (UNode (UNode ULeaf 8094 [919; 787; 834; 837] ULeaf) 8095 [919; 788; 834; 837] ULeaf) 8096 [969; 787; 837] (UNode ULeaf 8097 [969; 788; 837] ULeaf))) 8098 [969; 787; 768; 837] (UNode (UNode (UNode (UNode ULeaf 8099 [969; 788; 768; 837] ULeaf) 8100 [969; 787; 769; 837] ULeaf) 8101 [969; 788; 769; 837] (UNode (UNode ULeaf 8102 [969; 787; 834; 837] ULeaf) 8103 [969; 788; 834; 837] ULeaf)) 8104 [937; 787; 837] (UNode (UNode (UNode ULeaf 8105 [937; 788; 837] ULeaf) 8106 [937; 787; 768; 837] ULeaf) 8107 [937; 788; 768; 837] (UNode ULeaf 8108 [937; 787; 769; 837] ULeaf)))))) 8109 [937; 788; 769; 837] (UNode (UNode (UNode (UNode (UNode (UNode (UNode ULeaf 8110 [937; 787; 834; 837] ULeaf) 8111 [937; 788; 834; 837] ULeaf) 8112 [945; 774] (UNode (UNode ULeaf 8113 [945; 772] ULeaf) 8114 [945; 768; 837] ULeaf)) 8115 [945; 837] (UNode (UNode (UNode ULeaf 8116 [945; 769; 837] ULeaf) 8118 [945; 834] ULeaf) 8119 [945; 834; 837] (UNode (UNode ULeaf 8120 [913; 774] ULeaf) 8121 [913; 772] ULeaf))) 8122 [913; 768] (UNode (UNode (UNode (UNode ULeaf 8123 [913; 769] ULeaf) 8124 [913; 837] ULeaf) 8125 [32; 787] (UNode (UNode ULeaf 8126 [953] ULeaf) 8127 [32; 787] ULeaf)) 8128 [32; 834] (UNode (UNode (UNode ULeaf 8129 [32; 776; 834] ULeaf) 8130 [951; 768; 837] ULeaf) 8131 [951; 837] (UNode ULeaf 8132 [951; 769; 837] ULeaf)))) 8134 [951; 834] (UNode (UNode (UNode (UNode (UNode ULeaf 8135 [951; 834; 837] ULeaf) 8136 [917; 768] ULeaf) 8137 [917; 769] (UNode (UNode ULeaf 8138 [919; 768] ULeaf) 8139 [919; 769] ULeaf)) 8140 [919; 837] (UNode (UNode (UNode ULeaf 8141 [32; 787; 768] ULeaf) 8142 [32; 787; 769] ULeaf) 8143 [32; 787; 834] (UNode ULeaf 8144 [953; 774] ULeaf))) 8145 [953; 772] (UNode (UNode (UNode (UNode ULeaf 8146 [953; 776; 768] ULeaf) 8147 [953; 776; 769] ULeaf) 8150 [953; 834] (UNode (UNode ULeaf 8151 [953; 776; 834] ULeaf) 8152 [921; 774] ULeaf)) 8153 [921; 772] (UNode (UNode (UNode ULeaf 8154 [921; 768] ULeaf) 8155 [921; 769] ULeaf) 8157 [32; 788; 768] (UNode ULeaf 8158 [32; 788; 769] ULeaf))))) 8159 [32; 788; 834] (UNode (UNode (UNode (UNode (UNode (UNode ULeaf 8160 [965; 774] ULeaf) 8161 [965; 772] ULeaf) 8162 [965; 776; 768] (UNode (UNode ULeaf 8163 [965; 776; 769] ULeaf) 8164 [961; 787] ULeaf)) 8165 [961; 788] (UNode (UNode (UNode ULeaf 8166 [965; 834] ULeaf) 8167 [965; 776; 834] ULeaf) 8168 [933; 774] (UNode (UNode ULeaf 8169 [933; 772] ULeaf) 8170 [933; 768] ULeaf))) 8171 [933; 769] (UNode (UNode (UNode (UNode ULeaf 8172 [929; 788] ULeaf) 8173 [32; 776; 768] ULeaf) 8174 [32; 776; 769] (UNode (UNode ULeaf 8175 [96] ULeaf) 8178 [969; 768; 837] ULeaf)) 8179 [969; 837] (UNode (UNode (UNode ULeaf 8180 [969; 769; 837] ULeaf) 8182 [969; 834] ULeaf) 8183 [969; 834; 837] (UNode ULeaf 8184 [927; 768] ULeaf)))) 8185 [927; 769] (UNode (UNode (UNode (UNode (UNode ULeaf 8186 [937; 768] ULeaf) 8187 [937; 769] ULeaf) 8188 [937; 837] (UNode (UNode ULeaf 8189 [32; 769] ULeaf) 8190 [32; 788] ULeaf)) 8192 [32] (UNode (UNode (UNode ULeaf 8193 [32] ULeaf) 8194 [32] ULeaf) 8195 [32] (UNode ULeaf 8196 [32] ULeaf))) 8197 [32] (UNode (UNode (UNode (UNode ULeaf 8198 [32] ULeaf) 8199 [32] ULeaf) 8200 [32] (UNode (UNode ULeaf 8201 [32] ULeaf) 8202 [32] ULeaf)) 8209 [8208] (UNode (UNode (UNode ULeaf 8215 [32; 819] ULeaf) 8228 [46] ULeaf) 8229 [46; 46] (UNode ULeaf 8230 [46; 46; 46] ULeaf)))))))) 8239 [32] (UNode (UNode (UNode (UNode (UNode (UNode (UNode (UNode (UNode ULeaf 8243 [8242; 8242] ULeaf) 8244 [8242; 8242; 8242] ULeaf) 8246 [8245; 8245] (UNode (UNode ULeaf 8247 [8245; 8245; 8245] ULeaf) 8252 [33; 33] ULeaf)) 8254 [32; 773] (UNode (UNode (UNode ULeaf 8263 [63; 63] ULeaf) 8264 [63; 33] ULeaf) 8265 [33; 63] (UNode (UNode ULeaf 8279 [8242; 8242; 8242; 8242] ULeaf) 8287 [32] ULeaf))) 8304 [48] (UNode (UNode (UNode (UNode ULeaf 8305 [105] ULeaf) 8308 [52] ULeaf) 8309 [53] (UNode (UNode ULeaf 8310 [54] ULeaf) 8311 [55] ULeaf)) 8312 [56] (UNode (UNode (UNode ULeaf 8313 [57] ULeaf) 8314 [43] ULeaf) 8315 [8722] (UNode ULeaf 8316 [61] ULeaf)))) 8317 [40] (UNode (UNode (UNode (UNode (UNode ULeaf 8318 [41] ULeaf) 8319 [110] ULeaf) 8320 [48] (UNode (UNode ULeaf 8321 [49] ULeaf) 8322 [50] ULeaf)) 8323 [51] (UNode (UNode (UNode ULeaf 8324 [52] ULeaf) 8325 [53] ULeaf) 8326 [54] (UNode (UNode ULeaf 8327 [55] ULeaf) 8328 [56] ULeaf))) 8329 [57] (UNode (UNode (UNode (UNode ULeaf 8330 [43] ULeaf) 8331 [8722] ULeaf) 8332 [61] (UNode (UNode ULeaf 8333 [40] ULeaf) 8334 [41] ULeaf)) 8336 [97] (UNode (UNode (UNode ULeaf 8337 [101] ULeaf) 8338 [111] ULeaf) 8339 [120] (UNode ULeaf 8340 [601] ULeaf))))) 8341 [104] (UNode (UNode (UNode (UNode (UNode (UNode ULeaf 8342 [107] ULeaf) 8343 [108] ULeaf) 8344 [109] (UNode (UNode ULeaf 8345 [110] ULeaf) 8346 [112] ULeaf)) 8347 [115] (UNode (UNode (UNode ULeaf 8348 [116] ULeaf) 8360 [82; 115] ULeaf) 8448 [97; 47; 99] (UNode (UNode ULeaf 8449 [97; 47; 115] ULeaf) 8450 [67] ULeaf))) 8451 [176; 67] (UNode (UNode (UNode (UNode ULeaf 8453 [99; 47; 111] ULeaf) 8454 [99; 47; 117] ULeaf) 8455 [400] (UNode (UNode ULeaf 8457 [176; 70] ULeaf) 8458 [103] ULeaf)) 8459 [72] (UNode (UNode (UNode ULeaf 8460 [72] ULeaf) 8461 [72] ULeaf) 8462 [104] (UNode ULeaf 8463 [295] ULeaf)))) 8464 [73] (UNode (UNode (UNode (UNode (UNode ULeaf 8465 [73] ULeaf) 8466 [76] ULeaf) 8467 [108] (UNode (UNode ULeaf 8469 [78] ULeaf) 8470 [78; 111] ULeaf)) 8473 [80] (UNode (UNode (UNode ULeaf 8474 [81] ULeaf) 8475 [82] ULeaf) 8476 [82] (UNode ULeaf 8477 [82] ULeaf))) 8480 [83; 77] (UNode (UNode (UNode (UNode ULeaf 8481 [84; 69; 76] ULeaf) 8482 [84; 77] ULeaf) 8484 [90] (UNode (UNode ULeaf 8486 [937] ULeaf) 8488 [90] ULeaf)) 8490 [75] (UNode (UNode (UNode ULeaf 8491 [65; 778] ULeaf) 8492 [66] ULeaf) 8493 [67] (UNode ULeaf 8495 [101] ULeaf)))))) 8496 [69] (UNode (UNode (UNode (UNode (UNode (UNode (UNode ULeaf 8497 [70] ULeaf) 8499 [77] ULeaf) 8500 [111] (UNode (UNode ULeaf 8501 [1488] ULeaf) 8502 [1489] ULeaf)) 8503 [1490] (UNode (UNode (UNode ULeaf 8504 [1491] ULeaf) 8505 [105] ULeaf) 8507 [70; 65; 88] (UNode (UNode ULeaf 8508 [960] ULeaf) 8509 [947] ULeaf))) 8510 [915] (UNode (UNode (UNode (UNode ULeaf 8511 [928] ULeaf) 8512 [8721] ULeaf) 8517 [68] (UNode (UNode ULeaf 8518 [100] ULeaf) 8519 [101] ULeaf)) 8520 [105] (UNode (UNode (UNode ULeaf 8521 [106] ULeaf) 8528 [49; 8260; 55] ULeaf) 8529 [49; 8260; 57] (UNode ULeaf 8530 [49; 8260; 49; 48] ULeaf)))) 8531 [49; 8260; 51] (UNode (UNode (UNode (UNode (UNode ULeaf 8532 [50; 8260; 51] ULeaf) 8533 [49; 8260; 53] ULeaf) 8534 [50; 8260; 53] (UNode (UNode ULeaf 8535 [51; 8260; 53] ULeaf) 8536 [52; 8260; 53] ULeaf)) 8537 [49; 8260; 54] (UNode (UNode (UNode ULeaf 8538 [53; 8260; 54] ULeaf) 8539 [49; 8260; 56] ULeaf) 8540 [51; 8260; 56] (UNode ULeaf 8541 [53; 8260; 56] ULeaf))) 8542 [55; 8260; 56] (UNode (UNode (UNode (UNode ULeaf 8543 [49; 8260] ULeaf) 8544 [73] ULeaf) 8545 [73; 73] (UNode (UNode ULeaf 8546 [73; 73; 73] ULeaf) 8547 [73; 86] ULeaf)) 8548 [86] (UNode (UNode (UNode ULeaf 8549 [86; 73] ULeaf) 8550 [86; 73; 73] ULeaf) 8551 [86; 73; 73; 73] (UNode ULeaf 8552 [73; 88] ULeaf))))) 8553 [88] (UNode (UNode (UNode (UNode (UNode (UNode ULeaf 8554 [88; 73] ULeaf) 8555 [88; 73; 73] ULeaf) 8556 [76] (UNode (UNode ULeaf 8557 [67] ULeaf) 8558 [68] ULeaf)) 8559 [77] (UNode (UNode (UNode ULeaf 8560 [105] ULeaf) 8561 [105; 105] ULeaf) 8562 [105; 105; 105] (UNode (UNode ULeaf 8563 [105; 118] ULeaf) 8564 [118] ULeaf))) 8565 [118; 105] (UNode (UNode (UNode (UNode ULeaf 8566 [118; 105; 105] ULeaf) 8567 [118; 105; 105; 105] ULeaf) 8568 [105; 120] (UNode (UNode ULeaf 8569 [120] ULeaf) 8570 [120; 105] ULeaf)) 8571 [120; 105; 105] (UNode (UNode (UNode ULeaf 8572 [108] ULeaf) 8573 [99] ULeaf) 8574 [100] (UNode ULeaf 8575 [109] ULeaf)))) 8585 [48; 8260; 51] (UNode (UNode (UNode (UNode (UNode ULeaf 8602 [8592; 824] ULeaf) 8603 [8594; 824] ULeaf) 8622 [8596; 824] (UNode (UNode ULeaf 8653 [8656; 824] ULeaf) 8654 [8660; 824] ULeaf)) 8655 [8658; 824] (UNode (UNode (UNode ULeaf 8708 [8707; 824] ULeaf) 8713 [8712; 824] ULeaf) 8716 [8715; 824] (UNode ULeaf 8740 [8739; 824] ULeaf))) 8742 [8741; 824] (UNode (UNode (UNode (UNode ULeaf 8748 [8747; 8747] ULeaf) 8749 [8747; 8747; 8747] ULeaf) 8751 [8750; 8750] (UNode (UNode ULeaf 8752 [8750; 8750; 8750] ULeaf) 8769 [8764; 824] ULeaf)) 8772 [8771; 824] (UNode (UNode (UNode ULeaf 8775 [8773; 824] ULeaf) 8777 [8776; 824] ULeaf) 8800 [61; 824] (UNode ULeaf 8802 [8801; 824] ULeaf))))))) 8813 [8781; 824] (UNode (UNode (UNode (UNode (UNode (UNode (UNode (UNode ULeaf 8814 [60; 824] ULeaf) 8815 [62; 824] ULeaf) 8816 [8804; 824] (UNode (UNode ULeaf 8817 [8805; 824] ULeaf) 8820 [8818; 824] ULeaf)) 8821 [8819; 824] (UNode (UNode (UNode ULeaf 8824 [8822; 824] ULeaf) 8825 [8823; 824] ULeaf) 8832 [8826; 824] (UNode (UNode ULeaf 8833 [8827; 824] ULeaf) 8836 [8834; 824] ULeaf))) 8837 [8835; 824] (UNode (UNode (UNode (UNode ULeaf 8840 [8838; 824] ULeaf) 8841 [8839; 824] ULeaf) 8876 [8866; 824] (UNode (UNode ULeaf 8877 [8872; 824] ULeaf) 8878 [8873; 824] ULeaf)) 8879 [8875; 824] (UNode (UNode (UNode ULeaf 8928 [8828; 824] ULeaf) 8929 [8829; 824] ULeaf) 8930 [8849; 824] (UNode ULeaf 8931 [8850; 824] ULeaf)))) 8938 [8882; 824] (UNode (UNode (UNode (UNode (UNode ULeaf 8939 [8883; 824] ULeaf) 8940 [8884; 824] ULeaf) 8941 [8885; 824] (UNode (UNode ULeaf 9001 [12296] ULeaf) 9002 [12297] ULeaf)) 9312 [49] (UNode (UNode (UNode ULeaf 9313 [50] ULeaf) 9314 [51] ULeaf) 9315 [52] (UNode (UNode ULeaf 9316 [53] ULeaf) 9317 [54] ULeaf))) 9318 [55] (UNode (UNode (UNode (UNode ULeaf 9319 [56] ULeaf) 9320 [57] ULeaf) 9321 [49; 48] (UNode (UNode ULeaf 9322 [49; 49] ULeaf) 9323 [49; 50] ULeaf)) 9324 [49; 51] (UNode (UNode (UNode ULeaf 9325 [49; 52] ULeaf) 9326 [49; 53] ULeaf) 9327 [49; 54] (UNode ULeaf 9328 [49; 55] ULeaf))))) 9329 [49; 56] (UNode (UNode (UNode (UNode (UNode (UNode ULeaf 9330 [49; 57] ULeaf) 9331 [50; 48] ULeaf) 9332 [40; 49; 41] (UNode (UNode ULeaf 9333 [40; 50; 41] ULeaf) 9334 [40; 51; 41] ULeaf)) 9335 [40; 52; 41] (UNode (UNode (UNode ULeaf 9336 [40; 53; 41] ULeaf) 9337 [40; 54; 41] ULeaf) 9338 [40; 55; 41] (UNode (UNode ULeaf 9339 [40; 56; 41] ULeaf) 9340 [40; 57; 41] ULeaf))) 9341 [40; 49; 48; 41] (UNode (UNode (UNode (UNode ULeaf 9342 [40; 49; 49; 41] ULeaf) 9343 [40; 49; 50; 41] ULeaf) 9344 [40; 49; 51; 41] (UNode (UNode ULeaf 9345 [40; 49; 52; 41] ULeaf) 9346 [40; 49; 53; 41] ULeaf)) 9347 [40; 49; 54; 41] (UNode (UNode (UNode ULeaf 9348 [40; 49; 55; 41] ULeaf) 9349 [40; 49; 56; 41] ULeaf) 9350 [40; 49; 57; 41] (UNode ULeaf 9351 [40; 50; 48; 41] ULeaf)))) 9352 [49; 46] (UNode (UNode (UNode (UNode (UNode ULeaf 9353 [50; 46] ULeaf) 9354 [51; 46] ULeaf) 9355 [52; 46] (UNode (UNode ULeaf 9356 [53; 46] ULeaf) 9357 [54; 46] ULeaf)) 9358 [55; 46] (UNode (UNode (UNode ULeaf 9359 [56; 46] ULeaf) 9360 [57; 46] ULeaf) 9361 [49; 48; 46] (UNode ULeaf 9362 [49; 49; 46] ULeaf))) 9363 [49; 50; 46] (UNode (UNode (UNode (UNode ULeaf 9364 [49; 51; 46] ULeaf) 9365 [49; 52; 46] ULeaf) 9366 [49; 53; 46] (UNode (UNode ULeaf 9367 [49; 54; 46] ULeaf) 9368 [49; 55; 46] ULeaf)) 9369 [49; 56; 46] (UNode (UNode (UNode ULeaf 9370 [49; 57; 46] ULeaf) 9371 [50; 48; 46] ULeaf) 9372 [40; 97; 41] (UNode ULeaf 9373 [40; 98; 41] ULeaf)))))) 9374 [40; 99; 41] (UNode (UNode (UNode (UNode (UNode (UNode (UNode ULeaf 9375 [40; 100; 41] ULeaf) 9376 [40; 101; 41] ULeaf) 9377 [40; 102; 41] (UNode (UNode ULeaf 9378 [40; 103; 41] ULeaf) 9379 [40; 104; 41] ULeaf)) 9380 [40; 105; 41] (UNode (UNode (UNode ULeaf 9381 [40; 106; 41] ULeaf) 9382 [40; 107; 41] ULeaf) 9383 [40; 108; 41] (UNode (UNode ULeaf 9384 [40; 109; 41] ULeaf) 9385 [40; 110; 41] ULeaf))) 9386 [40; 111; 41] (UNode (UNode (UNode (UNode ULeaf 9387 [40; 112; 41] ULeaf) 9388 [40; 113; 41] ULeaf) 9389 [40; 114; 41] (UNode (UNode ULeaf 9390 [40; 115; 41] ULeaf) 9391 [40; 116; 41] ULeaf)) 9392 [40; 117; 41] (UNode (UNode (UNode ULeaf 9393 [40; 118; 41] ULeaf) 9394 [40; 119; 41] ULeaf) 9395 [40; 120; 41] (UNode ULeaf 9396 [40; 121; 41] ULeaf)))) 9397 [40; 122; 41] (UNode (UNode (UNode (UNode (UNode ULeaf 9398 [65] ULeaf) 9399 [66] ULeaf) 9400 [67] (UNode (UNode ULeaf 9401 [68] ULeaf) 9402 [69] ULeaf)) 9403 [70] (UNode (UNode (UNode ULeaf 9404 [71] ULeaf) 9405 [72] ULeaf) 9406 [73] (UNode ULeaf 9407 [74] ULeaf))) 9408 [75] (UNode (UNode (UNode (UNode ULeaf 9409 [76] ULeaf) 9410 [77] ULeaf) 9411 [78] (UNode (UNode ULeaf 9412 [79] ULeaf) 9413 [80] ULeaf)) 9414 [81] (UNode (UNode (UNode ULeaf 9415 [82] ULeaf) 9416 [83] ULeaf) 9417 [84] (UNode ULeaf 9418 [85] ULeaf))))) 9419 [86] (UNode (UNode (UNode (UNode (UNode (UNode ULeaf 9420 [87] ULeaf) 9421 [88] ULeaf) 9422 [89] (UNode (UNode ULeaf 9423 [90] ULeaf) 9424 [97] ULeaf)) 9425 [98] (UNode (UNode (UNode ULeaf 9426 [99] ULeaf) 9427 [100] ULeaf) 9428 [101] (UNode (UNode ULeaf 9429 [102] ULeaf) 9430 [103] ULeaf))) 9431 [104] (UNode (UNode (UNode (UNode ULeaf 9432 [105] ULeaf) 9433 [106] ULeaf) 9434 [107] (UNode (UNode ULeaf 9435 [108] ULeaf) 9436 [109] ULeaf)) 9437 [110] (UNode (UNode (UNode ULeaf 9438 [111] ULeaf) 9439 [112] ULeaf) 9440 [113] (UNode ULeaf 9441 [114] ULeaf)))) 9442 [115] (UNode (UNode (UNode (UNode (UNode ULeaf 9443 [116] ULeaf) 9444 [117] ULeaf) 9445 [118] (UNode (UNode ULeaf 9446 [119] ULeaf) 9447 [120] ULeaf)) 9448 [121] (UNode (UNode (UNode ULeaf 9449 [122] ULeaf) 9450 [48] ULeaf) 10764 [8747; 8747; 8747; 8747] (UNode ULeaf 10868 [58; 58; 61] ULeaf))) 10869 [61; 61] (UNode (UNode (UNode (UNode ULeaf 10870 [61; 61; 61] ULeaf) 10972 [10973; 824] ULeaf) 11388 [106] (UNode (UNode ULeaf 11389 [86] ULeaf) 11631 [11617] ULeaf)) 11935 [27597] (UNode (UNode (UNode ULeaf 12019 [40863] ULeaf) 12032 [19968] ULeaf) 12033 [20008] (UNode ULeaf 12034 [20022] ULeaf)))))))))) 12035 [20031] (UNode (UNode (UNode (UNode (UNode (UNode (UNode (UNode (UNode (UNode (UNode ULeaf 12036 [20057] ULeaf) 12037 [20101] ULeaf) 12038 [20108] (UNode (UNode ULeaf 12039 [20128] ULeaf) 12040 [20154] ULeaf)) 12041 [20799] (UNode (UNode (UNode ULeaf 12042 [20837] ULeaf) 12043 [20843] ULeaf) 12044 [20866] (UNode (UNode ULeaf 12045 [20886] ULeaf) 12046 [20907] ULeaf))) 12047 [20960] (UNode (UNode (UNode (UNode ULeaf 12048 [20981] ULeaf) 12049 [20992] ULeaf) 12050 [21147] (UNode (UNode ULeaf 12051 [21241] ULeaf) 12052 [21269] ULeaf)) 12053 [21274] (UNode (UNode (UNode ULeaf 12054 [21304] ULeaf) 12055 [21313] ULeaf) 12056 [21340] (UNode ULeaf 12057 [21353] ULeaf)))) 12058 [21378] (UNode (UNode (UNode (UNode (UNode ULeaf 12059 [21430] ULeaf) 12060 [21448] ULeaf) 12061 [21475] (UNode (UNode ULeaf 12062 [22231] ULeaf) 12063 [22303] ULeaf)) 12064 [22763] (UNode (UNode (UNode ULeaf 12065 [22786] ULeaf) 12066 [22794] ULeaf) 12067 [22805] (UNode (UNode ULeaf 12068 [22823] ULeaf) 12069 [22899] ULeaf))) 12070 [23376] (UNode (UNode (UNode (UNode ULeaf 12071 [23424] ULeaf) 12072 [23544] ULeaf) 12073 [23567] (UNode (UNode ULeaf 12074 [23586] ULeaf) 12075 [23608] ULeaf)) 12076 [23662] (UNode (UNode (UNode ULeaf 12077 [23665] ULeaf) 12078 [24027] ULeaf) 12079 [24037] (UNode ULeaf 12080 [24049] ULeaf))))) 12081 [24062] (UNode (UNode (UNode (UNode (UNode (UNode ULeaf 12082 [24178] ULeaf) 12083 [24186] ULeaf) 12084 [24191] (UNode (UNode ULeaf 12085 [24308] ULeaf) 12086 [24318] ULeaf)) 12087 [24331] (UNode (UNode (UNode ULeaf 12088 [24339] ULeaf) 12089 [24400] ULeaf) 12090 [24417] (UNode (UNode ULeaf 12091 [24435] ULeaf) 12092 [24515] ULeaf))) 12093 [25096] (UNode (UNode (UNode (UNode ULeaf 12094 [25142] ULeaf) 12095 [25163] ULeaf) 12096 [25903] (UNode (UNode ULeaf 12097 [25908] ULeaf) 12098 [25991] ULeaf)) 12099 [26007] (UNode (UNode (UNode ULeaf 12100 [26020] ULeaf) 12101 [26041] ULeaf) 12102 [26080] (UNode ULeaf 12103 [26085] ULeaf)))) 12104 [26352] (UNode (UNode (UNode (UNode (UNode ULeaf 12105 [26376] ULeaf) 12106 [26408] ULeaf) 12107 [27424] (UNode (UNode ULeaf 12108 [27490] ULeaf) 12109 [27513] ULeaf)) 12110 [27571] (UNode (UNode (UNode ULeaf 12111 [27595] ULeaf) 12112 [27604] ULeaf) 12113 [27611] (UNode ULeaf 12114 [27663] ULeaf))) 12115 [27668] (UNode (UNode (UNode (UNode ULeaf 12116 [27700] ULeaf) 12117 [28779] ULeaf) 12118 [29226] (UNode (UNode ULeaf 12119 [29238] ULeaf) 12120 [29243] ULeaf)) 12121 [29247] (UNode (UNode (UNode ULeaf 12122 [29255] ULeaf) 12123 [29273] ULeaf) 12124 [29275] (UNode ULeaf 12125 [29356] ULeaf)))))) 12126 [29572] (UNode (UNode (UNode (UNode (UNode (UNode (UNode ULeaf 12127 [29577] ULeaf) 12128 [29916] ULeaf) 12129 [29926] (UNode (UNode ULeaf 12130 [29976] ULeaf) 12131 [29983] ULeaf)) 12132 [29992] (UNode (UNode (UNode ULeaf 12133 [30000] ULeaf) 12134 [30091] ULeaf) 12135 [30098] (UNode (UNode ULeaf 12136 [30326] ULeaf) 12137 [30333] ULeaf))) 12138 [30382] (UNode (UNode (UNode (UNode ULeaf 12139 [30399] ULeaf) 12140 [30446] ULeaf) 12141 [30683] (UNode (UNode ULeaf 12142 [30690] ULeaf) 12143 [30707] ULeaf)) 12144 [31034] (UNode (UNode (UNode ULeaf 12145 [31160] ULeaf) 12146 [31166] ULeaf) 12147 [31348] (UNode ULeaf 12148 [31435] ULeaf)))) 12149 [31481] (UNode (UNode (UNode (UNode (UNode ULeaf 12150 [31859] ULeaf) 12151 [31992] ULeaf) 12152 [32566] (UNode (UNode ULeaf 12153 [32593] ULeaf) 12154 [32650] ULeaf)) 12155 [32701] (UNode (UNode (UNode ULeaf 12156 [32769] ULeaf) 12157 [32780] ULeaf) 12158 [32786] (UNode (UNode ULeaf 12159 [32819] ULeaf) 12160 [32895] ULeaf))) 12161 [32905] (UNode (UNode (UNode (UNode ULeaf 12162 [33251] ULeaf) 12163 [33258] ULeaf) 12164 [33267] (UNode (UNode ULeaf 12165 [33276] ULeaf) 12166 [33292] ULeaf)) 12167 [33307] (UNode (UNode (UNode ULeaf 12168 [33311] ULeaf) 12169 [33390] ULeaf) 12170 [33394] (UNode ULeaf 12171 [33400] ULeaf))))) 12172 [34381] (UNode (UNode (UNode (UNode (UNode (UNode ULeaf 12173 [34411] ULeaf) 12174 [34880] ULeaf) 12175 [34892] (UNode (UNode ULeaf 12176 [34915] ULeaf) 12177 [35198] ULeaf)) 12178 [35211] (UNode (UNode (UNode ULeaf 12179 [35282] ULeaf) 12180 [35328] ULeaf) 12181 [35895] (UNode (UNode ULeaf 12182 [35910] ULeaf) 12183 [35925] ULeaf))) 12184 [35960] (UNode (UNode (UNode (UNode ULeaf 12185 [35997] ULeaf) 12186 [36196] ULeaf) 12187 [36208] (UNode (UNode ULeaf 12188 [36275] ULeaf) 12189 [36523] ULeaf)) 12190 [36554] (UNode (UNode (UNode ULeaf 12191 [36763] ULeaf) 12192 [36784] ULeaf) 12193 [36789] (UNode ULeaf 12194 [37009] ULeaf)))) 12195 [37193] (UNode (UNode (UNode (UNode (UNode ULeaf 12196 [37318] ULeaf) 12197 [37324] ULeaf) 12198 [37329] (UNode (UNode ULeaf 12199 [38263] ULeaf) 12200 [38272] ULeaf)) 12201 [38428] (UNode (UNode (UNode ULeaf 12202 [38582] ULeaf) 12203 [38585] ULeaf) 12204 [38632] (UNode ULeaf 12205 [38737] ULeaf))) 12206 [38750] (UNode (UNode (UNode (UNode ULeaf 12207 [38754] ULeaf) 12208 [38761] ULeaf) 12209 [38859] (UNode (UNode ULeaf 12210 [38893] ULeaf) 12211 [38899] ULeaf)) 12212 [38913] (UNode (UNode (UNode ULeaf 12213 [39080] ULeaf) 12214 [39131] ULeaf) 12215 [39135] (UNode ULeaf 12216 [39318] ULeaf))))))) 12217 [39321] (UNode (UNode (UNode (UNode (UNode (UNode (UNode (UNode ULeaf 12218 [39340] ULeaf) 12219 [39592] ULeaf) 12220 [39640] (UNode (UNode ULeaf 12221 [39647] ULeaf) 12222 [39717] ULeaf)) 12223 [39727] (UNode (UNode (UNode ULeaf 12224 [39730] ULeaf) 12225 [39740] ULeaf) 12226 [39770] (UNode (UNode ULeaf 12227 [40165] ULeaf) 12228 [40565] ULeaf))) 12229 [40575] (UNode (UNode (UNode (UNode ULeaf 12230 [40613] ULeaf) 12231 [40635] ULeaf) 12232 [40643] (UNode (UNode ULeaf 12233 [40653] ULeaf) 12234 [40657] ULeaf)) 12235 [40697] (UNode (UNode (UNode ULeaf 12236 [40701] ULeaf) 12237 [40718] ULeaf) 12238 [40723] (UNode ULeaf 12239 [40736] ULeaf)))) 12240 [40763] (UNode (UNode (UNode (UNode (UNode ULeaf 12241 [40778] ULeaf) 12242 [40786] ULeaf) 12243 [40845] (UNode (UNode ULeaf 12244 [40860] ULeaf) 12245 [40864] ULeaf)) 12288 [32] (UNode (UNode (UNode ULeaf 12342 [12306] ULeaf) 12344 [21313] ULeaf) 12345 [21316] (UNode (UNode ULeaf 12346 [21317] ULeaf) 12364 [12363; 12441] ULeaf))) 12366 [12365; 12441] (UNode (UNode (UNode (UNode ULeaf 12368 [12367; 12441] ULeaf) 12370 [12369; 12441] ULeaf) 12372 [12371; 12441] (UNode (UNode ULeaf 12374 [12373; 12441] ULeaf) 12376 [12375; 12441] ULeaf)) 12378 [12377; 12441] (UNode (UNode (UNode ULeaf 12380 [12379; 12441] ULeaf) 12382 [12381; 12441] ULeaf) 12384 [12383; 12441] (UNode ULeaf 12386 [12385; 12441] ULeaf))))) 12389 [12388; 12441] (UNode (UNode (UNode (UNode (UNode (UNode ULeaf 12391 [12390; 12441] ULeaf) 12393 [12392; 12441] ULeaf) 12400 [12399; 12441] (UNode (UNode ULeaf 12401 [12399; 12442] ULeaf) 12403 [12402; 12441] ULeaf)) 12404 [12402; 12442] (UNode (UNode (UNode ULeaf 12406 [12405; 12441] ULeaf) 12407 [12405; 12442] ULeaf) 12409 [12408; 12441] (UNode (UNode ULeaf 12410 [12408; 12442] ULeaf) 12412 [12411; 12441] ULeaf))) 12413 [12411; 12442] (UNode (UNode (UNode (UNode ULeaf 12436 [12358; 12441] ULeaf) 12443 [32; 12441] ULeaf) 12444 [32; 12442] (UNode (UNode ULeaf 12446 [12445; 12441] ULeaf) 12447 [12424; 12426] ULeaf)) 12460 [12459; 12441] (UNode (UNode (UNode ULeaf 12462 [12461; 12441] ULeaf) 12464 [12463; 12441] ULeaf) 12466 [12465; 12441] (UNode ULeaf 12468 [12467; 12441] ULeaf)))) 12470 [12469; 12441] (UNode (UNode (UNode (UNode (UNode ULeaf 12472 [12471; 12441] ULeaf) 12474 [12473; 12441] ULeaf) 12476 [12475; 12441] (UNode (UNode ULeaf 12478 [12477; 12441] ULeaf) 12480 [12479; 12441] ULeaf)) 12482 [12481; 12441] (UNode (UNode (UNode ULeaf 12485 [12484; 12441] ULeaf) 12487 [12486; 12441] ULeaf) 12489 [12488; 12441] (UNode ULeaf 12496 [12495; 12441] ULeaf))) 12497 [12495; 12442] (UNode (UNode (UNode (UNode ULeaf 12499 [12498; 12441] ULeaf) 12500 [12498; 12442] ULeaf) 12502 [12501; 12441] (UNode (UNode ULeaf 12503 [12501; 12442] ULeaf) 12505 [12504; 12441] ULeaf)) 12506 [12504; 12442] (UNode (UNode (UNode ULeaf 12508 [12507; 12441] ULeaf) 12509 [12507; 12442] ULeaf) 12532 [12454; 12441] (UNode ULeaf 12535 [12527; 12441] ULeaf)))))) 12536 [12528; 12441] (UNode (UNode (UNode (UNode (UNode (UNode (UNode ULeaf 12537 [12529; 12441] ULeaf) 12538 [12530; 12441] ULeaf) 12542 [12541; 12441] (UNode (UNode ULeaf 12543 [12467; 12488] ULeaf) 12593 [4352] ULeaf)) 12594 [4353] (UNode (UNode (UNode ULeaf 12595 [4522] ULeaf) 12596 [4354] ULeaf) 12597 [4524] (UNode (UNode ULeaf 12598 [4525] ULeaf) 12599 [4355] ULeaf))) 12600 [4356] (UNode (UNode (UNode (UNode ULeaf 12601 [4357] ULeaf) 12602 [4528] ULeaf) 12603 [4529] (UNode (UNode ULeaf 12604 [4530] ULeaf) 12605 [4531] ULeaf)) 12606 [4532] (UNode (UNode (UNode ULeaf 12607 [4533] ULeaf) 12608 [4378] ULeaf) 12609 [4358] (UNode ULeaf 12610 [4359] ULeaf)))) 12611 [4360] (UNode (UNode (UNode (UNode (UNode ULeaf 12612 [4385] ULeaf) 12613 [4361] ULeaf) 12614 [4362] (UNode (UNode ULeaf 12615 [4363] ULeaf) 12616 [4364] ULeaf)) 12617 [4365] (UNode (UNode (UNode ULeaf 12618 [4366] ULeaf) 12619 [4367] ULeaf) 12620 [4368] (UNode ULeaf 12621 [4369] ULeaf))) 12622 [4370] (UNode (UNode (UNode (UNode ULeaf 12623 [4449] ULeaf) 12624 [4450] ULeaf) 12625 [4451] (UNode (UNode ULeaf 12626 [4452] ULeaf) 12627 [4453] ULeaf)) 12628 [4454] (UNode (UNode (UNode ULeaf 12629 [4455] ULeaf) 12630 [4456] ULeaf) 12631 [4457] (UNode ULeaf 12632 [4458] ULeaf))))) 12633 [4459] (UNode (UNode (UNode (UNode (UNode (UNode ULeaf 12634 [4460] ULeaf) 12635 [4461] ULeaf) 12636 [4462] (UNode (UNode ULeaf 12637 [4463] ULeaf) 12638 [4464] ULeaf)) 12639 [4465] (UNode (UNode (UNode ULeaf 12640 [4466] ULeaf) 12641 [4467] ULeaf) 12642 [4468] (UNode (UNode ULeaf 12643 [4469] ULeaf) 12644 [4448] ULeaf))) 12645 [4372] (UNode (UNode (UNode (UNode ULeaf 12646 [4373] ULeaf) 12647 [4551] ULeaf) 12648 [4552] (UNode (UNode ULeaf 12649 [4556] ULeaf) 12650 [4558] ULeaf)) 12651 [4563] (UNode (UNode (UNode ULeaf 12652 [4567] ULeaf) 12653 [4569] ULeaf) 12654 [4380] (UNode ULeaf 12655 [4573] ULeaf)))) 12656 [4575] (UNode (UNode (UNode (UNode (UNode ULeaf 12657 [4381] ULeaf) 12658 [4382] ULeaf) 12659 [4384] (UNode (UNode ULeaf 12660 [4386] ULeaf) 12661 [4387] ULeaf)) 12662 [4391] (UNode (UNode (UNode ULeaf 12663 [4393] ULeaf) 12664 [4395] ULeaf) 12665 [4396] (UNode ULeaf 12666 [4397] ULeaf))) 12667 [4398] (UNode (UNode (UNode (UNode ULeaf 12668 [4399] ULeaf) 12669 [4402] ULeaf) 12670 [4406] (UNode (UNode ULeaf 12671 [4416] ULeaf) 12672 [4423] ULeaf)) 12673 [4428] (UNode (UNode (UNode ULeaf 12674 [4593] ULeaf) 12675 [4594] ULeaf) 12676 [4439] (UNode ULeaf 12677 [4440] ULeaf)))))))) 12678 [4441] (UNode (UNode (UNode (UNode (UNode (UNode (UNode (UNode (UNode ULeaf 12679 [4484] ULeaf) 12680 [4485] ULeaf) 12681 [4488] (UNode (UNode ULeaf 12682 [4497] ULeaf) 12683 [4498] ULeaf)) 12684 [4500] (UNode (UNode (UNode ULeaf 12685 [4510] ULeaf) 12686 [4513] ULeaf) 12690 [19968] (UNode (UNode ULeaf 12691 [20108] ULeaf) 12692 [19977] ULeaf))) 12693 [22235] (UNode (UNode (UNode (UNode ULeaf 12694 [19978] ULeaf) 12695 [20013] ULeaf) 12696 [19979] (UNode (UNode ULeaf 12697 [30002] ULeaf) 12698 [20057] ULeaf)) 12699 [19993] (UNode (UNode (UNode ULeaf 12700 [19969] ULeaf) 12701 [22825] ULeaf) 12702 [22320] (UNode ULeaf 12703 [20154] ULeaf)))) 12800 [40; 4352; 41] (UNode (UNode (UNode (UNode (UNode ULeaf 12801 [40; 4354; 41] ULeaf) 12802 [40; 4355; 41] ULeaf) 12803 [40; 4357; 41] (UNode (UNode ULeaf 12804 [40; 4358; 41] ULeaf) 12805 [40; 4359; 41] ULeaf)) 12806 [40; 4361; 41] (UNode (UNode (UNode ULeaf 12807 [40; 4363; 41] ULeaf) 12808 [40; 4364; 41] ULeaf) 12809 [40; 4366; 41] (UNode (UNode ULeaf 12810 [40; 4367; 41] ULeaf) 12811 [40; 4368; 41] ULeaf))) 12812 [40; 4369; 41] (UNode (UNode (UNode (UNode ULeaf 12813 [40; 4370; 41] ULeaf) 12814 [40; 4352; 4449; 41] ULeaf) 12815 [40; 4354; 4449; 41] (UNode (UNode ULeaf 12816 [40; 4355; 4449; 41] ULeaf) 12817 [40; 4357; 4449; 41] ULeaf)) 12818 [40; 4358; 4449; 41] (UNode (UNode (UNode ULeaf 12819 [40; 4359; 4449; 41] ULeaf) 12820 [40; 4361; 4449; 41] ULeaf) 12821 [40; 4363; 4449; 41] (UNode ULeaf 12822 [40; 4364; 4449; 41] ULeaf))))) 12823 [40; 4366; 4449; 41] (UNode (UNode (UNode (UNode (UNode (UNode ULeaf 12824 [40; 4367; 4449; 41] ULeaf) 12825 [40; 4368; 4449; 41] ULeaf) 12826 [40; 4369; 4449; 41] (UNode (UNode ULeaf 12827 [40; 4370; 4449; 41] ULeaf) 12828 [40; 4364; 4462; 41] ULeaf)) 12829 [40; 4363; 4457; 4364; 4453; 4523; 41] (UNode (UNode (UNode ULeaf 12830 [40; 4363; 4457; 4370; 4462; 41] ULeaf) 12832 [40; 19968; 41] ULeaf) 12833 [40; 20108; 41] (UNode (UNode ULeaf 12834 [40; 19977; 41] ULeaf) 12835 [40; 22235; 41] ULeaf))) 12836 [40; 20116; 41] (UNode (UNode (UNode (UNode ULeaf 12837 [40; 20845; 41] ULeaf) 12838 [40; 19971; 41] ULeaf) 12839 [40; 20843; 41] (UNode (UNode ULeaf 12840 [40; 20061; 41] ULeaf) 12841 [40; 21313; 41] ULeaf)) 12842 [40; 26376; 41] (UNode (UNode (UNode ULeaf 12843 [40; 28779; 41] ULeaf) 12844 [40; 27700; 41] ULeaf) 12845 [40; 26408; 41] (UNode ULeaf 12846 [40; 37329; 41] ULeaf)))) 12847 [40; 22303; 41] (UNode (UNode (UNode (UNode (UNode ULeaf 12848 [40; 26085; 41] ULeaf) 12849 [40; 26666; 41] ULeaf) 12850 [40; 26377; 41] (UNode (UNode ULeaf 12851 [40; 31038; 41] ULeaf) 12852 [40; 21517; 41] ULeaf)) 12853 [40; 29305; 41] (UNode (UNode (UNode ULeaf 12854 [40; 36001; 41] ULeaf) 12855 [40; 31069; 41] ULeaf) 12856 [40; 21172; 41] (UNode ULeaf 12857 [40; 20195; 41] ULeaf))) 12858 [40; 21628; 41] (UNode (UNode (UNode (UNode ULeaf 12859 [40; 23398; 41] ULeaf) 12860 [40; 30435; 41] ULeaf) 12861 [40; 20225; 41] (UNode (UNode ULeaf 12862 [40; 36039; 41] ULeaf) 12863 [40; 21332; 41] ULeaf)) 12864 [40; 31085; 41] (UNode (UNode (UNode ULeaf 12865 [40; 20241; 41] ULeaf) 12866 [40; 33258; 41] ULeaf) 12867 [40; 33267; 41] (UNode ULeaf 12868 [21839] ULeaf)))))) 12869 [24188] (UNode (UNode (UNode (UNode (UNode (UNode (UNode ULeaf 12870 [25991] ULeaf) 12871 [31631] ULeaf) 12880 [80; 84; 69] (UNode (UNode ULeaf 12881 [50; 49] ULeaf) 12882 [50; 50] ULeaf)) 12883 [50; 51] (UNode (UNode (UNode ULeaf 12884 [50; 52] ULeaf) 12885 [50; 53] ULeaf) 12886 [50; 54] (UNode (UNode ULeaf 12887 [50; 55] ULeaf) 12888 [50; 56] ULeaf))) 12889 [50; 57] (UNode (UNode (UNode (UNode ULeaf 12890 [51; 48] ULeaf) 12891 [51; 49] ULeaf) 12892 [51; 50] (UNode (UNode ULeaf 12893 [51; 51] ULeaf) 12894 [51; 52] ULeaf)) 12895 [51; 53] (UNode (UNode (UNode ULeaf 12896 [4352] ULeaf) 12897 [4354] ULeaf) 12898 [4355] (UNode ULeaf 12899 [4357] ULeaf)))) 12900 [4358] (UNode (UNode (UNode (UNode (UNode ULeaf 12901 [4359] ULeaf) 12902 [4361] ULeaf) 12903 [4363] (UNode (UNode ULeaf 12904 [4364] ULeaf) 12905 [4366] ULeaf)) 12906 [4367] (UNode (UNode (UNode ULeaf 12907 [4368] ULeaf) 12908 [4369] ULeaf) 12909 [4370] (UNode ULeaf 12910 [4352; 4449] ULeaf))) 12911 [4354; 4449] (UNode (UNode (UNode (UNode ULeaf 12912 [4355; 4449] ULeaf) 12913 [4357; 4449] ULeaf) 12914 [4358; 4449] (UNode (UNode ULeaf 12915 [4359; 4449] ULeaf) 12916 [4361; 4449] ULeaf)) 12917 [4363; 4449] (UNode (UNode (UNode ULeaf 12918 [4364; 4449] ULeaf) 12919 [4366; 4449] ULeaf) 12920 [4367; 4449] (UNode ULeaf 12921 [4368; 4449] ULeaf))))) 12922 [4369; 4449] (UNode (UNode (UNode (UNode (UNode (UNode ULeaf 12923 [4370; 4449] ULeaf) 12924 [4366; 4449; 4535; 4352; 4457] ULeaf) 12925 [4364; 4462; 4363; 4468] (UNode (UNode ULeaf 12926 [4363; 4462] ULeaf) 12928 [19968] ULeaf)) 12929 [20108] (UNode (UNode (UNode ULeaf 12930 [19977] ULeaf) 12931 [22235] ULeaf) 12932 [20116] (UNode (UNode ULeaf 12933 [20845] ULeaf) 12934 [19971] ULeaf))) 12935 [20843] (UNode (UNode (UNode (UNode ULeaf 12936 [20061] ULeaf) 12937 [21313] ULeaf) 12938 [26376] (UNode (UNode ULeaf 12939 [28779] ULeaf) 12940 [27700] ULeaf)) 12941 [26408] (UNode (UNode (UNode ULeaf 12942 [37329] ULeaf) 12943 [22303] ULeaf) 12944 [26085] (UNode ULeaf 12945 [26666] ULeaf)))) 12946 [26377] (UNode (UNode (UNode (UNode (UNode ULeaf 12947 [31038] ULeaf) 12948 [21517] ULeaf) 12949 [29305] (UNode (UNode ULeaf 12950 [36001] ULeaf) 12951 [31069] ULeaf)) 12952 [21172] (UNode (UNode (UNode ULeaf 12953 [31192] ULeaf) 12954 [30007] ULeaf) 12955 [22899] (UNode ULeaf 12956 [36969] ULeaf))) 12957 [20778] (UNode (UNode (UNode (UNode ULeaf 12958 [21360] ULeaf) 12959 [27880] ULeaf) 12960 [38917] (UNode (UNode ULeaf 12961 [20241] ULeaf) 12962 [20889] ULeaf)) 12963 [27491] (UNode (UNode (UNode ULeaf 12964 [19978] ULeaf) 12965 [20013] ULeaf) 12966 [19979] (UNode ULeaf 12967 [24038] ULeaf))))))) 12968 [21491] (UNode (UNode (UNode (UNode (UNode (UNode (UNode (UNode ULeaf 12969 [21307] ULeaf) 12970 [23447] ULeaf) 12971 [23398] (UNode (UNode ULeaf 12972 [30435] ULeaf) 12973 [20225] ULeaf)) 12974 [36039] (UNode (UNode (UNode ULeaf 12975 [21332] ULeaf) 12976 [22812] ULeaf) 12977 [51; 54] (UNode (UNode ULeaf 12978 [51; 55] ULeaf) 12979 [51; 56] ULeaf))) 12980 [51; 57] (UNode (UNode (UNode (UNode ULeaf 12981 [52; 48] ULeaf) 12982 [52; 49] ULeaf) 12983 [52; 50] (UNode (UNode ULeaf 12984 [52; 51] ULeaf) 12985 [52; 52] ULeaf)) 12986 [52; 53] (UNode (UNode (UNode ULeaf 12987 [52; 54] ULeaf) 12988 [52; 55] ULeaf) 12989 [52; 56] (UNode ULeaf 12990 [52; 57] ULeaf)))) 12991 [53; 48] (UNode (UNode (UNode (UNode (UNode ULeaf 12992 [49; 26376] ULeaf) 12993 [50; 26376] ULeaf) 12994 [51; 26376] (UNode (UNode ULeaf 12995 [52; 26376] ULeaf) 12996 [53; 26376] ULeaf)) 12997 [54; 26376] (UNode (UNode (UNode ULeaf 12998 [55; 26376] ULeaf) 12999 [56; 26376] ULeaf) 13000 [57; 26376] (UNode (UNode ULeaf 13001 [49; 48; 26376] ULeaf) 13002 [49; 49; 26376] ULeaf))) 13003 [49; 50; 26376] (UNode (UNode (UNode (UNode ULeaf 13004 [72; 103] ULeaf) 13005 [101; 114; 103] ULeaf) 13006 [101; 86] (UNode (UNode ULeaf 13007 [76; 84; 68] ULeaf) 13008 [12450] ULeaf)) 13009 [12452] (UNode (UNode (UNode ULeaf 13010 [12454] ULeaf) 13011 [12456] ULeaf) 13012 [12458] (UNode ULeaf 13013 [12459] ULeaf))))) 13014 [12461] (UNode (UNode (UNode (UNode (UNode (UNode ULeaf 13015 [12463] ULeaf) 13016 [12465] ULeaf) 13017 [12467] (UNode (UNode ULeaf 13018 [12469] ULeaf) 13019 [12471] ULeaf)) 13020 [12473] (UNode (UNode (UNode ULeaf 13021 [12475] ULeaf) 13022 [12477] ULeaf) 13023 [12479] (UNode (UNode ULeaf 13024 [12481] ULeaf) 13025 [12484] ULeaf))) 13026 [12486] (UNode (UNode (UNode (UNode ULeaf 13027 [12488] ULeaf) 13028 [12490] ULeaf) 13029 [12491] (UNode (UNode ULeaf 13030 [12492] ULeaf) 13031 [12493] ULeaf)) 13032 [12494] (UNode (UNode (UNode ULeaf 13033 [12495] ULeaf) 13034 [12498] ULeaf) 13035 [12501] (UNode ULeaf 13036 [12504] ULeaf)))) 13037 [12507] (UNode (UNode (UNode (UNode (UNode ULeaf 13038 [12510] ULeaf) 13039 [12511] ULeaf) 13040 [12512] (UNode (UNode ULeaf 13041 [12513] ULeaf) 13042 [12514] ULeaf)) 13043 [12516] (UNode (UNode (UNode ULeaf 13044 [12518] ULeaf) 13045 [12520] ULeaf) 13046 [12521] (UNode ULeaf 13047 [12522] ULeaf))) 13048 [12523] (UNode (UNode (UNode (UNode ULeaf 13049 [12524] ULeaf) 13050 [12525] ULeaf) 13051 [12527] (UNode (UNode ULeaf 13052 [12528] ULeaf) 13053 [12529] ULeaf)) 13054 [12530] (UNode (UNode (UNode ULeaf 13055 [20196; 21644] ULeaf) 13056 [12450; 12495; 12442; 12540; 12488] ULeaf) 13057 [12450; 12523; 12501; 12449] (UNode ULeaf 13058 [12450; 12531; 12504; 12442; 12450] ULeaf)))))) 13059 [12450; 12540; 12523] (UNode (UNode (UNode (UNode (UNode (UNode (UNode ULeaf 13060 [12452; 12491; 12531; 12463; 12441] ULeaf) 13061 [12452; 12531; 12481] ULeaf) 13062 [12454; 12457; 12531] (UNode (UNode ULeaf 13063 [12456; 12473; 12463; 12540; 12488; 12441] ULeaf) 13064 [12456; 12540; 12459; 12540] ULeaf)) 13065 [12458; 12531; 12473] (UNode (UNode (UNode ULeaf 13066 [12458; 12540; 12512] ULeaf) 13067 [12459; 12452; 12522] ULeaf) 13068 [12459; 12521; 12483; 12488] (UNode (UNode ULeaf 13069 [12459; 12525; 12522; 12540] ULeaf) 13070 [12459; 12441; 12525; 12531] ULeaf))) 13071 [12459; 12441; 12531; 12510] (UNode (UNode (UNode (UNode ULeaf 13072 [12461; 12441; 12459; 12441] ULeaf) 13073 [12461; 12441; 12491; 12540] ULeaf) 13074 [12461; 12517; 12522; 12540] (UNode (UNode ULeaf 13075 [12461; 12441; 12523; 12479; 12441; 12540] ULeaf) 13076 [12461; 12525] ULeaf)) 13077 [12461; 12525; 12463; 12441; 12521; 12512] (UNode (UNode (UNode ULeaf 13078 [12461; 12525; 12513; 12540; 12488; 12523] ULeaf) 13079 [12461; 12525; 12527; 12483; 12488] ULeaf) 13080 [12463; 12441; 12521; 12512] (UNode ULeaf 13081 [12463; 12441; 12521; 12512; 12488; 12531] ULeaf)))) 13082 [12463; 12523; 12475; 12441; 12452; 12525] (UNode (UNode (UNode (UNode (UNode ULeaf 13083 [12463; 12525; 12540; 12493] ULeaf) 13084 [12465; 12540; 12473] ULeaf) 13085 [12467; 12523; 12490] (UNode (UNode ULeaf 13086 [12467; 12540; 12507; 12442] ULeaf) 13087 [12469; 12452; 12463; 12523] ULeaf)) 13088 [12469; 12531; 12481; 12540; 12512] (UNode (UNode (UNode ULeaf 13089 [12471; 12522; 12531; 12463; 12441] ULeaf) 13090 [12475; 12531; 12481] ULeaf) 13091 [12475; 12531; 12488] (UNode ULeaf 13092 [12479; 12441; 12540; 12473] ULeaf))) 13093 [12486; 12441; 12471] (UNode (UNode (UNode (UNode ULeaf 13094 [12488; 12441; 12523] ULeaf) 13095 [12488; 12531] ULeaf) 13096 [12490; 12494] (UNode (UNode ULeaf 13097 [12494; 12483; 12488] ULeaf) 13098 [12495; 12452; 12484] ULeaf)) 13099 [12495; 12442; 12540; 12475; 12531; 12488] (UNode (UNode (UNode ULeaf 13100 [12495; 12442; 12540; 12484] ULeaf) 13101 [12495; 12441; 12540; 12524; 12523] ULeaf) 13102 [12498; 12442; 12450; 12473; 12488; 12523] (UNode ULeaf 13103 [12498; 12442; 12463; 12523] ULeaf))))) 13104 [12498; 12442; 12467] (UNode (UNode (UNode (UNode (UNode (UNode ULeaf 13105 [12498; 12441; 12523] ULeaf) 13106 [12501; 12449; 12521; 12483; 12488; 12441] ULeaf) 13107 [12501; 12451; 12540; 12488] (UNode (UNode ULeaf 13108 [12501; 12441; 12483; 12471; 12455; 12523] ULeaf) 13109 [12501; 12521; 12531] ULeaf)) 13110 [12504; 12463; 12479; 12540; 12523] (UNode (UNode (UNode ULeaf 13111 [12504; 12442; 12477] ULeaf) 13112 [12504; 12442; 12491; 12498] ULeaf) 13113 [12504; 12523; 12484] (UNode (UNode ULeaf 13114 [12504; 12442; 12531; 12473] ULeaf) 13115 [12504; 12442; 12540; 12471; 12441] ULeaf))) 13116 [12504; 12441; 12540; 12479] (UNode (UNode (UNode (UNode ULeaf 13117 [12507; 12442; 12452; 12531; 12488] ULeaf) 13118 [12507; 12441; 12523; 12488] ULeaf) 13119 [12507; 12531] (UNode (UNode ULeaf 13120 [12507; 12442; 12531; 12488; 12441] ULeaf) 13121 [12507; 12540; 12523] ULeaf)) 13122 [12507; 12540; 12531] (UNode (UNode (UNode ULeaf 13123 [12510; 12452; 12463; 12525] ULeaf) 13124 [12510; 12452; 12523] ULeaf) 13125 [12510; 12483; 12495] (UNode ULeaf 13126 [12510; 12523; 12463] ULeaf)))) 13127 [12510; 12531; 12471; 12519; 12531] (UNode (UNode (UNode (UNode (UNode ULeaf 13128 [12511; 12463; 12525; 12531] ULeaf) 13129 [12511; 12522] ULeaf) 13130 [12511; 12522; 12495; 12441; 12540; 12523] (UNode (UNode ULeaf 13131 [12513; 12459; 12441] ULeaf) 13132 [12513; 12459; 12441; 12488; 12531] ULeaf)) 13133 [12513; 12540; 12488; 12523] (UNode (UNode (UNode ULeaf 13134 [12516; 12540; 12488; 12441] ULeaf) 13135 [12516; 12540; 12523] ULeaf) 13136 [12518; 12450; 12531] (UNode ULeaf 13137 [12522; 12483; 12488; 12523] ULeaf))) 13138 [12522; 12521] (UNode (UNode (UNode (UNode ULeaf 13139 [12523; 12498; 12442; 12540] ULeaf) 13140 [12523; 12540; 12501; 12441; 12523] ULeaf) 13141 [12524; 12512] (UNode (UNode ULeaf 13142 [12524; 12531; 12488; 12465; 12441; 12531] ULeaf) 13143 [12527; 12483; 12488] ULeaf)) 13144 [48; 28857] (UNode (UNode (UNode ULeaf 13145 [49; 28857] ULeaf) 13146 [50; 28857] ULeaf) 13147 [51; 28857] (UNode ULeaf 13148 [52; 28857] ULeaf))))))))) 13149 [53; 28857] (UNode (UNode (UNode (UNode (UNode (UNode (UNode (UNode (UNode (UNode ULeaf 13150 [54; 28857] ULeaf) 13151 [55; 28857] ULeaf) 13152 [56; 28857] (UNode (UNode ULeaf 13153 [57; 28857] ULeaf) 13154 [49; 48; 28857] ULeaf)) 13155 [49; 49; 28857] (UNode (UNode (UNode ULeaf 13156 [49; 50; 28857] ULeaf) 13157 [49; 51; 28857] ULeaf) 13158 [49; 52; 28857] (UNode (UNode ULeaf 13159 [49; 53; 28857] ULeaf) 13160 [49; 54; 28857] ULeaf))) 13161 [49; 55; 28857] (UNode (UNode (UNode (UNode ULeaf 13162 [49; 56; 28857] ULeaf) 13163 [49; 57; 28857] ULeaf) 13164 [50; 48; 28857] (UNode (UNode ULeaf 13165 [50; 49; 28857] ULeaf) 13166 [50; 50; 28857] ULeaf)) 13167 [50; 51; 28857] (UNode (UNode (UNode ULeaf 13168 [50; 52; 28857] ULeaf) 13169 [104; 80; 97] ULeaf) 13170 [100; 97] (UNode ULeaf 13171 [65; 85] ULeaf)))) 13172 [98; 97; 114] (UNode (UNode (UNode (UNode (UNode ULeaf 13173 [111; 86] ULeaf) 13174 [112; 99] ULeaf) 13175 [100; 109] (UNode (UNode ULeaf 13176 [100; 109; 50] ULeaf) 13177 [100; 109; 51] ULeaf)) 13178 [73; 85] (UNode (UNode (UNode ULeaf 13179 [24179; 25104] ULeaf) 13180 [26157; 21644] ULeaf) 13181 [22823; 27491] (UNode (UNode ULeaf 13182 [26126; 27835] ULeaf) 13183 [26666; 24335; 20250; 31038] ULeaf))) 13184 [112; 65] (UNode (UNode (UNode (UNode ULeaf 13185 [110; 65] ULeaf) 13186 [956; 65] ULeaf) 13187 [109; 65] (UNode (UNode ULeaf 13188 [107; 65] ULeaf) 13189 [75; 66] ULeaf)) 13190 [77; 66] (UNode (UNode (UNode ULeaf 13191 [71; 66] ULeaf) 13192 [99; 97; 108] ULeaf) 13193 [107; 99; 97; 108] (UNode ULeaf 13194 [112; 70] ULeaf))))) 13195 [110; 70] (UNode (UNode (UNode (UNode (UNode (UNode ULeaf 13196 [956; 70] ULeaf) 13197 [956; 103] ULeaf) 13198 [109; 103] (UNode (UNode ULeaf 13199 [107; 103] ULeaf) 13200 [72; 122] ULeaf)) 13201 [107; 72; 122] (UNode (UNode (UNode ULeaf 13202 [77; 72; 122] ULeaf) 13203 [71; 72; 122] ULeaf) 13204 [84; 72; 122] (UNode (UNode ULeaf 13205 [956; 108] ULeaf) 13206 [109; 108] ULeaf))) 13207 [100; 108] (UNode (UNode (UNode (UNode ULeaf 13208 [107; 108] ULeaf) 13209 [102; 109] ULeaf) 13210 [110; 109] (UNode (UNode ULeaf 13211 [956; 109] ULeaf) 13212 [109; 109] ULeaf)) 13213 [99; 109] (UNode (UNode (UNode ULeaf 13214 [107; 109] ULeaf) 13215 [109; 109; 50] ULeaf) 13216 [99; 109; 50] (UNode ULeaf 13217 [109; 50] ULeaf)))) 13218 [107; 109; 50] (UNode (UNode (UNode (UNode (UNode ULeaf 13219 [109; 109; 51] ULeaf) 13220 [99; 109; 51] ULeaf) 13221 [109; 51] (UNode (UNode ULeaf 13222 [107; 109; 51] ULeaf) 13223 [109; 8725; 115] ULeaf)) 13224 [109; 8725; 115; 50] (UNode (UNode (UNode ULeaf 13225 [80; 97] ULeaf) 13226 [107; 80; 97] ULeaf) 13227 [77; 80; 97] (UNode ULeaf 13228 [71; 80; 97] ULeaf))) 13229 [114; 97; 100] (UNode (UNode (UNode (UNode ULeaf 13230 [114; 97; 100; 8725; 115] ULeaf) 13231 [114; 97; 100; 8725; 115; 50] ULeaf) 13232 [112; 115] (UNode (UNode ULeaf 13233 [110; 115] ULeaf) 13234 [956; 115] ULeaf)) 13235 [109; 115] (UNode (UNode (UNode ULeaf 13236 [112; 86] ULeaf) 13237 [110; 86] ULeaf) 13238 [956; 86] (UNode ULeaf 13239 [109; 86] ULeaf)))))) 13240 [107; 86] (UNode (UNode (UNode (UNode (UNode (UNode (UNode ULeaf 13241 [77; 86] ULeaf) 13242 [112; 87] ULeaf) 13243 [110; 87] (UNode (UNode ULeaf 13244 [956; 87] ULeaf) 13245 [109; 87] ULeaf)) 13246 [107; 87] (UNode (UNode (UNode ULeaf 13247 [77; 87] ULeaf) 13248 [107; 937] ULeaf) 13249 [77; 937] (UNode (UNode ULeaf 13250 [97; 46; 109; 46] ULeaf) 13251 [66; 113] ULeaf))) 13252 [99; 99] (UNode (UNode (UNode (UNode ULeaf 13253 [99; 100] ULeaf) 13254 [67; 8725; 107; 103] ULeaf) 13255 [67; 111; 46] (UNode (UNode ULeaf 13256 [100; 66] ULeaf) 13257 [71; 121] ULeaf)) 13258 [104; 97] (UNode (UNode (UNode ULeaf 13259 [72; 80] ULeaf) 13260 [105; 110] ULeaf) 13261 [75; 75] (UNode ULeaf 13262 [75; 77] ULeaf)))) 13263 [107; 116] (UNode (UNode (UNode (UNode (UNode ULeaf 13264 [108; 109] ULeaf) 13265 [108; 110] ULeaf) 13266 [108; 111; 103] (UNode (UNode ULeaf 13267 [108; 120] ULeaf) 13268 [109; 98] ULeaf)) 13269 [109; 105; 108] (UNode (UNode (UNode ULeaf 13270 [109; 111; 108] ULeaf) 13271 [80; 72] ULeaf) 13272 [112; 46; 109; 46] (UNode ULeaf 13273 [80; 80; 77] ULeaf))) 13274 [80; 82] (UNode (UNode (UNode (UNode ULeaf 13275 [115; 114] ULeaf) 13276 [83; 118] ULeaf) 13277 [87; 98] (UNode (UNode ULeaf 13278 [86; 8725; 109] ULeaf) 13279 [65; 8725; 109] ULeaf)) 13280 [49; 26085] (UNode (UNode (UNode ULeaf 13281 [50; 26085] ULeaf) 13282 [51; 26085] ULeaf) 13283 [52; 26085] (UNode ULeaf 13284 [53; 26085] ULeaf))))) 13285 [54; 26085] (UNode (UNode (UNode (UNode (UNode (UNode ULeaf 13286 [55; 26085] ULeaf) 13287 [56; 26085] ULeaf) 13288 [57; 26085] (UNode (UNode ULeaf 13289 [49; 48; 26085] ULeaf) 13290 [49; 49; 26085] ULeaf)) 13291 [49; 50; 26085] (UNode (UNode (UNode ULeaf 13292 [49; 51; 26085] ULeaf) 13293 [49; 52; 26085] ULeaf) 13294 [49; 53; 26085] (UNode (UNode ULeaf 13295 [49; 54; 26085] ULeaf) 13296 [49; 55; 26085] ULeaf))) 13297 [49; 56; 26085] (UNode (UNode (UNode (UNode ULeaf 13298 [49; 57; 26085] ULeaf) 13299 [50; 48; 26085] ULeaf) 13300 [50; 49; 26085] (UNode (UNode ULeaf 13301 [50; 50; 26085] ULeaf) 13302 [50; 51; 26085] ULeaf)) 13303 [50; 52; 26085] (UNode (UNode (UNode ULeaf 13304 [50; 53; 26085] ULeaf) 13305 [50; 54; 26085] ULeaf) 13306 [50; 55; 26085] (UNode ULeaf 13307 [50; 56; 26085] ULeaf)))) 13308 [50; 57; 26085] (UNode (UNode (UNode (UNode (UNode ULeaf 13309 [51; 48; 26085] ULeaf) 13310 [51; 49; 26085] ULeaf) 13311 [103; 97; 108] (UNode (UNode ULeaf 42652 [1098] ULeaf) 42653 [1100] ULeaf)) 42864 [42863] (UNode (UNode (UNode ULeaf 42994 [67] ULeaf) 42995 [70] ULeaf) 42996 [81] (UNode ULeaf 43000 [294] ULeaf))) 43001 [339] (UNode (UNode (UNode (UNode ULeaf 43868 [42791] ULeaf) 43869 [43831] ULeaf) 43870 [619] (UNode (UNode ULeaf 43871 [43858] ULeaf) 43881 [653] ULeaf)) 63744 [35912] (UNode (UNode (UNode ULeaf 63745 [26356] ULeaf) 63746 [36554] ULeaf) 63747 [36040] (UNode ULeaf 63748 [28369] ULeaf))))))) 63749 [20018] (UNode (UNode (UNode (UNode (UNode (UNode (UNode (UNode ULeaf 63750 [21477] ULeaf) 63751 [40860] ULeaf) 63752 [40860] (UNode (UNode ULeaf 63753 [22865] ULeaf) 63754 [37329] ULeaf)) 63755 [21895] (UNode (UNode (UNode ULeaf 63756 [22856] ULeaf) 63757 [25078] ULeaf) 63758 [30313] (UNode (UNode ULeaf 63759 [32645] ULeaf) 63760 [34367] ULeaf))) 63761 [34746] (UNode (UNode (UNode (UNode ULeaf 63762 [35064] ULeaf) 63763 [37007] ULeaf) 63764 [27138] (UNode (UNode ULeaf 63765 [27931] ULeaf) 63766 [28889] ULeaf)) 63767 [29662] (UNode (UNode (UNode ULeaf 63768 [33853] ULeaf) 63769 [37226] ULeaf) 63770 [39409] (UNode ULeaf 63771 [20098] ULeaf)))) 63772 [21365] (UNode (UNode (UNode (UNode (UNode ULeaf 63773 [27396] ULeaf) 63774 [29211] ULeaf) 63775 [34349] (UNode (UNode ULeaf 63776 [40478] ULeaf) 63777 [23888] ULeaf)) 63778 [28651] (UNode (UNode (UNode ULeaf 63779 [34253] ULeaf) 63780 [35172] ULeaf) 63781 [25289] (UNode (UNode ULeaf 63782 [33240] ULeaf) 63783 [34847] ULeaf))) 63784 [24266] (UNode (UNode (UNode (UNode ULeaf 63785 [26391] ULeaf) 63786 [28010] ULeaf) 63787 [29436] (UNode (UNode ULeaf 63788 [37070] ULeaf) 63789 [20358] ULeaf)) 63790 [20919] (UNode (UNode (UNode ULeaf 63791 [21214] ULeaf) 63792 [25796] ULeaf) 63793 [27347] (UNode ULeaf 63794 [29200] ULeaf))))) 63795 [30439] (UNode (UNode (UNode (UNode (UNode (UNode ULeaf 63796 [32769] ULeaf) 63797 [34310] ULeaf) 63798 [34396] (UNode (UNode ULeaf 63799 [36335] ULeaf) 63800 [38706] ULeaf)) 63801 [39791] (UNode (UNode (UNode ULeaf 63802 [40442] ULeaf) 63803 [30860] ULeaf) 63804 [31103] (UNode (UNode ULeaf 63805 [32160] ULeaf) 63806 [33737] ULeaf))) 63807 [37636] (UNode (UNode (UNode (UNode ULeaf 63808 [40575] ULeaf) 63809 [35542] ULeaf) 63810 [22751] (UNode (UNode ULeaf 63811 [24324] ULeaf) 63812 [31840] ULeaf)) 63813 [32894] (UNode (UNode (UNode ULeaf 63814 [29282] ULeaf) 63815 [30922] ULeaf) 63816 [36034] (UNode ULeaf 63817 [38647] ULeaf)))) 63818 [22744] (UNode (UNode (UNode (UNode (UNode ULeaf 63819 [23650] ULeaf) 63820 [27155] ULeaf) 63821 [28122] (UNode (UNode ULeaf 63822 [28431] ULeaf) 63823 [32047] ULeaf)) 63824 [32311] (UNode (UNode (UNode ULeaf 63825 [38475] ULeaf) 63826 [21202] ULeaf) 63827 [32907] (UNode ULeaf 63828 [20956] ULeaf))) 63829 [20940] (UNode (UNode (UNode (UNode ULeaf 63830 [31260] ULeaf) 63831 [32190] ULeaf) 63832 [33777] (UNode (UNode ULeaf 63833 [38517] ULeaf) 63834 [35712] ULeaf)) 63835 [25295] (UNode (UNode (UNode ULeaf 63836 [27138] ULeaf) 63837 [35582] ULeaf) 63838 [20025] (UNode ULeaf 63839 [23527] ULeaf)))))) 63840 [24594] (UNode (UNode (UNode (UNode (UNode (UNode (UNode ULeaf 63841 [29575] ULeaf) 63842 [30064] ULeaf) 63843 [21271] (UNode (UNode ULeaf 63844 [30971] ULeaf) 63845 [20415] ULeaf)) 63846 [24489] (UNode (UNode (UNode ULeaf 63847 [19981] ULeaf) 63848 [27852] ULeaf) 63849 [25976] (UNode (UNode ULeaf 63850 [32034] ULeaf) 63851 [21443] ULeaf))) 63852 [22622] (UNode (UNode (UNode (UNode ULeaf 63853 [30465] ULeaf) 63854 [33865] ULeaf) 63855 [35498] (UNode (UNode ULeaf 63856 [27578] ULeaf) 63857 [36784] ULeaf)) 63858 [27784] (UNode (UNode (UNode ULeaf 63859 [25342] ULeaf) 63860 [33509] ULeaf) 63861 [25504] (UNode ULeaf 63862 [30053] ULeaf)))) 63863 [20142] (UNode (UNode (UNode (UNode (UNode ULeaf 63864 [20841] ULeaf) 63865 [20937] ULeaf) 63866 [26753] (UNode (UNode ULeaf 63867 [31975] ULeaf) 63868 [33391] ULeaf)) 63869 [35538] (UNode (UNode (UNode ULeaf 63870 [37327] ULeaf) 63871 [21237] ULeaf) 63872 [21570] (UNode ULeaf 63873 [22899] ULeaf))) 63874 [24300] (UNode (UNode (UNode (UNode ULeaf 63875 [26053] ULeaf) 63876 [28670] ULeaf) 63877 [31018] (UNode (UNode ULeaf 63878 [38317] ULeaf) 63879 [39530] ULeaf)) 63880 [40599] (UNode (UNode (UNode ULeaf 63881 [40654] ULeaf) 63882 [21147] ULeaf) 63883 [26310] (UNode ULeaf 63884 [27511] ULeaf))))) 63885 [36706] (UNode (UNode (UNode (UNode (UNode (UNode ULeaf 63886 [24180] ULeaf) 63887 [24976] ULeaf) 63888 [25088] (UNode (UNode ULeaf 63889 [25754] ULeaf) 63890 [28451] ULeaf)) 63891 [29001] (UNode (UNode (UNode ULeaf 63892 [29833] ULeaf) 63893 [31178] ULeaf) 63894 [32244] (UNode (UNode ULeaf 63895 [32879] ULeaf) 63896 [36646] ULeaf))) 63897 [34030] (UNode (UNode (UNode (UNode ULeaf 63898 [36899] ULeaf) 63899 [37706] ULeaf) 63900 [21015] (UNode (UNode ULeaf 63901 [21155] ULeaf) 63902 [21693] ULeaf)) 63903 [28872] (UNode (UNode (UNode ULeaf 63904 [35010] ULeaf) 63905 [35498] ULeaf) 63906 [24265] (UNode ULeaf 63907 [24565] ULeaf)))) 63908 [25467] (UNode (UNode (UNode (UNode (UNode ULeaf 63909 [27566] ULeaf) 63910 [31806] ULeaf) 63911 [29557] (UNode (UNode ULeaf 63912 [20196] ULeaf) 63913 [22265] ULeaf)) 63914 [23527] (UNode (UNode (UNode ULeaf 63915 [23994] ULeaf) 63916 [24604] ULeaf) 63917 [29618] (UNode ULeaf 63918 [29801] ULeaf))) 63919 [32666] (UNode (UNode (UNode (UNode ULeaf 63920 [32838] ULeaf) 63921 [37428] ULeaf) 63922 [38646] (UNode (UNode ULeaf 63923 [38728] ULeaf) 63924 [38936] ULeaf)) 63925 [20363] (UNode (UNode (UNode ULeaf 63926 [31150] ULeaf) 63927 [37300] ULeaf) 63928 [38584] (UNode ULeaf 63929 [24801] ULeaf)))))))) 63930 [20102] (UNode (UNode (UNode (UNode (UNode (UNode (UNode (UNode (UNode ULeaf 63931 [20698] ULeaf) 63932 [23534] ULeaf) 63933 [23615] (UNode (UNode ULeaf 63934 [26009] ULeaf) 63935 [27138] ULeaf)) 63936 [29134] (UNode (UNode (UNode ULeaf 63937 [30274] ULeaf) 63938 [34044] ULeaf) 63939 [36988] (UNode (UNode ULeaf 63940 [40845] ULeaf) 63941 [26248] ULeaf))) 63942 [38446] (UNode (UNode (UNode (UNode ULeaf 63943 [21129] ULeaf) 63944 [26491] ULeaf) 63945 [26611] (UNode (UNode ULeaf 63946 [27969] ULeaf) 63947 [28316] ULeaf)) 63948 [29705] (UNode (UNode (UNode ULeaf 63949 [30041] ULeaf) 63950 [30827] ULeaf) 63951 [32016] (UNode ULeaf 63952 [39006] ULeaf)))) 63953 [20845] (UNode (UNode (UNode (UNode (UNode ULeaf 63954 [25134] ULeaf) 63955 [38520] ULeaf) 63956 [20523] (UNode (UNode ULeaf 63957 [23833] ULeaf) 63958 [28138] ULeaf)) 63959 [36650] (UNode (UNode (UNode ULeaf 63960 [24459] ULeaf) 63961 [24900] ULeaf) 63962 [26647] (UNode (UNode ULeaf 63963 [29575] ULeaf) 63964 [38534] ULeaf))) 63965 [21033] (UNode (UNode (UNode (UNode ULeaf 63966 [21519] ULeaf) 63967 [23653] ULeaf) 63968 [26131] (UNode (UNode ULeaf 63969 [26446] ULeaf) 63970 [26792] ULeaf)) 63971 [27877] (UNode (UNode (UNode ULeaf 63972 [29702] ULeaf) 63973 [30178] ULeaf) 63974 [32633] (UNode ULeaf 63975 [35023] ULeaf))))) 63976 [35041] (UNode (UNode (UNode (UNode (UNode (UNode ULeaf 63977 [37324] ULeaf) 63978 [38626] ULeaf) 63979 [21311] (UNode (UNode ULeaf 63980 [28346] ULeaf) 63981 [21533] ULeaf)) 63982 [29136] (UNode (UNode (UNode ULeaf 63983 [29848] ULeaf) 63984 [34298] ULeaf) 63985 [38563] (UNode (UNode ULeaf 63986 [40023] ULeaf) 63987 [40607] ULeaf))) 63988 [26519] (UNode (UNode (UNode (UNode ULeaf 63989 [28107] ULeaf) 63990 [33256] ULeaf) 63991 [31435] (UNode (UNode ULeaf 63992 [31520] ULeaf) 63993 [31890] ULeaf)) 63994 [29376] (UNode (UNode (UNode ULeaf 63995 [28825] ULeaf) 63996 [35672] ULeaf) 63997 [20160] (UNode ULeaf 63998 [33590] ULeaf)))) 63999 [21050] (UNode (UNode (UNode (UNode (UNode ULeaf 64000 [20999] ULeaf) 64001 [24230] ULeaf) 64002 [25299] (UNode (UNode ULeaf 64003 [31958] ULeaf) 64004 [23429] ULeaf)) 64005 [27934] (UNode (UNode (UNode ULeaf 64006 [26292] ULeaf) 64007 [36667] ULeaf) 64008 [34892] (UNode ULeaf 64009 [38477] ULeaf))) 64010 [35211] (UNode (UNode (UNode (UNode ULeaf 64011 [24275] ULeaf) 64012 [20800] ULeaf) 64013 [21952] (UNode (UNode ULeaf 64016 [22618] ULeaf) 64018 [26228] ULeaf)) 64021 [20958] (UNode (UNode (UNode ULeaf 64022 [29482] ULeaf) 64023 [30410] ULeaf) 64024 [31036] (UNode ULeaf 64025 [31070] ULeaf)))))) 64026 [31077] (UNode (UNode (UNode (UNode (UNode (UNode (UNode ULeaf 64027 [31119] ULeaf) 64028 [38742] ULeaf) 64029 [31934] (UNode (UNode ULeaf 64030 [32701] ULeaf) 64032 [34322] ULeaf)) 64034 [35576] (UNode (UNode (UNode ULeaf 64037 [36920] ULeaf) 64038 [37117] ULeaf) 64042 [39151] (UNode (UNode ULeaf 64043 [39164] ULeaf) 64044 [39208] ULeaf))) 64045 [40372] (UNode (UNode (UNode (UNode ULeaf 64046 [37086] ULeaf) 64047 [38583] ULeaf) 64048 [20398] (UNode (UNode ULeaf 64049 [20711] ULeaf) 64050 [20813] ULeaf)) 64051 [21193] (UNode (UNode (UNode ULeaf 64052 [21220] ULeaf) 64053 [21329] ULeaf) 64054 [21917] (UNode ULeaf 64055 [22022] ULeaf)))) 64056 [22120] (UNode (UNode (UNode (UNode (UNode ULeaf 64057 [22592] ULeaf) 64058 [22696] ULeaf) 64059 [23652] (UNode (UNode ULeaf 64060 [23662] ULeaf) 64061 [24724] ULeaf)) 64062 [24936] (UNode (UNode (UNode ULeaf 64063 [24974] ULeaf) 64064 [25074] ULeaf) 64065 [25935] (UNode ULeaf 64066 [26082] ULeaf))) 64067 [26257] (UNode (UNode (UNode (UNode ULeaf 64068 [26757] ULeaf) 64069 [28023] ULeaf) 64070 [28186] (UNode (UNode ULeaf 64071 [28450] ULeaf) 64072 [29038] ULeaf)) 64073 [29227] (UNode (UNode (UNode ULeaf 64074 [29730] ULeaf) 64075 [30865] ULeaf) 64076 [31038] (UNode ULeaf 64077 [31049] ULeaf))))) 64078 [31048] (UNode (UNode (UNode (UNode (UNode (UNode ULeaf 64079 [31056] ULeaf) 64080 [31062] ULeaf) 64081 [31069] (UNode (UNode ULeaf 64082 [31117] ULeaf) 64083 [31118] ULeaf)) 64084 [31296] (UNode (UNode (UNode ULeaf 64085 [31361] ULeaf) 64086 [31680] ULeaf) 64087 [32244] (UNode (UNode ULeaf 64088 [32265] ULeaf) 64089 [32321] ULeaf))) 64090 [32626] (UNode (UNode (UNode (UNode ULeaf 64091 [32773] ULeaf) 64092 [33261] ULeaf) 64093 [33401] (UNode (UNode ULeaf 64094 [33401] ULeaf) 64095 [33879] ULeaf)) 64096 [35088] (UNode (UNode (UNode ULeaf 64097 [35222] ULeaf) 64098 [35585] ULeaf) 64099 [35641] (UNode ULeaf 64100 [36051] ULeaf)))) 64101 [36104] (UNode (UNode (UNode (UNode (UNode ULeaf 64102 [36790] ULeaf) 64103 [36920] ULeaf) 64104 [38627] (UNode (UNode ULeaf 64105 [38911] ULeaf) 64106 [38971] ULeaf)) 64107 [24693] (UNode (UNode (UNode ULeaf 64108 [148206] ULeaf) 64109 [33304] ULeaf) 64112 [20006] (UNode ULeaf 64113 [20917] ULeaf))) 64114 [20840] (UNode (UNode (UNode (UNode ULeaf 64115 [20352] ULeaf) 64116 [20805] ULeaf) 64117 [20864] (UNode (UNode ULeaf 64118 [21191] ULeaf) 64119 [21242] ULeaf)) 64120 [21917] (UNode (UNode (UNode ULeaf 64121 [21845] ULeaf) 64122 [21913] ULeaf) 64123 [21986] (UNode ULeaf 64124 [22618] ULeaf))))))) 64125 [22707] (UNode (UNode (UNode (UNode (UNode (UNode (UNode (UNode ULeaf 64126 [22852] ULeaf) 64127 [22868] ULeaf) 64128 [23138] (UNode (UNode ULeaf 64129 [23336] ULeaf) 64130 [24274] ULeaf)) 64131 [24281] (UNode (UNode (UNode ULeaf 64132 [24425] ULeaf) 64133 [24493] ULeaf) 64134 [24792] (UNode (UNode ULeaf 64135 [24910] ULeaf) 64136 [24840] ULeaf))) 64137 [24974] (UNode (UNode (UNode (UNode ULeaf 64138 [24928] ULeaf) 64139 [25074] ULeaf) 64140 [25140] (UNode (UNode ULeaf 64141 [25540] ULeaf) 64142 [25628] ULeaf)) 64143 [25682] (UNode (UNode (UNode ULeaf 64144 [25942] ULeaf) 64145 [26228] ULeaf) 64146 [26391] (UNode ULeaf 64147 [26395] ULeaf)))) 64148 [26454] (UNode (UNode (UNode (UNode (UNode ULeaf 64149 [27513] ULeaf) 64150 [27578] ULeaf) 64151 [27969] (UNode (UNode ULeaf 64152 [28379] ULeaf) 64153 [28363] ULeaf)) 64154 [28450] (UNode (UNode (UNode ULeaf 64155 [28702] ULeaf) 64156 [29038] ULeaf) 64157 [30631] (UNode (UNode ULeaf 64158 [29237] ULeaf) 64159 [29359] ULeaf))) 64160 [29482] (UNode (UNode (UNode (UNode ULeaf 64161 [29809] ULeaf) 64162 [29958] ULeaf) 64163 [30011] (UNode (UNode ULeaf 64164 [30237] ULeaf) 64165 [30239] ULeaf)) 64166 [30410] (UNode (UNode (UNode ULeaf 64167 [30427] ULeaf) 64168 [30452] ULeaf) 64169 [30538] (UNode ULeaf 64170 [30528] ULeaf))))) 64171 [30924] (UNode (UNode (UNode (UNode (UNode (UNode ULeaf 64172 [31409] ULeaf) 64173 [31680] ULeaf) 64174 [31867] (UNode (UNode ULeaf 64175 [32091] ULeaf) 64176 [32244] ULeaf)) 64177 [32574] (UNode (UNode (UNode ULeaf 64178 [32773] ULeaf) 64179 [33618] ULeaf) 64180 [33775] (UNode (UNode ULeaf 64181 [34681] ULeaf) 64182 [35137] ULeaf))) 64183 [35206] (UNode (UNode (UNode (UNode ULeaf 64184 [35222] ULeaf) 64185 [35519] ULeaf) 64186 [35576] (UNode (UNode ULeaf 64187 [35531] ULeaf) 64188 [35585] ULeaf)) 64189 [35582] (UNode (UNode (UNode ULeaf 64190 [35565] ULeaf) 64191 [35641] ULeaf) 64192 [35722] (UNode ULeaf 64193 [36104] ULeaf)))) 64194 [36664] (UNode (UNode (UNode (UNode (UNode ULeaf 64195 [36978] ULeaf) 64196 [37273] ULeaf) 64197 [37494] (UNode (UNode ULeaf 64198 [38524] ULeaf) 64199 [38627] ULeaf)) 64200 [38742] (UNode (UNode (UNode ULeaf 64201 [38875] ULeaf) 64202 [38911] ULeaf) 64203 [38923] (UNode ULeaf 64204 [38971] ULeaf))) 64205 [39698] (UNode (UNode (UNode (UNode ULeaf 64206 [40860] ULeaf) 64207 [141386] ULeaf) 64208 [141380] (UNode (UNode ULeaf 64209 [144341] ULeaf) 64210 [15261] ULeaf)) 64211 [16408] (UNode (UNode (UNode ULeaf 64212 [16441] ULeaf) 64213 [152137] ULeaf) 64214 [154832] (UNode ULeaf 64215 [163539] ULeaf)))))) 64216 [40771] (UNode (UNode (UNode (UNode (UNode (UNode (UNode ULeaf 64217 [40846] ULeaf) 64256 [102; 102] ULeaf) 64257 [102; 105] (UNode (UNode ULeaf 64258 [102; 108] ULeaf) 64259 [102; 102; 105] ULeaf)) 64260 [102; 102; 108] (UNode (UNode (UNode ULeaf 64261 [115; 116] ULeaf) 64262 [115; 116] ULeaf) 64275 [1396; 1398] (UNode (UNode ULeaf 64276 [1396; 1381] ULeaf) 64277 [1396; 1387] ULeaf))) 64278 [1406; 1398] (UNode (UNode (UNode (UNode ULeaf 64279 [1396; 1389] ULeaf) 64285 [1497; 1460] ULeaf) 64287 [1522; 1463] (UNode (UNode ULeaf 64288 [1506] ULeaf) 64289 [1488] ULeaf)) 64290 [1491] (UNode (UNode (UNode ULeaf 64291 [1492] ULeaf) 64292 [1499] ULeaf) 64293 [1500] (UNode ULeaf 64294 [1501] ULeaf)))) 64295 [1512] (UNode (UNode (UNode (UNode (UNode ULeaf 64296 [1514] ULeaf) 64297 [43] ULeaf) 64298 [1513; 1473] (UNode (UNode ULeaf 64299 [1513; 1474] ULeaf) 64300 [1513; 1468; 1473] ULeaf)) 64301 [1513; 1468; 1474] (UNode (UNode (UNode ULeaf 64302 [1488; 1463] ULeaf) 64303 [1488; 1464] ULeaf) 64304 [1488; 1468] (UNode ULeaf 64305 [1489; 1468] ULeaf))) 64306 [1490; 1468] (UNode (UNode (UNode (UNode ULeaf 64307 [1491; 1468] ULeaf) 64308 [1492; 1468] ULeaf) 64309 [1493; 1468] (UNode (UNode ULeaf 64310 [1494; 1468] ULeaf) 64312 [1496; 1468] ULeaf)) 64313 [1497; 1468] (UNode (UNode (UNode ULeaf 64314 [1498; 1468] ULeaf) 64315 [1499; 1468] ULeaf) 64316 [1500; 1468] (UNode ULeaf 64318 [1502; 1468] ULeaf))))) 64320 [1504; 1468] (UNode (UNode (UNode (UNode (UNode (UNode ULeaf 64321 [1505; 1468] ULeaf) 64323 [1507; 1468] ULeaf) 64324 [1508; 1468] (UNode (UNode ULeaf 64326 [1510; 1468] ULeaf) 64327 [1511; 1468] ULeaf)) 64328 [1512; 1468] (UNode (UNode (UNode ULeaf 64329 [1513; 1468] ULeaf) 64330 [1514; 1468] ULeaf) 64331 [1493; 1465] (UNode (UNode ULeaf 64332 [1489; 1471] ULeaf) 64333 [1499; 1471] ULeaf))) 64334 [1508; 1471] (UNode (UNode (UNode (UNode ULeaf 64335 [1488; 1500] ULeaf) 64336 [1649] ULeaf) 64337 [1649] (UNode (UNode ULeaf 64338 [1659] ULeaf) 64339 [1659] ULeaf)) 64340 [1659] (UNode (UNode (UNode ULeaf 64341 [1659] ULeaf) 64342 [1662] ULeaf) 64343 [1662] (UNode ULeaf 64344 [1662] ULeaf)))) 64345 [1662] (UNode (UNode (UNode (UNode (UNode ULeaf 64346 [1664] ULeaf) 64347 [1664] ULeaf) 64348 [1664] (UNode (UNode ULeaf 64349 [1664] ULeaf) 64350 [1658] ULeaf)) 64351 [1658] (UNode (UNode (UNode ULeaf 64352 [1658] ULeaf) 64353 [1658] ULeaf) 64354 [1663] (UNode ULeaf 64355 [1663] ULeaf))) 64356 [1663] (UNode (UNode (UNode (UNode ULeaf 64357 [1663] ULeaf) 64358 [1657] ULeaf) 64359 [1657] (UNode (UNode ULeaf 64360 [1657] ULeaf) 64361 [1657] ULeaf)) 64362 [1700] (UNode (UNode (UNode ULeaf 64363 [1700] ULeaf) 64364 [1700] ULeaf) 64365 [1700] (UNode ULeaf 64366 [1702] ULeaf))))))))))) 64367 [1702] (UNode (UNode (UNode (UNode (UNode (UNode (UNode (UNode (UNode (UNode (UNode (UNode ULeaf 64368 [1702] ULeaf) 64369 [1702] ULeaf) 64370 [1668] (UNode (UNode ULeaf 64371 [1668] ULeaf) 64372 [1668] ULeaf)) 64373 [1668] (UNode (UNode (UNode ULeaf 64374 [1667] ULeaf) 64375 [1667] ULeaf) 64376 [1667] (UNode (UNode ULeaf 64377 [1667] ULeaf) 64378 [1670] ULeaf))) 64379 [1670] (UNode (UNode (UNode (UNode ULeaf 64380 [1670] ULeaf) 64381 [1670] ULeaf) 64382 [1671] (UNode (UNode ULeaf 64383 [1671] ULeaf) 64384 [1671] ULeaf)) 64385 [1671] (UNode (UNode (UNode ULeaf 64386 [1677] ULeaf) 64387 [1677] ULeaf) 64388 [1676] (UNode ULeaf 64389 [1676] ULeaf)))) 64390 [1678] (UNode (UNode (UNode (UNode (UNode ULeaf 64391 [1678] ULeaf) 64392 [1672] ULeaf) 64393 [1672] (UNode (UNode ULeaf 64394 [1688] ULeaf) 64395 [1688] ULeaf)) 64396 [1681] (UNode (UNode (UNode ULeaf 64397 [1681] ULeaf) 64398 [1705] ULeaf) 64399 [1705] (UNode (UNode ULeaf 64400 [1705] ULeaf) 64401 [1705] ULeaf))) 64402 [1711] (UNode (UNode (UNode (UNode ULeaf 64403 [1711] ULeaf) 64404 [1711] ULeaf) 64405 [1711] (UNode (UNode ULeaf 64406 [1715] ULeaf) 64407 [1715] ULeaf)) 64408 [1715] (UNode (UNode (UNode ULeaf 64409 [1715] ULeaf) 64410 [1713] ULeaf) 64411 [1713] (UNode ULeaf 64412 [1713] ULeaf))))) 64413 [1713] (UNode (UNode (UNode (UNode (UNode (UNode ULeaf 64414 [1722] ULeaf) 64415 [1722] ULeaf) 64416 [1723] (UNode (UNode ULeaf 64417 [1723] ULeaf) 64418 [1723] ULeaf)) 64419 [1723] (UNode (UNode (UNode ULeaf 64420 [1749; 1620] ULeaf) 64421 [1749; 1620] ULeaf) 64422 [1729] (UNode (UNode ULeaf 64423 [1729] ULeaf) 64424 [1729] ULeaf))) 64425 [1729] (UNode (UNode (UNode (UNode ULeaf 64426 [1726] ULeaf) 64427 [1726] ULeaf) 64428 [1726] (UNode (UNode ULeaf 64429 [1726] ULeaf) 64430 [1746] ULeaf)) 64431 [1746] (UNode (UNode (UNode ULeaf 64432 [1746; 1620] ULeaf) 64433 [1746; 1620] ULeaf) 64467 [1709] (UNode ULeaf 64468 [1709] ULeaf)))) 64469 [1709] (UNode (UNode (UNode (UNode (UNode ULeaf 64470 [1709] ULeaf) 64471 [1735] ULeaf) 64472 [1735] (UNode (UNode ULeaf 64473 [1734] ULeaf) 64474 [1734] ULeaf)) 64475 [1736] (UNode (UNode (UNode ULeaf 64476 [1736] ULeaf) 64477 [1735; 1652] ULeaf) 64478 [1739] (UNode ULeaf 64479 [1739] ULeaf))) 64480 [1733] (UNode (UNode (UNode (UNode ULeaf 64481 [1733] ULeaf) 64482 [1737] ULeaf) 64483 [1737] (UNode (UNode ULeaf 64484 [1744] ULeaf) 64485 [1744] ULeaf)) 64486 [1744] (UNode (UNode (UNode ULeaf 64487 [1744] ULeaf) 64488 [1609] ULeaf) 64489 [1609] (UNode ULeaf 64490 [1610; 1620; 1575] ULeaf)))))) 64491 [1610; 1620; 1575] (UNode (UNode (UNode (UNode (UNode (UNode (UNode ULeaf 64492 [1610; 1620; 1749] ULeaf) 64493 [1610; 1620; 1749] ULeaf) 64494 [1610; 1620; 1608] (UNode (UNode ULeaf 64495 [1610; 1620; 1608] ULeaf) 64496 [1610; 1620; 1735] ULeaf)) 64497 [1610; 1620; 1735] (UNode (UNode (UNode ULeaf 64498 [1610; 1620; 1734] ULeaf) 64499 [1610; 1620; 1734] ULeaf) 64500 [1610; 1620; 1736] (UNode (UNode ULeaf 64501 [1610; 1620; 1736] ULeaf) 64502 [1610; 1620; 1744] ULeaf))) 64503 [1610; 1620; 1744] (UNode (UNode (UNode (UNode ULeaf 64504 [1610; 1620; 1744] ULeaf) 64505 [1610; 1620; 1609] ULeaf) 64506 [1610; 1620; 1609] (UNode (UNode ULeaf 64507 [1610; 1620; 1609] ULeaf) 64508 [1740] ULeaf)) 64509 [1740] (UNode (UNode (UNode ULeaf 64510 [1740] ULeaf) 64511 [1740] ULeaf) 64512 [1610; 1620; 1580] (UNode ULeaf 64513 [1610; 1620; 1581] ULeaf)))) 64514 [1610; 1620; 1605] (UNode (UNode (UNode (UNode (UNode ULeaf 64515 [1610; 1620; 1609] ULeaf) 64516 [1610; 1620; 1610] ULeaf) 64517 [1576; 1580] (UNode (UNode ULeaf 64518 [1576; 1581] ULeaf) 64519 [1576; 1582] ULeaf)) 64520 [1576; 1605] (UNode (UNode (UNode ULeaf 64521 [1576; 1609] ULeaf) 64522 [1576; 1610] ULeaf) 64523 [1578; 1580] (UNode (UNode ULeaf 64524 [1578; 1581] ULeaf) 64525 [1578; 1582] ULeaf))) 64526 [1578; 1605] (UNode (UNode (UNode (UNode ULeaf 64527 [1578; 1609] ULeaf) 64528 [1578; 1610] ULeaf) 64529 [1579; 1580] (UNode (UNode ULeaf 64530 [1579; 1605] ULeaf) 64531 [1579; 1609] ULeaf)) 64532 [1579; 1610] (UNode (UNode (UNode ULeaf 64533 [1580; 1581] ULeaf) 64534 [1580; 1605] ULeaf) 64535 [1581; 1580] (UNode ULeaf 64536 [1581; 1605] ULeaf))))) 64537 [1582; 1580] (UNode (UNode (UNode (UNode (UNode (UNode ULeaf 64538 [1582; 1581] ULeaf) 64539 [1582; 1605] ULeaf) 64540 [1587; 1580] (UNode (UNode ULeaf 64541 [1587; 1581] ULeaf) 64542 [1587; 1582] ULeaf)) 64543 [1587; 1605] (UNode (UNode (UNode ULeaf 64544 [1589; 1581] ULeaf) 64545 [1589; 1605] ULeaf) 64546 [1590; 1580] (UNode (UNode ULeaf 64547 [1590; 1581] ULeaf) 64548 [1590; 1582] ULeaf))) 64549 [1590; 1605] (UNode (UNode (UNode (UNode ULeaf 64550 [1591; 1581] ULeaf) 64551 [1591; 1605] ULeaf) 64552 [1592; 1605] (UNode (UNode ULeaf 64553 [1593; 1580] ULeaf) 64554 [1593; 1605] ULeaf)) 64555 [1594; 1580] (UNode (UNode (UNode ULeaf 64556 [1594; 1605] ULeaf) 64557 [1601; 1580] ULeaf) 64558 [1601; 1581] (UNode ULeaf 64559 [1601; 1582] ULeaf)))) 64560 [1601; 1605] (UNode (UNode (UNode (UNode (UNode ULeaf 64561 [1601; 1609] ULeaf) 64562 [1601; 1610] ULeaf) 64563 [1602; 1581] (UNode (UNode ULeaf 64564 [1602; 1605] ULeaf) 64565 [1602; 1609] ULeaf)) 64566 [1602; 1610] (UNode (UNode (UNode ULeaf 64567 [1603; 1575] ULeaf) 64568 [1603; 1580] ULeaf) 64569 [1603; 1581] (UNode ULeaf 64570 [1603; 1582] ULeaf))) 64571 [1603; 1604] (UNode (UNode (UNode (UNode ULeaf 64572 [1603; 1605] ULeaf) 64573 [1603; 1609] ULeaf) 64574 [1603; 1610] (UNode (UNode ULeaf 64575 [1604; 1580] ULeaf) 64576 [1604; 1581] ULeaf)) 64577 [1604; 1582] (UNode (UNode (UNode ULeaf 64578 [1604; 1605] ULeaf) 64579 [1604; 1609] ULeaf) 64580 [1604; 1610] (UNode ULeaf 64581 [1605; 1580] ULeaf))))))) 64582 [1605; 1581] (UNode (UNode (UNode (UNode (UNode (UNode (UNode (UNode ULeaf 64583 [1605; 1582] ULeaf) 64584 [1605; 1605] ULeaf) 64585 [1605; 1609] (UNode (UNode ULeaf 64586 [1605; 1610] ULeaf) 64587 [1606; 1580] ULeaf)) 64588 [1606; 1581] (UNode (UNode (UNode ULeaf 64589 [1606; 1582] ULeaf) 64590 [1606; 1605] ULeaf) 64591 [1606; 1609] (UNode (UNode ULeaf 64592 [1606; 1610] ULeaf) 64593 [1607; 1580] ULeaf))) 64594 [1607; 1605] (UNode (UNode (UNode (UNode ULeaf 64595 [1607; 1609] ULeaf) 64596 [1607; 1610] ULeaf) 64597 [1610; 1580] (UNode (UNode ULeaf 64598 [1610; 1581] ULeaf) 64599 [1610; 1582] ULeaf)) 64600 [1610; 1605] (UNode (UNode (UNode ULeaf 64601 [1610; 1609] ULeaf) 64602 [1610; 1610] ULeaf) 64603 [1584; 1648] (UNode ULeaf 64604 [1585; 1648] ULeaf)))) 64605 [1609; 1648] (UNode (UNode (UNode (UNode (UNode ULeaf 64606 [32; 1612; 1617] ULeaf) 64607 [32; 1613; 1617] ULeaf) 64608 [32; 1614; 1617] (UNode (UNode ULeaf 64609 [32; 1615; 1617] ULeaf) 64610 [32; 1616; 1617] ULeaf)) 64611 [32; 1617; 1648] (UNode (UNode (UNode ULeaf 64612 [1610; 1620; 1585] ULeaf) 64613 [1610; 1620; 1586] ULeaf) 64614 [1610; 1620; 1605] (UNode (UNode ULeaf 64615 [1610; 1620; 1606] ULeaf) 64616 [1610; 1620; 1609] ULeaf))) 64617 [1610; 1620; 1610] (UNode (UNode (UNode (UNode ULeaf 64618 [1576; 1585] ULeaf) 64619 [1576; 1586] ULeaf) 64620 [1576; 1605] (UNode (UNode ULeaf 64621 [1576; 1606] ULeaf) 64622 [1576; 1609] ULeaf)) 64623 [1576; 1610] (UNode (UNode (UNode ULeaf 64624 [1578; 1585] ULeaf) 64625 [1578; 1586] ULeaf) 64626 [1578; 1605] (UNode ULeaf 64627 [1578; 1606] ULeaf))))) 64628 [1578; 1609] (UNode (UNode (UNode (UNode (UNode (UNode ULeaf 64629 [1578; 1610] ULeaf) 64630 [1579; 1585] ULeaf) 64631 [1579; 1586] (UNode (UNode ULeaf 64632 [1579; 1605] ULeaf) 64633 [1579; 1606] ULeaf)) 64634 [1579; 1609] (UNode (UNode (UNode ULeaf 64635 [1579; 1610] ULeaf) 64636 [1601; 1609] ULeaf) 64637 [1601; 1610] (UNode (UNode ULeaf 64638 [1602; 1609] ULeaf) 64639 [1602; 1610] ULeaf))) 64640 [1603; 1575] (UNode (UNode (UNode (UNode ULeaf 64641 [1603; 1604] ULeaf) 64642 [1603; 1605] ULeaf) 64643 [1603; 1609] (UNode (UNode ULeaf 64644 [1603; 1610] ULeaf) 64645 [1604; 1605] ULeaf)) 64646 [1604; 1609] (UNode (UNode (UNode ULeaf 64647 [1604; 1610] ULeaf) 64648 [1605; 1575] ULeaf) 64649 [1605; 1605] (UNode ULeaf 64650 [1606; 1585] ULeaf)))) 64651 [1606; 1586] (UNode (UNode (UNode (UNode (UNode ULeaf 64652 [1606; 1605] ULeaf) 64653 [1606; 1606] ULeaf) 64654 [1606; 1609] (UNode (UNode ULeaf 64655 [1606; 1610] ULeaf) 64656 [1609; 1648] ULeaf)) 64657 [1610; 1585] (UNode (UNode (UNode ULeaf 64658 [1610; 1586] ULeaf) 64659 [1610; 1605] ULeaf) 64660 [1610; 1606] (UNode ULeaf 64661 [1610; 1609] ULeaf))) 64662 [1610; 1610] (UNode (UNode (UNode (UNode ULeaf 64663 [1610; 1620; 1580] ULeaf) 64664 [1610; 1620; 1581] ULeaf) 64665 [1610; 1620; 1582] (UNode (UNode ULeaf 64666 [1610; 1620; 1605] ULeaf) 64667 [1610; 1620; 1607] ULeaf)) 64668 [1576; 1580] (UNode (UNode (UNode ULeaf 64669 [1576; 1581] ULeaf) 64670 [1576; 1582] ULeaf) 64671 [1576; 1605] (UNode ULeaf 64672 [1576; 1607] ULeaf)))))) 64673 [1578; 1580] (UNode (UNode (UNode (UNode (UNode (UNode (UNode ULeaf 64674 [1578; 1581] ULeaf) 64675 [1578; 1582] ULeaf) 64676 [1578; 1605] (UNode (UNode ULeaf 64677 [1578; 1607] ULeaf) 64678 [1579; 1605] ULeaf)) 64679 [1580; 1581] (UNode (UNode (UNode ULeaf 64680 [1580; 1605] ULeaf) 64681 [1581; 1580] ULeaf) 64682 [1581; 1605] (UNode (UNode ULeaf 64683 [1582; 1580] ULeaf) 64684 [1582; 1605] ULeaf))) 64685 [1587; 1580] (UNode (UNode (UNode (UNode ULeaf 64686 [1587; 1581] ULeaf) 64687 [1587; 1582] ULeaf) 64688 [1587; 1605] (UNode (UNode ULeaf 64689 [1589; 1581] ULeaf) 64690 [1589; 1582] ULeaf)) 64691 [1589; 1605] (UNode (UNode (UNode ULeaf 64692 [1590; 1580] ULeaf) 64693 [1590; 1581] ULeaf) 64694 [1590; 1582] (UNode ULeaf 64695 [1590; 1605] ULeaf)))) 64696 [1591; 1581] (UNode (UNode (UNode (UNode (UNode ULeaf 64697 [1592; 1605] ULeaf) 64698 [1593; 1580] ULeaf) 64699 [1593; 1605] (UNode (UNode ULeaf 64700 [1594; 1580] ULeaf) 64701 [1594; 1605] ULeaf)) 64702 [1601; 1580] (UNode (UNode (UNode ULeaf 64703 [1601; 1581] ULeaf) 64704 [1601; 1582] ULeaf) 64705 [1601; 1605] (UNode ULeaf 64706 [1602; 1581] ULeaf))) 64707 [1602; 1605] (UNode (UNode (UNode (UNode ULeaf 64708 [1603; 1580] ULeaf) 64709 [1603; 1581] ULeaf) 64710 [1603; 1582] (UNode (UNode ULeaf 64711 [1603; 1604] ULeaf) 64712 [1603; 1605] ULeaf)) 64713 [1604; 1580] (UNode (UNode (UNode ULeaf 64714 [1604; 1581] ULeaf) 64715 [1604; 1582] ULeaf) 64716 [1604; 1605] (UNode ULeaf 64717 [1604; 1607] ULeaf))))) 64718 [1605; 1580] (UNode (UNode (UNode (UNode (UNode (UNode ULeaf 64719 [1605; 1581] ULeaf) 64720 [1605; 1582] ULeaf) 64721 [1605; 1605] (UNode (UNode ULeaf 64722 [1606; 1580] ULeaf) 64723 [1606; 1581] ULeaf)) 64724 [1606; 1582] (UNode (UNode (UNode ULeaf 64725 [1606; 1605] ULeaf) 64726 [1606; 1607] ULeaf) 64727 [1607; 1580] (UNode (UNode ULeaf 64728 [1607; 1605] ULeaf) 64729 [1607; 1648] ULeaf))) 64730 [1610; 1580] (UNode (UNode (UNode (UNode ULeaf 64731 [1610; 1581] ULeaf) 64732 [1610; 1582] ULeaf) 64733 [1610; 1605] (UNode (UNode ULeaf 64734 [1610; 1607] ULeaf) 64735 [1610; 1620; 1605] ULeaf)) 64736 [1610; 1620; 1607] (UNode (UNode (UNode ULeaf 64737 [1576; 1605] ULeaf) 64738 [1576; 1607] ULeaf) 64739 [1578; 1605] (UNode ULeaf 64740 [1578; 1607] ULeaf)))) 64741 [1579; 1605] (UNode (UNode (UNode (UNode (UNode ULeaf 64742 [1579; 1607] ULeaf) 64743 [1587; 1605] ULeaf) 64744 [1587; 1607] (UNode (UNode ULeaf 64745 [1588; 1605] ULeaf) 64746 [1588; 1607] ULeaf)) 64747 [1603; 1604] (UNode (UNode (UNode ULeaf 64748 [1603; 1605] ULeaf) 64749 [1604; 1605] ULeaf) 64750 [1606; 1605] (UNode ULeaf 64751 [1606; 1607] ULeaf))) 64752 [1610; 1605] (UNode (UNode (UNode (UNode ULeaf 64753 [1610; 1607] ULeaf) 64754 [1600; 1614; 1617] ULeaf) 64755 [1600; 1615; 1617] (UNode (UNode ULeaf 64756 [1600; 1616; 1617] ULeaf) 64757 [1591; 1609] ULeaf)) 64758 [1591; 1610] (UNode (UNode (UNode ULeaf 64759 [1593; 1609] ULeaf) 64760 [1593; 1610] ULeaf) 64761 [1594; 1609] (UNode ULeaf 64762 [1594; 1610] ULeaf)))))))) 64763 [1587; 1609] (UNode (UNode (UNode (UNode (UNode (UNode (UNode (UNode (UNode ULeaf 64764 [1587; 1610] ULeaf) 64765 [1588; 1609] ULeaf) 64766 [1588; 1610] (UNode (UNode ULeaf 64767 [1581; 1609] ULeaf) 64768 [1581; 1610] ULeaf)) 64769 [1580; 1609] (UNode (UNode (UNode ULeaf 64770 [1580; 1610] ULeaf) 64771 [1582; 1609] ULeaf) 64772 [1582; 1610] (UNode (UNode ULeaf 64773 [1589; 1609] ULeaf) 64774 [1589; 1610] ULeaf))) 64775 [1590; 1609] (UNode (UNode (UNode (UNode ULeaf 64776 [1590; 1610] ULeaf) 64777 [1588; 1580] ULeaf) 64778 [1588; 1581] (UNode (UNode ULeaf 64779 [1588; 1582] ULeaf) 64780 [1588; 1605] ULeaf)) 64781 [1588; 1585] (UNode (UNode (UNode ULeaf 64782 [1587; 1585] ULeaf) 64783 [1589; 1585] ULeaf) 64784 [1590; 1585] (UNode ULeaf 64785 [1591; 1609] ULeaf)))) 64786 [1591; 1610] (UNode (UNode (UNode (UNode (UNode ULeaf 64787 [1593; 1609] ULeaf) 64788 [1593; 1610] ULeaf) 64789 [1594; 1609] (UNode (UNode ULeaf 64790 [1594; 1610] ULeaf) 64791 [1587; 1609] ULeaf)) 64792 [1587; 1610] (UNode (UNode (UNode ULeaf 64793 [1588; 1609] ULeaf) 64794 [1588; 1610] ULeaf) 64795 [1581; 1609] (UNode (UNode ULeaf 64796 [1581; 1610] ULeaf) 64797 [1580; 1609] ULeaf))) 64798 [1580; 1610] (UNode (UNode (UNode (UNode ULeaf 64799 [1582; 1609] ULeaf) 64800 [1582; 1610] ULeaf) 64801 [1589; 1609] (UNode (UNode ULeaf 64802 [1589; 1610] ULeaf) 64803 [1590; 1609] ULeaf)) 64804 [1590; 1610] (UNode (UNode (UNode ULeaf 64805 [1588; 1580] ULeaf) 64806 [1588; 1581] ULeaf) 64807 [1588; 1582] (UNode ULeaf 64808 [1588; 1605] ULeaf))))) 64809 [1588; 1585] (UNode (UNode (UNode (UNode (UNode (UNode ULeaf 64810 [1587; 1585] ULeaf) 64811 [1589; 1585] ULeaf) 64812 [1590; 1585] (UNode (UNode ULeaf 64813 [1588; 1580] ULeaf) 64814 [1588; 1581] ULeaf)) 64815 [1588; 1582] (UNode (UNode (UNode ULeaf 64816 [1588; 1605] ULeaf) 64817 [1587; 1607] ULeaf) 64818 [1588; 1607] (UNode (UNode ULeaf 64819 [1591; 1605] ULeaf) 64820 [1587; 1580] ULeaf))) 64821 [1587; 1581] (UNode (UNode (UNode (UNode ULeaf 64822 [1587; 1582] ULeaf) 64823 [1588; 1580] ULeaf) 64824 [1588; 1581] (UNode (UNode ULeaf 64825 [1588; 1582] ULeaf) 64826 [1591; 1605] ULeaf)) 64827 [1592; 1605] (UNode (UNode (UNode ULeaf 64828 [1575; 1611] ULeaf) 64829 [1575; 1611] ULeaf) 64848 [1578; 1580; 1605] (UNode ULeaf 64849 [1578; 1581; 1580] ULeaf)))) 64850 [1578; 1581; 1580] (UNode (UNode (UNode (UNode (UNode ULeaf 64851 [1578; 1581; 1605] ULeaf) 64852 [1578; 1582; 1605] ULeaf) 64853 [1578; 1605; 1580] (UNode (UNode ULeaf 64854 [1578; 1605; 1581] ULeaf) 64855 [1578; 1605; 1582] ULeaf)) 64856 [1580; 1605; 1581] (UNode (UNode (UNode ULeaf 64857 [1580; 1605; 1581] ULeaf) 64858 [1581; 1605; 1610] ULeaf) 64859 [1581; 1605; 1609] (UNode ULeaf 64860 [1587; 1581; 1580] ULeaf))) 64861 [1587; 1580; 1581] (UNode (UNode (UNode (UNode ULeaf 64862 [1587; 1580; 1609] ULeaf) 64863 [1587; 1605; 1581] ULeaf) 64864 [1587; 1605; 1581] (UNode (UNode ULeaf 64865 [1587; 1605; 1580] ULeaf) 64866 [1587; 1605; 1605] ULeaf)) 64867 [1587; 1605; 1605] (UNode (UNode (UNode ULeaf 64868 [1589; 1581; 1581] ULeaf) 64869 [1589; 1581; 1581] ULeaf) 64870 [1589; 1605; 1605] (UNode ULeaf 64871 [1588; 1581; 1605] ULeaf)))))) 64872 [1588; 1581; 1605] (UNode (UNode (UNode (UNode (UNode (UNode (UNode ULeaf 64873 [1588; 1580; 1610] ULeaf) 64874 [1588; 1605; 1582] ULeaf) 64875 [1588; 1605; 1582] (UNode (UNode ULeaf 64876 [1588; 1605; 1605] ULeaf) 64877 [1588; 1605; 1605] ULeaf)) 64878 [1590; 1581; 1609] (UNode (UNode (UNode ULeaf 64879 [1590; 1582; 1605] ULeaf) 64880 [1590; 1582; 1605] ULeaf) 64881 [1591; 1605; 1581] (UNode (UNode ULeaf 64882 [1591; 1605; 1581] ULeaf) 64883 [1591; 1605; 1605] ULeaf))) 64884 [1591; 1605; 1610] (UNode (UNode (UNode (UNode ULeaf 64885 [1593; 1580; 1605] ULeaf) 64886 [1593; 1605; 1605] ULeaf) 64887 [1593; 1605; 1605] (UNode (UNode ULeaf 64888 [1593; 1605; 1609] ULeaf) 64889 [1594; 1605; 1605] ULeaf)) 64890 [1594; 1605; 1610] (UNode (UNode (UNode ULeaf 64891 [1594; 1605; 1609] ULeaf) 64892 [1601; 1582; 1605] ULeaf) 64893 [1601; 1582; 1605] (UNode ULeaf 64894 [1602; 1605; 1581] ULeaf)))) 64895 [1602; 1605; 1605] (UNode (UNode (UNode (UNode (UNode ULeaf 64896 [1604; 1581; 1605] ULeaf) 64897 [1604; 1581; 1610] ULeaf) 64898 [1604; 1581; 1609] (UNode (UNode ULeaf 64899 [1604; 1580; 1580] ULeaf) 64900 [1604; 1580; 1580] ULeaf)) 64901 [1604; 1582; 1605] (UNode (UNode (UNode ULeaf 64902 [1604; 1582; 1605] ULeaf) 64903 [1604; 1605; 1581] ULeaf) 64904 [1604; 1605; 1581] (UNode ULeaf 64905 [1605; 1581; 1580] ULeaf))) 64906 [1605; 1581; 1605] (UNode (UNode (UNode (UNode ULeaf 64907 [1605; 1581; 1610] ULeaf) 64908 [1605; 1580; 1581] ULeaf) 64909 [1605; 1580; 1605] (UNode (UNode ULeaf 64910 [1605; 1582; 1580] ULeaf) 64911 [1605; 1582; 1605] ULeaf)) 64914 [1605; 1580; 1582] (UNode (UNode (UNode ULeaf 64915 [1607; 1605; 1580] ULeaf) 64916 [1607; 1605; 1605] ULeaf) 64917 [1606; 1581; 1605] (UNode ULeaf 64918 [1606; 1581; 1609] ULeaf))))) 64919 [1606; 1580; 1605] (UNode (UNode (UNode (UNode (UNode (UNode ULeaf 64920 [1606; 1580; 1605] ULeaf) 64921 [1606; 1580; 1609] ULeaf) 64922 [1606; 1605; 1610] (UNode (UNode ULeaf 64923 [1606; 1605; 1609] ULeaf) 64924 [1610; 1605; 1605] ULeaf)) 64925 [1610; 1605; 1605] (UNode (UNode (UNode ULeaf 64926 [1576; 1582; 1610] ULeaf) 64927 [1578; 1580; 1610] ULeaf) 64928 [1578; 1580; 1609] (UNode (UNode ULeaf 64929 [1578; 1582; 1610] ULeaf) 64930 [1578; 1582; 1609] ULeaf))) 64931 [1578; 1605; 1610] (UNode (UNode (UNode (UNode ULeaf 64932 [1578; 1605; 1609] ULeaf) 64933 [1580; 1605; 1610] ULeaf) 64934 [1580; 1581; 1609] (UNode (UNode ULeaf 64935 [1580; 1605; 1609] ULeaf) 64936 [1587; 1582; 1609] ULeaf)) 64937 [1589; 1581; 1610] (UNode (UNode (UNode ULeaf 64938 [1588; 1581; 1610] ULeaf) 64939 [1590; 1581; 1610] ULeaf) 64940 [1604; 1580; 1610] (UNode ULeaf 64941 [1604; 1605; 1610] ULeaf)))) 64942 [1610; 1581; 1610] (UNode (UNode (UNode (UNode (UNode ULeaf 64943 [1610; 1580; 1610] ULeaf) 64944 [1610; 1605; 1610] ULeaf) 64945 [1605; 1605; 1610] (UNode (UNode ULeaf 64946 [1602; 1605; 1610] ULeaf) 64947 [1606; 1581; 1610] ULeaf)) 64948 [1602; 1605; 1581] (UNode (UNode (UNode ULeaf 64949 [1604; 1581; 1605] ULeaf) 64950 [1593; 1605; 1610] ULeaf) 64951 [1603; 1605; 1610] (UNode ULeaf 64952 [1606; 1580; 1581] ULeaf))) 64953 [1605; 1582; 1610] (UNode (UNode (UNode (UNode ULeaf 64954 [1604; 1580; 1605] ULeaf) 64955 [1603; 1605; 1605] ULeaf) 64956 [1604; 1580; 1605] (UNode (UNode ULeaf 64957 [1606; 1580; 1581] ULeaf) 64958 [1580; 1581; 1610] ULeaf)) 64959 [1581; 1580; 1610] (UNode (UNode (UNode ULeaf 64960 [1605; 1580; 1610] ULeaf) 64961 [1601; 1605; 1610] ULeaf) 64962 [1576; 1581; 1610] (UNode ULeaf 64963 [1603; 1605; 1605] ULeaf))))))) 64964 [1593; 1580; 1605] (UNode (UNode (UNode (UNode (UNode (UNode (UNode (UNode ULeaf 64965 [1589; 1605; 1605] ULeaf) 64966 [1587; 1582; 1610] ULeaf) 64967 [1606; 1580; 1610] (UNode (UNode ULeaf 65008 [1589; 1604; 1746] ULeaf) 65009 [1602; 1604; 1746] ULeaf)) 65010 [1575; 1604; 1604; 1607] (UNode (UNode (UNode ULeaf 65011 [1575; 1603; 1576; 1585] ULeaf) 65012 [1605; 1581; 1605; 1583] ULeaf) 65013 [1589; 1604; 1593; 1605] (UNode (UNode ULeaf 65014 [1585; 1587; 1608; 1604] ULeaf) 65015 [1593; 1604; 1610; 1607] ULeaf))) 65016 [1608; 1587; 1604; 1605] (UNode (UNode (UNode (UNode ULeaf 65017 [1589; 1604; 1609] ULeaf) 65018 [1589; 1604; 1609; 32; 1575; 1604; 1604; 1607; 32; 1593; 1604; 1610; 1607; 32; 1608; 1587; 1604; 1605] ULeaf) 65019 [1580; 1604; 32; 1580; 1604; 1575; 1604; 1607] (UNode (UNode ULeaf 65020 [1585; 1740; 1575; 1604] ULeaf) 65040 [44] ULeaf)) 65041 [12289] (UNode (UNode (UNode ULeaf 65042 [12290] ULeaf) 65043 [58] ULeaf) 65044 [59] (UNode ULeaf 65045 [33] ULeaf)))) 65046 [63] (UNode (UNode (UNode (UNode (UNode ULeaf 65047 [12310] ULeaf) 65048 [12311] ULeaf) 65049 [46; 46; 46] (UNode (UNode ULeaf 65072 [46; 46] ULeaf) 65073 [8212] ULeaf)) 65074 [8211] (UNode (UNode (UNode ULeaf 65075 [95] ULeaf) 65076 [95] ULeaf) 65077 [40] (UNode (UNode ULeaf 65078 [41] ULeaf) 65079 [123] ULeaf))) 65080 [125] (UNode (UNode (UNode (UNode ULeaf 65081 [12308] ULeaf) 65082 [12309] ULeaf) 65083 [12304] (UNode (UNode ULeaf 65084 [12305] ULeaf) 65085 [12298] ULeaf)) 65086 [12299] (UNode (UNode (UNode ULeaf 65087 [12296] ULeaf) 65088 [12297] ULeaf) 65089 [12300] (UNode ULeaf 65090 [12301] ULeaf))))) 65091 [12302] (UNode (UNode (UNode (UNode (UNode (UNode ULeaf 65092 [12303] ULeaf) 65095 [91] ULeaf) 65096 [93] (UNode (UNode ULeaf 65097 [32; 773] ULeaf) 65098 [32; 773] ULeaf)) 65099 [32; 773] (UNode (UNode (UNode ULeaf 65100 [32; 773] ULeaf) 65101 [95] ULeaf) 65102 [95] (UNode (UNode ULeaf 65103 [95] ULeaf) 65104 [44] ULeaf))) 65105 [12289] (UNode (UNode (UNode (UNode ULeaf 65106 [46] ULeaf) 65108 [59] ULeaf) 65109 [58] (UNode (UNode ULeaf 65110 [63] ULeaf) 65111 [33] ULeaf)) 65112 [8212] (UNode (UNode (UNode ULeaf 65113 [40] ULeaf) 65114 [41] ULeaf) 65115 [123] (UNode ULeaf 65116 [125] ULeaf)))) 65117 [12308] (UNode (UNode (UNode (UNode (UNode ULeaf 65118 [12309] ULeaf) 65119 [35] ULeaf) 65120 [38] (UNode (UNode ULeaf 65121 [42] ULeaf) 65122 [43] ULeaf)) 65123 [45] (UNode (UNode (UNode ULeaf 65124 [60] ULeaf) 65125 [62] ULeaf) 65126 [61] (UNode ULeaf 65128 [92] ULeaf))) 65129 [36] (UNode (UNode (UNode (UNode ULeaf 65130 [37] ULeaf) 65131 [64] ULeaf) 65136 [32; 1611] (UNode (UNode ULeaf 65137 [1600; 1611] ULeaf) 65138 [32; 1612] ULeaf)) 65140 [32; 1613] (UNode (UNode (UNode ULeaf 65142 [32; 1614] ULeaf) 65143 [1600; 1614] ULeaf) 65144 [32; 1615] (UNode ULeaf 65145 [1600; 1615] ULeaf)))))) 65146 [32; 1616] (UNode (UNode (UNode (UNode (UNode (UNode (UNode ULeaf 65147 [1600; 1616] ULeaf) 65148 [32; 1617] ULeaf) 65149 [1600; 1617] (UNode (UNode ULeaf 65150 [32; 1618] ULeaf) 65151 [1600; 1618] ULeaf)) 65152 [1569] (UNode (UNode (UNode ULeaf 65153 [1575; 1619] ULeaf) 65154 [1575; 1619] ULeaf) 65155 [1575; 1620] (UNode (UNode ULeaf 65156 [1575; 1620] ULeaf) 65157 [1608; 1620] ULeaf))) 65158 [1608; 1620] (UNode (UNode (UNode (UNode ULeaf 65159 [1575; 1621] ULeaf) 65160 [1575; 1621] ULeaf) 65161 [1610; 1620] (UNode (UNode ULeaf 65162 [1610; 1620] ULeaf) 65163 [1610; 1620] ULeaf)) 65164 [1610; 1620] (UNode (UNode (UNode ULeaf 65165 [1575] ULeaf) 65166 [1575] ULeaf) 65167 [1576] (UNode ULeaf 65168 [1576] ULeaf)))) 65169 [1576] (UNode (UNode (UNode (UNode (UNode ULeaf 65170 [1576] ULeaf) 65171 [1577] ULeaf) 65172 [1577] (UNode (UNode ULeaf 65173 [1578] ULeaf) 65174 [1578] ULeaf)) 65175 [1578] (UNode (UNode (UNode ULeaf 65176 [1578] ULeaf) 65177 [1579] ULeaf) 65178 [1579] (UNode ULeaf 65179 [1579] ULeaf))) 65180 [1579] (UNode (UNode (UNode (UNode ULeaf 65181 [1580] ULeaf) 65182 [1580] ULeaf) 65183 [1580] (UNode (UNode ULeaf 65184 [1580] ULeaf) 65185 [1581] ULeaf)) 65186 [1581] (UNode (UNode (UNode ULeaf 65187 [1581] ULeaf) 65188 [1581] ULeaf) 65189 [1582] (UNode ULeaf 65190 [1582] ULeaf))))) 65191 [1582] (UNode (UNode (UNode (UNode (UNode (UNode ULeaf 65192 [1582] ULeaf) 65193 [1583] ULeaf) 65194 [1583] (UNode (UNode ULeaf 65195 [1584] ULeaf) 65196 [1584] ULeaf)) 65197 [1585] (UNode (UNode (UNode ULeaf 65198 [1585] ULeaf) 65199 [1586] ULeaf) 65200 [1586] (UNode (UNode ULeaf 65201 [1587] ULeaf) 65202 [1587] ULeaf))) 65203 [1587] (UNode (UNode (UNode (UNode ULeaf 65204 [1587] ULeaf) 65205 [1588] ULeaf) 65206 [1588] (UNode (UNode ULeaf 65207 [1588] ULeaf) 65208 [1588] ULeaf)) 65209 [1589] (UNode (UNode (UNode ULeaf 65210 [1589] ULeaf) 65211 [1589] ULeaf) 65212 [1589] (UNode ULeaf 65213 [1590] ULeaf)))) 65214 [1590] (UNode (UNode (UNode (UNode (UNode ULeaf 65215 [1590] ULeaf) 65216 [1590] ULeaf) 65217 [1591] (UNode (UNode ULeaf 65218 [1591] ULeaf) 65219 [1591] ULeaf)) 65220 [1591] (UNode (UNode (UNode ULeaf 65221 [1592] ULeaf) 65222 [1592] ULeaf) 65223 [1592] (UNode ULeaf 65224 [1592] ULeaf))) 65225 [1593] (UNode (UNode (UNode (UNode ULeaf 65226 [1593] ULeaf) 65227 [1593] ULeaf) 65228 [1593] (UNode (UNode ULeaf 65229 [1594] ULeaf) 65230 [1594] ULeaf)) 65231 [1594] (UNode (UNode (UNode ULeaf 65232 [1594] ULeaf) 65233 [1601] ULeaf) 65234 [1601] (UNode ULeaf 65235 [1601] ULeaf))))))))) 65236 [1601] (UNode (UNode (UNode (UNode (UNode (UNode (UNode (UNode (UNode (UNode ULeaf 65237 [1602] ULeaf) 65238 [1602] ULeaf) 65239 [1602] (UNode (UNode ULeaf 65240 [1602] ULeaf) 65241 [1603] ULeaf)) 65242 [1603] (UNode (UNode (UNode ULeaf 65243 [1603] ULeaf) 65244 [1603] ULeaf) 65245 [1604] (UNode (UNode ULeaf 65246 [1604] ULeaf) 65247 [1604] ULeaf))) 65248 [1604] (UNode (UNode (UNode (UNode ULeaf 65249 [1605] ULeaf) 65250 [1605] ULeaf) 65251 [1605] (UNode (UNode ULeaf 65252 [1605] ULeaf) 65253 [1606] ULeaf)) 65254 [1606] (UNode (UNode (UNode ULeaf 65255 [1606] ULeaf) 65256 [1606] ULeaf) 65257 [1607] (UNode ULeaf 65258 [1607] ULeaf)))) 65259 [1607] (UNode (UNode (UNode (UNode (UNode ULeaf 65260 [1607] ULeaf) 65261 [1608] ULeaf) 65262 [1608] (UNode (UNode ULeaf 65263 [1609] ULeaf) 65264 [1609] ULeaf)) 65265 [1610] (UNode (UNode (UNode ULeaf 65266 [1610] ULeaf) 65267 [1610] ULeaf) 65268 [1610] (UNode (UNode ULeaf 65269 [1604; 1575; 1619] ULeaf) 65270 [1604; 1575; 1619] ULeaf))) 65271 [1604; 1575; 1620] (UNode (UNode (UNode (UNode ULeaf 65272 [1604; 1575; 1620] ULeaf) 65273 [1604; 1575; 1621] ULeaf) 65274 [1604; 1575; 1621] (UNode (UNode ULeaf 65275 [1604; 1575] ULeaf) 65276 [1604; 1575] ULeaf)) 65281 [33] (UNode (UNode (UNode ULeaf 65282 [34] ULeaf) 65283 [35] ULeaf) 65284 [36] (UNode ULeaf 65285 [37] ULeaf))))) 65286 [38] (UNode (UNode (UNode (UNode (UNode (UNode ULeaf 65287 [39] ULeaf) 65288 [40] ULeaf) 65289 [41] (UNode (UNode ULeaf 65290 [42] ULeaf) 65291 [43] ULeaf)) 65292 [44] (UNode (UNode (UNode ULeaf 65293 [45] ULeaf) 65294 [46] ULeaf) 65295 [47] (UNode (UNode ULeaf 65296 [48] ULeaf) 65297 [49] ULeaf))) 65298 [50] (UNode (UNode (UNode (UNode ULeaf 65299 [51] ULeaf) 65300 [52] ULeaf) 65301 [53] (UNode (UNode ULeaf 65302 [54] ULeaf) 65303 [55] ULeaf)) 65304 [56] (UNode (UNode (UNode ULeaf 65305 [57] ULeaf) 65306 [58] ULeaf) 65307 [59] (UNode ULeaf 65308 [60] ULeaf)))) 65309 [61] (UNode (UNode (UNode (UNode (UNode ULeaf 65310 [62] ULeaf) 65311 [63] ULeaf) 65312 [64] (UNode (UNode ULeaf 65313 [65] ULeaf) 65314 [66] ULeaf)) 65315 [67] (UNode (UNode (UNode ULeaf 65316 [68] ULeaf) 65317 [69] ULeaf) 65318 [70] (UNode ULeaf 65319 [71] ULeaf))) 65320 [72] (UNode (UNode (UNode (UNode ULeaf 65321 [73] ULeaf) 65322 [74] ULeaf) 65323 [75] (UNode (UNode ULeaf 65324 [76] ULeaf) 65325 [77] ULeaf)) 65326 [78] (UNode (UNode (UNode ULeaf 65327 [79] ULeaf) 65328 [80] ULeaf) 65329 [81] (UNode ULeaf 65330 [82] ULeaf)))))) 65331 [83] (UNode (UNode (UNode (UNode (UNode (UNode (UNode ULeaf 65332 [84] ULeaf) 65333 [85] ULeaf) 65334 [86] (UNode (UNode ULeaf 65335 [87] ULeaf) 65336 [88] ULeaf)) 65337 [89] (UNode (UNode (UNode ULeaf 65338 [90] ULeaf) 65339 [91] ULeaf) 65340 [92] (UNode (UNode ULeaf 65341 [93] ULeaf) 65342 [94] ULeaf))) 65343 [95] (UNode (UNode (UNode (UNode ULeaf 65344 [96] ULeaf) 65345 [97] ULeaf) 65346 [98] (UNode (UNode ULeaf 65347 [99] ULeaf) 65348 [100] ULeaf)) 65349 [101] (UNode (UNode (UNode ULeaf 65350 [102] ULeaf) 65351 [103] ULeaf) 65352 [104] (UNode ULeaf 65353 [105] ULeaf)))) 65354 [106] (UNode (UNode (UNode (UNode (UNode ULeaf 65355 [107] ULeaf) 65356 [108] ULeaf) 65357 [109] (UNode (UNode ULeaf 65358 [110] ULeaf) 65359 [111] ULeaf)) 65360 [112] (UNode (UNode (UNode ULeaf 65361 [113] ULeaf) 65362 [114] ULeaf) 65363 [115] (UNode ULeaf 65364 [116] ULeaf))) 65365 [117] (UNode (UNode (UNode (UNode ULeaf 65366 [118] ULeaf) 65367 [119] ULeaf) 65368 [120] (UNode (UNode ULeaf 65369 [121] ULeaf) 65370 [122] ULeaf)) 65371 [123] (UNode (UNode (UNode ULeaf 65372 [124] ULeaf) 65373 [125] ULeaf) 65374 [126] (UNode ULeaf 65375 [10629] ULeaf))))) 65376 [10630] (UNode (UNode (UNode (UNode (UNode (UNode ULeaf 65377 [12290] ULeaf) 65378 [12300] ULeaf) 65379 [12301] (UNode (UNode ULeaf 65380 [12289] ULeaf) 65381 [12539] ULeaf)) 65382 [12530] (UNode (UNode (UNode ULeaf 65383 [12449] ULeaf) 65384 [12451] ULeaf) 65385 [12453] (UNode (UNode ULeaf 65386 [12455] ULeaf) 65387 [12457] ULeaf))) 65388 [12515] (UNode (UNode (UNode (UNode ULeaf 65389 [12517] ULeaf) 65390 [12519] ULeaf) 65391 [12483] (UNode (UNode ULeaf 65392 [12540] ULeaf) 65393 [12450] ULeaf)) 65394 [12452] (UNode (UNode (UNode ULeaf 65395 [12454] ULeaf) 65396 [12456] ULeaf) 65397 [12458] (UNode ULeaf 65398 [12459] ULeaf)))) 65399 [12461] (UNode (UNode (UNode (UNode (UNode ULeaf 65400 [12463] ULeaf) 65401 [12465] ULeaf) 65402 [12467] (UNode (UNode ULeaf 65403 [12469] ULeaf) 65404 [12471] ULeaf)) 65405 [12473] (UNode (UNode (UNode ULeaf 65406 [12475] ULeaf) 65407 [12477] ULeaf) 65408 [12479] (UNode ULeaf 65409 [12481] ULeaf))) 65410 [12484] (UNode (UNode (UNode (UNode ULeaf 65411 [12486] ULeaf) 65412 [12488] ULeaf) 65413 [12490] (UNode (UNode ULeaf 65414 [12491] ULeaf) 65415 [12492] ULeaf)) 65416 [12493] (UNode (UNode (UNode ULeaf 65417 [12494] ULeaf) 65418 [12495] ULeaf) 65419 [12498] (UNode ULeaf 65420 [12501] ULeaf))))))) 65421 [12504] (UNode (UNode (UNode (UNode (UNode (UNode (UNode (UNode ULeaf 65422 [12507] ULeaf) 65423 [12510] ULeaf) 65424 [12511] (UNode (UNode ULeaf 65425 [12512] ULeaf) 65426 [12513] ULeaf)) 65427 [12514] (UNode (UNode (UNode ULeaf 65428 [12516] ULeaf) 65429 [12518] ULeaf) 65430 [12520] (UNode (UNode ULeaf 65431 [12521] ULeaf) 65432 [12522] ULeaf))) 65433 [12523] (UNode (UNode (UNode (UNode ULeaf 65434 [12524] ULeaf) 65435 [12525] ULeaf) 65436 [12527] (UNode (UNode ULeaf 65437 [12531] ULeaf) 65438 [12441] ULeaf)) 65439 [12442] (UNode (UNode (UNode ULeaf 65440 [4448] ULeaf) 65441 [4352] ULeaf) 65442 [4353] (UNode ULeaf 65443 [4522] ULeaf)))) 65444 [4354] (UNode (UNode (UNode (UNode (UNode ULeaf 65445 [4524] ULeaf) 65446 [4525] ULeaf) 65447 [4355] (UNode (UNode ULeaf 65448 [4356] ULeaf) 65449 [4357] ULeaf)) 65450 [4528] (UNode (UNode (UNode ULeaf 65451 [4529] ULeaf) 65452 [4530] ULeaf) 65453 [4531] (UNode (UNode ULeaf 65454 [4532] ULeaf) 65455 [4533] ULeaf))) 65456 [4378] (UNode (UNode (UNode (UNode ULeaf 65457 [4358] ULeaf) 65458 [4359] ULeaf) 65459 [4360] (UNode (UNode ULeaf 65460 [4385] ULeaf) 65461 [4361] ULeaf)) 65462 [4362] (UNode (UNode (UNode ULeaf 65463 [4363] ULeaf) 65464 [4364] ULeaf) 65465 [4365] (UNode ULeaf 65466 [4366] ULeaf))))) 65467 [4367] (UNode (UNode (UNode (UNode (UNode (UNode ULeaf 65468 [4368] ULeaf) 65469 [4369] ULeaf) 65470 [4370] (UNode (UNode ULeaf 65474 [4449] ULeaf) 65475 [4450] ULeaf)) 65476 [4451] (UNode (UNode (UNode ULeaf 65477 [4452] ULeaf) 65478 [4453] ULeaf) 65479 [4454] (UNode (UNode ULeaf 65482 [4455] ULeaf) 65483 [4456] ULeaf))) 65484 [4457] (UNode (UNode (UNode (UNode ULeaf 65485 [4458] ULeaf) 65486 [4459] ULeaf) 65487 [4460] (UNode (UNode ULeaf 65490 [4461] ULeaf) 65491 [4462] ULeaf)) 65492 [4463] (UNode (UNode (UNode ULeaf 65493 [4464] ULeaf) 65494 [4465] ULeaf) 65495 [4466] (UNode ULeaf 65498 [4467] ULeaf)))) 65499 [4468] (UNode (UNode (UNode (UNode (UNode ULeaf 65500 [4469] ULeaf) 65504 [162] ULeaf) 65505 [163] (UNode (UNode ULeaf 65506 [172] ULeaf) 65507 [32; 772] ULeaf)) 65508 [166] (UNode (UNode (UNode ULeaf 65509 [165] ULeaf) 65510 [8361] ULeaf) 65512 [9474] (UNode ULeaf 65513 [8592] ULeaf))) 65514 [8593] (UNode (UNode (UNode (UNode ULeaf 65515 [8594] ULeaf) 65516 [8595] ULeaf) 65517 [9632] (UNode (UNode ULeaf 65518 [9675] ULeaf) 67457 [720] ULeaf)) 67458 [721] (UNode (UNode (UNode ULeaf 67459 [230] ULeaf) 67460 [665] ULeaf) 67461 [595] (UNode ULeaf 67463 [675] ULeaf)))))) 67464 [43878] (UNode (UNode (UNode (UNode (UNode (UNode (UNode ULeaf 67465 [677] ULeaf) 67466 [676] ULeaf) 67467 [598] (UNode (UNode ULeaf 67468 [599] ULeaf) 67469 [7569] ULeaf)) 67470 [600] (UNode (UNode (UNode ULeaf 67471 [606] ULeaf) 67472 [681] ULeaf) 67473 [612] (UNode (UNode ULeaf 67474 [610] ULeaf) 67475 [608] ULeaf))) 67476 [667] (UNode (UNode (UNode (UNode ULeaf 67477 [295] ULeaf) 67478 [668] ULeaf) 67479 [615] (UNode (UNode ULeaf 67480 [644] ULeaf) 67481 [682] ULeaf)) 67482 [683] (UNode (UNode (UNode ULeaf 67483 [620] ULeaf) 67484 [122628] ULeaf) 67485 [42894] (UNode ULeaf 67486 [622] ULeaf)))) 67487 [122629] (UNode (UNode (UNode (UNode (UNode ULeaf 67488 [654] ULeaf) 67489 [122630] ULeaf) 67490 [248] (UNode (UNode ULeaf 67491 [630] ULeaf) 67492 [631] ULeaf)) 67493 [113] (UNode (UNode (UNode ULeaf 67494 [634] ULeaf) 67495 [122632] ULeaf) 67496 [637] (UNode ULeaf 67497 [638] ULeaf))) 67498 [640] (UNode (UNode (UNode (UNode ULeaf 67499 [680] ULeaf) 67500 [678] ULeaf) 67501 [43879] (UNode (UNode ULeaf 67502 [679] ULeaf) 67503 [648] ULeaf)) 67504 [11377] (UNode (UNode (UNode ULeaf 67506 [655] ULeaf) 67507 [673] ULeaf) 67508 [674] (UNode ULeaf 67509 [664] ULeaf))))) 67510 [448] (UNode (UNode (UNode (UNode (UNode (UNode ULeaf 67511 [449] ULeaf) 67512 [450] ULeaf) 67513 [122634] (UNode (UNode ULeaf 67514 [122654] ULeaf) 69786 [69785; 69818] ULeaf)) 69788 [69787; 69818] (UNode (UNode (UNode ULeaf 69803 [69797; 69818] ULeaf) 69934 [69937; 69927] ULeaf) 69935 [69938; 69927] (UNode (UNode ULeaf 70475 [70471; 70462] ULeaf) 70476 [70471; 70487] ULeaf))) 70843 [70841; 70842] (UNode (UNode (UNode (UNode ULeaf 70844 [70841; 70832] ULeaf) 70846 [70841; 70845] ULeaf) 71098 [71096; 71087] (UNode (UNode ULeaf 71099 [71097; 71087] ULeaf) 71992 [71989; 71984] ULeaf)) 119134 [119127; 119141] (UNode (UNode (UNode ULeaf 119135 [119128; 119141] ULeaf) 119136 [119128; 119141; 119150] ULeaf) 119137 [119128; 119141; 119151] (UNode ULeaf 119138 [119128; 119141; 119152] ULeaf)))) 119139 [119128; 119141; 119153] (UNode (UNode (UNode (UNode (UNode ULeaf 119140 [119128; 119141; 119154] ULeaf) 119227 [119225; 119141] ULeaf) 119228 [119226; 119141] (UNode (UNode ULeaf 119229 [119225; 119141; 119150] ULeaf) 119230 [119226; 119141; 119150] ULeaf)) 119231 [119225; 119141; 119151] (UNode (UNode (UNode ULeaf 119232 [119226; 119141; 119151] ULeaf) 119808 [65] ULeaf) 119809 [66] (UNode ULeaf 119810 [67] ULeaf))) 119811 [68] (UNode (UNode (UNode (UNode ULeaf 119812 [69] ULeaf) 119813 [70] ULeaf) 119814 [71] (UNode (UNode ULeaf 119815 [72] ULeaf) 119816 [73] ULeaf)) 119817 [74] (UNode (UNode (UNode ULeaf 119818 [75] ULeaf) 119819 [76] ULeaf) 119820 [77] (UNode ULeaf 119821 [78] ULeaf)))))))) 119822 [79] (UNode (UNode (UNode (UNode (UNode (UNode (UNode (UNode (UNode ULeaf 119823 [80] ULeaf) 119824 [81] ULeaf) 119825 [82] (UNode (UNode ULeaf 119826 [83] ULeaf) 119827 [84] ULeaf)) 119828 [85] (UNode (UNode (UNode ULeaf 119829 [86] ULeaf) 119830 [87] ULeaf) 119831 [88] (UNode (UNode ULeaf 119832 [89] ULeaf) 119833 [90] ULeaf))) 119834 [97] (UNode (UNode (UNode (UNode ULeaf 119835 [98] ULeaf) 119836 [99] ULeaf) 119837 [100] (UNode (UNode ULeaf 119838 [101] ULeaf) 119839 [102] ULeaf)) 119840 [103] (UNode (UNode (UNode ULeaf 119841 [104] ULeaf) 119842 [105] ULeaf) 119843 [106] (UNode ULeaf 119844 [107] ULeaf)))) 119845 [108] (UNode (UNode (UNode (UNode (UNode ULeaf 119846 [109] ULeaf) 119847 [110] ULeaf) 119848 [111] (UNode (UNode ULeaf 119849 [112] ULeaf) 119850 [113] ULeaf)) 119851 [114] (UNode (UNode (UNode ULeaf 119852 [115] ULeaf) 119853 [116] ULeaf) 119854 [117] (UNode (UNode ULeaf 119855 [118] ULeaf) 119856 [119] ULeaf))) 119857 [120] (UNode (UNode (UNode (UNode ULeaf 119858 [121] ULeaf) 119859 [122] ULeaf) 119860 [65] (UNode (UNode ULeaf 119861 [66] ULeaf) 119862 [67] ULeaf)) 119863 [68] (UNode (UNode (UNode ULeaf 119864 [69] ULeaf) 119865 [70] ULeaf) 119866 [71] (UNode ULeaf 119867 [72] ULeaf))))) 119868 [73] (UNode (UNode (UNode (UNode (UNode (UNode ULeaf 119869 [74] ULeaf) 119870 [75] ULeaf) 119871 [76] (UNode (UNode ULeaf 119872 [77] ULeaf) 119873 [78] ULeaf)) 119874 [79] (UNode (UNode (UNode ULeaf 119875 [80] ULeaf) 119876 [81] ULeaf) 119877 [82] (UNode (UNode ULeaf 119878 [83] ULeaf) 119879 [84] ULeaf))) 119880 [85] (UNode (UNode (UNode (UNode ULeaf 119881 [86] ULeaf) 119882 [87] ULeaf) 119883 [88] (UNode (UNode ULeaf 119884 [89] ULeaf) 119885 [90] ULeaf)) 119886 [97] (UNode (UNode (UNode ULeaf 119887 [98] ULeaf) 119888 [99] ULeaf) 119889 [100] (UNode ULeaf 119890 [101] ULeaf)))) 119891 [102] (UNode (UNode (UNode (UNode (UNode ULeaf 119892 [103] ULeaf) 119894 [105] ULeaf) 119895 [106] (UNode (UNode ULeaf 119896 [107] ULeaf) 119897 [108] ULeaf)) 119898 [109] (UNode (UNode (UNode ULeaf 119899 [110] ULeaf) 119900 [111] ULeaf) 119901 [112] (UNode ULeaf 119902 [113] ULeaf))) 119903 [114] (UNode (UNode (UNode (UNode ULeaf 119904 [115] ULeaf) 119905 [116] ULeaf) 119906 [117] (UNode (UNode ULeaf 119907 [118] ULeaf) 119908 [119] ULeaf)) 119909 [120] (UNode (UNode (UNode ULeaf 119910 [121] ULeaf) 119911 [122] ULeaf) 119912 [65] (UNode ULeaf 119913 [66] ULeaf)))))) 119914 [67] (UNode (UNode (UNode (UNode (UNode (UNode (UNode ULeaf 119915 [68] ULeaf) 119916 [69] ULeaf) 119917 [70] (UNode (UNode ULeaf 119918 [71] ULeaf) 119919 [72] ULeaf)) 119920 [73] (UNode (UNode (UNode ULeaf 119921 [74] ULeaf) 119922 [75] ULeaf) 119923 [76] (UNode (UNode ULeaf 119924 [77] ULeaf) 119925 [78] ULeaf))) 119926 [79] (UNode (UNode (UNode (UNode ULeaf 119927 [80] ULeaf) 119928 [81] ULeaf) 119929 [82] (UNode (UNode ULeaf 119930 [83] ULeaf) 119931 [84] ULeaf)) 119932 [85] (UNode (UNode (UNode ULeaf 119933 [86] ULeaf) 119934 [87] ULeaf) 119935 [88] (UNode ULeaf 119936 [89] ULeaf)))) 119937 [90] (UNode (UNode (UNode (UNode (UNode ULeaf 119938 [97] ULeaf) 119939 [98] ULeaf) 119940 [99] (UNode (UNode ULeaf 119941 [100] ULeaf) 119942 [101] ULeaf)) 119943 [102] (UNode (UNode (UNode ULeaf 119944 [103] ULeaf) 119945 [104] ULeaf) 119946 [105] (UNode ULeaf 119947 [106] ULeaf))) 119948 [107] (UNode (UNode (UNode (UNode ULeaf 119949 [108] ULeaf) 119950 [109] ULeaf) 119951 [110] (UNode (UNode ULeaf 119952 [111] ULeaf) 119953 [112] ULeaf)) 119954 [113] (UNode (UNode (UNode ULeaf 119955 [114] ULeaf) 119956 [115] ULeaf) 119957 [116] (UNode ULeaf 119958 [117] ULeaf))))) 119959 [118] (UNode (UNode (UNode (UNode (UNode (UNode ULeaf 119960 [119] ULeaf) 119961 [120] ULeaf) 119962 [121] (UNode (UNode ULeaf 119963 [122] ULeaf) 119964 [65] ULeaf)) 119966 [67] (UNode (UNode (UNode ULeaf 119967 [68] ULeaf) 119970 [71] ULeaf) 119973 [74] (UNode (UNode ULeaf 119974 [75] ULeaf) 119977 [78] ULeaf))) 119978 [79] (UNode (UNode (UNode (UNode ULeaf 119979 [80] ULeaf) 119980 [81] ULeaf) 119982 [83] (UNode (UNode ULeaf 119983 [84] ULeaf) 119984 [85] ULeaf)) 119985 [86] (UNode (UNode (UNode ULeaf 119986 [87] ULeaf) 119987 [88] ULeaf) 119988 [89] (UNode ULeaf 119989 [90] ULeaf)))) 119990 [97] (UNode (UNode (UNode (UNode (UNode ULeaf 119991 [98] ULeaf) 119992 [99] ULeaf) 119993 [100] (UNode (UNode ULeaf 119995 [102] ULeaf) 119997 [104] ULeaf)) 119998 [105] (UNode (UNode (UNode ULeaf 119999 [106] ULeaf) 120000 [107] ULeaf) 120001 [108] (UNode ULeaf 120002 [109] ULeaf))) 120003 [110] (UNode (UNode (UNode (UNode ULeaf 120005 [112] ULeaf) 120006 [113] ULeaf) 120007 [114] (UNode (UNode ULeaf 120008 [115] ULeaf) 120009 [116] ULeaf)) 120010 [117] (UNode (UNode (UNode ULeaf 120011 [118] ULeaf) 120012 [119] ULeaf) 120013 [120] (UNode ULeaf 120014 [121] ULeaf))))))) 120015 [122] (UNode (UNode (UNode (UNode (UNode (UNode (UNode (UNode ULeaf 120016 [65] ULeaf) 120017 [66] ULeaf) 120018 [67] (UNode (UNode ULeaf 120019 [68] ULeaf) 120020 [69] ULeaf)) 120021 [70] (UNode (UNode (UNode ULeaf 120022 [71] ULeaf) 120023 [72] ULeaf) 120024 [73] (UNode (UNode ULeaf 120025 [74] ULeaf) 120026 [75] ULeaf))) 120027 [76] (UNode (UNode (UNode (UNode ULeaf 120028 [77] ULeaf) 120029 [78] ULeaf) 120030 [79] (UNode (UNode ULeaf 120031 [80] ULeaf) 120032 [81] ULeaf)) 120033 [82] (UNode (UNode (UNode ULeaf 120034 [83] ULeaf) 120035 [84] ULeaf) 120036 [85] (UNode ULeaf 120037 [86] ULeaf)))) 120038 [87] (UNode (UNode (UNode (UNode (UNode ULeaf 120039 [88] ULeaf) 120040 [89] ULeaf) 120041 [90] (UNode (UNode ULeaf 120042 [97] ULeaf) 120043 [98] ULeaf)) 120044 [99] (UNode (UNode (UNode ULeaf 120045 [100] ULeaf) 120046 [101] ULeaf) 120047 [102] (UNode (UNode ULeaf 120048 [103] ULeaf) 120049 [104] ULeaf))) 120050 [105] (UNode (UNode (UNode (UNode ULeaf 120051 [106] ULeaf) 120052 [107] ULeaf) 120053 [108] (UNode (UNode ULeaf 120054 [109] ULeaf) 120055 [110] ULeaf)) 120056 [111] (UNode (UNode (UNode ULeaf 120057 [112] ULeaf) 120058 [113] ULeaf) 120059 [114] (UNode ULeaf 120060 [115] ULeaf))))) 120061 [116] (UNode (UNode (UNode (UNode (UNode (UNode ULeaf 120062 [117] ULeaf) 120063 [118] ULeaf) 120064 [119] (UNode (UNode ULeaf 120065 [120] ULeaf) 120066 [121] ULeaf)) 120067 [122] (UNode (UNode (UNode ULeaf 120068 [65] ULeaf) 120069 [66] ULeaf) 120071 [68] (UNode (UNode ULeaf 120072 [69] ULeaf) 120073 [70] ULeaf))) 120074 [71] (UNode (UNode (UNode (UNode ULeaf 120077 [74] ULeaf) 120078 [75] ULeaf) 120079 [76] (UNode (UNode ULeaf 120080 [77] ULeaf) 120081 [78] ULeaf)) 120082 [79] (UNode (UNode (UNode ULeaf 120083 [80] ULeaf) 120084 [81] ULeaf) 120086 [83] (UNode ULeaf 120087 [84] ULeaf)))) 120088 [85] (UNode (UNode (UNode (UNode (UNode ULeaf 120089 [86] ULeaf) 120090 [87] ULeaf) 120091 [88] (UNode (UNode ULeaf 120092 [89] ULeaf) 120094 [97] ULeaf)) 120095 [98] (UNode (UNode (UNode ULeaf 120096 [99] ULeaf) 120097 [100] ULeaf) 120098 [101] (UNode ULeaf 120099 [102] ULeaf))) 120100 [103] (UNode (UNode (UNode (UNode ULeaf 120101 [104] ULeaf) 120102 [105] ULeaf) 120103 [106] (UNode (UNode ULeaf 120104 [107] ULeaf) 120105 [108] ULeaf)) 120106 [109] (UNode (UNode (UNode ULeaf 120107 [110] ULeaf) 120108 [111] ULeaf) 120109 [112] (UNode ULeaf 120110 [113] ULeaf)))))) 120111 [114] (UNode (UNode (UNode (UNode (UNode (UNode (UNode ULeaf 120112 [115] ULeaf) 120113 [116] ULeaf) 120114 [117] (UNode (UNode ULeaf 120115 [118] ULeaf) 120116 [119] ULeaf)) 120117 [120] (UNode (UNode (UNode ULeaf 120118 [121] ULeaf) 120119 [122] ULeaf) 120120 [65] (UNode (UNode ULeaf 120121 [66] ULeaf) 120123 [68] ULeaf))) 120124 [69] (UNode (UNode (UNode (UNode ULeaf 120125 [70] ULeaf) 120126 [71] ULeaf) 120128 [73] (UNode (UNode ULeaf 120129 [74] ULeaf) 120130 [75] ULeaf)) 120131 [76] (UNode (UNode (UNode ULeaf 120132 [77] ULeaf) 120134 [79] ULeaf) 120138 [83] (UNode ULeaf 120139 [84] ULeaf)))) 120140 [85] (UNode (UNode (UNode (UNode (UNode ULeaf 120141 [86] ULeaf) 120142 [87] ULeaf) 120143 [88] (UNode (UNode ULeaf 120144 [89] ULeaf) 120146 [97] ULeaf)) 120147 [98] (UNode (UNode (UNode ULeaf 120148 [99] ULeaf) 120149 [100] ULeaf) 120150 [101] (UNode ULeaf 120151 [102] ULeaf))) 120152 [103] (UNode (UNode (UNode (UNode ULeaf 120153 [104] ULeaf) 120154 [105] ULeaf) 120155 [106] (UNode (UNode ULeaf 120156 [107] ULeaf) 120157 [108] ULeaf)) 120158 [109] (UNode (UNode (UNode ULeaf 120159 [110] ULeaf) 120160 [111] ULeaf) 120161 [112] (UNode ULeaf 120162 [113] ULeaf))))) 120163 [114] (UNode (UNode (UNode (UNode (UNode (UNode ULeaf 120164 [115] ULeaf) 120165 [116] ULeaf) 120166 [117] (UNode (UNode ULeaf 120167 [118] ULeaf) 120168 [119] ULeaf)) 120169 [120] (UNode (UNode (UNode ULeaf 120170 [121] ULeaf) 120171 [122] ULeaf) 120172 [65] (UNode (UNode ULeaf 120173 [66] ULeaf) 120174 [67] ULeaf))) 120175 [68] (UNode (UNode (UNode (UNode ULeaf 120176 [69] ULeaf) 120177 [70] ULeaf) 120178 [71] (UNode (UNode ULeaf 120179 [72] ULeaf) 120180 [73] ULeaf)) 120181 [74] (UNode (UNode (UNode ULeaf 120182 [75] ULeaf) 120183 [76] ULeaf) 120184 [77] (UNode ULeaf 120185 [78] ULeaf)))) 120186 [79] (UNode (UNode (UNode (UNode (UNode ULeaf 120187 [80] ULeaf) 120188 [81] ULeaf) 120189 [82] (UNode (UNode ULeaf 120190 [83] ULeaf) 120191 [84] ULeaf)) 120192 [85] (UNode (UNode (UNode ULeaf 120193 [86] ULeaf) 120194 [87] ULeaf) 120195 [88] (UNode ULeaf 120196 [89] ULeaf))) 120197 [90] (UNode (UNode (UNode (UNode ULeaf 120198 [97] ULeaf) 120199 [98] ULeaf) 120200 [99] (UNode (UNode ULeaf 120201 [100] ULeaf) 120202 [101] ULeaf)) 120203 [102] (UNode (UNode (UNode ULeaf 120204 [103] ULeaf) 120205 [104] ULeaf) 120206 [105] (UNode ULeaf 120207 [106] ULeaf)))))))))) 120208 [107] (UNode (UNode (UNode (UNode (UNode (UNode (UNode (UNode (UNode (UNode (UNode ULeaf 120209 [108] ULeaf) 120210 [109] ULeaf) 120211 [110] (UNode (UNode ULeaf 120212 [111] ULeaf) 120213 [112] ULeaf)) 120214 [113] (UNode (UNode (UNode ULeaf 120215 [114] ULeaf) 120216 [115] ULeaf) 120217 [116] (UNode (UNode ULeaf 120218 [117] ULeaf) 120219 [118] ULeaf))) 120220 [119] (UNode (UNode (UNode (UNode ULeaf 120221 [120] ULeaf) 120222 [121] ULeaf) 120223 [122] (UNode (UNode ULeaf 120224 [65] ULeaf) 120225 [66] ULeaf)) 120226 [67] (UNode (UNode (UNode ULeaf 120227 [68] ULeaf) 120228 [69] ULeaf) 120229 [70] (UNode ULeaf 120230 [71] ULeaf)))) 120231 [72] (UNode (UNode (UNode (UNode (UNode ULeaf 120232 [73] ULeaf) 120233 [74] ULeaf) 120234 [75] (UNode (UNode ULeaf 120235 [76] ULeaf) 120236 [77] ULeaf)) 120237 [78] (UNode (UNode (UNode ULeaf 120238 [79] ULeaf) 120239 [80] ULeaf) 120240 [81] (UNode (UNode ULeaf 120241 [82] ULeaf) 120242 [83] ULeaf))) 120243 [84] (UNode (UNode (UNode (UNode ULeaf 120244 [85] ULeaf) 120245 [86] ULeaf) 120246 [87] (UNode (UNode ULeaf 120247 [88] ULeaf) 120248 [89] ULeaf)) 120249 [90] (UNode (UNode (UNode ULeaf 120250 [97] ULeaf) 120251 [98] ULeaf) 120252 [99] (UNode ULeaf 120253 [100] ULeaf))))) 120254 [101] (UNode (UNode (UNode (UNode (UNode (UNode ULeaf 120255 [102] ULeaf) 120256 [103] ULeaf) 120257 [104] (UNode (UNode ULeaf 120258 [105] ULeaf) 120259 [106] ULeaf)) 120260 [107] (UNode (UNode (UNode ULeaf 120261 [108] ULeaf) 120262 [109] ULeaf) 120263 [110] (UNode (UNode ULeaf 120264 [111] ULeaf) 120265 [112] ULeaf))) 120266 [113] (UNode (UNode (UNode (UNode ULeaf 120267 [114] ULeaf) 120268 [115] ULeaf) 120269 [116] (UNode (UNode ULeaf 120270 [117] ULeaf) 120271 [118] ULeaf)) 120272 [119] (UNode (UNode (UNode ULeaf 120273 [120] ULeaf) 120274 [121] ULeaf) 120275 [122] (UNode ULeaf 120276 [65] ULeaf)))) 120277 [66] (UNode (UNode (UNode (UNode (UNode ULeaf 120278 [67] ULeaf) 120279 [68] ULeaf) 120280 [69] (UNode (UNode ULeaf 120281 [70] ULeaf) 120282 [71] ULeaf)) 120283 [72] (UNode (UNode (UNode ULeaf 120284 [73] ULeaf) 120285 [74] ULeaf) 120286 [75] (UNode ULeaf 120287 [76] ULeaf))) 120288 [77] (UNode (UNode (UNode (UNode ULeaf 120289 [78] ULeaf) 120290 [79] ULeaf) 120291 [80] (UNode (UNode ULeaf 120292 [81] ULeaf) 120293 [82] ULeaf)) 120294 [83] (UNode (UNode (UNode ULeaf 120295 [84] ULeaf) 120296 [85] ULeaf) 120297 [86] (UNode ULeaf 120298 [87] ULeaf)))))) 120299 [88] (UNode (UNode (UNode (UNode (UNode (UNode (UNode ULeaf 120300 [89] ULeaf) 120301 [90] ULeaf) 120302 [97] (UNode (UNode ULeaf 120303 [98] ULeaf) 120304 [99] ULeaf)) 120305 [100] (UNode (UNode (UNode ULeaf 120306 [101] ULeaf) 120307 [102] ULeaf) 120308 [103] (UNode (UNode ULeaf 120309 [104] ULeaf) 120310 [105] ULeaf))) 120311 [106] (UNode (UNode (UNode (UNode ULeaf 120312 [107] ULeaf) 120313 [108] ULeaf) 120314 [109] (UNode (UNode ULeaf 120315 [110] ULeaf) 120316 [111] ULeaf)) 120317 [112] (UNode (UNode (UNode ULeaf 120318 [113] ULeaf) 120319 [114] ULeaf) 120320 [115] (UNode ULeaf 120321 [116] ULeaf)))) 120322 [117] (UNode (UNode (UNode (UNode (UNode ULeaf 120323 [118] ULeaf) 120324 [119] ULeaf) 120325 [120] (UNode (UNode ULeaf 120326 [121] ULeaf) 120327 [122] ULeaf)) 120328 [65] (UNode (UNode (UNode ULeaf 120329 [66] ULeaf) 120330 [67] ULeaf) 120331 [68] (UNode (UNode ULeaf 120332 [69] ULeaf) 120333 [70] ULeaf))) 120334 [71] (UNode (UNode (UNode (UNode ULeaf 120335 [72] ULeaf) 120336 [73] ULeaf) 120337 [74] (UNode (UNode ULeaf 120338 [75] ULeaf) 120339 [76] ULeaf)) 120340 [77] (UNode (UNode (UNode ULeaf 120341 [78] ULeaf) 120342 [79] ULeaf) 120343 [80] (UNode ULeaf 120344 [81] ULeaf))))) 120345 [82] (UNode (UNode (UNode (UNode (UNode (UNode ULeaf 120346 [83] ULeaf) 120347 [84] ULeaf) 120348 [85] (UNode (UNode ULeaf 120349 [86] ULeaf) 120350 [87] ULeaf)) 120351 [88] (UNode (UNode (UNode ULeaf 120352 [89] ULeaf) 120353 [90] ULeaf) 120354 [97] (UNode (UNode ULeaf 120355 [98] ULeaf) 120356 [99] ULeaf))) 120357 [100] (UNode (UNode (UNode (UNode ULeaf 120358 [101] ULeaf) 120359 [102] ULeaf) 120360 [103] (UNode (UNode ULeaf 120361 [104] ULeaf) 120362 [105] ULeaf)) 120363 [106] (UNode (UNode (UNode ULeaf 120364 [107] ULeaf) 120365 [108] ULeaf) 120366 [109] (UNode ULeaf 120367 [110] ULeaf)))) 120368 [111] (UNode (UNode (UNode (UNode (UNode ULeaf 120369 [112] ULeaf) 120370 [113] ULeaf) 120371 [114] (UNode (UNode ULeaf 120372 [115] ULeaf) 120373 [116] ULeaf)) 120374 [117] (UNode (UNode (UNode ULeaf 120375 [118] ULeaf) 120376 [119] ULeaf) 120377 [120] (UNode ULeaf 120378 [121] ULeaf))) 120379 [122] (UNode (UNode (UNode (UNode ULeaf 120380 [65] ULeaf) 120381 [66] ULeaf) 120382 [67] (UNode (UNode ULeaf 120383 [68] ULeaf) 120384 [69] ULeaf)) 120385 [70] (UNode (UNode (UNode ULeaf 120386 [71] ULeaf) 120387 [72] ULeaf) 120388 [73] (UNode ULeaf 120389 [74] ULeaf))))))) 120390 [75] (UNode (UNode (UNode (UNode (UNode (UNode (UNode (UNode ULeaf 120391 [76] ULeaf) 120392 [77] ULeaf) 120393 [78] (UNode (UNode ULeaf 120394 [79] ULeaf) 120395 [80] ULeaf)) 120396 [81] (UNode (UNode (UNode ULeaf 120397 [82] ULeaf) 120398 [83] ULeaf) 120399 [84] (UNode (UNode ULeaf 120400 [85] ULeaf) 120401 [86] ULeaf))) 120402 [87] (UNode (UNode (UNode (UNode ULeaf 120403 [88] ULeaf) 120404 [89] ULeaf) 120405 [90] (UNode (UNode ULeaf 120406 [97] ULeaf) 120407 [98] ULeaf)) 120408 [99] (UNode (UNode (UNode ULeaf 120409 [100] ULeaf) 120410 [101] ULeaf) 120411 [102] (UNode ULeaf 120412 [103] ULeaf)))) 120413 [104] (UNode (UNode (UNode (UNode (UNode ULeaf 120414 [105] ULeaf) 120415 [106] ULeaf) 120416 [107] (UNode (UNode ULeaf 120417 [108] ULeaf) 120418 [109] ULeaf)) 120419 [110] (UNode (UNode (UNode ULeaf 120420 [111] ULeaf) 120421 [112] ULeaf) 120422 [113] (UNode (UNode ULeaf 120423 [114] ULeaf) 120424 [115] ULeaf))) 120425 [116] (UNode (UNode (UNode (UNode ULeaf 120426 [117] ULeaf) 120427 [118] ULeaf) 120428 [119] (UNode (UNode ULeaf 120429 [120] ULeaf) 120430 [121] ULeaf)) 120431 [122] (UNode (UNode (UNode ULeaf 120432 [65] ULeaf) 120433 [66] ULeaf) 120434 [67] (UNode ULeaf 120435 [68] ULeaf))))) 120436 [69] (UNode (UNode (UNode (UNode (UNode (UNode ULeaf 120437 [70] ULeaf) 120438 [71] ULeaf) 120439 [72] (UNode (UNode ULeaf 120440 [73] ULeaf) 120441 [74] ULeaf)) 120442 [75] (UNode (UNode (UNode ULeaf 120443 [76] ULeaf) 120444 [77] ULeaf) 120445 [78] (UNode (UNode ULeaf 120446 [79] ULeaf) 120447 [80] ULeaf))) 120448 [81] (UNode (UNode (UNode (UNode ULeaf 120449 [82] ULeaf) 120450 [83] ULeaf) 120451 [84] (UNode (UNode ULeaf 120452 [85] ULeaf) 120453 [86] ULeaf)) 120454 [87] (UNode (UNode (UNode ULeaf 120455 [88] ULeaf) 120456 [89] ULeaf) 120457 [90] (UNode ULeaf 120458 [97] ULeaf)))) 120459 [98] (UNode (UNode (UNode (UNode (UNode ULeaf 120460 [99] ULeaf) 120461 [100] ULeaf) 120462 [101] (UNode (UNode ULeaf 120463 [102] ULeaf) 120464 [103] ULeaf)) 120465 [104] (UNode (UNode (UNode ULeaf 120466 [105] ULeaf) 120467 [106] ULeaf) 120468 [107] (UNode ULeaf 120469 [108] ULeaf))) 120470 [109] (UNode (UNode (UNode (UNode ULeaf 120471 [110] ULeaf) 120472 [111] ULeaf) 120473 [112] (UNode (UNode ULeaf 120474 [113] ULeaf) 120475 [114] ULeaf)) 120476 [115] (UNode (UNode (UNode ULeaf 120477 [116] ULeaf) 120478 [117] ULeaf) 120479 [118] (UNode ULeaf 120480 [119] ULeaf)))))) 120481 [120] (UNode (UNode (UNode (UNode (UNode (UNode (UNode ULeaf 120482 [121] ULeaf) 120483 [122] ULeaf) 120484 [305] (UNode (UNode ULeaf 120485 [567] ULeaf) 120488 [913] ULeaf)) 120489 [914] (UNode (UNode (UNode ULeaf 120490 [915] ULeaf) 120491 [916] ULeaf) 120492 [917] (UNode (UNode ULeaf 120493 [918] ULeaf) 120494 [919] ULeaf))) 120495 [920] (UNode (UNode (UNode (UNode ULeaf 120496 [921] ULeaf) 120497 [922] ULeaf) 120498 [923] (UNode (UNode ULeaf 120499 [924] ULeaf) 120500 [925] ULeaf)) 120501 [926] (UNode (UNode (UNode ULeaf 120502 [927] ULeaf) 120503 [928] ULeaf) 120504 [929] (UNode ULeaf 120505 [920] ULeaf)))) 120506 [931] (UNode (UNode (UNode (UNode (UNode ULeaf 120507 [932] ULeaf) 120508 [933] ULeaf) 120509 [934] (UNode (UNode ULeaf 120510 [935] ULeaf) 120511 [936] ULeaf)) 120512 [937] (UNode (UNode (UNode ULeaf 120513 [8711] ULeaf) 120514 [945] ULeaf) 120515 [946] (UNode ULeaf 120516 [947] ULeaf))) 120517 [948] (UNode (UNode (UNode (UNode ULeaf 120518 [949] ULeaf) 120519 [950] ULeaf) 120520 [951] (UNode (UNode ULeaf 120521 [952] ULeaf) 120522 [953] ULeaf)) 120523 [954] (UNode (UNode (UNode ULeaf 120524 [955] ULeaf) 120525 [956] ULeaf) 120526 [957] (UNode ULeaf 120527 [958] ULeaf))))) 120528 [959] (UNode (UNode (UNode (UNode (UNode (UNode ULeaf 120529 [960] ULeaf) 120530 [961] ULeaf) 120531 [962] (UNode (UNode ULeaf 120532 [963] ULeaf) 120533 [964] ULeaf)) 120534 [965] (UNode (UNode (UNode ULeaf 120535 [966] ULeaf) 120536 [967] ULeaf) 120537 [968] (UNode (UNode ULeaf 120538 [969] ULeaf) 120539 [8706] ULeaf))) 120540 [949] (UNode (UNode (UNode (UNode ULeaf 120541 [952] ULeaf) 120542 [954] ULeaf) 120543 [966] (UNode (UNode ULeaf 120544 [961] ULeaf) 120545 [960] ULeaf)) 120546 [913] (UNode (UNode (UNode ULeaf 120547 [914] ULeaf) 120548 [915] ULeaf) 120549 [916] (UNode ULeaf 120550 [917] ULeaf)))) 120551 [918] (UNode (UNode (UNode (UNode (UNode ULeaf 120552 [919] ULeaf) 120553 [920] ULeaf) 120554 [921] (UNode (UNode ULeaf 120555 [922] ULeaf) 120556 [923] ULeaf)) 120557 [924] (UNode (UNode (UNode ULeaf 120558 [925] ULeaf) 120559 [926] ULeaf) 120560 [927] (UNode ULeaf 120561 [928] ULeaf))) 120562 [929] (UNode (UNode (UNode (UNode ULeaf 120563 [920] ULeaf) 120564 [931] ULeaf) 120565 [932] (UNode (UNode ULeaf 120566 [933] ULeaf) 120567 [934] ULeaf)) 120568 [935] (UNode (UNode (UNode ULeaf 120569 [936] ULeaf) 120570 [937] ULeaf) 120571 [8711] (UNode ULeaf 120572 [945] ULeaf)))))))) 120573 [946] (UNode (UNode (UNode (UNode (UNode (UNode (UNode (UNode (UNode ULeaf 120574 [947] ULeaf) 120575 [948] ULeaf) 120576 [949] (UNode (UNode ULeaf 120577 [950] ULeaf) 120578 [951] ULeaf)) 120579 [952] (UNode (UNode (UNode ULeaf 120580 [953] ULeaf) 120581 [954] ULeaf) 120582 [955] (UNode (UNode ULeaf 120583 [956] ULeaf) 120584 [957] ULeaf))) 120585 [958] (UNode (UNode (UNode (UNode ULeaf 120586 [959] ULeaf) 120587 [960] ULeaf) 120588 [961] (UNode (UNode ULeaf 120589 [962] ULeaf) 120590 [963] ULeaf)) 120591 [964] (UNode (UNode (UNode ULeaf 120592 [965] ULeaf) 120593 [966] ULeaf) 120594 [967] (UNode ULeaf 120595 [968] ULeaf)))) 120596 [969] (UNode (UNode (UNode (UNode (UNode ULeaf 120597 [8706] ULeaf) 120598 [949] ULeaf) 120599 [952] (UNode (UNode ULeaf 120600 [954] ULeaf) 120601 [966] ULeaf)) 120602 [961] (UNode (UNode (UNode ULeaf 120603 [960] ULeaf) 120604 [913] ULeaf) 120605 [914] (UNode (UNode ULeaf 120606 [915] ULeaf) 120607 [916] ULeaf))) 120608 [917] (UNode (UNode (UNode (UNode ULeaf 120609 [918] ULeaf) 120610 [919] ULeaf) 120611 [920] (UNode (UNode ULeaf 120612 [921] ULeaf) 120613 [922] ULeaf)) 120614 [923] (UNode (UNode (UNode ULeaf 120615 [924] ULeaf) 120616 [925] ULeaf) 120617 [926] (UNode ULeaf 120618 [927] ULeaf))))) 120619 [928] (UNode (UNode (UNode (UNode (UNode (UNode ULeaf 120620 [929] ULeaf) 120621 [920] ULeaf) 120622 [931] (UNode (UNode ULeaf 120623 [932] ULeaf) 120624 [933] ULeaf)) 120625 [934] (UNode (UNode (UNode ULeaf 120626 [935] ULeaf) 120627 [936] ULeaf) 120628 [937] (UNode (UNode ULeaf 120629 [8711] ULeaf) 120630 [945] ULeaf))) 120631 [946] (UNode (UNode (UNode (UNode ULeaf 120632 [947] ULeaf) 120633 [948] ULeaf) 120634 [949] (UNode (UNode ULeaf 120635 [950] ULeaf) 120636 [951] ULeaf)) 120637 [952] (UNode (UNode (UNode ULeaf 120638 [953] ULeaf) 120639 [954] ULeaf) 120640 [955] (UNode ULeaf 120641 [956] ULeaf)))) 120642 [957] (UNode (UNode (UNode (UNode (UNode ULeaf 120643 [958] ULeaf) 120644 [959] ULeaf) 120645 [960] (UNode (UNode ULeaf 120646 [961] ULeaf) 120647 [962] ULeaf)) 120648 [963] (UNode (UNode (UNode ULeaf 120649 [964] ULeaf) 120650 [965] ULeaf) 120651 [966] (UNode ULeaf 120652 [967] ULeaf))) 120653 [968] (UNode (UNode (UNode (UNode ULeaf 120654 [969] ULeaf) 120655 [8706] ULeaf) 120656 [949] (UNode (UNode ULeaf 120657 [952] ULeaf) 120658 [954] ULeaf)) 120659 [966] (UNode (UNode (UNode ULeaf 120660 [961] ULeaf) 120661 [960] ULeaf) 120662 [913] (UNode ULeaf 120663 [914] ULeaf)))))) 120664 [915] (UNode (UNode (UNode (UNode (UNode (UNode (UNode ULeaf 120665 [916] ULeaf) 120666 [917] ULeaf) 120667 [918] (UNode (UNode ULeaf 120668 [919] ULeaf) 120669 [920] ULeaf)) 120670 [921] (UNode (UNode (UNode ULeaf 120671 [922] ULeaf) 120672 [923] ULeaf) 120673 [924] (UNode (UNode ULeaf 120674 [925] ULeaf) 120675 [926] ULeaf))) 120676 [927] (UNode (UNode (UNode (UNode ULeaf 120677 [928] ULeaf) 120678 [929] ULeaf) 120679 [920] (UNode (UNode ULeaf 120680 [931] ULeaf) 120681 [932] ULeaf)) 120682 [933] (UNode (UNode (UNode ULeaf 120683 [934] ULeaf) 120684 [935] ULeaf) 120685 [936] (UNode ULeaf 120686 [937] ULeaf)))) 120687 [8711] (UNode (UNode (UNode (UNode (UNode ULeaf 120688 [945] ULeaf) 120689 [946] ULeaf) 120690 [947] (UNode (UNode ULeaf 120691 [948] ULeaf) 120692 [949] ULeaf)) 120693 [950] (UNode (UNode (UNode ULeaf 120694 [951] ULeaf) 120695 [952] ULeaf) 120696 [953] (UNode ULeaf 120697 [954] ULeaf))) 120698 [955] (UNode (UNode (UNode (UNode ULeaf 120699 [956] ULeaf) 120700 [957] ULeaf) 120701 [958] (UNode (UNode ULeaf 120702 [959] ULeaf) 120703 [960] ULeaf)) 120704 [961] (UNode (UNode (UNode ULeaf 120705 [962] ULeaf) 120706 [963] ULeaf) 120707 [964] (UNode ULeaf 120708 [965] ULeaf))))) 120709 [966] (UNode (UNode (UNode (UNode (UNode (UNode ULeaf 120710 [967] ULeaf) 120711 [968] ULeaf) 120712 [969] (UNode (UNode ULeaf 120713 [8706] ULeaf) 120714 [949] ULeaf)) 120715 [952] (UNode (UNode (UNode ULeaf 120716 [954] ULeaf) 120717 [966] ULeaf) 120718 [961] (UNode (UNode ULeaf 120719 [960] ULeaf) 120720 [913] ULeaf))) 120721 [914] (UNode (UNode (UNode (UNode ULeaf 120722 [915] ULeaf) 120723 [916] ULeaf) 120724 [917] (UNode (UNode ULeaf 120725 [918] ULeaf) 120726 [919] ULeaf)) 120727 [920] (UNode (UNode (UNode ULeaf 120728 [921] ULeaf) 120729 [922] ULeaf) 120730 [923] (UNode ULeaf 120731 [924] ULeaf)))) 120732 [925] (UNode (UNode (UNode (UNode (UNode ULeaf 120733 [926] ULeaf) 120734 [927] ULeaf) 120735 [928] (UNode (UNode ULeaf 120736 [929] ULeaf) 120737 [920] ULeaf)) 120738 [931] (UNode (UNode (UNode ULeaf 120739 [932] ULeaf) 120740 [933] ULeaf) 120741 [934] (UNode ULeaf 120742 [935] ULeaf))) 120743 [936] (UNode (UNode (UNode (UNode ULeaf 120744 [937] ULeaf) 120745 [8711] ULeaf) 120746 [945] (UNode (UNode ULeaf 120747 [946] ULeaf) 120748 [947] ULeaf)) 120749 [948] (UNode (UNode (UNode ULeaf 120750 [949] ULeaf) 120751 [950] ULeaf) 120752 [951] (UNode ULeaf 120753 [952] ULeaf))))))) 120754 [953] (UNode (UNode (UNode (UNode (UNode (UNode (UNode (UNode ULeaf 120755 [954] ULeaf) 120756 [955] ULeaf) 120757 [956] (UNode (UNode ULeaf 120758 [957] ULeaf) 120759 [958] ULeaf)) 120760 [959] (UNode (UNode (UNode ULeaf 120761 [960] ULeaf) 120762 [961] ULeaf) 120763 [962] (UNode (UNode ULeaf 120764 [963] ULeaf) 120765 [964] ULeaf))) 120766 [965] (UNode (UNode (UNode (UNode ULeaf 120767 [966] ULeaf) 120768 [967] ULeaf) 120769 [968] (UNode (UNode ULeaf 120770 [969] ULeaf) 120771 [8706] ULeaf)) 120772 [949] (UNode (UNode (UNode ULeaf 120773 [952] ULeaf) 120774 [954] ULeaf) 120775 [966] (UNode ULeaf 120776 [961] ULeaf)))) 120777 [960] (UNode (UNode (UNode (UNode (UNode ULeaf 120778 [988] ULeaf) 120779 [989] ULeaf) 120782 [48] (UNode (UNode ULeaf 120783 [49] ULeaf) 120784 [50] ULeaf)) 120785 [51] (UNode (UNode (UNode ULeaf 120786 [52] ULeaf) 120787 [53] ULeaf) 120788 [54] (UNode (UNode ULeaf 120789 [55] ULeaf) 120790 [56] ULeaf))) 120791 [57] (UNode (UNode (UNode (UNode ULeaf 120792 [48] ULeaf) 120793 [49] ULeaf) 120794 [50] (UNode (UNode ULeaf 120795 [51] ULeaf) 120796 [52] ULeaf)) 120797 [53] (UNode (UNode (UNode ULeaf 120798 [54] ULeaf) 120799 [55] ULeaf) 120800 [56] (UNode ULeaf 120801 [57] ULeaf))))) 120802 [48] (UNode (UNode (UNode (UNode (UNode (UNode ULeaf 120803 [49] ULeaf) 120804 [50] ULeaf) 120805 [51] (UNode (UNode ULeaf 120806 [52] ULeaf) 120807 [53] ULeaf)) 120808 [54] (UNode (UNode (UNode ULeaf 120809 [55] ULeaf) 120810 [56] ULeaf) 120811 [57] (UNode (UNode ULeaf 120812 [48] ULeaf) 120813 [49] ULeaf))) 120814 [50] (UNode (UNode (UNode (UNode ULeaf 120815 [51] ULeaf) 120816 [52] ULeaf) 120817 [53] (UNode (UNode ULeaf 120818 [54] ULeaf) 120819 [55] ULeaf)) 120820 [56] (UNode (UNode (UNode ULeaf 120821 [57] ULeaf) 120822 [48] ULeaf) 120823 [49] (UNode ULeaf 120824 [50] ULeaf)))) 120825 [51] (UNode (UNode (UNode (UNode (UNode ULeaf 120826 [52] ULeaf) 120827 [53] ULeaf) 120828 [54] (UNode (UNode ULeaf 120829 [55] ULeaf) 120830 [56] ULeaf)) 120831 [57] (UNode (UNode (UNode ULeaf 126464 [1575] ULeaf) 126465 [1576] ULeaf) 126466 [1580] (UNode ULeaf 126467 [1583] ULeaf))) 126469 [1608] (UNode (UNode (UNode (UNode ULeaf 126470 [1586] ULeaf) 126471 [1581] ULeaf) 126472 [1591] (UNode (UNode ULeaf 126473 [1610] ULeaf) 126474 [1603] ULeaf)) 126475 [1604] (UNode (UNode (UNode ULeaf 126476 [1605] ULeaf) 126477 [1606] ULeaf) 126478 [1587] (UNode ULeaf 126479 [1593] ULeaf)))))) 126480 [1601] (UNode (UNode (UNode (UNode (UNode (UNode (UNode ULeaf 126481 [1589] ULeaf) 126482 [1602] ULeaf) 126483 [1585] (UNode (UNode ULeaf 126484 [1588] ULeaf) 126485 [1578] ULeaf)) 126486 [1579] (UNode (UNode (UNode ULeaf 126487 [1582] ULeaf) 126488 [1584] ULeaf) 126489 [1590] (UNode (UNode ULeaf 126490 [1592] ULeaf) 126491 [1594] ULeaf))) 126492 [1646] (UNode (UNode (UNode (UNode ULeaf 126493 [1722] ULeaf) 126494 [1697] ULeaf) 126495 [1647] (UNode (UNode ULeaf 126497 [1576] ULeaf) 126498 [1580] ULeaf)) 126500 [1607] (UNode (UNode (UNode ULeaf 126503 [1581] ULeaf) 126505 [1610] ULeaf) 126506 [1603] (UNode ULeaf 126507 [1604] ULeaf)))) 126508 [1605] (UNode (UNode (UNode (UNode (UNode ULeaf 126509 [1606] ULeaf) 126510 [1587] ULeaf) 126511 [1593] (UNode (UNode ULeaf 126512 [1601] ULeaf) 126513 [1589] ULeaf)) 126514 [1602] (UNode (UNode (UNode ULeaf 126516 [1588] ULeaf) 126517 [1578] ULeaf) 126518 [1579] (UNode ULeaf 126519 [1582] ULeaf))) 126521 [1590] (UNode (UNode (UNode (UNode ULeaf 126523 [1594] ULeaf) 126530 [1580] ULeaf) 126535 [1581] (UNode (UNode ULeaf 126537 [1610] ULeaf) 126539 [1604] ULeaf)) 126541 [1606] (UNode (UNode (UNode ULeaf 126542 [1587] ULeaf) 126543 [1593] ULeaf) 126545 [1589] (UNode ULeaf 126546 [1602] ULeaf))))) 126548 [1588] (UNode (UNode (UNode (UNode (UNode (UNode ULeaf 126551 [1582] ULeaf) 126553 [1590] ULeaf) 126555 [1594] (UNode (UNode ULeaf 126557 [1722] ULeaf) 126559 [1647] ULeaf)) 126561 [1576] (UNode (UNode (UNode ULeaf 126562 [1580] ULeaf) 126564 [1607] ULeaf) 126567 [1581] (UNode (UNode ULeaf 126568 [1591] ULeaf) 126569 [1610] ULeaf))) 126570 [1603] (UNode (UNode (UNode (UNode ULeaf 126572 [1605] ULeaf) 126573 [1606] ULeaf) 126574 [1587] (UNode (UNode ULeaf 126575 [1593] ULeaf) 126576 [1601] ULeaf)) 126577 [1589] (UNode (UNode (UNode ULeaf 126578 [1602] ULeaf) 126580 [1588] ULeaf) 126581 [1578] (UNode ULeaf 126582 [1579] ULeaf)))) 126583 [1582] (UNode (UNode (UNode (UNode (UNode ULeaf 126585 [1590] ULeaf) 126586 [1592] ULeaf) 126587 [1594] (UNode (UNode ULeaf 126588 [1646] ULeaf) 126590 [1697] ULeaf)) 126592 [1575] (UNode (UNode (UNode ULeaf 126593 [1576] ULeaf) 126594 [1580] ULeaf) 126595 [1583] (UNode ULeaf 126596 [1607] ULeaf))) 126597 [1608] (UNode (UNode (UNode (UNode ULeaf 126598 [1586] ULeaf) 126599 [1581] ULeaf) 126600 [1591] (UNode (UNode ULeaf 126601 [1610] ULeaf) 126603 [1604] ULeaf)) 126604 [1605] (UNode (UNode (UNode ULeaf 126605 [1606] ULeaf) 126606 [1587] ULeaf) 126607 [1593] (UNode ULeaf 126608 [1601] ULeaf))))))))) 126609 [1589] (UNode (UNode (UNode (UNode (UNode (UNode (UNode (UNode (UNode (UNode ULeaf 126610 [1602] ULeaf) 126611 [1585] ULeaf) 126612 [1588] (UNode (UNode ULeaf 126613 [1578] ULeaf) 126614 [1579] ULeaf)) 126615 [1582] (UNode (UNode (UNode ULeaf 126616 [1584] ULeaf) 126617 [1590] ULeaf) 126618 [1592] (UNode (UNode ULeaf 126619 [1594] ULeaf) 126625 [1576] ULeaf))) 126626 [1580] (UNode (UNode (UNode (UNode ULeaf 126627 [1583] ULeaf) 126629 [1608] ULeaf) 126630 [1586] (UNode (UNode ULeaf 126631 [1581] ULeaf) 126632 [1591] ULeaf)) 126633 [1610] (UNode (UNode (UNode ULeaf 126635 [1604] ULeaf) 126636 [1605] ULeaf) 126637 [1606] (UNode ULeaf 126638 [1587] ULeaf)))) 126639 [1593] (UNode (UNode (UNode (UNode (UNode ULeaf 126640 [1601] ULeaf) 126641 [1589] ULeaf) 126642 [1602] (UNode (UNode ULeaf 126643 [1585] ULeaf) 126644 [1588] ULeaf)) 126645 [1578] (UNode (UNode (UNode ULeaf 126646 [1579] ULeaf) 126647 [1582] ULeaf) 126648 [1584] (UNode (UNode ULeaf 126649 [1590] ULeaf) 126650 [1592] ULeaf))) 126651 [1594] (UNode (UNode (UNode (UNode ULeaf 127232 [48; 46] ULeaf) 127233 [48; 44] ULeaf) 127234 [49; 44] (UNode (UNode ULeaf 127235 [50; 44] ULeaf) 127236 [51; 44] ULeaf)) 127237 [52; 44] (UNode (UNode (UNode ULeaf 127238 [53; 44] ULeaf) 127239 [54; 44] ULeaf) 127240 [55; 44] (UNode ULeaf 127241 [56; 44] ULeaf))))) 127242 [57; 44] (UNode (UNode (UNode (UNode (UNode (UNode ULeaf 127248 [40; 65; 41] ULeaf) 127249 [40; 66; 41] ULeaf) 127250 [40; 67; 41] (UNode (UNode ULeaf 127251 [40; 68; 41] ULeaf) 127252 [40; 69; 41] ULeaf)) 127253 [40; 70; 41] (UNode (UNode (UNode ULeaf 127254 [40; 71; 41] ULeaf) 127255 [40; 72; 41] ULeaf) 127256 [40; 73; 41] (UNode (UNode ULeaf 127257 [40; 74; 41] ULeaf) 127258 [40; 75; 41] ULeaf))) 127259 [40; 76; 41] (UNode (UNode (UNode (UNode ULeaf 127260 [40; 77; 41] ULeaf) 127261 [40; 78; 41] ULeaf) 127262 [40; 79; 41] (UNode (UNode ULeaf 127263 [40; 80; 41] ULeaf) 127264 [40; 81; 41] ULeaf)) 127265 [40; 82; 41] (UNode (UNode (UNode ULeaf 127266 [40; 83; 41] ULeaf) 127267 [40; 84; 41] ULeaf) 127268 [40; 85; 41] (UNode ULeaf 127269 [40; 86; 41] ULeaf)))) 127270 [40; 87; 41] (UNode (UNode (UNode (UNode (UNode ULeaf 127271 [40; 88; 41] ULeaf) 127272 [40; 89; 41] ULeaf) 127273 [40; 90; 41] (UNode (UNode ULeaf 127274 [12308; 83; 12309] ULeaf) 127275 [67] ULeaf)) 127276 [82] (UNode (UNode (UNode ULeaf 127277 [67; 68] ULeaf) 127278 [87; 90] ULeaf) 127280 [65] (UNode ULeaf 127281 [66] ULeaf))) 127282 [67] (UNode (UNode (UNode (UNode ULeaf 127283 [68] ULeaf) 127284 [69] ULeaf) 127285 [70] (UNode (UNode ULeaf 127286 [71] ULeaf) 127287 [72] ULeaf)) 127288 [73] (UNode (UNode (UNode ULeaf 127289 [74] ULeaf) 127290 [75] ULeaf) 127291 [76] (UNode ULeaf 127292 [77] ULeaf)))))) 127293 [78] (UNode (UNode (UNode (UNode (UNode (UNode (UNode ULeaf 127294 [79] ULeaf) 127295 [80] ULeaf) 127296 [81] (UNode (UNode ULeaf 127297 [82] ULeaf) 127298 [83] ULeaf)) 127299 [84] (UNode (UNode (UNode ULeaf 127300 [85] ULeaf) 127301 [86] ULeaf) 127302 [87] (UNode (UNode ULeaf 127303 [88] ULeaf) 127304 [89] ULeaf))) 127305 [90] (UNode (UNode (UNode (UNode ULeaf 127306 [72; 86] ULeaf) 127307 [77; 86] ULeaf) 127308 [83; 68] (UNode (UNode ULeaf 127309 [83; 83] ULeaf) 127310 [80; 80; 86] ULeaf)) 127311 [87; 67] (UNode (UNode (UNode ULeaf 127338 [77; 67] ULeaf) 127339 [77; 68] ULeaf) 127340 [77; 82] (UNode ULeaf 127376 [68; 74] ULeaf)))) 127488 [12411; 12363] (UNode (UNode (UNode (UNode (UNode ULeaf 127489 [12467; 12467] ULeaf) 127490 [12469] ULeaf) 127504 [25163] (UNode (UNode ULeaf 127505 [23383] ULeaf) 127506 [21452] ULeaf)) 127507 [12486; 12441] (UNode (UNode (UNode ULeaf 127508 [20108] ULeaf) 127509 [22810] ULeaf) 127510 [35299] (UNode ULeaf 127511 [22825] ULeaf))) 127512 [20132] (UNode (UNode (UNode (UNode ULeaf 127513 [26144] ULeaf) 127514 [28961] ULeaf) 127515 [26009] (UNode (UNode ULeaf 127516 [21069] ULeaf) 127517 [24460] ULeaf)) 127518 [20877] (UNode (UNode (UNode ULeaf 127519 [26032] ULeaf) 127520 [21021] ULeaf) 127521 [32066] (UNode ULeaf 127522 [29983] ULeaf))))) 127523 [36009] (UNode (UNode (UNode (UNode (UNode (UNode ULeaf 127524 [22768] ULeaf) 127525 [21561] ULeaf) 127526 [28436] (UNode (UNode ULeaf 127527 [25237] ULeaf) 127528 [25429] ULeaf)) 127529 [19968] (UNode (UNode (UNode ULeaf 127530 [19977] ULeaf) 127531 [36938] ULeaf) 127532 [24038] (UNode (UNode ULeaf 127533 [20013] ULeaf) 127534 [21491] ULeaf))) 127535 [25351] (UNode (UNode (UNode (UNode ULeaf 127536 [36208] ULeaf) 127537 [25171] ULeaf) 127538 [31105] (UNode (UNode ULeaf 127539 [31354] ULeaf) 127540 [21512] ULeaf)) 127541 [28288] (UNode (UNode (UNode ULeaf 127542 [26377] ULeaf) 127543 [26376] ULeaf) 127544 [30003] (UNode ULeaf 127545 [21106] ULeaf)))) 127546 [21942] (UNode (UNode (UNode (UNode (UNode ULeaf 127547 [37197] ULeaf) 127552 [12308; 26412; 12309] ULeaf) 127553 [12308; 19977; 12309] (UNode (UNode ULeaf 127554 [12308; 20108; 12309] ULeaf) 127555 [12308; 23433; 12309] ULeaf)) 127556 [12308; 28857; 12309] (UNode (UNode (UNode ULeaf 127557 [12308; 25171; 12309] ULeaf) 127558 [12308; 30423; 12309] ULeaf) 127559 [12308; 21213; 12309] (UNode ULeaf 127560 [12308; 25943; 12309] ULeaf))) 127568 [24471] (UNode (UNode (UNode (UNode ULeaf 127569 [21487] ULeaf) 130032 [48] ULeaf) 130033 [49] (UNode (UNode ULeaf 130034 [50] ULeaf) 130035 [51] ULeaf)) 130036 [52] (UNode (UNode (UNode ULeaf 130037 [53] ULeaf) 130038 [54] ULeaf) 130039 [55] (UNode ULeaf 130040 [56] ULeaf))))))) 130041 [57] (UNode (UNode (UNode (UNode (UNode (UNode (UNode (UNode ULeaf 194560 [20029] ULeaf) 194561 [20024] ULeaf) 194562 [20033] (UNode (UNode ULeaf 194563 [131362] ULeaf) 194564 [20320] ULeaf)) 194565 [20398] (UNode (UNode (UNode ULeaf 194566 [20411] ULeaf) 194567 [20482] ULeaf) 194568 [20602] (UNode (UNode ULeaf 194569 [20633] ULeaf) 194570 [20711] ULeaf))) 194571 [20687] (UNode (UNode (UNode (UNode ULeaf 194572 [13470] ULeaf) 194573 [132666] ULeaf) 194574 [20813] (UNode (UNode ULeaf 194575 [20820] ULeaf) 194576 [20836] ULeaf)) 194577 [20855] (UNode (UNode (UNode ULeaf 194578 [132380] ULeaf) 194579 [13497] ULeaf) 194580 [20839] (UNode ULeaf 194581 [20877] ULeaf)))) 194582 [132427] (UNode (UNode (UNode (UNode (UNode ULeaf 194583 [20887] ULeaf) 194584 [20900] ULeaf) 194585 [20172] (UNode (UNode ULeaf 194586 [20908] ULeaf) 194587 [20917] ULeaf)) 194588 [168415] (UNode (UNode (UNode ULeaf 194589 [20981] ULeaf) 194590 [20995] ULeaf) 194591 [13535] (UNode (UNode ULeaf 194592 [21051] ULeaf) 194593 [21062] ULeaf))) 194594 [21106] (UNode (UNode (UNode (UNode ULeaf 194595 [21111] ULeaf) 194596 [13589] ULeaf) 194597 [21191] (UNode (UNode ULeaf 194598 [21193] ULeaf) 194599 [21220] ULeaf)) 194600 [21242] (UNode (UNode (UNode ULeaf 194601 [21253] ULeaf) 194602 [21254] ULeaf) 194603 [21271] (UNode ULeaf 194604 [21321] ULeaf))))) 194605 [21329] (UNode (UNode (UNode (UNode (UNode (UNode ULeaf 194606 [21338] ULeaf) 194607 [21363] ULeaf) 194608 [21373] (UNode (UNode ULeaf 194609 [21375] ULeaf) 194610 [21375] ULeaf)) 194611 [21375] (UNode (UNode (UNode ULeaf 194612 [133676] ULeaf) 194613 [28784] ULeaf) 194614 [21450] (UNode (UNode ULeaf 194615 [21471] ULeaf) 194616 [133987] ULeaf))) 194617 [21483] (UNode (UNode (UNode (UNode ULeaf 194618 [21489] ULeaf) 194619 [21510] ULeaf) 194620 [21662] (UNode (UNode ULeaf 194621 [21560] ULeaf) 194622 [21576] ULeaf)) 194623 [21608] (UNode (UNode (UNode ULeaf 194624 [21666] ULeaf) 194625 [21750] ULeaf) 194626 [21776] (UNode ULeaf 194627 [21843] ULeaf)))) 194628 [21859] (UNode (UNode (UNode (UNode (UNode ULeaf 194629 [21892] ULeaf) 194630 [21892] ULeaf) 194631 [21913] (UNode (UNode ULeaf 194632 [21931] ULeaf) 194633 [21939] ULeaf)) 194634 [21954] (UNode (UNode (UNode ULeaf 194635 [22294] ULeaf) 194636 [22022] ULeaf) 194637 [22295] (UNode ULeaf 194638 [22097] ULeaf))) 194639 [22132] (UNode (UNode (UNode (UNode ULeaf 194640 [20999] ULeaf) 194641 [22766] ULeaf) 194642 [22478] (UNode (UNode ULeaf 194643 [22516] ULeaf) 194644 [22541] ULeaf)) 194645 [22411] (UNode (UNode (UNode ULeaf 194646 [22578] ULeaf) 194647 [22577] ULeaf) 194648 [22700] (UNode ULeaf 194649 [136420] ULeaf)))))) 194650 [22770] (UNode (UNode (UNode (UNode (UNode (UNode (UNode ULeaf 194651 [22775] ULeaf) 194652 [22790] ULeaf) 194653 [22810] (UNode (UNode ULeaf 194654 [22818] ULeaf) 194655 [22882] ULeaf)) 194656 [136872] (UNode (UNode (UNode ULeaf 194657 [136938] ULeaf) 194658 [23020] ULeaf) 194659 [23067] (UNode (UNode ULeaf 194660 [23079] ULeaf) 194661 [23000] ULeaf))) 194662 [23142] (UNode (UNode (UNode (UNode ULeaf 194663 [14062] ULeaf) 194664 [14076] ULeaf) 194665 [23304] (UNode (UNode ULeaf 194666 [23358] ULeaf) 194667 [23358] ULeaf)) 194668 [137672] (UNode (UNode (UNode ULeaf 194669 [23491] ULeaf) 194670 [23512] ULeaf) 194671 [23527] (UNode ULeaf 194672 [23539] ULeaf)))) 194673 [138008] (UNode (UNode (UNode (UNode (UNode ULeaf 194674 [23551] ULeaf) 194675 [23558] ULeaf) 194676 [24403] (UNode (UNode ULeaf 194677 [23586] ULeaf) 194678 [14209] ULeaf)) 194679 [23648] (UNode (UNode (UNode ULeaf 194680 [23662] ULeaf) 194681 [23744] ULeaf) 194682 [23693] (UNode ULeaf 194683 [138724] ULeaf))) 194684 [23875] (UNode (UNode (UNode (UNode ULeaf 194685 [138726] ULeaf) 194686 [23918] ULeaf) 194687 [23915] (UNode (UNode ULeaf 194688 [23932] ULeaf) 194689 [24033] ULeaf)) 194690 [24034] (UNode (UNode (UNode ULeaf 194691 [14383] ULeaf) 194692 [24061] ULeaf) 194693 [24104] (UNode ULeaf 194694 [24125] ULeaf))))) 194695 [24169] (UNode (UNode (UNode (UNode (UNode (UNode ULeaf 194696 [14434] ULeaf) 194697 [139651] ULeaf) 194698 [14460] (UNode (UNode ULeaf 194699 [24240] ULeaf) 194700 [24243] ULeaf)) 194701 [24246] (UNode (UNode (UNode ULeaf 194702 [24266] ULeaf) 194703 [172946] ULeaf) 194704 [24318] (UNode (UNode ULeaf 194705 [140081] ULeaf) 194706 [140081] ULeaf))) 194707 [33281] (UNode (UNode (UNode (UNode ULeaf 194708 [24354] ULeaf) 194709 [24354] ULeaf) 194710 [14535] (UNode (UNode ULeaf 194711 [144056] ULeaf) 194712 [156122] ULeaf)) 194713 [24418] (UNode (UNode (UNode ULeaf 194714 [24427] ULeaf) 194715 [14563] ULeaf) 194716 [24474] (UNode ULeaf 194717 [24525] ULeaf)))) 194718 [24535] (UNode (UNode (UNode (UNode (UNode ULeaf 194719 [24569] ULeaf) 194720 [24705] ULeaf) 194721 [14650] (UNode (UNode ULeaf 194722 [14620] ULeaf) 194723 [24724] ULeaf)) 194724 [141012] (UNode (UNode (UNode ULeaf 194725 [24775] ULeaf) 194726 [24904] ULeaf) 194727 [24908] (UNode ULeaf 194728 [24910] ULeaf))) 194729 [24908] (UNode (UNode (UNode (UNode ULeaf 194730 [24954] ULeaf) 194731 [24974] ULeaf) 194732 [25010] (UNode (UNode ULeaf 194733 [24996] ULeaf) 194734 [25007] ULeaf)) 194735 [25054] (UNode (UNode (UNode ULeaf 194736 [25074] ULeaf) 194737 [25078] ULeaf) 194738 [25104] (UNode ULeaf 194739 [25115] ULeaf)))))))) 194740 [25181] (UNode (UNode (UNode (UNode (UNode (UNode (UNode (UNode (UNode ULeaf 194741 [25265] ULeaf) 194742 [25300] ULeaf) 194743 [25424] (UNode (UNode ULeaf 194744 [142092] ULeaf) 194745 [25405] ULeaf)) 194746 [25340] (UNode (UNode (UNode ULeaf 194747 [25448] ULeaf) 194748 [25475] ULeaf) 194749 [25572] (UNode (UNode ULeaf 194750 [142321] ULeaf) 194751 [25634] ULeaf))) 194752 [25541] (UNode (UNode (UNode (UNode ULeaf 194753 [25513] ULeaf) 194754 [14894] ULeaf) 194755 [25705] (UNode (UNode ULeaf 194756 [25726] ULeaf) 194757 [25757] ULeaf)) 194758 [25719] (UNode (UNode (UNode ULeaf 194759 [14956] ULeaf) 194760 [25935] ULeaf) 194761 [25964] (UNode ULeaf 194762 [143370] ULeaf)))) 194763 [26083] (UNode (UNode (UNode (UNode (UNode ULeaf 194764 [26360] ULeaf) 194765 [26185] ULeaf) 194766 [15129] (UNode (UNode ULeaf 194767 [26257] ULeaf) 194768 [15112] ULeaf)) 194769 [15076] (UNode (UNode (UNode ULeaf 194770 [20882] ULeaf) 194771 [20885] ULeaf) 194772 [26368] (UNode (UNode ULeaf 194773 [26268] ULeaf) 194774 [32941] ULeaf))) 194775 [17369] (UNode (UNode (UNode (UNode ULeaf 194776 [26391] ULeaf) 194777 [26395] ULeaf) 194778 [26401] (UNode (UNode ULeaf 194779 [26462] ULeaf) 194780 [26451] ULeaf)) 194781 [144323] (UNode (UNode (UNode ULeaf 194782 [15177] ULeaf) 194783 [26618] ULeaf) 194784 [26501] (UNode ULeaf 194785 [26706] ULeaf))))) 194786 [26757] (UNode (UNode (UNode (UNode (UNode (UNode ULeaf 194787 [144493] ULeaf) 194788 [26766] ULeaf) 194789 [26655] (UNode (UNode ULeaf 194790 [26900] ULeaf) 194791 [15261] ULeaf)) 194792 [26946] (UNode (UNode (UNode ULeaf 194793 [27043] ULeaf) 194794 [27114] ULeaf) 194795 [27304] (UNode (UNode ULeaf 194796 [145059] ULeaf) 194797 [27355] ULeaf))) 194798 [15384] (UNode (UNode (UNode (UNode ULeaf 194799 [27425] ULeaf) 194800 [145575] ULeaf) 194801 [27476] (UNode (UNode ULeaf 194802 [15438] ULeaf) 194803 [27506] ULeaf)) 194804 [27551] (UNode (UNode (UNode ULeaf 194805 [27578] ULeaf) 194806 [27579] ULeaf) 194807 [146061] (UNode ULeaf 194808 [138507] ULeaf)))) 194809 [146170] (UNode (UNode (UNode (UNode (UNode ULeaf 194810 [27726] ULeaf) 194811 [146620] ULeaf) 194812 [27839] (UNode (UNode ULeaf 194813 [27853] ULeaf) 194814 [27751] ULeaf)) 194815 [27926] (UNode (UNode (UNode ULeaf 194816 [27966] ULeaf) 194817 [28023] ULeaf) 194818 [27969] (UNode ULeaf 194819 [28009] ULeaf))) 194820 [28024] (UNode (UNode (UNode (UNode ULeaf 194821 [28037] ULeaf) 194822 [146718] ULeaf) 194823 [27956] (UNode (UNode ULeaf 194824 [28207] ULeaf) 194825 [28270] ULeaf)) 194826 [15667] (UNode (UNode (UNode ULeaf 194827 [28363] ULeaf) 194828 [28359] ULeaf) 194829 [147153] (UNode ULeaf 194830 [28153] ULeaf)))))) 194831 [28526] (UNode (UNode (UNode (UNode (UNode (UNode (UNode ULeaf 194832 [147294] ULeaf) 194833 [147342] ULeaf) 194834 [28614] (UNode (UNode ULeaf 194835 [28729] ULeaf) 194836 [28702] ULeaf)) 194837 [28699] (UNode (UNode (UNode ULeaf 194838 [15766] ULeaf) 194839 [28746] ULeaf) 194840 [28797] (UNode (UNode ULeaf 194841 [28791] ULeaf) 194842 [28845] ULeaf))) 194843 [132389] (UNode (UNode (UNode (UNode ULeaf 194844 [28997] ULeaf) 194845 [148067] ULeaf) 194846 [29084] (UNode (UNode ULeaf 194847 [148395] ULeaf) 194848 [29224] ULeaf)) 194849 [29237] (UNode (UNode (UNode ULeaf 194850 [29264] ULeaf) 194851 [149000] ULeaf) 194852 [29312] (UNode ULeaf 194853 [29333] ULeaf)))) 194854 [149301] (UNode (UNode (UNode (UNode (UNode ULeaf 194855 [149524] ULeaf) 194856 [29562] ULeaf) 194857 [29579] (UNode (UNode ULeaf 194858 [16044] ULeaf) 194859 [29605] ULeaf)) 194860 [16056] (UNode (UNode (UNode ULeaf 194861 [16056] ULeaf) 194862 [29767] ULeaf) 194863 [29788] (UNode ULeaf 194864 [29809] ULeaf))) 194865 [29829] (UNode (UNode (UNode (UNode ULeaf 194866 [29898] ULeaf) 194867 [16155] ULeaf) 194868 [29988] (UNode (UNode ULeaf 194869 [150582] ULeaf) 194870 [30014] ULeaf)) 194871 [150674] (UNode (UNode (UNode ULeaf 194872 [30064] ULeaf) 194873 [139679] ULeaf) 194874 [30224] (UNode ULeaf 194875 [151457] ULeaf))))) 194876 [151480] (UNode (UNode (UNode (UNode (UNode (UNode ULeaf 194877 [151620] ULeaf) 194878 [16380] ULeaf) 194879 [16392] (UNode (UNode ULeaf 194880 [30452] ULeaf) 194881 [151795] ULeaf)) 194882 [151794] (UNode (UNode (UNode ULeaf 194883 [151833] ULeaf) 194884 [151859] ULeaf) 194885 [30494] (UNode (UNode ULeaf 194886 [30495] ULeaf) 194887 [30495] ULeaf))) 194888 [30538] (UNode (UNode (UNode (UNode ULeaf 194889 [16441] ULeaf) 194890 [30603] ULeaf) 194891 [16454] (UNode (UNode ULeaf 194892 [16534] ULeaf) 194893 [152605] ULeaf)) 194894 [30798] (UNode (UNode (UNode ULeaf 194895 [30860] ULeaf) 194896 [30924] ULeaf) 194897 [16611] (UNode ULeaf 194898 [153126] ULeaf)))) 194899 [31062] (UNode (UNode (UNode (UNode (UNode ULeaf 194900 [153242] ULeaf) 194901 [153285] ULeaf) 194902 [31119] (UNode (UNode ULeaf 194903 [31211] ULeaf) 194904 [16687] ULeaf)) 194905 [31296] (UNode (UNode (UNode ULeaf 194906 [31306] ULeaf) 194907 [31311] ULeaf) 194908 [153980] (UNode ULeaf 194909 [154279] ULeaf))) 194910 [154279] (UNode (UNode (UNode (UNode ULeaf 194911 [31470] ULeaf) 194912 [16898] ULeaf) 194913 [154539] (UNode (UNode ULeaf 194914 [31686] ULeaf) 194915 [31689] ULeaf)) 194916 [16935] (UNode (UNode (UNode ULeaf 194917 [154752] ULeaf) 194918 [31954] ULeaf) 194919 [17056] (UNode ULeaf 194920 [31976] ULeaf))))))) 194921 [31971] (UNode (UNode (UNode (UNode (UNode (UNode (UNode (UNode ULeaf 194922 [32000] ULeaf) 194923 [155526] ULeaf) 194924 [32099] (UNode (UNode ULeaf 194925 [17153] ULeaf) 194926 [32199] ULeaf)) 194927 [32258] (UNode (UNode (UNode ULeaf 194928 [32325] ULeaf) 194929 [17204] ULeaf) 194930 [156200] (UNode (UNode ULeaf 194931 [156231] ULeaf) 194932 [17241] ULeaf))) 194933 [156377] (UNode (UNode (UNode (UNode ULeaf 194934 [32634] ULeaf) 194935 [156478] ULeaf) 194936 [32661] (UNode (UNode ULeaf 194937 [32762] ULeaf) 194938 [32773] ULeaf)) 194939 [156890] (UNode (UNode (UNode ULeaf 194940 [156963] ULeaf) 194941 [32864] ULeaf) 194942 [157096] (UNode ULeaf 194943 [32880] ULeaf)))) 194944 [144223] (UNode (UNode (UNode (UNode (UNode ULeaf 194945 [17365] ULeaf) 194946 [32946] ULeaf) 194947 [33027] (UNode (UNode ULeaf 194948 [17419] ULeaf) 194949 [33086] ULeaf)) 194950 [23221] (UNode (UNode (UNode ULeaf 194951 [157607] ULeaf) 194952 [157621] ULeaf) 194953 [144275] (UNode (UNode ULeaf 194954 [144284] ULeaf) 194955 [33281] ULeaf))) 194956 [33284] (UNode (UNode (UNode (UNode ULeaf 194957 [36766] ULeaf) 194958 [17515] ULeaf) 194959 [33425] (UNode (UNode ULeaf 194960 [33419] ULeaf) 194961 [33437] ULeaf)) 194962 [21171] (UNode (UNode (UNode ULeaf 194963 [33457] ULeaf) 194964 [33459] ULeaf) 194965 [33469] (UNode ULeaf 194966 [33510] ULeaf))))) 194967 [158524] (UNode (UNode (UNode (UNode (UNode (UNode ULeaf 194968 [33509] ULeaf) 194969 [33565] ULeaf) 194970 [33635] (UNode (UNode ULeaf 194971 [33709] ULeaf) 194972 [33571] ULeaf)) 194973 [33725] (UNode (UNode (UNode ULeaf 194974 [33767] ULeaf) 194975 [33879] ULeaf) 194976 [33619] (UNode (UNode ULeaf 194977 [33738] ULeaf) 194978 [33740] ULeaf))) 194979 [33756] (UNode (UNode (UNode (UNode ULeaf 194980 [158774] ULeaf) 194981 [159083] ULeaf) 194982 [158933] (UNode (UNode ULeaf 194983 [17707] ULeaf) 194984 [34033] ULeaf)) 194985 [34035] (UNode (UNode (UNode ULeaf 194986 [34070] ULeaf) 194987 [160714] ULeaf) 194988 [34148] (UNode ULeaf 194989 [159532] ULeaf)))) 194990 [17757] (UNode (UNode (UNode (UNode (UNode ULeaf 194991 [17761] ULeaf) 194992 [159665] ULeaf) 194993 [159954] (UNode (UNode ULeaf 194994 [17771] ULeaf) 194995 [34384] ULeaf)) 194996 [34396] (UNode (UNode (UNode ULeaf 194997 [34407] ULeaf) 194998 [34409] ULeaf) 194999 [34473] (UNode ULeaf 195000 [34440] ULeaf))) 195001 [34574] (UNode (UNode (UNode (UNode ULeaf 195002 [34530] ULeaf) 195003 [34681] ULeaf) 195004 [34600] (UNode (UNode ULeaf 195005 [34667] ULeaf) 195006 [34694] ULeaf)) 195007 [17879] (UNode (UNode (UNode ULeaf 195008 [34785] ULeaf) 195009 [34817] ULeaf) 195010 [17913] (UNode ULeaf 195011 [34912] ULeaf)))))) 195012 [34915] (UNode (UNode (UNode (UNode (UNode (UNode (UNode ULeaf 195013 [161383] ULeaf) 195014 [35031] ULeaf) 195015 [35038] (UNode (UNode ULeaf 195016 [17973] ULeaf) 195017 [35066] ULeaf)) 195018 [13499] (UNode (UNode (UNode ULeaf 195019 [161966] ULeaf) 195020 [162150] ULeaf) 195021 [18110] (UNode (UNode ULeaf 195022 [18119] ULeaf) 195023 [35488] ULeaf))) 195024 [35565] (UNode (UNode (UNode (UNode ULeaf 195025 [35722] ULeaf) 195026 [35925] ULeaf) 195027 [162984] (UNode (UNode ULeaf 195028 [36011] ULeaf) 195029 [36033] ULeaf)) 195030 [36123] (UNode (UNode (UNode ULeaf 195031 [36215] ULeaf) 195032 [163631] ULeaf) 195033 [133124] (UNode ULeaf 195034 [36299] ULeaf)))) 195035 [36284] (UNode (UNode (UNode (UNode (UNode ULeaf 195036 [36336] ULeaf) 195037 [133342] ULeaf) 195038 [36564] (UNode (UNode ULeaf 195039 [36664] ULeaf) 195040 [165330] ULeaf)) 195041 [165357] (UNode (UNode (UNode ULeaf 195042 [37012] ULeaf) 195043 [37105] ULeaf) 195044 [37137] (UNode ULeaf 195045 [165678] ULeaf))) 195046 [37147] (UNode (UNode (UNode (UNode ULeaf 195047 [37432] ULeaf) 195048 [37591] ULeaf) 195049 [37592] (UNode (UNode ULeaf 195050 [37500] ULeaf) 195051 [37881] ULeaf)) 195052 [37909] (UNode (UNode (UNode ULeaf 195053 [166906] ULeaf) 195054 [38283] ULeaf) 195055 [18837] (UNode ULeaf 195056 [38327] ULeaf))))) 195057 [167287] (UNode (UNode (UNode (UNode (UNode (UNode ULeaf 195058 [18918] ULeaf) 195059 [38595] ULeaf) 195060 [23986] (UNode (UNode ULeaf 195061 [38691] ULeaf) 195062 [168261] ULeaf)) 195063 [168474] (UNode (UNode (UNode ULeaf 195064 [19054] ULeaf) 195065 [19062] ULeaf) 195066 [38880] (UNode (UNode ULeaf 195067 [168970] ULeaf) 195068 [19122] ULeaf))) 195069 [169110] (UNode (UNode (UNode (UNode ULeaf 195070 [38923] ULeaf) 195071 [38923] ULeaf) 195072 [38953] (UNode (UNode ULeaf 195073 [169398] ULeaf) 195074 [39138] ULeaf)) 195075 [19251] (UNode (UNode (UNode ULeaf 195076 [39209] ULeaf) 195077 [39335] ULeaf) 195078 [39362] (UNode ULeaf 195079 [39422] ULeaf)))) 195080 [19406] (UNode (UNode (UNode (UNode (UNode ULeaf 195081 [170800] ULeaf) 195082 [39698] ULeaf) 195083 [40000] (UNode (UNode ULeaf 195084 [40189] ULeaf) 195085 [19662] ULeaf)) 195086 [19693] (UNode (UNode (UNode ULeaf 195087 [40295] ULeaf) 195088 [172238] ULeaf) 195089 [19704] (UNode ULeaf 195090 [172293] ULeaf))) 195091 [172558] (UNode (UNode (UNode (UNode ULeaf 195092 [172689] ULeaf) 195093 [40635] ULeaf) 195094 [19798] (UNode (UNode ULeaf 195095 [40697] ULeaf) 195096 [40702] ULeaf)) 195097 [40709] (UNode (UNode (UNode ULeaf 195098 [40719] ULeaf) 195099 [40726] ULeaf) 195100 [40763] (UNode ULeaf 195101 [173568] ULeaf)))))))))))).

(** The non-zero [Canonical_Combining_Class] values. *)
Definition cccTable : UTree Z :=
  (UNode (UNode (UNode (UNode (UNode (UNode (UNode (UNode (UNode (UNode ULeaf 768 230 ULeaf) 769 230 (UNode ULeaf 770 230 ULeaf)) 771 230 (UNode (UNode ULeaf 772 230 ULeaf) 773 230 (UNode ULeaf 774 230 ULeaf))) 775 230 (UNode (UNode (UNode ULeaf 776 230 ULeaf) 777 230 (UNode ULeaf 778 230 ULeaf)) 779 230 (UNode (UNode ULeaf 780 230 ULeaf) 781 230 ULeaf))) 782 230 (UNode (UNode (UNode (UNode ULeaf 783 230 ULeaf) 784 230 (UNode ULeaf 785 230 ULeaf)) 786 230 (UNode (UNode ULeaf 787 230 ULeaf) 788 230 ULeaf)) 789 232 (UNode (UNode (UNode ULeaf 790 220 ULeaf) 791 220 (UNode ULeaf 792 220 ULeaf)) 793 220 (UNode (UNode ULeaf 794 232 ULeaf) 795 216 ULeaf)))) 796 220 (UNode (UNode (UNode (UNode (UNode ULeaf 797 220 ULeaf) 798 220 (UNode ULeaf 799 220 ULeaf)) 800 220 (UNode (UNode ULeaf 801 202 ULeaf) 802 202 (UNode ULeaf 803 220 ULeaf))) 804 220 (UNode (UNode (UNode ULeaf 805 220 ULeaf) 806 220 (UNode ULeaf 807 202 ULeaf)) 808 202 (UNode (UNode ULeaf 809 220 ULeaf) 810 220 ULeaf))) 811 220 (UNode (UNode (UNode (UNode ULeaf 812 220 ULeaf) 813 220 (UNode ULeaf 814 220 ULeaf)) 815 220 (UNode (UNode ULeaf 816 220 ULeaf) 817 220 ULeaf)) 818 220 (UNode (UNode (UNode ULeaf 819 220 ULeaf) 820 1 (UNode ULeaf 821 1 ULeaf)) 822 1 (UNode (UNode ULeaf 823 1 ULeaf) 824 1 ULeaf))))) 825 220 (UNode (UNode (UNode (UNode (UNode (UNode ULeaf 826 220 ULeaf) 827 220 (UNode ULeaf 828 220 ULeaf)) 829 230 (UNode (UNode ULeaf 830 230 ULeaf) 831 230 (UNode ULeaf 832 230 ULeaf))) 833 230 (UNode (UNode (UNode ULeaf 834 230 ULeaf) 835 230 (UNode ULeaf 836 230 ULeaf)) 837 240 (UNode (UNode ULeaf 838 230 ULeaf) 839 220 ULeaf))) 840 220 (UNode (UNode (UNode (UNode ULeaf 841 220 ULeaf) 842 230 (UNode ULeaf 843 230 ULeaf)) 844 230 (UNode (UNode ULeaf 845 220 ULeaf) 846 220 ULeaf)) 848 230 (UNode (UNode (UNode ULeaf 849 230 ULeaf) 850 230 (UNode ULeaf 851 220 ULeaf)) 852 220 (UNode (UNode ULeaf 853 220 ULeaf) 854 220 ULeaf)))) 855 230 (UNode (UNode (UNode (UNode (UNode ULeaf 856 232 ULeaf) 857 220 (UNode ULeaf 858 220 ULeaf)) 859 230 (UNode (UNode ULeaf 860 233 ULeaf) 861 234 ULeaf)) 862 234 (UNode (UNode (UNode ULeaf 863 233 ULeaf) 864 234 (UNode ULeaf 865 234 ULeaf)) 866 233 (UNode (UNode ULeaf 867 230 ULeaf) 868 230 ULeaf))) 869 230 (UNode (UNode (UNode (UNode ULeaf 870 230 ULeaf) 871 230 (UNode ULeaf 872 230 ULeaf)) 873 230 (UNode (UNode ULeaf 874 230 ULeaf) 875 230 ULeaf)) 876 230 (UNode (UNode (UNode ULeaf 877 230 ULeaf) 878 230 (UNode ULeaf 879 230 ULeaf)) 1155 230 (UNode (UNode ULeaf 1156 230 ULeaf) 1157 230 ULeaf)))))) 1158 230 (UNode (UNode (UNode (UNode (UNode (UNode (UNode ULeaf 1159 230 ULeaf) 1425 220 (UNode ULeaf 1426 230 ULeaf)) 1427 230 (UNode (UNode ULeaf 1428 230 ULeaf) 1429 230 (UNode ULeaf 1430 220 ULeaf))) 1431 230 (UNode (UNode (UNode ULeaf 1432 230 ULeaf) 1433 230 (UNode ULeaf 1434 222 ULeaf)) 1435 220 (UNode (UNode ULeaf 1436 230 ULeaf) 1437 230 ULeaf))) 1438 230 (UNode (UNode (UNode (UNode ULeaf 1439 230 ULeaf) 1440 230 (UNode ULeaf 1441 230 ULeaf)) 1442 220 (UNode (UNode ULeaf 1443 220 ULeaf) 1444 220 ULeaf)) 1445 220 (UNode (UNode (UNode ULeaf 1446 220 ULeaf) 1447 220 (UNode ULeaf 1448 230 ULeaf)) 1449 230 (UNode (UNode ULeaf 1450 220 ULeaf) 1451 230 ULeaf)))) 1452 230 (UNode (UNode (UNode (UNode (UNode ULeaf 1453 222 ULeaf) 1454 228 (UNode ULeaf 1455 230 ULeaf)) 1456 10 (UNode (UNode ULeaf 1457 11 ULeaf) 1458 12 ULeaf)) 1459 13 (UNode (UNode (UNode ULeaf 1460 14 ULeaf) 1461 15 (UNode ULeaf 1462 16 ULeaf)) 1463 17 (UNode (UNode ULeaf 1464 18 ULeaf) 1465 19 ULeaf))) 1466 19 (UNode (UNode (UNode (UNode ULeaf 1467 20 ULeaf) 1468 21 (UNode ULeaf 1469 22 ULeaf)) 1471 23 (UNode (UNode ULeaf 1473 24 ULeaf) 1474 25 ULeaf)) 1476 230 (UNode (UNode (UNode ULeaf 1477 220 ULeaf) 1479 18 (UNode ULeaf 1552 230 ULeaf)) 1553 230 (UNode (UNode ULeaf 1554 230 ULeaf) 1555 230 ULeaf))))) 1556 230 (UNode (UNode (UNode (UNode (UNode (UNode ULeaf 1557 230 ULeaf) 1558 230 (UNode ULeaf 1559 230 ULeaf)) 1560 30 (UNode (UNode ULeaf 1561 31 ULeaf) 1562 32 (UNode ULeaf 1611 27 ULeaf))) 1612 28 (UNode (UNode (UNode ULeaf 1613 29 ULeaf) 1614 30 (UNode ULeaf 1615 31 ULeaf)) 1616 32 (UNode (UNode ULeaf 1617 33 ULeaf) 1618 34 ULeaf))) 1619 230 (UNode (UNode (UNode (UNode ULeaf 1620 230 ULeaf) 1621 220 (UNode ULeaf 1622 220 ULeaf)) 1623 230 (UNode (UNode ULeaf 1624 230 ULeaf) 1625 230 ULeaf)) 1626 230 (UNode (UNode (UNode ULeaf 1627 230 ULeaf) 1628 220 (UNode ULeaf 1629 230 ULeaf)) 1630 230 (UNode (UNode ULeaf 1631 220 ULeaf) 1648 35 ULeaf)))) 1750 230 (UNode (UNode (UNode (UNode (UNode ULeaf 1751 230 ULeaf) 1752 230 (UNode ULeaf 1753 230 ULeaf)) 1754 230 (UNode (UNode ULeaf 1755 230 ULeaf) 1756 230 ULeaf)) 1759 230 (UNode (UNode (UNode ULeaf 1760 230 ULeaf) 1761 230 (UNode ULeaf 1762 230 ULeaf)) 1763 220 (UNode (UNode ULeaf 1764 230 ULeaf) 1767 230 ULeaf))) 1768 230 (UNode (UNode (UNode (UNode ULeaf 1770 220 ULeaf) 1771 230 (UNode ULeaf 1772 230 ULeaf)) 1773 220 (UNode (UNode ULeaf 1809 36 ULeaf) 1840 230 ULeaf)) 1841 220 (UNode (UNode (UNode ULeaf 1842 230 ULeaf) 1843 230 (UNode ULeaf 1844 220 ULeaf)) 1845 230 (UNode (UNode ULeaf 1846 230 ULeaf) 1847 220 ULeaf))))))) 1848 220 (UNode (UNode (UNode (UNode (UNode (UNode (UNode (UNode ULeaf 1849 220 ULeaf) 1850 230 (UNode ULeaf 1851 220 ULeaf)) 1852 220 (UNode (UNode ULeaf 1853 230 ULeaf) 1854 220 (UNode ULeaf 1855 230 ULeaf))) 1856 230 (UNode (UNode (UNode ULeaf 1857 230 ULeaf) 1858 220 (UNode ULeaf 1859 230 ULeaf)) 1860 220 (UNode (UNode ULeaf 1861 230 ULeaf) 1862 220 ULeaf))) 1863 230 (UNode (UNode (UNode (UNode ULeaf 1864 220 ULeaf) 1865 230 (UNode ULeaf 1866 230 ULeaf)) 2027 230 (UNode (UNode ULeaf 2028 230 ULeaf) 2029 230 ULeaf)) 2030 230 (UNode (UNode (UNode ULeaf 2031 230 ULeaf) 2032 230 (UNode ULeaf 2033 230 ULeaf)) 2034 220 (UNode (UNode ULeaf 2035 230 ULeaf) 2045 220 ULeaf)))) 2070 230 (UNode (UNode (UNode (UNode (UNode ULeaf 2071 230 ULeaf) 2072 230 (UNode ULeaf 2073 230 ULeaf)) 2075 230 (UNode (UNode ULeaf 2076 230 ULeaf) 2077 230 ULeaf)) 2078 230 (UNode (UNode (UNode ULeaf 2079 230 ULeaf) 2080 230 (UNode ULeaf 2081 230 ULeaf)) 2082 230 (UNode (UNode ULeaf 2083 230 ULeaf) 2085 230 ULeaf))) 2086 230 (UNode (UNode (UNode (UNode ULeaf 2087 230 ULeaf) 2089 230 (UNode ULeaf 2090 230 ULeaf)) 2091 230 (UNode (UNode ULeaf 2092 230 ULeaf) 2093 230 ULeaf)) 2137 220 (UNode (UNode (UNode ULeaf 2138 220 ULeaf) 2139 220 (UNode ULeaf 2200 230 ULeaf)) 2201 220 (UNode (UNode ULeaf 2202 220 ULeaf) 2203 220 ULeaf))))) 2204 230 (UNode (UNode (UNode (UNode (UNode (UNode ULeaf 2205 230 ULeaf) 2206 230 (UNode ULeaf 2207 230 ULeaf)) 2250 230 (UNode (UNode ULeaf 2251 230 ULeaf) 2252 230 (UNode ULeaf 2253 230 ULeaf))) 2254 230 (UNode (UNode (UNode ULeaf 2255 220 ULeaf) 2256 220 (UNode ULeaf 2257 220 ULeaf)) 2258 220 (UNode (UNode ULeaf 2259 220 ULeaf) 2260 230 ULeaf))) 2261 230 (UNode (UNode (UNode (UNode ULeaf 2262 230 ULeaf) 2263 230 (UNode ULeaf 2264 230 ULeaf)) 2265 230 (UNode (UNode ULeaf 2266 230 ULeaf) 2267 230 ULeaf)) 2268 230 (UNode (UNode (UNode ULeaf 2269 230 ULeaf) 2270 230 (UNode ULeaf 2271 230 ULeaf)) 2272 230 (UNode (UNode ULeaf 2273 230 ULeaf) 2275 220 ULeaf)))) 2276 230 (UNode (UNode (UNode (UNode (UNode ULeaf 2277 230 ULeaf) 2278 220 (UNode ULeaf 2279 230 ULeaf)) 2280 230 (UNode (UNode ULeaf 2281 220 ULeaf) 2282 230 ULeaf)) 2283 230 (UNode (UNode (UNode ULeaf 2284 230 ULeaf) 2285 220 (UNode ULeaf 2286 220 ULeaf)) 2287 220 (UNode (UNode ULeaf 2288 27 ULeaf) 2289 28 ULeaf))) 2290 29 (UNode (UNode (UNode (UNode ULeaf 2291 230 ULeaf) 2292 230 (UNode ULeaf 2293 230 ULeaf)) 2294 220 (UNode (UNode ULeaf 2295 230 ULeaf) 2296 230 ULeaf)) 2297 220 (UNode (UNode (UNode ULeaf 2298 220 ULeaf) 2299 230 (UNode ULeaf 2300 230 ULeaf)) 2301 230 (UNode (UNode ULeaf 2302 230 ULeaf) 2303 230 ULeaf)))))) 2364 7 (UNode (UNode (UNode (UNode (UNode (UNode (UNode ULeaf 2381 9 ULeaf) 2385 230 (UNode ULeaf 2386 220 ULeaf)) 2387 230 (UNode (UNode ULeaf 2388 230 ULeaf) 2492 7 (UNode ULeaf 2509 9 ULeaf))) 2558 230 (UNode (UNode (UNode ULeaf 2620 7 ULeaf) 2637 9 (UNode ULeaf 2748 7 ULeaf)) 2765 9 (UNode (UNode ULeaf 2876 7 ULeaf) 2893 9 ULeaf))) 3021 9 (UNode (UNode (UNode (UNode ULeaf 3132 7 ULeaf) 3149 9 (UNode ULeaf 3157 84 ULeaf)) 3158 91 (UNode (UNode ULeaf 3260 7 ULeaf) 3277 9 ULeaf)) 3387 9 (UNode (UNode (UNode ULeaf 3388 9 ULeaf) 3405 9 (UNode ULeaf 3530 9 ULeaf)) 3640 103 (UNode (UNode ULeaf 3641 103 ULeaf) 3642 9 ULeaf)))) 3656 107 (UNode (UNode (UNode (UNode (UNode ULeaf 3657 107 ULeaf) 3658 107 (UNode ULeaf 3659 107 ULeaf)) 3768 118 (UNode (UNode ULeaf 3769 118 ULeaf) 3770 9 ULeaf)) 3784 122 (UNode (UNode (UNode ULeaf 3785 122 ULeaf) 3786 122 (UNode ULeaf 3787 122 ULeaf)) 3864 220 (UNode (UNode ULeaf 3865 220 ULeaf) 3893 220 ULeaf))) 3895 220 (UNode (UNode (UNode (UNode ULeaf 3897 216 ULeaf) 3953 129 (UNode ULeaf 3954 130 ULeaf)) 3956 132 (UNode (UNode ULeaf 3962 130 ULeaf) 3963 130 ULeaf)) 3964 130 (UNode (UNode (UNode ULeaf 3965 130 ULeaf) 3968 130 (UNode ULeaf 3970 230 ULeaf)) 3971 230 (UNode (UNode ULeaf 3972 9 ULeaf) 3974 230 ULeaf))))) 3975 230 (UNode (UNode (UNode (UNode (UNode (UNode ULeaf 4038 220 ULeaf) 4151 7 (UNode ULeaf 4153 9 ULeaf)) 4154 9 (UNode (UNode ULeaf 4237 220 ULeaf) 4957 230 (UNode ULeaf 4958 230 ULeaf))) 4959 230 (UNode (UNode (UNode ULeaf 5908 9 ULeaf) 5909 9 (UNode ULeaf 5940 9 ULeaf)) 6098 9 (UNode (UNode ULeaf 6109 230 ULeaf) 6313 228 ULeaf))) 6457 222 (UNode (UNode (UNode (UNode ULeaf 6458 230 ULeaf) 6459 220 (UNode ULeaf 6679 230 ULeaf)) 6680 220 (UNode (UNode ULeaf 6752 9 ULeaf) 6773 230 ULeaf)) 6774 230 (UNode (UNode (UNode ULeaf 6775 230 ULeaf) 6776 230 (UNode ULeaf 6777 230 ULeaf)) 6778 230 (UNode (UNode ULeaf 6779 230 ULeaf) 6780 230 ULeaf)))) 6783 220 (UNode (UNode (UNode (UNode (UNode ULeaf 6832 230 ULeaf) 6833 230 (UNode ULeaf 6834 230 ULeaf)) 6835 230 (UNode (UNode ULeaf 6836 230 ULeaf) 6837 220 ULeaf)) 6838 220 (UNode (UNode (UNode ULeaf 6839 220 ULeaf) 6840 220 (UNode ULeaf 6841 220 ULeaf)) 6842 220 (UNode (UNode ULeaf 6843 230 ULeaf) 6844 230 ULeaf))) 6845 220 (UNode (UNode (UNode (UNode ULeaf 6847 220 ULeaf) 6848 220 (UNode ULeaf 6849 230 ULeaf)) 6850 230 (UNode (UNode ULeaf 6851 220 ULeaf) 6852 220 ULeaf)) 6853 230 (UNode (UNode (UNode ULeaf 6854 230 ULeaf) 6855 230 (UNode ULeaf 6856 230 ULeaf)) 6857 230 (UNode (UNode ULeaf 6858 220 ULeaf) 6859 230 ULeaf)))))))) 6860 230 (UNode (UNode (UNode (UNode (UNode (UNode (UNode (UNode (UNode ULeaf 6861 230 ULeaf) 6862 230 (UNode ULeaf 6964 7 ULeaf)) 6980 9 (UNode (UNode ULeaf 7019 230 ULeaf) 7020 220 (UNode ULeaf 7021 230 ULeaf))) 7022 230 (UNode (UNode (UNode ULeaf 7023 230 ULeaf) 7024 230 (UNode ULeaf 7025 230 ULeaf)) 7026 230 (UNode (UNode ULeaf 7027 230 ULeaf) 7082 9 ULeaf))) 7083 9 (UNode (UNode (UNode (UNode ULeaf 7142 7 ULeaf) 7154 9 (UNode ULeaf 7155 9 ULeaf)) 7223 7 (UNode (UNode ULeaf 7376 230 ULeaf) 7377 230 ULeaf)) 7378 230 (UNode (UNode (UNode ULeaf 7380 1 ULeaf) 7381 220 (UNode ULeaf 7382 220 ULeaf)) 7383 220 (UNode (UNode ULeaf 7384 220 ULeaf) 7385 220 ULeaf)))) 7386 230 (UNode (UNode (UNode (UNode (UNode ULeaf 7387 230 ULeaf) 7388 220 (UNode ULeaf 7389 220 ULeaf)) 7390 220 (UNode (UNode ULeaf 7391 220 ULeaf) 7392 230 ULeaf)) 7394 1 (UNode (UNode (UNode ULeaf 7395 1 ULeaf) 7396 1 (UNode ULeaf 7397 1 ULeaf)) 7398 1 (UNode (UNode ULeaf 7399 1 ULeaf) 7400 1 ULeaf))) 7405 220 (UNode (UNode (UNode (UNode ULeaf 7412 230 ULeaf) 7416 230 (UNode ULeaf 7417 230 ULeaf)) 7616 230 (UNode (UNode ULeaf 7617 230 ULeaf) 7618 220 ULeaf)) 7619 230 (UNode (UNode (UNode ULeaf 7620 230 ULeaf) 7621 230 (UNode ULeaf 7622 230 ULeaf)) 7623 230 (UNode (UNode ULeaf 7624 230 ULeaf) 7625 230 ULeaf))))) 7626 220 (UNode (UNode (UNode (UNode (UNode (UNode ULeaf 7627 230 ULeaf) 7628 230 (UNode ULeaf 7629 234 ULeaf)) 7630 214 (UNode (UNode ULeaf 7631 220 ULeaf) 7632 202 (UNode ULeaf 7633 230 ULeaf))) 7634 230 (UNode (UNode (UNode ULeaf 7635 230 ULeaf) 7636 230 (UNode ULeaf 7637 230 ULeaf)) 7638 230 (UNode (UNode ULeaf 7639 230 ULeaf) 7640 230 ULeaf))) 7641 230 (UNode (UNode (UNode (UNode ULeaf 7642 230 ULeaf) 7643 230 (UNode ULeaf 7644 230 ULeaf)) 7645 230 (UNode (UNode ULeaf 7646 230 ULeaf) 7647 230 ULeaf)) 7648 230 (UNode (UNode (UNode ULeaf 7649 230 ULeaf) 7650 230 (UNode ULeaf 7651 230 ULeaf)) 7652 230 (UNode (UNode ULeaf 7653 230 ULeaf) 7654 230 ULeaf)))) 7655 230 (UNode (UNode (UNode (UNode (UNode ULeaf 7656 230 ULeaf) 7657 230 (UNode ULeaf 7658 230 ULeaf)) 7659 230 (UNode (UNode ULeaf 7660 230 ULeaf) 7661 230 ULeaf)) 7662 230 (UNode (UNode (UNode ULeaf 7663 230 ULeaf) 7664 230 (UNode ULeaf 7665 230 ULeaf)) 7666 230 (UNode (UNode ULeaf 7667 230 ULeaf) 7668 230 ULeaf))) 7669 230 (UNode (UNode (UNode (UNode ULeaf 7670 232 ULeaf) 7671 228 (UNode ULeaf 7672 228 ULeaf)) 7673 220 (UNode (UNode ULeaf 7674 218 ULeaf) 7675 230 ULeaf)) 7676 233 (UNode (UNode (UNode ULeaf 7677 220 ULeaf) 7678 230 (UNode ULeaf 7679 220 ULeaf)) 8400 230 (UNode (UNode ULeaf 8401 230 ULeaf) 8402 1 ULeaf)))))) 8403 1 (UNode (UNode (UNode (UNode (UNode (UNode (UNode ULeaf 8404 230 ULeaf) 8405 230 (UNode ULeaf 8406 230 ULeaf)) 8407 230 (UNode (UNode ULeaf 8408 1 ULeaf) 8409 1 (UNode ULeaf 8410 1 ULeaf))) 8411 230 (UNode (UNode (UNode ULeaf 8412 230 ULeaf) 8417 230 (UNode ULeaf 8421 1 ULeaf)) 8422 1 (UNode (UNode ULeaf 8423 230 ULeaf) 8424 220 ULeaf))) 8425 230 (UNode (UNode (UNode (UNode ULeaf 8426 1 ULeaf) 8427 1 (UNode ULeaf 8428 220 ULeaf)) 8429 220 (UNode (UNode ULeaf 8430 220 ULeaf) 8431 220 ULeaf)) 8432 230 (UNode (UNode (UNode ULeaf 11503 230 ULeaf) 11504 230 (UNode ULeaf 11505 230 ULeaf)) 11647 9 (UNode (UNode ULeaf 11744 230 ULeaf) 11745 230 ULeaf)))) 11746 230 (UNode (UNode (UNode (UNode (UNode ULeaf 11747 230 ULeaf) 11748 230 (UNode ULeaf 11749 230 ULeaf)) 11750 230 (UNode (UNode ULeaf 11751 230 ULeaf) 11752 230 ULeaf)) 11753 230 (UNode (UNode (UNode ULeaf 11754 230 ULeaf) 11755 230 (UNode ULeaf 11756 230 ULeaf)) 11757 230 (UNode (UNode ULeaf 11758 230 ULeaf) 11759 230 ULeaf))) 11760 230 (UNode (UNode (UNode (UNode ULeaf 11761 230 ULeaf) 11762 230 (UNode ULeaf 11763 230 ULeaf)) 11764 230 (UNode (UNode ULeaf 11765 230 ULeaf) 11766 230 ULeaf)) 11767 230 (UNode (UNode (UNode ULeaf 11768 230 ULeaf) 11769 230 (UNode ULeaf 11770 230 ULeaf)) 11771 230 (UNode (UNode ULeaf 11772 230 ULeaf) 11773 230 ULeaf))))) 11774 230 (UNode (UNode (UNode (UNode (UNode (UNode ULeaf 11775 230 ULeaf) 12330 218 (UNode ULeaf 12331 228 ULeaf)) 12332 232 (UNode (UNode ULeaf 12333 222 ULeaf) 12334 224 (UNode ULeaf 12335 224 ULeaf))) 12441 8 (UNode (UNode (UNode ULeaf 12442 8 ULeaf) 42607 230 (UNode ULeaf 42612 230 ULeaf)) 42613 230 (UNode (UNode ULeaf 42614 230 ULeaf) 42615 230 ULeaf))) 42616 230 (UNode (UNode (UNode (UNode ULeaf 42617 230 ULeaf) 42618 230 (UNode ULeaf 42619 230 ULeaf)) 42620 230 (UNode (UNode ULeaf 42621 230 ULeaf) 42654 230 ULeaf)) 42655 230 (UNode (UNode (UNode ULeaf 42736 230 ULeaf) 42737 230 (UNode ULeaf 43014 9 ULeaf)) 43052 9 (UNode (UNode ULeaf 43204 9 ULeaf) 43232 230 ULeaf)))) 43233 230 (UNode (UNode (UNode (UNode (UNode ULeaf 43234 230 ULeaf) 43235 230 (UNode ULeaf 43236 230 ULeaf)) 43237 230 (UNode (UNode ULeaf 43238 230 ULeaf) 43239 230 ULeaf)) 43240 230 (UNode (UNode (UNode ULeaf 43241 230 ULeaf) 43242 230 (UNode ULeaf 43243 230 ULeaf)) 43244 230 (UNode (UNode ULeaf 43245 230 ULeaf) 43246 230 ULeaf))) 43247 230 (UNode (UNode (UNode (UNode ULeaf 43248 230 ULeaf) 43249 230 (UNode ULeaf 43307 220 ULeaf)) 43308 220 (UNode (UNode ULeaf 43309 220 ULeaf) 43347 9 ULeaf)) 43443 7 (UNode (UNode (UNode ULeaf 43456 9 ULeaf) 43696 230 (UNode ULeaf 43698 230 ULeaf)) 43699 230 (UNode (UNode ULeaf 43700 220 ULeaf) 43703 230 ULeaf))))))) 43704 230 (UNode (UNode (UNode (UNode (UNode (UNode (UNode (UNode ULeaf 43710 230 ULeaf) 43711 230 (UNode ULeaf 43713 230 ULeaf)) 43766 9 (UNode (UNode ULeaf 44013 9 ULeaf) 64286 26 (UNode ULeaf 65056 230 ULeaf))) 65057 230 (UNode (UNode (UNode ULeaf 65058 230 ULeaf) 65059 230 (UNode ULeaf 65060 230 ULeaf)) 65061 230 (UNode (UNode ULeaf 65062 230 ULeaf) 65063 220 ULeaf))) 65064 220 (UNode (UNode (UNode (UNode ULeaf 65065 220 ULeaf) 65066 220 (UNode ULeaf 65067 220 ULeaf)) 65068 220 (UNode (UNode ULeaf 65069 220 ULeaf) 65070 230 ULeaf)) 65071 230 (UNode (UNode (UNode ULeaf 66045 220 ULeaf) 66272 220 (UNode ULeaf 66422 230 ULeaf)) 66423 230 (UNode (UNode ULeaf 66424 230 ULeaf) 66425 230 ULeaf)))) 66426 230 (UNode (UNode (UNode (UNode (UNode ULeaf 68109 220 ULeaf) 68111 230 (UNode ULeaf 68152 230 ULeaf)) 68153 1 (UNode (UNode ULeaf 68154 220 ULeaf) 68159 9 ULeaf)) 68325 230 (UNode (UNode (UNode ULeaf 68326 220 ULeaf) 68900 230 (UNode ULeaf 68901 230 ULeaf)) 68902 230 (UNode (UNode ULeaf 68903 230 ULeaf) 69291 230 ULeaf))) 69292 230 (UNode (UNode (UNode (UNode ULeaf 69446 220 ULeaf) 69447 220 (UNode ULeaf 69448 230 ULeaf)) 69449 230 (UNode (UNode ULeaf 69450 230 ULeaf) 69451 220 ULeaf)) 69452 230 (UNode (UNode (UNode ULeaf 69453 220 ULeaf) 69454 220 (UNode ULeaf 69455 220 ULeaf)) 69456 220 (UNode (UNode ULeaf 69506 230 ULeaf) 69507 220 ULeaf))))) 69508 230 (UNode (UNode (UNode (UNode (UNode (UNode ULeaf 69509 220 ULeaf) 69702 9 (UNode ULeaf 69744 9 ULeaf)) 69759 9 (UNode (UNode ULeaf 69817 9 ULeaf) 69818 7 (UNode ULeaf 69888 230 ULeaf))) 69889 230 (UNode (UNode (UNode ULeaf 69890 230 ULeaf) 69939 9 (UNode ULeaf 69940 9 ULeaf)) 70003 7 (UNode (UNode ULeaf 70080 9 ULeaf) 70090 7 ULeaf))) 70197 9 (UNode (UNode (UNode (UNode ULeaf 70198 7 ULeaf) 70377 7 (UNode ULeaf 70378 9 ULeaf)) 70459 7 (UNode (UNode ULeaf 70460 7 ULeaf) 70477 9 ULeaf)) 70502 230 (UNode (UNode (UNode ULeaf 70503 230 ULeaf) 70504 230 (UNode ULeaf 70505 230 ULeaf)) 70506 230 (UNode (UNode ULeaf 70507 230 ULeaf) 70508 230 ULeaf)))) 70512 230 (UNode (UNode (UNode (UNode (UNode ULeaf 70513 230 ULeaf) 70514 230 (UNode ULeaf 70515 230 ULeaf)) 70516 230 (UNode (UNode ULeaf 70722 9 ULeaf) 70726 7 ULeaf)) 70750 230 (UNode (UNode (UNode ULeaf 70850 9 ULeaf) 70851 7 (UNode ULeaf 71103 9 ULeaf)) 71104 7 (UNode (UNode ULeaf 71231 9 ULeaf) 71350 9 ULeaf))) 71351 7 (UNode (UNode (UNode (UNode ULeaf 71467 9 ULeaf) 71737 9 (UNode ULeaf 71738 7 ULeaf)) 71997 9 (UNode (UNode ULeaf 71998 9 ULeaf) 72003 7 ULeaf)) 72160 9 (UNode (UNode (UNode ULeaf 72244 9 ULeaf) 72263 9 (UNode ULeaf 72345 9 ULeaf)) 72767 9 (UNode (UNode ULeaf 73026 7 ULeaf) 73028 9 ULeaf)))))) 73029 9 (UNode (UNode (UNode (UNode (UNode (UNode (UNode ULeaf 73111 9 ULeaf) 92912 1 (UNode ULeaf 92913 1 ULeaf)) 92914 1 (UNode (UNode ULeaf 92915 1 ULeaf) 92916 1 (UNode ULeaf 92976 230 ULeaf))) 92977 230 (UNode (UNode (UNode ULeaf 92978 230 ULeaf) 92979 230 (UNode ULeaf 92980 230 ULeaf)) 92981 230 (UNode (UNode ULeaf 92982 230 ULeaf) 94192 6 ULeaf))) 94193 6 (UNode (UNode (UNode (UNode ULeaf 113822 1 ULeaf) 119141 216 (UNode ULeaf 119142 216 ULeaf)) 119143 1 (UNode (UNode ULeaf 119144 1 ULeaf) 119145 1 ULeaf)) 119149 226 (UNode (UNode (UNode ULeaf 119150 216 ULeaf) 119151 216 (UNode ULeaf 119152 216 ULeaf)) 119153 216 (UNode (UNode ULeaf 119154 216 ULeaf) 119163 220 ULeaf)))) 119164 220 (UNode (UNode (UNode (UNode (UNode ULeaf 119165 220 ULeaf) 119166 220 (UNode ULeaf 119167 220 ULeaf)) 119168 220 (UNode (UNode ULeaf 119169 220 ULeaf) 119170 220 ULeaf)) 119173 230 (UNode (UNode (UNode ULeaf 119174 230 ULeaf) 119175 230 (UNode ULeaf 119176 230 ULeaf)) 119177 230 (UNode (UNode ULeaf 119178 220 ULeaf) 119179 220 ULeaf))) 119210 230 (UNode (UNode (UNode (UNode ULeaf 119211 230 ULeaf) 119212 230 (UNode ULeaf 119213 230 ULeaf)) 119362 230 (UNode (UNode ULeaf 119363 230 ULeaf) 119364 230 ULeaf)) 122880 230 (UNode (UNode (UNode ULeaf 122881 230 ULeaf) 122882 230 (UNode ULeaf 122883 230 ULeaf)) 122884 230 (UNode (UNode ULeaf 122885 230 ULeaf) 122886 230 ULeaf))))) 122888 230 (UNode (UNode (UNode (UNode (UNode (UNode ULeaf 122889 230 ULeaf) 122890 230 (UNode ULeaf 122891 230 ULeaf)) 122892 230 (UNode (UNode ULeaf 122893 230 ULeaf) 122894 230 (UNode ULeaf 122895 230 ULeaf))) 122896 230 (UNode (UNode (UNode ULeaf 122897 230 ULeaf) 122898 230 (UNode ULeaf 122899 230 ULeaf)) 122900 230 (UNode (UNode ULeaf 122901 230 ULeaf) 122902 230 ULeaf))) 122903 230 (UNode (UNode (UNode (UNode ULeaf 122904 230 ULeaf) 122907 230 (UNode ULeaf 122908 230 ULeaf)) 122909 230 (UNode (UNode ULeaf 122910 230 ULeaf) 122911 230 ULeaf)) 122912 230 (UNode (UNode (UNode ULeaf 122913 230 ULeaf) 122915 230 (UNode ULeaf 122916 230 ULeaf)) 122918 230 (UNode (UNode ULeaf 122919 230 ULeaf) 122920 230 ULeaf)))) 122921 230 (UNode (UNode (UNode (UNode (UNode ULeaf 122922 230 ULeaf) 123184 230 (UNode ULeaf 123185 230 ULeaf)) 123186 230 (UNode (UNode ULeaf 123187 230 ULeaf) 123188 230 ULeaf)) 123189 230 (UNode (UNode (UNode ULeaf 123190 230 ULeaf) 123566 230 (UNode ULeaf 123628 230 ULeaf)) 123629 230 (UNode (UNode ULeaf 123630 230 ULeaf) 123631 230 ULeaf))) 125136 220 (UNode (UNode (UNode (UNode ULeaf 125137 220 ULeaf) 125138 220 (UNode ULeaf 125139 220 ULeaf)) 125140 220 (UNode (UNode ULeaf 125141 220 ULeaf) 125142 220 ULeaf)) 125252 230 (UNode (UNode (UNode ULeaf 125253 230 ULeaf) 125254 230 (UNode ULeaf 125255 230 ULeaf)) 125256 230 (UNode (UNode ULeaf 125257 230 ULeaf) 125258 7 ULeaf))))))))).

(** The primary composites: for a second character [b], the pairs
    [(a, c)] such that [a b] composes canonically to [c] (the canonical
    pair decompositions, without the composition exclusions and the
    singletons). *)
Definition compTable : UTree (list (Z * Z)) :=
  (UNode (UNode (UNode (UNode (UNode (UNode ULeaf 768 [(65, 192); (69, 200); (73, 204); (79, 210); (85, 217); (97, 224); (101, 232); (105, 236); (111, 242); (117, 249); (220, 475); (252, 476); (78, 504); (110, 505); (1045, 1024); (1048, 1037); (1077, 1104); (1080, 1117); (274, 7700); (275, 7701); (332, 7760); (333, 7761); (87, 7808); (119, 7809); (194, 7846); (226, 7847); (258, 7856); (259, 7857); (202, 7872); (234, 7873); (212, 7890); (244, 7891); (416, 7900); (417, 7901); (431, 7914); (432, 7915); (89, 7922); (121, 7923); (7936, 7938); (7937, 7939); (7944, 7946); (7945, 7947); (7952, 7954); (7953, 7955); (7960, 7962); (7961, 7963); (7968, 7970); (7969, 7971); (7976, 7978); (7977, 7979); (7984, 7986); (7985, 7987); (7992, 7994); (7993, 7995); (8000, 8002); (8001, 8003); (8008, 8010); (8009, 8011); (8016, 8018); (8017, 8019); (8025, 8027); (8032, 8034); (8033, 8035); (8040, 8042); (8041, 8043); (945, 8048); (949, 8050); (951, 8052); (953, 8054); (959, 8056); (965, 8058); (969, 8060); (913, 8122); (917, 8136); (919, 8138); (8127, 8141); (970, 8146); (921, 8154); (8190, 8157); (971, 8162); (933, 8170); (168, 8173); (927, 8184); (937, 8186)] ULeaf) 769 [(65, 193); (69, 201); (73, 205); (79, 211); (85, 218); (89, 221); (97, 225); (101, 233); (105, 237); (111, 243); (117, 250); (121, 253); (67, 262); (99, 263); (76, 313); (108, 314); (78, 323); (110, 324); (82, 340); (114, 341); (83, 346); (115, 347); (90, 377); (122, 378); (220, 471); (252, 472); (71, 500); (103, 501); (197, 506); (229, 507); (198, 508); (230, 509); (216, 510); (248, 511); (168, 901); (913, 902); (917, 904); (919, 905); (921, 906); (927, 908); (933, 910); (937, 911); (970, 912); (945, 940); (949, 941); (951, 942); (953, 943); (971, 944); (959, 972); (965, 973); (969, 974); (978, 979); (1043, 1027); (1050, 1036); (1075, 1107); (1082, 1116); (199, 7688); (231, 7689); (274, 7702); (275, 7703); (207, 7726); (239, 7727); (75, 7728); (107, 7729); (77, 7742); (109, 7743); (213, 7756); (245, 7757); (332, 7762); (333, 7763); (80, 7764); (112, 7765); (360, 7800); (361, 7801); (87, 7810); (119, 7811); (194, 7844); (226, 7845); (258, 7854); (259, 7855); (202, 7870); (234, 7871); (212, 7888); (244, 7889); (416, 7898); (417, 7899); (431, 7912); (432, 7913); (7936, 7940); (7937, 7941); (7944, 7948); (7945, 7949); (7952, 7956); (7953, 7957); (7960, 7964); (7961, 7965); (7968, 7972); (7969, 7973); (7976, 7980); (7977, 7981); (7984, 7988); (7985, 7989); (7992, 7996); (7993, 7997); (8000, 8004); (8001, 8005); (8008, 8012); (8009, 8013); (8016, 8020); (8017, 8021); (8025, 8029); (8032, 8036); (8033, 8037); (8040, 8044); (8041, 8045); (8127, 8142); (8190, 8158)] (UNode ULeaf 770 [(65, 194); (69, 202); (73, 206); (79, 212); (85, 219); (97, 226); (101, 234); (105, 238); (111, 244); (117, 251); (67, 264); (99, 265); (71, 284); (103, 285); (72, 292); (104, 293); (74, 308); (106, 309); (83, 348); (115, 349); (87, 372); (119, 373); (89, 374); (121, 375); (90, 7824); (122, 7825); (7840, 7852); (7841, 7853); (7864, 7878); (7865, 7879); (7884, 7896); (7885, 7897)] ULeaf)) 771 [(65, 195); (78, 209); (79, 213); (97, 227); (110, 241); (111, 245); (73, 296); (105, 297); (85, 360); (117, 361); (86, 7804); (118, 7805); (194, 7850); (226, 7851); (258, 7860); (259, 7861); (69, 7868); (101, 7869); (202, 7876); (234, 7877); (212, 7894); (244, 7895); (416, 7904); (417, 7905); (431, 7918); (432, 7919); (89, 7928); (121, 7929)] (UNode (UNode ULeaf 772 [(65, 256); (97, 257); (69, 274); (101, 275); (73, 298); (105, 299); (79, 332); (111, 333); (85, 362); (117, 363); (220, 469); (252, 470); (196, 478); (228, 479); (550, 480); (551, 481); (198, 482); (230, 483); (490, 492); (491, 493); (214, 554); (246, 555); (213, 556); (245, 557); (558, 560); (559, 561); (89, 562); (121, 563); (1048, 1250); (1080, 1251); (1059, 1262); (1091, 1263); (71, 7712); (103, 7713); (7734, 7736); (7735, 7737); (7770, 7772); (7771, 7773); (945, 8113); (913, 8121); (953, 8145); (921, 8153); (965, 8161); (933, 8169)] ULeaf) 774 [(65, 258); (97, 259); (69, 276); (101, 277); (71, 286); (103, 287); (73, 300); (105, 301); (79, 334); (111, 335); (85, 364); (117, 365); (1059, 1038); (1048, 1049); (1080, 1081); (1091, 1118); (1046, 1217); (1078, 1218); (1040, 1232); (1072, 1233); (1045, 1238); (1077, 1239); (552, 7708); (553, 7709); (7840, 7862); (7841, 7863); (945, 8112); (913, 8120); (953, 8144); (921, 8152); (965, 8160); (933, 8168)] (UNode ULeaf 775 [(67, 266); (99, 267); (69, 278); (101, 279); (71, 288); (103, 289); (73, 304); (90, 379); (122, 380); (65, 550); (97, 551); (79, 558); (111, 559); (66, 7682); (98, 7683); (68, 7690); (100, 7691); (70, 7710); (102, 7711); (72, 7714); (104, 7715); (77, 7744); (109, 7745); (78, 7748); (110, 7749); (80, 7766); (112, 7767); (82, 7768); (114, 7769); (83, 7776); (115, 7777); (346, 7780); (347, 7781); (352, 7782); (353, 7783); (7778, 7784); (7779, 7785); (84, 7786); (116, 7787); (87, 7814); (119, 7815); (88, 7818); (120, 7819); (89, 7822); (121, 7823); (383, 7835)] ULeaf))) 776 [(65, 196); (69, 203); (73, 207); (79, 214); (85, 220); (97, 228); (101, 235); (105, 239); (111, 246); (117, 252); (121, 255); (89, 376); (921, 938); (933, 939); (953, 970); (965, 971); (978, 980); (1045, 1025); (1030, 1031); (1077, 1105); (1110, 1111); (1040, 1234); (1072, 1235); (1240, 1242); (1241, 1243); (1046, 1244); (1078, 1245); (1047, 1246); (1079, 1247); (1048, 1252); (1080, 1253); (1054, 1254); (1086, 1255); (1256, 1258); (1257, 1259); (1069, 1260); (1101, 1261); (1059, 1264); (1091, 1265); (1063, 1268); (1095, 1269); (1067, 1272); (1099, 1273); (72, 7718); (104, 7719); (213, 7758); (245, 7759); (362, 7802); (363, 7803); (87, 7812); (119, 7813); (88, 7820); (120, 7821); (116, 7831)] (UNode (UNode (UNode ULeaf 777 [(65, 7842); (97, 7843); (194, 7848); (226, 7849); (258, 7858); (259, 7859); (69, 7866); (101, 7867); (202, 7874); (234, 7875); (73, 7880); (105, 7881); (79, 7886); (111, 7887); (212, 7892); (244, 7893); (416, 7902); (417, 7903); (85, 7910); (117, 7911); (431, 7916); (432, 7917); (89, 7926); (121, 7927)] ULeaf) 778 [(65, 197); (97, 229); (85, 366); (117, 367); (119, 7832); (121, 7833)] (UNode ULeaf 779 [(79, 336); (111, 337); (85, 368); (117, 369); (1059, 1266); (1091, 1267)] ULeaf)) 780 [(67, 268); (99, 269); (68, 270); (100, 271); (69, 282); (101, 283); (76, 317); (108, 318); (78, 327); (110, 328); (82, 344); (114, 345); (83, 352); (115, 353); (84, 356); (116, 357); (90, 381); (122, 382); (65, 461); (97, 462); (73, 463); (105, 464); (79, 465); (111, 466); (85, 467); (117, 468); (220, 473); (252, 474); (71, 486); (103, 487); (75, 488); (107, 489); (439, 494); (658, 495); (106, 496); (72, 542); (104, 543)] (UNode (UNode ULeaf 783 [(65, 512); (97, 513); (69, 516); (101, 517); (73, 520); (105, 521); (79, 524); (111, 525); (82, 528); (114, 529); (85, 532); (117, 533); (1140, 1142); (1141, 1143)] ULeaf) 785 [(65, 514); (97, 515); (69, 518); (101, 519); (73, 522); (105, 523); (79, 526); (111, 527); (82, 530); (114, 531); (85, 534); (117, 535)] (UNode ULeaf 787 [(945, 7936); (913, 7944); (949, 7952); (917, 7960); (951, 7968); (919, 7976); (953, 7984); (921, 7992); (959, 8000); (927, 8008); (965, 8016); (969, 8032); (937, 8040); (961, 8164)] ULeaf)))) 788 [(945, 7937); (913, 7945); (949, 7953); (917, 7961); (951, 7969); (919, 7977); (953, 7985); (921, 7993); (959, 8001); (927, 8009); (965, 8017); (933, 8025); (969, 8033); (937, 8041); (961, 8165); (929, 8172)] (UNode (UNode (UNode (UNode ULeaf 795 [(79, 416); (111, 417); (85, 431); (117, 432)] ULeaf) 803 [(66, 7684); (98, 7685); (68, 7692); (100, 7693); (72, 7716); (104, 7717); (75, 7730); (107, 7731); (76, 7734); (108, 7735); (77, 7746); (109, 7747); (78, 7750); (110, 7751); (82, 7770); (114, 7771); (83, 7778); (115, 7779); (84, 7788); (116, 7789); (86, 7806); (118, 7807); (87, 7816); (119, 7817); (90, 7826); (122, 7827); (65, 7840); (97, 7841); (69, 7864); (101, 7865); (73, 7882); (105, 7883); (79, 7884); (111, 7885); (416, 7906); (417, 7907); (85, 7908); (117, 7909); (431, 7920); (432, 7921); (89, 7924); (121, 7925)] (UNode ULeaf 804 [(85, 7794); (117, 7795)] ULeaf)) 805 [(65, 7680); (97, 7681)] (UNode (UNode ULeaf 806 [(83, 536); (115, 537); (84, 538); (116, 539)] ULeaf) 807 [(67, 199); (99, 231); (71, 290); (103, 291); (75, 310); (107, 311); (76, 315); (108, 316); (78, 325); (110, 326); (82, 342); (114, 343); (83, 350); (115, 351); (84, 354); (116, 355); (69, 552); (101, 553); (68, 7696); (100, 7697); (72, 7720); (104, 7721)] (UNode ULeaf 808 [(65, 260); (97, 261); (69, 280); (101, 281); (73, 302); (105, 303); (85, 370); (117, 371); (79, 490); (111, 491)] ULeaf))) 813 [(68, 7698); (100, 7699); (69, 7704); (101, 7705); (76, 7740); (108, 7741); (78, 7754); (110, 7755); (84, 7792); (116, 7793); (85, 7798); (117, 7799)] (UNode (UNode (UNode ULeaf 814 [(72, 7722); (104, 7723)] ULeaf) 816 [(69, 7706); (101, 7707); (73, 7724); (105, 7725); (85, 7796); (117, 7797)] (UNode ULeaf 817 [(66, 7686); (98, 7687); (68, 7694); (100, 7695); (75, 7732); (107, 7733); (76, 7738); (108, 7739); (78, 7752); (110, 7753); (82, 7774); (114, 7775); (84, 7790); (116, 7791); (90, 7828); (122, 7829); (104, 7830)] ULeaf)) 824 [(8592, 8602); (8594, 8603); (8596, 8622); (8656, 8653); (8660, 8654); (8658, 8655); (8707, 8708); (8712, 8713); (8715, 8716); (8739, 8740); (8741, 8742); (8764, 8769); (8771, 8772); (8773, 8775); (8776, 8777); (61, 8800); (8801, 8802); (8781, 8813); (60, 8814); (62, 8815); (8804, 8816); (8805, 8817); (8818, 8820); (8819, 8821); (8822, 8824); (8823, 8825); (8826, 8832); (8827, 8833); (8834, 8836); (8835, 8837); (8838, 8840); (8839, 8841); (8866, 8876); (8872, 8877); (8873, 8878); (8875, 8879); (8828, 8928); (8829, 8929); (8849, 8930); (8850, 8931); (8882, 8938); (8883, 8939); (8884, 8940); (8885, 8941)] (UNode (UNode ULeaf 834 [(7936, 7942); (7937, 7943); (7944, 7950); (7945, 7951); (7968, 7974); (7969, 7975); (7976, 7982); (7977, 7983); (7984, 7990); (7985, 7991); (7992, 7998); (7993, 7999); (8016, 8022); (8017, 8023); (8025, 8031); (8032, 8038); (8033, 8039); (8040, 8046); (8041, 8047); (945, 8118); (168, 8129); (951, 8134); (8127, 8143); (953, 8150); (970, 8151); (8190, 8159); (965, 8166); (971, 8167); (969, 8182)] ULeaf) 837 [(7936, 8064); (7937, 8065); (7938, 8066); (7939, 8067); (7940, 8068); (7941, 8069); (7942, 8070); (7943, 8071); (7944, 8072); (7945, 8073); (7946, 8074); (7947, 8075); (7948, 8076); (7949, 8077); (7950, 8078); (7951, 8079); (7968, 8080); (7969, 8081); (7970, 8082); (7971, 8083); (7972, 8084); (7973, 8085); (7974, 8086); (7975, 8087); (7976, 8088); (7977, 8089); (7978, 8090); (7979, 8091); (7980, 8092); (7981, 8093); (7982, 8094); (7983, 8095); (8032, 8096); (8033, 8097); (8034, 8098); (8035, 8099); (8036, 8100); (8037, 8101); (8038, 8102); (8039, 8103); (8040, 8104); (8041, 8105); (8042, 8106); (8043, 8107); (8044, 8108); (8045, 8109); (8046, 8110); (8047, 8111); (8048, 8114); (945, 8115); (940, 8116); (8118, 8119); (913, 8124); (8052, 8130); (951, 8131); (942, 8132); (8134, 8135); (919, 8140); (8060, 8178); (969, 8179); (974, 8180); (8182, 8183); (937, 8188)] (UNode ULeaf 1619 [(1575, 1570)] ULeaf))))) 1620 [(1575, 1571); (1608, 1572); (1610, 1574); (1749, 1728); (1729, 1730); (1746, 1747)] (UNode (UNode (UNode (UNode (UNode ULeaf 1621 [(1575, 1573)] ULeaf) 2364 [(2344, 2345); (2352, 2353); (2355, 2356)] (UNode ULeaf 2494 [(2503, 2507)] ULeaf)) 2519 [(2503, 2508)] (UNode (UNode ULeaf 2878 [(2887, 2891)] ULeaf) 2902 [(2887, 2888)] (UNode ULeaf 2903 [(2887, 2892)] ULeaf))) 3006 [(3014, 3018); (3015, 3019)] (UNode (UNode (UNode ULeaf 3031 [(2962, 2964); (3014, 3020)] ULeaf) 3158 [(3142, 3144)] (UNode ULeaf 3266 [(3270, 3274)] ULeaf)) 3285 [(3263, 3264); (3270, 3271); (3274, 3275)] (UNode (UNode ULeaf 3286 [(3270, 3272)] ULeaf) 3390 [(3398, 3402); (3399, 3403)] (UNode ULeaf 3415 [(3398, 3404)] ULeaf)))) 3530 [(3545, 3546); (3548, 3549)] (UNode (UNode (UNode (UNode ULeaf 3535 [(3545, 3548)] ULeaf) 3551 [(3545, 3550)] (UNode ULeaf 4142 [(4133, 4134)] ULeaf)) 6965 [(6917, 6918); (6919, 6920); (6921, 6922); (6923, 6924); (6925, 6926); (6929, 6930); (6970, 6971); (6972, 6973); (6974, 6976); (6975, 6977); (6978, 6979)] (UNode (UNode ULeaf 12441 [(12363, 12364); (12365, 12366); (12367, 12368); (12369, 12370); (12371, 12372); (12373, 12374); (12375, 12376); (12377, 12378); (12379, 12380); (12381, 12382); (12383, 12384); (12385, 12386); (12388, 12389); (12390, 12391); (12392, 12393); (12399, 12400); (12402, 12403); (12405, 12406); (12408, 12409); (12411, 12412); (12358, 12436); (12445, 12446); (12459, 12460); (12461, 12462); (12463, 12464); (12465, 12466); (12467, 12468); (12469, 12470); (12471, 12472); (12473, 12474); (12475, 12476); (12477, 12478); (12479, 12480); (12481, 12482); (12484, 12485); (12486, 12487); (12488, 12489); (12495, 12496); (12498, 12499); (12501, 12502); (12504, 12505); (12507, 12508); (12454, 12532); (12527, 12535); (12528, 12536); (12529, 12537); (12530, 12538); (12541, 12542)] ULeaf) 12442 [(12399, 12401); (12402, 12404); (12405, 12407); (12408, 12410); (12411, 12413); (12495, 12497); (12498, 12500); (12501, 12503); (12504, 12506); (12507, 12509)] (UNode ULeaf 69818 [(69785, 69786); (69787, 69788); (69797, 69803)] ULeaf))) 69927 [(69937, 69934); (69938, 69935)] (UNode (UNode (UNode ULeaf 70462 [(70471, 70475)] ULeaf) 70487 [(70471, 70476)] (UNode ULeaf 70832 [(70841, 70844)] ULeaf)) 70842 [(70841, 70843)] (UNode (UNode ULeaf 70845 [(70841, 70846)] ULeaf) 71087 [(71096, 71098); (71097, 71099)] (UNode ULeaf 71984 [(71989, 71992)] ULeaf)))))).

(** The full lower-case mapping of [String.prototype.toLowerCase]
    (UnicodeData.txt and the unconditional mappings of SpecialCasing.txt),
    for every code point that it changes. *)
Definition lowerTable : UTree (list Z) :=
  (UNode (UNode (UNode (UNode (UNode (UNode (UNode (UNode (UNode (UNode (UNode ULeaf 65 [97] ULeaf) 66 [98] ULeaf) 67 [99] (UNode (UNode ULeaf 68 [100] ULeaf) 69 [101] ULeaf)) 70 [102] (UNode (UNode (UNode ULeaf 71 [103] ULeaf) 72 [104] ULeaf) 73 [105] (UNode (UNode ULeaf 74 [106] ULeaf) 75 [107] ULeaf))) 76 [108] (UNode (UNode (UNode (UNode ULeaf 77 [109] ULeaf) 78 [110] ULeaf) 79 [111] (UNode (UNode ULeaf 80 [112] ULeaf) 81 [113] ULeaf)) 82 [114] (UNode (UNode (UNode ULeaf 83 [115] ULeaf) 84 [116] ULeaf) 85 [117] (UNode ULeaf 86 [118] ULeaf)))) 87 [119] (UNode (UNode (UNode (UNode (UNode ULeaf 88 [120] ULeaf) 89 [121] ULeaf) 90 [122] (UNode (UNode ULeaf 192 [224] ULeaf) 193 [225] ULeaf)) 194 [226] (UNode (UNode (UNode ULeaf 195 [227] ULeaf) 196 [228] ULeaf) 197 [229] (UNode ULeaf 198 [230] ULeaf))) 199 [231] (UNode (UNode (UNode (UNode ULeaf 200 [232] ULeaf) 201 [233] ULeaf) 202 [234] (UNode (UNode ULeaf 203 [235] ULeaf) 204 [236] ULeaf)) 205 [237] (UNode (UNode (UNode ULeaf 206 [238] ULeaf) 207 [239] ULeaf) 208 [240] (UNode ULeaf 209 [241] ULeaf))))) 210 [242] (UNode (UNode (UNode (UNode (UNode (UNode ULeaf 211 [243] ULeaf) 212 [244] ULeaf) 213 [245] (UNode (UNode ULeaf 214 [246] ULeaf) 216 [248] ULeaf)) 217 [249] (UNode (UNode (UNode ULeaf 218 [250] ULeaf) 219 [251] ULeaf) 220 [252] (UNode (UNode ULeaf 221 [253] ULeaf) 222 [254] ULeaf))) 256 [257] (UNode (UNode (UNode (UNode ULeaf 258 [259] ULeaf) 260 [261] ULeaf) 262 [263] (UNode (UNode ULeaf 264 [265] ULeaf) 266 [267] ULeaf)) 268 [269] (UNode (UNode (UNode ULeaf 270 [271] ULeaf) 272 [273] ULeaf) 274 [275] (UNode ULeaf 276 [277] ULeaf)))) 278 [279] (UNode (UNode (UNode (UNode (UNode ULeaf 280 [281] ULeaf) 282 [283] ULeaf) 284 [285] (UNode (UNode ULeaf 286 [287] ULeaf) 288 [289] ULeaf)) 290 [291] (UNode (UNode (UNode ULeaf 292 [293] ULeaf) 294 [295] ULeaf) 296 [297] (UNode ULeaf 298 [299] ULeaf))) 300 [301] (UNode (UNode (UNode (UNode ULeaf 302 [303] ULeaf) 304 [105; 775] ULeaf) 306 [307] (UNode (UNode ULeaf 308 [309] ULeaf) 310 [311] ULeaf)) 313 [314] (UNode (UNode (UNode ULeaf 315 [316] ULeaf) 317 [318] ULeaf) 319 [320] (UNode ULeaf 321 [322] ULeaf)))))) 323 [324] (UNode (UNode (UNode (UNode (UNode (UNode (UNode ULeaf 325 [326] ULeaf) 327 [328] ULeaf) 330 [331] (UNode (UNode ULeaf 332 [333] ULeaf) 334 [335] ULeaf)) 336 [337] (UNode (UNode (UNode ULeaf 338 [339] ULeaf) 340 [341] ULeaf) 342 [343] (UNode (UNode ULeaf 344 [345] ULeaf) 346 [347] ULeaf))) 348 [349] (UNode (UNode (UNode (UNode ULeaf 350 [351] ULeaf) 352 [353] ULeaf) 354 [355] (UNode (UNode ULeaf 356 [357] ULeaf) 358 [359] ULeaf)) 360 [361] (UNode (UNode (UNode ULeaf 362 [363] ULeaf) 364 [365] ULeaf) 366 [367] (UNode ULeaf 368 [369] ULeaf)))) 370 [371] (UNode (UNode (UNode (UNode (UNode ULeaf 372 [373] ULeaf) 374 [375] ULeaf) 376 [255] (UNode (UNode ULeaf 377 [378] ULeaf) 379 [380] ULeaf)) 381 [382] (UNode (UNode (UNode ULeaf 385 [595] ULeaf) 386 [387] ULeaf) 388 [389] (UNode ULeaf 390 [596] ULeaf))) 391 [392] (UNode (UNode (UNode (UNode ULeaf 393 [598] ULeaf) 394 [599] ULeaf) 395 [396] (UNode (UNode ULeaf 398 [477] ULeaf) 399 [601] ULeaf)) 400 [603] (UNode (UNode (UNode ULeaf 401 [402] ULeaf) 403 [608] ULeaf) 404 [611] (UNode ULeaf 406 [617] ULeaf))))) 407 [616] (UNode (UNode (UNode (UNode (UNode (UNode ULeaf 408 [409] ULeaf) 412 [623] ULeaf) 413 [626] (UNode (UNode ULeaf 415 [629] ULeaf) 416 [417] ULeaf)) 418 [419] (UNode (UNode (UNode ULeaf 420 [421] ULeaf) 422 [640] ULeaf) 423 [424] (UNode (UNode ULeaf 425 [643] ULeaf) 428 [429] ULeaf))) 430 [648] (UNode (UNode (UNode (UNode ULeaf 431 [432] ULeaf) 433 [650] ULeaf) 434 [651] (UNode (UNode ULeaf 435 [436] ULeaf) 437 [438] ULeaf)) 439 [658] (UNode (UNode (UNode ULeaf 440 [441] ULeaf) 444 [445] ULeaf) 452 [454] (UNode ULeaf 453 [454] ULeaf)))) 455 [457] (UNode (UNode (UNode (UNode (UNode ULeaf 456 [457] ULeaf) 458 [460] ULeaf) 459 [460] (UNode (UNode ULeaf 461 [462] ULeaf) 463 [464] ULeaf)) 465 [466] (UNode (UNode (UNode ULeaf 467 [468] ULeaf) 469 [470] ULeaf) 471 [472] (UNode ULeaf 473 [474] ULeaf))) 475 [476] (UNode (UNode (UNode (UNode ULeaf 478 [479] ULeaf) 480 [481] ULeaf) 482 [483] (UNode (UNode ULeaf 484 [485] ULeaf) 486 [487] ULeaf)) 488 [489] (UNode (UNode (UNode ULeaf 490 [491] ULeaf) 492 [493] ULeaf) 494 [495] (UNode ULeaf 497 [499] ULeaf))))))) 498 [499] (UNode (UNode (UNode (UNode (UNode (UNode (UNode (UNode ULeaf 500 [501] ULeaf) 502 [405] ULeaf) 503 [447] (UNode (UNode ULeaf 504 [505] ULeaf) 506 [507] ULeaf)) 508 [509] (UNode (UNode (UNode ULeaf 510 [511] ULeaf) 512 [513] ULeaf) 514 [515] (UNode (UNode ULeaf 516 [517] ULeaf) 518 [519] ULeaf))) 520 [521] (UNode (UNode (UNode (UNode ULeaf 522 [523] ULeaf) 524 [525] ULeaf) 526 [527] (UNode (UNode ULeaf 528 [529] ULeaf) 530 [531] ULeaf)) 532 [533] (UNode (UNode (UNode ULeaf 534 [535] ULeaf) 536 [537] ULeaf) 538 [539] (UNode ULeaf 540 [541] ULeaf)))) 542 [543] (UNode (UNode (UNode (UNode (UNode ULeaf 544 [414] ULeaf) 546 [547] ULeaf) 548 [549] (UNode (UNode ULeaf 550 [551] ULeaf) 552 [553] ULeaf)) 554 [555] (UNode (UNode (UNode ULeaf 556 [557] ULeaf) 558 [559] ULeaf) 560 [561] (UNode ULeaf 562 [563] ULeaf))) 570 [11365] (UNode (UNode (UNode (UNode ULeaf 571 [572] ULeaf) 573 [410] ULeaf) 574 [11366] (UNode (UNode ULeaf 577 [578] ULeaf) 579 [384] ULeaf)) 580 [649] (UNode (UNode (UNode ULeaf 581 [652] ULeaf) 582 [583] ULeaf) 584 [585] (UNode ULeaf 586 [587] ULeaf))))) 588 [589] (UNode (UNode (UNode (UNode (UNode (UNode ULeaf 590 [591] ULeaf) 880 [881] ULeaf) 882 [883] (UNode (UNode ULeaf 886 [887] ULeaf) 895 [1011] ULeaf)) 902 [940] (UNode (UNode (UNode ULeaf 904 [941] ULeaf) 905 [942] ULeaf) 906 [943] (UNode (UNode ULeaf 908 [972] ULeaf) 910 [973] ULeaf))) 911 [974] (UNode (UNode (UNode (UNode ULeaf 913 [945] ULeaf) 914 [946] ULeaf) 915 [947] (UNode (UNode ULeaf 916 [948] ULeaf) 917 [949] ULeaf)) 918 [950] (UNode (UNode (UNode ULeaf 919 [951] ULeaf) 920 [952] ULeaf) 921 [953] (UNode ULeaf 922 [954] ULeaf)))) 923 [955] (UNode (UNode (UNode (UNode (UNode ULeaf 924 [956] ULeaf) 925 [957] ULeaf) 926 [958] (UNode (UNode ULeaf 927 [959] ULeaf) 928 [960] ULeaf)) 929 [961] (UNode (UNode (UNode ULeaf 931 [963] ULeaf) 932 [964] ULeaf) 933 [965] (UNode ULeaf 934 [966] ULeaf))) 935 [967] (UNode (UNode (UNode (UNode ULeaf 936 [968] ULeaf) 937 [969] ULeaf) 938 [970] (UNode (UNode ULeaf 939 [971] ULeaf) 975 [983] ULeaf)) 984 [985] (UNode (UNode (UNode ULeaf 986 [987] ULeaf) 988 [989] ULeaf) 990 [991] (UNode ULeaf 992 [993] ULeaf)))))) 994 [995] (UNode (UNode (UNode (UNode (UNode (UNode (UNode ULeaf 996 [997] ULeaf) 998 [999] ULeaf) 1000 [1001] (UNode (UNode ULeaf 1002 [1003] ULeaf) 1004 [1005] ULeaf)) 1006 [1007] (UNode (UNode (UNode ULeaf 1012 [952] ULeaf) 1015 [1016] ULeaf) 1017 [1010] (UNode (UNode ULeaf 1018 [1019] ULeaf) 1021 [891] ULeaf))) 1022 [892] (UNode (UNode (UNode (UNode ULeaf 1023 [893] ULeaf) 1024 [1104] ULeaf) 1025 [1105] (UNode (UNode ULeaf 1026 [1106] ULeaf) 1027 [1107] ULeaf)) 1028 [1108] (UNode (UNode (UNode ULeaf 1029 [1109] ULeaf) 1030 [1110] ULeaf) 1031 [1111] (UNode ULeaf 1032 [1112] ULeaf)))) 1033 [1113] (UNode (UNode (UNode (UNode (UNode ULeaf 1034 [1114] ULeaf) 1035 [1115] ULeaf) 1036 [1116] (UNode (UNode ULeaf 1037 [1117] ULeaf) 1038 [1118] ULeaf)) 1039 [1119] (UNode (UNode (UNode ULeaf 1040 [1072] ULeaf) 1041 [1073] ULeaf) 1042 [1074] (UNode ULeaf 1043 [1075] ULeaf))) 1044 [1076] (UNode (UNode (UNode (UNode ULeaf 1045 [1077] ULeaf) 1046 [1078] ULeaf) 1047 [1079] (UNode (UNode ULeaf 1048 [1080] ULeaf) 1049 [1081] ULeaf)) 1050 [1082] (UNode (UNode (UNode ULeaf 1051 [1083] ULeaf) 1052 [1084] ULeaf) 1053 [1085] (UNode ULeaf 1054 [1086] ULeaf))))) 1055 [1087] (UNode (UNode (UNode (UNode (UNode (UNode ULeaf 1056 [1088] ULeaf) 1057 [1089] ULeaf) 1058 [1090] (UNode (UNode ULeaf 1059 [1091] ULeaf) 1060 [1092] ULeaf)) 1061 [1093] (UNode (UNode (UNode ULeaf 1062 [1094] ULeaf) 1063 [1095] ULeaf) 1064 [1096] (UNode ULeaf 1065 [1097] ULeaf))) 1066 [1098] (UNode (UNode (UNode (UNode ULeaf 1067 [1099] ULeaf) 1068 [1100] ULeaf) 1069 [1101] (UNode (UNode ULeaf 1070 [1102] ULeaf) 1071 [1103] ULeaf)) 1120 [1121] (UNode (UNode (UNode ULeaf 1122 [1123] ULeaf) 1124 [1125] ULeaf) 1126 [1127] (UNode ULeaf 1128 [1129] ULeaf)))) 1130 [1131] (UNode (UNode (UNode (UNode (UNode ULeaf 1132 [1133] ULeaf) 1134 [1135] ULeaf) 1136 [1137] (UNode (UNode ULeaf 1138 [1139] ULeaf) 1140 [1141] ULeaf)) 1142 [1143] (UNode (UNode (UNode ULeaf 1144 [1145] ULeaf) 1146 [1147] ULeaf) 1148 [1149] (UNode ULeaf 1150 [1151] ULeaf))) 1152 [1153] (UNode (UNode (UNode (UNode ULeaf 1162 [1163] ULeaf) 1164 [1165] ULeaf) 1166 [1167] (UNode (UNode ULeaf 1168 [1169] ULeaf) 1170 [1171] ULeaf)) 1172 [1173] (UNode (UNode (UNode ULeaf 1174 [1175] ULeaf) 1176 [1177] ULeaf) 1178 [1179] (UNode ULeaf 1180 [1181] ULeaf)))))))) 1182 [1183] (UNode (UNode (UNode (UNode (UNode (UNode (UNode (UNode (UNode ULeaf 1184 [1185] ULeaf) 1186 [1187] ULeaf) 1188 [1189] (UNode (UNode ULeaf 1190 [1191] ULeaf) 1192 [1193] ULeaf)) 1194 [1195] (UNode (UNode (UNode ULeaf 1196 [1197] ULeaf) 1198 [1199] ULeaf) 1200 [1201] (UNode (UNode ULeaf 1202 [1203] ULeaf) 1204 [1205] ULeaf))) 1206 [1207] (UNode (UNode (UNode (UNode ULeaf 1208 [1209] ULeaf) 1210 [1211] ULeaf) 1212 [1213] (UNode (UNode ULeaf 1214 [1215] ULeaf) 1216 [1231] ULeaf)) 1217 [1218] (UNode (UNode (UNode ULeaf 1219 [1220] ULeaf) 1221 [1222] ULeaf) 1223 [1224] (UNode ULeaf 1225 [1226] ULeaf)))) 1227 [1228] (UNode (UNode (UNode (UNode (UNode ULeaf 1229 [1230] ULeaf) 1232 [1233] ULeaf) 1234 [1235] (UNode (UNode ULeaf 1236 [1237] ULeaf) 1238 [1239] ULeaf)) 1240 [1241] (UNode (UNode (UNode ULeaf 1242 [1243] ULeaf) 1244 [1245] ULeaf) 1246 [1247] (UNode ULeaf 1248 [1249] ULeaf))) 1250 [1251] (UNode (UNode (UNode (UNode ULeaf 1252 [1253] ULeaf) 1254 [1255] ULeaf) 1256 [1257] (UNode (UNode ULeaf 1258 [1259] ULeaf) 1260 [1261] ULeaf)) 1262 [1263] (UNode (UNode (UNode ULeaf 1264 [1265] ULeaf) 1266 [1267] ULeaf) 1268 [1269] (UNode ULeaf 1270 [1271] ULeaf))))) 1272 [1273] (UNode (UNode (UNode (UNode (UNode (UNode ULeaf 1274 [1275] ULeaf) 1276 [1277] ULeaf) 1278 [1279] (UNode (UNode ULeaf 1280 [1281] ULeaf) 1282 [1283] ULeaf)) 1284 [1285] (UNode (UNode (UNode ULeaf 1286 [1287] ULeaf) 1288 [1289] ULeaf) 1290 [1291] (UNode (UNode ULeaf 1292 [1293] ULeaf) 1294 [1295] ULeaf))) 1296 [1297] (UNode (UNode (UNode (UNode ULeaf 1298 [1299] ULeaf) 1300 [1301] ULeaf) 1302 [1303] (UNode (UNode ULeaf 1304 [1305] ULeaf) 1306 [1307] ULeaf)) 1308 [1309] (UNode (UNode (UNode ULeaf 1310 [1311] ULeaf) 1312 [1313] ULeaf) 1314 [1315] (UNode ULeaf 1316 [1317] ULeaf)))) 1318 [1319] (UNode (UNode (UNode (UNode (UNode ULeaf 1320 [1321] ULeaf) 1322 [1323] ULeaf) 1324 [1325] (UNode (UNode ULeaf 1326 [1327] ULeaf) 1329 [1377] ULeaf)) 1330 [1378] (UNode (UNode (UNode ULeaf 1331 [1379] ULeaf) 1332 [1380] ULeaf) 1333 [1381] (UNode ULeaf 1334 [1382] ULeaf))) 1335 [1383] (UNode (UNode (UNode (UNode ULeaf 1336 [1384] ULeaf) 1337 [1385] ULeaf) 1338 [1386] (UNode (UNode ULeaf 1339 [1387] ULeaf) 1340 [1388] ULeaf)) 1341 [1389] (UNode (UNode (UNode ULeaf 1342 [1390] ULeaf) 1343 [1391] ULeaf) 1344 [1392] (UNode ULeaf 1345 [1393] ULeaf)))))) 1346 [1394] (UNode (UNode (UNode (UNode (UNode (UNode (UNode ULeaf 1347 [1395] ULeaf) 1348 [1396] ULeaf) 1349 [1397] (UNode (UNode ULeaf 1350 [1398] ULeaf) 1351 [1399] ULeaf)) 1352 [1400] (UNode (UNode (UNode ULeaf 1353 [1401] ULeaf) 1354 [1402] ULeaf) 1355 [1403] (UNode (UNode ULeaf 1356 [1404] ULeaf) 1357 [1405] ULeaf))) 1358 [1406] (UNode (UNode (UNode (UNode ULeaf 1359 [1407] ULeaf) 1360 [1408] ULeaf) 1361 [1409] (UNode (UNode ULeaf 1362 [1410] ULeaf) 1363 [1411] ULeaf)) 1364 [1412] (UNode (UNode (UNode ULeaf 1365 [1413] ULeaf) 1366 [1414] ULeaf) 4256 [11520] (UNode ULeaf 4257 [11521] ULeaf)))) 4258 [11522] (UNode (UNode (UNode (UNode (UNode ULeaf 4259 [11523] ULeaf) 4260 [11524] ULeaf) 4261 [11525] (UNode (UNode ULeaf 4262 [11526] ULeaf) 4263 [11527] ULeaf)) 4264 [11528] (UNode (UNode (UNode ULeaf 4265 [11529] ULeaf) 4266 [11530] ULeaf) 4267 [11531] (UNode ULeaf 4268 [11532] ULeaf))) 4269 [11533] (UNode (UNode (UNode (UNode ULeaf 4270 [11534] ULeaf) 4271 [11535] ULeaf) 4272 [11536] (UNode (UNode ULeaf 4273 [11537] ULeaf) 4274 [11538] ULeaf)) 4275 [11539] (UNode (UNode (UNode ULeaf 4276 [11540] ULeaf) 4277 [11541] ULeaf) 4278 [11542] (UNode ULeaf 4279 [11543] ULeaf))))) 4280 [11544] (UNode (UNode (UNode (UNode (UNode (UNode ULeaf 4281 [11545] ULeaf) 4282 [11546] ULeaf) 4283 [11547] (UNode (UNode ULeaf 4284 [11548] ULeaf) 4285 [11549] ULeaf)) 4286 [11550] (UNode (UNode (UNode ULeaf 4287 [11551] ULeaf) 4288 [11552] ULeaf) 4289 [11553] (UNode ULeaf 4290 [11554] ULeaf))) 4291 [11555] (UNode (UNode (UNode (UNode ULeaf 4292 [11556] ULeaf) 4293 [11557] ULeaf) 4295 [11559] (UNode (UNode ULeaf 4301 [11565] ULeaf) 5024 [43888] ULeaf)) 5025 [43889] (UNode (UNode (UNode ULeaf 5026 [43890] ULeaf) 5027 [43891] ULeaf) 5028 [43892] (UNode ULeaf 5029 [43893] ULeaf)))) 5030 [43894] (UNode (UNode (UNode (UNode (UNode ULeaf 5031 [43895] ULeaf) 5032 [43896] ULeaf) 5033 [43897] (UNode (UNode ULeaf 5034 [43898] ULeaf) 5035 [43899] ULeaf)) 5036 [43900] (UNode (UNode (UNode ULeaf 5037 [43901] ULeaf) 5038 [43902] ULeaf) 5039 [43903] (UNode ULeaf 5040 [43904] ULeaf))) 5041 [43905] (UNode (UNode (UNode (UNode ULeaf 5042 [43906] ULeaf) 5043 [43907] ULeaf) 5044 [43908] (UNode (UNode ULeaf 5045 [43909] ULeaf) 5046 [43910] ULeaf)) 5047 [43911] (UNode (UNode (UNode ULeaf 5048 [43912] ULeaf) 5049 [43913] ULeaf) 5050 [43914] (UNode ULeaf 5051 [43915] ULeaf))))))) 5052 [43916] (UNode (UNode (UNode (UNode (UNode (UNode (UNode (UNode ULeaf 5053 [43917] ULeaf) 5054 [43918] ULeaf) 5055 [43919] (UNode (UNode ULeaf 5056 [43920] ULeaf) 5057 [43921] ULeaf)) 5058 [43922] (UNode (UNode (UNode ULeaf 5059 [43923] ULeaf) 5060 [43924] ULeaf) 5061 [43925] (UNode (UNode ULeaf 5062 [43926] ULeaf) 5063 [43927] ULeaf))) 5064 [43928] (UNode (UNode (UNode (UNode ULeaf 5065 [43929] ULeaf) 5066 [43930] ULeaf) 5067 [43931] (UNode (UNode ULeaf 5068 [43932] ULeaf) 5069 [43933] ULeaf)) 5070 [43934] (UNode (UNode (UNode ULeaf 5071 [43935] ULeaf) 5072 [43936] ULeaf) 5073 [43937] (UNode ULeaf 5074 [43938] ULeaf)))) 5075 [43939] (UNode (UNode (UNode (UNode (UNode ULeaf 5076 [43940] ULeaf) 5077 [43941] ULeaf) 5078 [43942] (UNode (UNode ULeaf 5079 [43943] ULeaf) 5080 [43944] ULeaf)) 5081 [43945] (UNode (UNode (UNode ULeaf 5082 [43946] ULeaf) 5083 [43947] ULeaf) 5084 [43948] (UNode ULeaf 5085 [43949] ULeaf))) 5086 [43950] (UNode (UNode (UNode (UNode ULeaf 5087 [43951] ULeaf) 5088 [43952] ULeaf) 5089 [43953] (UNode (UNode ULeaf 5090 [43954] ULeaf) 5091 [43955] ULeaf)) 5092 [43956] (UNode (UNode (UNode ULeaf 5093 [43957] ULeaf) 5094 [43958] ULeaf) 5095 [43959] (UNode ULeaf 5096 [43960] ULeaf))))) 5097 [43961] (UNode (UNode (UNode (UNode (UNode (UNode ULeaf 5098 [43962] ULeaf) 5099 [43963] ULeaf) 5100 [43964] (UNode (UNode ULeaf 5101 [43965] ULeaf) 5102 [43966] ULeaf)) 5103 [43967] (UNode (UNode (UNode ULeaf 5104 [5112] ULeaf) 5105 [5113] ULeaf) 5106 [5114] (UNode (UNode ULeaf 5107 [5115] ULeaf) 5108 [5116] ULeaf))) 5109 [5117] (UNode (UNode (UNode (UNode ULeaf 7312 [4304] ULeaf) 7313 [4305] ULeaf) 7314 [4306] (UNode (UNode ULeaf 7315 [4307] ULeaf) 7316 [4308] ULeaf)) 7317 [4309] (UNode (UNode (UNode ULeaf 7318 [4310] ULeaf) 7319 [4311] ULeaf) 7320 [4312] (UNode ULeaf 7321 [4313] ULeaf)))) 7322 [4314] (UNode (UNode (UNode (UNode (UNode ULeaf 7323 [4315] ULeaf) 7324 [4316] ULeaf) 7325 [4317] (UNode (UNode ULeaf 7326 [4318] ULeaf) 7327 [4319] ULeaf)) 7328 [4320] (UNode (UNode (UNode ULeaf 7329 [4321] ULeaf) 7330 [4322] ULeaf) 7331 [4323] (UNode ULeaf 7332 [4324] ULeaf))) 7333 [4325] (UNode (UNode (UNode (UNode ULeaf 7334 [4326] ULeaf) 7335 [4327] ULeaf) 7336 [4328] (UNode (UNode ULeaf 7337 [4329] ULeaf) 7338 [4330] ULeaf)) 7339 [4331] (UNode (UNode (UNode ULeaf 7340 [4332] ULeaf) 7341 [4333] ULeaf) 7342 [4334] (UNode ULeaf 7343 [4335] ULeaf)))))) 7344 [4336] (UNode (UNode (UNode (UNode (UNode (UNode (UNode ULeaf 7345 [4337] ULeaf) 7346 [4338] ULeaf) 7347 [4339] (UNode (UNode ULeaf 7348 [4340] ULeaf) 7349 [4341] ULeaf)) 7350 [4342] (UNode (UNode (UNode ULeaf 7351 [4343] ULeaf) 7352 [4344] ULeaf) 7353 [4345] (UNode (UNode ULeaf 7354 [4346] ULeaf) 7357 [4349] ULeaf))) 7358 [4350] (UNode (UNode (UNode (UNode ULeaf 7359 [4351] ULeaf) 7680 [7681] ULeaf) 7682 [7683] (UNode (UNode ULeaf 7684 [7685] ULeaf) 7686 [7687] ULeaf)) 7688 [7689] (UNode (UNode (UNode ULeaf 7690 [7691] ULeaf) 7692 [7693] ULeaf) 7694 [7695] (UNode ULeaf 7696 [7697] ULeaf)))) 7698 [7699] (UNode (UNode (UNode (UNode (UNode ULeaf 7700 [7701] ULeaf) 7702 [7703] ULeaf) 7704 [7705] (UNode (UNode ULeaf 7706 [7707] ULeaf) 7708 [7709] ULeaf)) 7710 [7711] (UNode (UNode (UNode ULeaf 7712 [7713] ULeaf) 7714 [7715] ULeaf) 7716 [7717] (UNode ULeaf 7718 [7719] ULeaf))) 7720 [7721] (UNode (UNode (UNode (UNode ULeaf 7722 [7723] ULeaf) 7724 [7725] ULeaf) 7726 [7727] (UNode (UNode ULeaf 7728 [7729] ULeaf) 7730 [7731] ULeaf)) 7732 [7733] (UNode (UNode (UNode ULeaf 7734 [7735] ULeaf) 7736 [7737] ULeaf) 7738 [7739] (UNode ULeaf 7740 [7741] ULeaf))))) 7742 [7743] (UNode (UNode (UNode (UNode (UNode (UNode ULeaf 7744 [7745] ULeaf) 7746 [7747] ULeaf) 7748 [7749] (UNode (UNode ULeaf 7750 [7751] ULeaf) 7752 [7753] ULeaf)) 7754 [7755] (UNode (UNode (UNode ULeaf 7756 [7757] ULeaf) 7758 [7759] ULeaf) 7760 [7761] (UNode ULeaf 7762 [7763] ULeaf))) 7764 [7765] (UNode (UNode (UNode (UNode ULeaf 7766 [7767] ULeaf) 7768 [7769] ULeaf) 7770 [7771] (UNode (UNode ULeaf 7772 [7773] ULeaf) 7774 [7775] ULeaf)) 7776 [7777] (UNode (UNode (UNode ULeaf 7778 [7779] ULeaf) 7780 [7781] ULeaf) 7782 [7783] (UNode ULeaf 7784 [7785] ULeaf)))) 7786 [7787] (UNode (UNode (UNode (UNode (UNode ULeaf 7788 [7789] ULeaf) 7790 [7791] ULeaf) 7792 [7793] (UNode (UNode ULeaf 7794 [7795] ULeaf) 7796 [7797] ULeaf)) 7798 [7799] (UNode (UNode (UNode ULeaf 7800 [7801] ULeaf) 7802 [7803] ULeaf) 7804 [7805] (UNode ULeaf 7806 [7807] ULeaf))) 7808 [7809] (UNode (UNode (UNode (UNode ULeaf 7810 [7811] ULeaf) 7812 [7813] ULeaf) 7814 [7815] (UNode (UNode ULeaf 7816 [7817] ULeaf) 7818 [7819] ULeaf)) 7820 [7821] (UNode (UNode (UNode ULeaf 7822 [7823] ULeaf) 7824 [7825] ULeaf) 7826 [7827] (UNode ULeaf 7828 [7829] ULeaf))))))))) 7838 [223] (UNode (UNode (UNode (UNode (UNode (UNode (UNode (UNode (UNode (UNode ULeaf 7840 [7841] ULeaf) 7842 [7843] ULeaf) 7844 [7845] (UNode (UNode ULeaf 7846 [7847] ULeaf) 7848 [7849] ULeaf)) 7850 [7851] (UNode (UNode (UNode ULeaf 7852 [7853] ULeaf) 7854 [7855] ULeaf) 7856 [7857] (UNode (UNode ULeaf 7858 [7859] ULeaf) 7860 [7861] ULeaf))) 7862 [7863] (UNode (UNode (UNode (UNode ULeaf 7864 [7865] ULeaf) 7866 [7867] ULeaf) 7868 [7869] (UNode (UNode ULeaf 7870 [7871] ULeaf) 7872 [7873] ULeaf)) 7874 [7875] (UNode (UNode (UNode ULeaf 7876 [7877] ULeaf) 7878 [7879] ULeaf) 7880 [7881] (UNode ULeaf 7882 [7883] ULeaf)))) 7884 [7885] (UNode (UNode (UNode (UNode (UNode ULeaf 7886 [7887] ULeaf) 7888 [7889] ULeaf) 7890 [7891] (UNode (UNode ULeaf 7892 [7893] ULeaf) 7894 [7895] ULeaf)) 7896 [7897] (UNode (UNode (UNode ULeaf 7898 [7899] ULeaf) 7900 [7901] ULeaf) 7902 [7903] (UNode ULeaf 7904 [7905] ULeaf))) 7906 [7907] (UNode (UNode (UNode (UNode ULeaf 7908 [7909] ULeaf) 7910 [7911] ULeaf) 7912 [7913] (UNode (UNode ULeaf 7914 [7915] ULeaf) 7916 [7917] ULeaf)) 7918 [7919] (UNode (UNode (UNode ULeaf 7920 [7921] ULeaf) 7922 [7923] ULeaf) 7924 [7925] (UNode ULeaf 7926 [7927] ULeaf))))) 7928 [7929] (UNode (UNode (UNode (UNode (UNode (UNode ULeaf 7930 [7931] ULeaf) 7932 [7933] ULeaf) 7934 [7935] (UNode (UNode ULeaf 7944 [7936] ULeaf) 7945 [7937] ULeaf)) 7946 [7938] (UNode (UNode (UNode ULeaf 7947 [7939] ULeaf) 7948 [7940] ULeaf) 7949 [7941] (UNode (UNode ULeaf 7950 [7942] ULeaf) 7951 [7943] ULeaf))) 7960 [7952] (UNode (UNode (UNode (UNode ULeaf 7961 [7953] ULeaf) 7962 [7954] ULeaf) 7963 [7955] (UNode (UNode ULeaf 7964 [7956] ULeaf) 7965 [7957] ULeaf)) 7976 [7968] (UNode (UNode (UNode ULeaf 7977 [7969] ULeaf) 7978 [7970] ULeaf) 7979 [7971] (UNode ULeaf 7980 [7972] ULeaf)))) 7981 [7973] (UNode (UNode (UNode (UNode (UNode ULeaf 7982 [7974] ULeaf) 7983 [7975] ULeaf) 7992 [7984] (UNode (UNode ULeaf 7993 [7985] ULeaf) 7994 [7986] ULeaf)) 7995 [7987] (UNode (UNode (UNode ULeaf 7996 [7988] ULeaf) 7997 [7989] ULeaf) 7998 [7990] (UNode ULeaf 7999 [7991] ULeaf))) 8008 [8000] (UNode (UNode (UNode (UNode ULeaf 8009 [8001] ULeaf) 8010 [8002] ULeaf) 8011 [8003] (UNode (UNode ULeaf 8012 [8004] ULeaf) 8013 [8005] ULeaf)) 8025 [8017] (UNode (UNode (UNode ULeaf 8027 [8019] ULeaf) 8029 [8021] ULeaf) 8031 [8023] (UNode ULeaf 8040 [8032] ULeaf)))))) 8041 [8033] (UNode (UNode (UNode (UNode (UNode (UNode (UNode ULeaf 8042 [8034] ULeaf) 8043 [8035] ULeaf) 8044 [8036] (UNode (UNode ULeaf 8045 [8037] ULeaf) 8046 [8038] ULeaf)) 8047 [8039] (UNode (UNode (UNode ULeaf 8072 [8064] ULeaf) 8073 [8065] ULeaf) 8074 [8066] (UNode (UNode ULeaf 8075 [8067] ULeaf) 8076 [8068] ULeaf))) 8077 [8069] (UNode (UNode (UNode (UNode ULeaf 8078 [8070] ULeaf) 8079 [8071] ULeaf) 8088 [8080] (UNode (UNode ULeaf 8089 [8081] ULeaf) 8090 [8082] ULeaf)) 8091 [8083] (UNode (UNode (UNode ULeaf 8092 [8084] ULeaf) 8093 [8085] ULeaf) 8094 [8086] (UNode ULeaf 8095 [8087] ULeaf)))) 8104 [8096] (UNode (UNode (UNode (UNode (UNode ULeaf 8105 [8097] ULeaf) 8106 [8098] ULeaf) 8107 [8099] (UNode (UNode ULeaf 8108 [8100] ULeaf) 8109 [8101] ULeaf)) 8110 [8102] (UNode (UNode (UNode ULeaf 8111 [8103] ULeaf) 8120 [8112] ULeaf) 8121 [8113] (UNode ULeaf 8122 [8048] ULeaf))) 8123 [8049] (UNode (UNode (UNode (UNode ULeaf 8124 [8115] ULeaf) 8136 [8050] ULeaf) 8137 [8051] (UNode (UNode ULeaf 8138 [8052] ULeaf) 8139 [8053] ULeaf)) 8140 [8131] (UNode (UNode (UNode ULeaf 8152 [8144] ULeaf) 8153 [8145] ULeaf) 8154 [8054] (UNode ULeaf 8155 [8055] ULeaf))))) 8168 [8160] (UNode (UNode (UNode (UNode (UNode (UNode ULeaf 8169 [8161] ULeaf) 8170 [8058] ULeaf) 8171 [8059] (UNode (UNode ULeaf 8172 [8165] ULeaf) 8184 [8056] ULeaf)) 8185 [8057] (UNode (UNode (UNode ULeaf 8186 [8060] ULeaf) 8187 [8061] ULeaf) 8188 [8179] (UNode (UNode ULeaf 8486 [969] ULeaf) 8490 [107] ULeaf))) 8491 [229] (UNode (UNode (UNode (UNode ULeaf 8498 [8526] ULeaf) 8544 [8560] ULeaf) 8545 [8561] (UNode (UNode ULeaf 8546 [8562] ULeaf) 8547 [8563] ULeaf)) 8548 [8564] (UNode (UNode (UNode ULeaf 8549 [8565] ULeaf) 8550 [8566] ULeaf) 8551 [8567] (UNode ULeaf 8552 [8568] ULeaf)))) 8553 [8569] (UNode (UNode (UNode (UNode (UNode ULeaf 8554 [8570] ULeaf) 8555 [8571] ULeaf) 8556 [8572] (UNode (UNode ULeaf 8557 [8573] ULeaf) 8558 [8574] ULeaf)) 8559 [8575] (UNode (UNode (UNode ULeaf 8579 [8580] ULeaf) 9398 [9424] ULeaf) 9399 [9425] (UNode ULeaf 9400 [9426] ULeaf))) 9401 [9427] (UNode (UNode (UNode (UNode ULeaf 9402 [9428] ULeaf) 9403 [9429] ULeaf) 9404 [9430] (UNode (UNode ULeaf 9405 [9431] ULeaf) 9406 [9432] ULeaf)) 9407 [9433] (UNode (UNode (UNode ULeaf 9408 [9434] ULeaf) 9409 [9435] ULeaf) 9410 [9436] (UNode ULeaf 9411 [9437] ULeaf))))))) 9412 [9438] (UNode (UNode (UNode (UNode (UNode (UNode (UNode (UNode ULeaf 9413 [9439] ULeaf) 9414 [9440] ULeaf) 9415 [9441] (UNode (UNode ULeaf 9416 [9442] ULeaf) 9417 [9443] ULeaf)) 9418 [9444] (UNode (UNode (UNode ULeaf 9419 [9445] ULeaf) 9420 [9446] ULeaf) 9421 [9447] (UNode (UNode ULeaf 9422 [9448] ULeaf) 9423 [9449] ULeaf))) 11264 [11312] (UNode (UNode (UNode (UNode ULeaf 11265 [11313] ULeaf) 11266 [11314] ULeaf) 11267 [11315] (UNode (UNode ULeaf 11268 [11316] ULeaf) 11269 [11317] ULeaf)) 11270 [11318] (UNode (UNode (UNode ULeaf 11271 [11319] ULeaf) 11272 [11320] ULeaf) 11273 [11321] (UNode ULeaf 11274 [11322] ULeaf)))) 11275 [11323] (UNode (UNode (UNode (UNode (UNode ULeaf 11276 [11324] ULeaf) 11277 [11325] ULeaf) 11278 [11326] (UNode (UNode ULeaf 11279 [11327] ULeaf) 11280 [11328] ULeaf)) 11281 [11329] (UNode (UNode (UNode ULeaf 11282 [11330] ULeaf) 11283 [11331] ULeaf) 11284 [11332] (UNode ULeaf 11285 [11333] ULeaf))) 11286 [11334] (UNode (UNode (UNode (UNode ULeaf 11287 [11335] ULeaf) 11288 [11336] ULeaf) 11289 [11337] (UNode (UNode ULeaf 11290 [11338] ULeaf) 11291 [11339] ULeaf)) 11292 [11340] (UNode (UNode (UNode ULeaf 11293 [11341] ULeaf) 11294 [11342] ULeaf) 11295 [11343] (UNode ULeaf 11296 [11344] ULeaf))))) 11297 [11345] (UNode (UNode (UNode (UNode (UNode (UNode ULeaf 11298 [11346] ULeaf) 11299 [11347] ULeaf) 11300 [11348] (UNode (UNode ULeaf 11301 [11349] ULeaf) 11302 [11350] ULeaf)) 11303 [11351] (UNode (UNode (UNode ULeaf 11304 [11352] ULeaf) 11305 [11353] ULeaf) 11306 [11354] (UNode (UNode ULeaf 11307 [11355] ULeaf) 11308 [11356] ULeaf))) 11309 [11357] (UNode (UNode (UNode (UNode ULeaf 11310 [11358] ULeaf) 11311 [11359] ULeaf) 11360 [11361] (UNode (UNode ULeaf 11362 [619] ULeaf) 11363 [7549] ULeaf)) 11364 [637] (UNode (UNode (UNode ULeaf 11367 [11368] ULeaf) 11369 [11370] ULeaf) 11371 [11372] (UNode ULeaf 11373 [593] ULeaf)))) 11374 [625] (UNode (UNode (UNode (UNode (UNode ULeaf 11375 [592] ULeaf) 11376 [594] ULeaf) 11378 [11379] (UNode (UNode ULeaf 11381 [11382] ULeaf) 11390 [575] ULeaf)) 11391 [576] (UNode (UNode (UNode ULeaf 11392 [11393] ULeaf) 11394 [11395] ULeaf) 11396 [11397] (UNode ULeaf 11398 [11399] ULeaf))) 11400 [11401] (UNode (UNode (UNode (UNode ULeaf 11402 [11403] ULeaf) 11404 [11405] ULeaf) 11406 [11407] (UNode (UNode ULeaf 11408 [11409] ULeaf) 11410 [11411] ULeaf)) 11412 [11413] (UNode (UNode (UNode ULeaf 11414 [11415] ULeaf) 11416 [11417] ULeaf) 11418 [11419] (UNode ULeaf 11420 [11421] ULeaf)))))) 11422 [11423] (UNode (UNode (UNode (UNode (UNode (UNode (UNode ULeaf 11424 [11425] ULeaf) 11426 [11427] ULeaf) 11428 [11429] (UNode (UNode ULeaf 11430 [11431] ULeaf) 11432 [11433] ULeaf)) 11434 [11435] (UNode (UNode (UNode ULeaf 11436 [11437] ULeaf) 11438 [11439] ULeaf) 11440 [11441] (UNode (UNode ULeaf 11442 [11443] ULeaf) 11444 [11445] ULeaf))) 11446 [11447] (UNode (UNode (UNode (UNode ULeaf 11448 [11449] ULeaf) 11450 [11451] ULeaf) 11452 [11453] (UNode (UNode ULeaf 11454 [11455] ULeaf) 11456 [11457] ULeaf)) 11458 [11459] (UNode (UNode (UNode ULeaf 11460 [11461] ULeaf) 11462 [11463] ULeaf) 11464 [11465] (UNode ULeaf 11466 [11467] ULeaf)))) 11468 [11469] (UNode (UNode (UNode (UNode (UNode ULeaf 11470 [11471] ULeaf) 11472 [11473] ULeaf) 11474 [11475] (UNode (UNode ULeaf 11476 [11477] ULeaf) 11478 [11479] ULeaf)) 11480 [11481] (UNode (UNode (UNode ULeaf 11482 [11483] ULeaf) 11484 [11485] ULeaf) 11486 [11487] (UNode ULeaf 11488 [11489] ULeaf))) 11490 [11491] (UNode (UNode (UNode (UNode ULeaf 11499 [11500] ULeaf) 11501 [11502] ULeaf) 11506 [11507] (UNode (UNode ULeaf 42560 [42561] ULeaf) 42562 [42563] ULeaf)) 42564 [42565] (UNode (UNode (UNode ULeaf 42566 [42567] ULeaf) 42568 [42569] ULeaf) 42570 [42571] (UNode ULeaf 42572 [42573] ULeaf))))) 42574 [42575] (UNode (UNode (UNode (UNode (UNode (UNode ULeaf 42576 [42577] ULeaf) 42578 [42579] ULeaf) 42580 [42581] (UNode (UNode ULeaf 42582 [42583] ULeaf) 42584 [42585] ULeaf)) 42586 [42587] (UNode (UNode (UNode ULeaf 42588 [42589] ULeaf) 42590 [42591] ULeaf) 42592 [42593] (UNode ULeaf 42594 [42595] ULeaf))) 42596 [42597] (UNode (UNode (UNode (UNode ULeaf 42598 [42599] ULeaf) 42600 [42601] ULeaf) 42602 [42603] (UNode (UNode ULeaf 42604 [42605] ULeaf) 42624 [42625] ULeaf)) 42626 [42627] (UNode (UNode (UNode ULeaf 42628 [42629] ULeaf) 42630 [42631] ULeaf) 42632 [42633] (UNode ULeaf 42634 [42635] ULeaf)))) 42636 [42637] (UNode (UNode (UNode (UNode (UNode ULeaf 42638 [42639] ULeaf) 42640 [42641] ULeaf) 42642 [42643] (UNode (UNode ULeaf 42644 [42645] ULeaf) 42646 [42647] ULeaf)) 42648 [42649] (UNode (UNode (UNode ULeaf 42650 [42651] ULeaf) 42786 [42787] ULeaf) 42788 [42789] (UNode ULeaf 42790 [42791] ULeaf))) 42792 [42793] (UNode (UNode (UNode (UNode ULeaf 42794 [42795] ULeaf) 42796 [42797] ULeaf) 42798 [42799] (UNode (UNode ULeaf 42802 [42803] ULeaf) 42804 [42805] ULeaf)) 42806 [42807] (UNode (UNode (UNode ULeaf 42808 [42809] ULeaf) 42810 [42811] ULeaf) 42812 [42813] (UNode ULeaf 42814 [42815] ULeaf)))))))) 42816 [42817] (UNode (UNode (UNode (UNode (UNode (UNode (UNode (UNode (UNode ULeaf 42818 [42819] ULeaf) 42820 [42821] ULeaf) 42822 [42823] (UNode (UNode ULeaf 42824 [42825] ULeaf) 42826 [42827] ULeaf)) 42828 [42829] (UNode (UNode (UNode ULeaf 42830 [42831] ULeaf) 42832 [42833] ULeaf) 42834 [42835] (UNode (UNode ULeaf 42836 [42837] ULeaf) 42838 [42839] ULeaf))) 42840 [42841] (UNode (UNode (UNode (UNode ULeaf 42842 [42843] ULeaf) 42844 [42845] ULeaf) 42846 [42847] (UNode (UNode ULeaf 42848 [42849] ULeaf) 42850 [42851] ULeaf)) 42852 [42853] (UNode (UNode (UNode ULeaf 42854 [42855] ULeaf) 42856 [42857] ULeaf) 42858 [42859] (UNode ULeaf 42860 [42861] ULeaf)))) 42862 [42863] (UNode (UNode (UNode (UNode (UNode ULeaf 42873 [42874] ULeaf) 42875 [42876] ULeaf) 42877 [7545] (UNode (UNode ULeaf 42878 [42879] ULeaf) 42880 [42881] ULeaf)) 42882 [42883] (UNode (UNode (UNode ULeaf 42884 [42885] ULeaf) 42886 [42887] ULeaf) 42891 [42892] (UNode ULeaf 42893 [613] ULeaf))) 42896 [42897] (UNode (UNode (UNode (UNode ULeaf 42898 [42899] ULeaf) 42902 [42903] ULeaf) 42904 [42905] (UNode (UNode ULeaf 42906 [42907] ULeaf) 42908 [42909] ULeaf)) 42910 [42911] (UNode (UNode (UNode ULeaf 42912 [42913] ULeaf) 42914 [42915] ULeaf) 42916 [42917] (UNode ULeaf 42918 [42919] ULeaf))))) 42920 [42921] (UNode (UNode (UNode (UNode (UNode (UNode ULeaf 42922 [614] ULeaf) 42923 [604] ULeaf) 42924 [609] (UNode (UNode ULeaf 42925 [620] ULeaf) 42926 [618] ULeaf)) 42928 [670] (UNode (UNode (UNode ULeaf 42929 [647] ULeaf) 42930 [669] ULeaf) 42931 [43859] (UNode (UNode ULeaf 42932 [42933] ULeaf) 42934 [42935] ULeaf))) 42936 [42937] (UNode (UNode (UNode (UNode ULeaf 42938 [42939] ULeaf) 42940 [42941] ULeaf) 42942 [42943] (UNode (UNode ULeaf 42944 [42945] ULeaf) 42946 [42947] ULeaf)) 42948 [42900] (UNode (UNode (UNode ULeaf 42949 [642] ULeaf) 42950 [7566] ULeaf) 42951 [42952] (UNode ULeaf 42953 [42954] ULeaf)))) 42960 [42961] (UNode (UNode (UNode (UNode (UNode ULeaf 42966 [42967] ULeaf) 42968 [42969] ULeaf) 42997 [42998] (UNode (UNode ULeaf 65313 [65345] ULeaf) 65314 [65346] ULeaf)) 65315 [65347] (UNode (UNode (UNode ULeaf 65316 [65348] ULeaf) 65317 [65349] ULeaf) 65318 [65350] (UNode ULeaf 65319 [65351] ULeaf))) 65320 [65352] (UNode (UNode (UNode (UNode ULeaf 65321 [65353] ULeaf) 65322 [65354] ULeaf) 65323 [65355] (UNode (UNode ULeaf 65324 [65356] ULeaf) 65325 [65357] ULeaf)) 65326 [65358] (UNode (UNode (UNode ULeaf 65327 [65359] ULeaf) 65328 [65360] ULeaf) 65329 [65361] (UNode ULeaf 65330 [65362] ULeaf)))))) 65331 [65363] (UNode (UNode (UNode (UNode (UNode (UNode (UNode ULeaf 65332 [65364] ULeaf) 65333 [65365] ULeaf) 65334 [65366] (UNode (UNode ULeaf 65335 [65367] ULeaf) 65336 [65368] ULeaf)) 65337 [65369] (UNode (UNode (UNode ULeaf 65338 [65370] ULeaf) 66560 [66600] ULeaf) 66561 [66601] (UNode (UNode ULeaf 66562 [66602] ULeaf) 66563 [66603] ULeaf))) 66564 [66604] (UNode (UNode (UNode (UNode ULeaf 66565 [66605] ULeaf) 66566 [66606] ULeaf) 66567 [66607] (UNode (UNode ULeaf 66568 [66608] ULeaf) 66569 [66609] ULeaf)) 66570 [66610] (UNode (UNode (UNode ULeaf 66571 [66611] ULeaf) 66572 [66612] ULeaf) 66573 [66613] (UNode ULeaf 66574 [66614] ULeaf)))) 66575 [66615] (UNode (UNode (UNode (UNode (UNode ULeaf 66576 [66616] ULeaf) 66577 [66617] ULeaf) 66578 [66618] (UNode (UNode ULeaf 66579 [66619] ULeaf) 66580 [66620] ULeaf)) 66581 [66621] (UNode (UNode (UNode ULeaf 66582 [66622] ULeaf) 66583 [66623] ULeaf) 66584 [66624] (UNode ULeaf 66585 [66625] ULeaf))) 66586 [66626] (UNode (UNode (UNode (UNode ULeaf 66587 [66627] ULeaf) 66588 [66628] ULeaf) 66589 [66629] (UNode (UNode ULeaf 66590 [66630] ULeaf) 66591 [66631] ULeaf)) 66592 [66632] (UNode (UNode (UNode ULeaf 66593 [66633] ULeaf) 66594 [66634] ULeaf) 66595 [66635] (UNode ULeaf 66596 [66636] ULeaf))))) 66597 [66637] (UNode (UNode (UNode (UNode (UNode (UNode ULeaf 66598 [66638] ULeaf) 66599 [66639] ULeaf) 66736 [66776] (UNode (UNode ULeaf 66737 [66777] ULeaf) 66738 [66778] ULeaf)) 66739 [66779] (UNode (UNode (UNode ULeaf 66740 [66780] ULeaf) 66741 [66781] ULeaf) 66742 [66782] (UNode ULeaf 66743 [66783] ULeaf))) 66744 [66784] (UNode (UNode (UNode (UNode ULeaf 66745 [66785] ULeaf) 66746 [66786] ULeaf) 66747 [66787] (UNode (UNode ULeaf 66748 [66788] ULeaf) 66749 [66789] ULeaf)) 66750 [66790] (UNode (UNode (UNode ULeaf 66751 [66791] ULeaf) 66752 [66792] ULeaf) 66753 [66793] (UNode ULeaf 66754 [66794] ULeaf)))) 66755 [66795] (UNode (UNode (UNode (UNode (UNode ULeaf 66756 [66796] ULeaf) 66757 [66797] ULeaf) 66758 [66798] (UNode (UNode ULeaf 66759 [66799] ULeaf) 66760 [66800] ULeaf)) 66761 [66801] (UNode (UNode (UNode ULeaf 66762 [66802] ULeaf) 66763 [66803] ULeaf) 66764 [66804] (UNode ULeaf 66765 [66805] ULeaf))) 66766 [66806] (UNode (UNode (UNode (UNode ULeaf 66767 [66807] ULeaf) 66768 [66808] ULeaf) 66769 [66809] (UNode (UNode ULeaf 66770 [66810] ULeaf) 66771 [66811] ULeaf)) 66928 [66967] (UNode (UNode (UNode ULeaf 66929 [66968] ULeaf) 66930 [66969] ULeaf) 66931 [66970] (UNode ULeaf 66932 [66971] ULeaf))))))) 66933 [66972] (UNode (UNode (UNode (UNode (UNode (UNode (UNode (UNode ULeaf 66934 [66973] ULeaf) 66935 [66974] ULeaf) 66936 [66975] (UNode (UNode ULeaf 66937 [66976] ULeaf) 66938 [66977] ULeaf)) 66940 [66979] (UNode (UNode (UNode ULeaf 66941 [66980] ULeaf) 66942 [66981] ULeaf) 66943 [66982] (UNode (UNode ULeaf 66944 [66983] ULeaf) 66945 [66984] ULeaf))) 66946 [66985] (UNode (UNode (UNode (UNode ULeaf 66947 [66986] ULeaf) 66948 [66987] ULeaf) 66949 [66988] (UNode (UNode ULeaf 66950 [66989] ULeaf) 66951 [66990] ULeaf)) 66952 [66991] (UNode (UNode (UNode ULeaf 66953 [66992] ULeaf) 66954 [66993] ULeaf) 66956 [66995] (UNode ULeaf 66957 [66996] ULeaf)))) 66958 [66997] (UNode (UNode (UNode (UNode (UNode ULeaf 66959 [66998] ULeaf) 66960 [66999] ULeaf) 66961 [67000] (UNode (UNode ULeaf 66962 [67001] ULeaf) 66964 [67003] ULeaf)) 66965 [67004] (UNode (UNode (UNode ULeaf 68736 [68800] ULeaf) 68737 [68801] ULeaf) 68738 [68802] (UNode ULeaf 68739 [68803] ULeaf))) 68740 [68804] (UNode (UNode (UNode (UNode ULeaf 68741 [68805] ULeaf) 68742 [68806] ULeaf) 68743 [68807] (UNode (UNode ULeaf 68744 [68808] ULeaf) 68745 [68809] ULeaf)) 68746 [68810] (UNode (UNode (UNode ULeaf 68747 [68811] ULeaf) 68748 [68812] ULeaf) 68749 [68813] (UNode ULeaf 68750 [68814] ULeaf))))) 68751 [68815] (UNode (UNode (UNode (UNode (UNode (UNode ULeaf 68752 [68816] ULeaf) 68753 [68817] ULeaf) 68754 [68818] (UNode (UNode ULeaf 68755 [68819] ULeaf) 68756 [68820] ULeaf)) 68757 [68821] (UNode (UNode (UNode ULeaf 68758 [68822] ULeaf) 68759 [68823] ULeaf) 68760 [68824] (UNode (UNode ULeaf 68761 [68825] ULeaf) 68762 [68826] ULeaf))) 68763 [68827] (UNode (UNode (UNode (UNode ULeaf 68764 [68828] ULeaf) 68765 [68829] ULeaf) 68766 [68830] (UNode (UNode ULeaf 68767 [68831] ULeaf) 68768 [68832] ULeaf)) 68769 [68833] (UNode (UNode (UNode ULeaf 68770 [68834] ULeaf) 68771 [68835] ULeaf) 68772 [68836] (UNode ULeaf 68773 [68837] ULeaf)))) 68774 [68838] (UNode (UNode (UNode (UNode (UNode ULeaf 68775 [68839] ULeaf) 68776 [68840] ULeaf) 68777 [68841] (UNode (UNode ULeaf 68778 [68842] ULeaf) 68779 [68843] ULeaf)) 68780 [68844] (UNode (UNode (UNode ULeaf 68781 [68845] ULeaf) 68782 [68846] ULeaf) 68783 [68847] (UNode ULeaf 68784 [68848] ULeaf))) 68785 [68849] (UNode (UNode (UNode (UNode ULeaf 68786 [68850] ULeaf) 71840 [71872] ULeaf) 71841 [71873] (UNode (UNode ULeaf 71842 [71874] ULeaf) 71843 [71875] ULeaf)) 71844 [71876] (UNode (UNode (UNode ULeaf 71845 [71877] ULeaf) 71846 [71878] ULeaf) 71847 [71879] (UNode ULeaf 71848 [71880] ULeaf)))))) 71849 [71881] (UNode (UNode (UNode (UNode (UNode (UNode (UNode ULeaf 71850 [71882] ULeaf) 71851 [71883] ULeaf) 71852 [71884] (UNode (UNode ULeaf 71853 [71885] ULeaf) 71854 [71886] ULeaf)) 71855 [71887] (UNode (UNode (UNode ULeaf 71856 [71888] ULeaf) 71857 [71889] ULeaf) 71858 [71890] (UNode (UNode ULeaf 71859 [71891] ULeaf) 71860 [71892] ULeaf))) 71861 [71893] (UNode (UNode (UNode (UNode ULeaf 71862 [71894] ULeaf) 71863 [71895] ULeaf) 71864 [71896] (UNode (UNode ULeaf 71865 [71897] ULeaf) 71866 [71898] ULeaf)) 71867 [71899] (UNode (UNode (UNode ULeaf 71868 [71900] ULeaf) 71869 [71901] ULeaf) 71870 [71902] (UNode ULeaf 71871 [71903] ULeaf)))) 93760 [93792] (UNode (UNode (UNode (UNode (UNode ULeaf 93761 [93793] ULeaf) 93762 [93794] ULeaf) 93763 [93795] (UNode (UNode ULeaf 93764 [93796] ULeaf) 93765 [93797] ULeaf)) 93766 [93798] (UNode (UNode (UNode ULeaf 93767 [93799] ULeaf) 93768 [93800] ULeaf) 93769 [93801] (UNode ULeaf 93770 [93802] ULeaf))) 93771 [93803] (UNode (UNode (UNode (UNode ULeaf 93772 [93804] ULeaf) 93773 [93805] ULeaf) 93774 [93806] (UNode (UNode ULeaf 93775 [93807] ULeaf) 93776 [93808] ULeaf)) 93777 [93809] (UNode (UNode (UNode ULeaf 93778 [93810] ULeaf) 93779 [93811] ULeaf) 93780 [93812] (UNode ULeaf 93781 [93813] ULeaf))))) 93782 [93814] (UNode (UNode (UNode (UNode (UNode (UNode ULeaf 93783 [93815] ULeaf) 93784 [93816] ULeaf) 93785 [93817] (UNode (UNode ULeaf 93786 [93818] ULeaf) 93787 [93819] ULeaf)) 93788 [93820] (UNode (UNode (UNode ULeaf 93789 [93821] ULeaf) 93790 [93822] ULeaf) 93791 [93823] (UNode ULeaf 125184 [125218] ULeaf))) 125185 [125219] (UNode (UNode (UNode (UNode ULeaf 125186 [125220] ULeaf) 125187 [125221] ULeaf) 125188 [125222] (UNode (UNode ULeaf 125189 [125223] ULeaf) 125190 [125224] ULeaf)) 125191 [125225] (UNode (UNode (UNode ULeaf 125192 [125226] ULeaf) 125193 [125227] ULeaf) 125194 [125228] (UNode ULeaf 125195 [125229] ULeaf)))) 125196 [125230] (UNode (UNode (UNode (UNode (UNode ULeaf 125197 [125231] ULeaf) 125198 [125232] ULeaf) 125199 [125233] (UNode (UNode ULeaf 125200 [125234] ULeaf) 125201 [125235] ULeaf)) 125202 [125236] (UNode (UNode (UNode ULeaf 125203 [125237] ULeaf) 125204 [125238] ULeaf) 125205 [125239] (UNode ULeaf 125206 [125240] ULeaf))) 125207 [125241] (UNode (UNode (UNode (UNode ULeaf 125208 [125242] ULeaf) 125209 [125243] ULeaf) 125210 [125244] (UNode (UNode ULeaf 125211 [125245] ULeaf) 125212 [125246] ULeaf)) 125213 [125247] (UNode (UNode (UNode ULeaf 125214 [125248] ULeaf) 125215 [125249] ULeaf) 125216 [125250] (UNode ULeaf 125217 [125251] ULeaf)))))))))).

(** The code points of the general categories L and N, as ranges
    [lo..hi]: [\p{Letter}] and [\p{Number}]. *)
Definition letterNumberRanges : UTree Z :=
  (UNode (UNode (UNode (UNode (UNode (UNode (UNode (UNode (UNode (UNode ULeaf 48 57 ULeaf) 65 90 ULeaf) 97 122 (UNode (UNode ULeaf 170 170 ULeaf) 178 179 ULeaf)) 181 181 (UNode (UNode (UNode ULeaf 185 186 ULeaf) 188 190 ULeaf) 192 214 (UNode (UNode ULeaf 216 246 ULeaf) 248 705 ULeaf))) 710 721 (UNode (UNode (UNode (UNode ULeaf 736 740 ULeaf) 748 748 ULeaf) 750 750 (UNode (UNode ULeaf 880 884 ULeaf) 886 887 ULeaf)) 890 893 (UNode (UNode (UNode ULeaf 895 895 ULeaf) 902 902 ULeaf) 904 906 (UNode ULeaf 908 908 ULeaf)))) 910 929 (UNode (UNode (UNode (UNode (UNode ULeaf 931 1013 ULeaf) 1015 1153 ULeaf) 1162 1327 (UNode (UNode ULeaf 1329 1366 ULeaf) 1369 1369 ULeaf)) 1376 1416 (UNode (UNode (UNode ULeaf 1488 1514 ULeaf) 1519 1522 ULeaf) 1568 1610 (UNode (UNode ULeaf 1632 1641 ULeaf) 1646 1647 ULeaf))) 1649 1747 (UNode (UNode (UNode (UNode ULeaf 1749 1749 ULeaf) 1765 1766 ULeaf) 1774 1788 (UNode (UNode ULeaf 1791 1791 ULeaf) 1808 1808 ULeaf)) 1810 1839 (UNode (UNode (UNode ULeaf 1869 1957 ULeaf) 1969 1969 ULeaf) 1984 2026 (UNode ULeaf 2036 2037 ULeaf))))) 2042 2042 (UNode (UNode (UNode (UNode (UNode (UNode ULeaf 2048 2069 ULeaf) 2074 2074 ULeaf) 2084 2084 (UNode (UNode ULeaf 2088 2088 ULeaf) 2112 2136 ULeaf)) 2144 2154 (UNode (UNode (UNode ULeaf 2160 2183 ULeaf) 2185 2190 ULeaf) 2208 2249 (UNode (UNode ULeaf 2308 2361 ULeaf) 2365 2365 ULeaf))) 2384 2384 (UNode (UNode (UNode (UNode ULeaf 2392 2401 ULeaf) 2406 2415 ULeaf) 2417 2432 (UNode (UNode ULeaf 2437 2444 ULeaf) 2447 2448 ULeaf)) 2451 2472 (UNode (UNode (UNode ULeaf 2474 2480 ULeaf) 2482 2482 ULeaf) 2486 2489 (UNode ULeaf 2493 2493 ULeaf)))) 2510 2510 (UNode (UNode (UNode (UNode (UNode ULeaf 2524 2525 ULeaf) 2527 2529 ULeaf) 2534 2545 (UNode (UNode ULeaf 2548 2553 ULeaf) 2556 2556 ULeaf)) 2565 2570 (UNode (UNode (UNode ULeaf 2575 2576 ULeaf) 2579 2600 ULeaf) 2602 2608 (UNode (UNode ULeaf 2610 2611 ULeaf) 2613 2614 ULeaf))) 2616 2617 (UNode (UNode (UNode (UNode ULeaf 2649 2652 ULeaf) 2654 2654 ULeaf) 2662 2671 (UNode (UNode ULeaf 2674 2676 ULeaf) 2693 2701 ULeaf)) 2703 2705 (UNode (UNode (UNode ULeaf 2707 2728 ULeaf) 2730 2736 ULeaf) 2738 2739 (UNode ULeaf 2741 2745 ULeaf)))))) 2749 2749 (UNode (UNode (UNode (UNode (UNode (UNode (UNode ULeaf 2768 2768 ULeaf) 2784 2785 ULeaf) 2790 2799 (UNode (UNode ULeaf 2809 2809 ULeaf) 2821 2828 ULeaf)) 2831 2832 (UNode (UNode (UNode ULeaf 2835 2856 ULeaf) 2858 2864 ULeaf) 2866 2867 (UNode (UNode ULeaf 2869 2873 ULeaf) 2877 2877 ULeaf))) 2908 2909 (UNode (UNode (UNode (UNode ULeaf 2911 2913 ULeaf) 2918 2927 ULeaf) 2929 2935 (UNode (UNode ULeaf 2947 2947 ULeaf) 2949 2954 ULeaf)) 2958 2960 (UNode (UNode (UNode ULeaf 2962 2965 ULeaf) 2969 2970 ULeaf) 2972 2972 (UNode ULeaf 2974 2975 ULeaf)))) 2979 2980 (UNode (UNode (UNode (UNode (UNode ULeaf 2984 2986 ULeaf) 2990 3001 ULeaf) 3024 3024 (UNode (UNode ULeaf 3046 3058 ULeaf) 3077 3084 ULeaf)) 3086 3088 (UNode (UNode (UNode ULeaf 3090 3112 ULeaf) 3114 3129 ULeaf) 3133 3133 (UNode (UNode ULeaf 3160 3162 ULeaf) 3165 3165 ULeaf))) 3168 3169 (UNode (UNode (UNode (UNode ULeaf 3174 3183 ULeaf) 3192 3198 ULeaf) 3200 3200 (UNode (UNode ULeaf 3205 3212 ULeaf) 3214 3216 ULeaf)) 3218 3240 (UNode (UNode (UNode ULeaf 3242 3251 ULeaf) 3253 3257 ULeaf) 3261 3261 (UNode ULeaf 3293 3294 ULeaf))))) 3296 3297 (UNode (UNode (UNode (UNode (UNode (UNode ULeaf 3302 3311 ULeaf) 3313 3314 ULeaf) 3332 3340 (UNode (UNode ULeaf 3342 3344 ULeaf) 3346 3386 ULeaf)) 3389 3389 (UNode (UNode (UNode ULeaf 3406 3406 ULeaf) 3412 3414 ULeaf) 3416 3425 (UNode (UNode ULeaf 3430 3448 ULeaf) 3450 3455 ULeaf))) 3461 3478 (UNode (UNode (UNode (UNode ULeaf 3482 3505 ULeaf) 3507 3515 ULeaf) 3517 3517 (UNode (UNode ULeaf 3520 3526 ULeaf) 3558 3567 ULeaf)) 3585 3632 (UNode (UNode (UNode ULeaf 3634 3635 ULeaf) 3648 3654 ULeaf) 3664 3673 (UNode ULeaf 3713 3714 ULeaf)))) 3716 3716 (UNode (UNode (UNode (UNode (UNode ULeaf 3718 3722 ULeaf) 3724 3747 ULeaf) 3749 3749 (UNode (UNode ULeaf 3751 3760 ULeaf) 3762 3763 ULeaf)) 3773 3773 (UNode (UNode (UNode ULeaf 3776 3780 ULeaf) 3782 3782 ULeaf) 3792 3801 (UNode (UNode ULeaf 3804 3807 ULeaf) 3840 3840 ULeaf))) 3872 3891 (UNode (UNode (UNode (UNode ULeaf 3904 3911 ULeaf) 3913 3948 ULeaf) 3976 3980 (UNode (UNode ULeaf 4096 4138 ULeaf) 4159 4169 ULeaf)) 4176 4181 (UNode (UNode (UNode ULeaf 4186 4189 ULeaf) 4193 4193 ULeaf) 4197 4198 (UNode ULeaf 4206 4208 ULeaf))))))) 4213 4225 (UNode (UNode (UNode (UNode (UNode (UNode (UNode (UNode ULeaf 4238 4238 ULeaf) 4240 4249 ULeaf) 4256 4293 (UNode (UNode ULeaf 4295 4295 ULeaf) 4301 4301 ULeaf)) 4304 4346 (UNode (UNode (UNode ULeaf 4348 4680 ULeaf) 4682 4685 ULeaf) 4688 4694 (UNode (UNode ULeaf 4696 4696 ULeaf) 4698 4701 ULeaf))) 4704 4744 (UNode (UNode (UNode (UNode ULeaf 4746 4749 ULeaf) 4752 4784 ULeaf) 4786 4789 (UNode (UNode ULeaf 4792 4798 ULeaf) 4800 4800 ULeaf)) 4802 4805 (UNode (UNode (UNode ULeaf 4808 4822 ULeaf) 4824 4880 ULeaf) 4882 4885 (UNode ULeaf 4888 4954 ULeaf)))) 4969 4988 (UNode (UNode (UNode (UNode (UNode ULeaf 4992 5007 ULeaf) 5024 5109 ULeaf) 5112 5117 (UNode (UNode ULeaf 5121 5740 ULeaf) 5743 5759 ULeaf)) 5761 5786 (UNode (UNode (UNode ULeaf 5792 5866 ULeaf) 5870 5880 ULeaf) 5888 5905 (UNode (UNode ULeaf 5919 5937 ULeaf) 5952 5969 ULeaf))) 5984 5996 (UNode (UNode (UNode (UNode ULeaf 5998 6000 ULeaf) 6016 6067 ULeaf) 6103 6103 (UNode (UNode ULeaf 6108 6108 ULeaf) 6112 6121 ULeaf)) 6128 6137 (UNode (UNode (UNode ULeaf 6160 6169 ULeaf) 6176 6264 ULeaf) 6272 6276 (UNode ULeaf 6279 6312 ULeaf))))) 6314 6314 (UNode (UNode (UNode (UNode (UNode (UNode ULeaf 6320 6389 ULeaf) 6400 6430 ULeaf) 6470 6509 (UNode (UNode ULeaf 6512 6516 ULeaf) 6528 6571 ULeaf)) 6576 6601 (UNode (UNode (UNode ULeaf 6608 6618 ULeaf) 6656 6678 ULeaf) 6688 6740 (UNode (UNode ULeaf 6784 6793 ULeaf) 6800 6809 ULeaf))) 6823 6823 (UNode (UNode (UNode (UNode ULeaf 6917 6963 ULeaf) 6981 6988 ULeaf) 6992 7001 (UNode (UNode ULeaf 7043 7072 ULeaf) 7086 7141 ULeaf)) 7168 7203 (UNode (UNode (UNode ULeaf 7232 7241 ULeaf) 7245 7293 ULeaf) 7296 7304 (UNode ULeaf 7312 7354 ULeaf)))) 7357 7359 (UNode (UNode (UNode (UNode (UNode ULeaf 7401 7404 ULeaf) 7406 7411 ULeaf) 7413 7414 (UNode (UNode ULeaf 7418 7418 ULeaf) 7424 7615 ULeaf)) 7680 7957 (UNode (UNode (UNode ULeaf 7960 7965 ULeaf) 7968 8005 ULeaf) 8008 8013 (UNode (UNode ULeaf 8016 8023 ULeaf) 8025 8025 ULeaf))) 8027 8027 (UNode (UNode (UNode (UNode ULeaf 8029 8029 ULeaf) 8031 8061 ULeaf) 8064 8116 (UNode (UNode ULeaf 8118 8124 ULeaf) 8126 8126 ULeaf)) 8130 8132 (UNode (UNode (UNode ULeaf 8134 8140 ULeaf) 8144 8147 ULeaf) 8150 8155 (UNode ULeaf 8160 8172 ULeaf)))))) 8178 8180 (UNode (UNode (UNode (UNode (UNode (UNode (UNode ULeaf 8182 8188 ULeaf) 8304 8305 ULeaf) 8308 8313 (UNode (UNode ULeaf 8319 8329 ULeaf) 8336 8348 ULeaf)) 8450 8450 (UNode (UNode (UNode ULeaf 8455 8455 ULeaf) 8458 8467 ULeaf) 8469 8469 (UNode (UNode ULeaf 8473 8477 ULeaf) 8484 8484 ULeaf))) 8486 8486 (UNode (UNode (UNode (UNode ULeaf 8488 8488 ULeaf) 8490 8493 ULeaf) 8495 8505 (UNode (UNode ULeaf 8508 8511 ULeaf) 8517 8521 ULeaf)) 8526 8526 (UNode (UNode (UNode ULeaf 8528 8585 ULeaf) 9312 9371 ULeaf) 9450 9471 (UNode ULeaf 10102 10131 ULeaf)))) 11264 11492 (UNode (UNode (UNode (UNode (UNode ULeaf 11499 11502 ULeaf) 11506 11507 ULeaf) 11517 11517 (UNode (UNode ULeaf 11520 11557 ULeaf) 11559 11559 ULeaf)) 11565 11565 (UNode (UNode (UNode ULeaf 11568 11623 ULeaf) 11631 11631 ULeaf) 11648 11670 (UNode (UNode ULeaf 11680 11686 ULeaf) 11688 11694 ULeaf))) 11696 11702 (UNode (UNode (UNode (UNode ULeaf 11704 11710 ULeaf) 11712 11718 ULeaf) 11720 11726 (UNode (UNode ULeaf 11728 11734 ULeaf) 11736 11742 ULeaf)) 11823 11823 (UNode (UNode (UNode ULeaf 12293 12295 ULeaf) 12321 12329 ULeaf) 12337 12341 (UNode ULeaf 12344 12348 ULeaf))))) 12353 12438 (UNode (UNode (UNode (UNode (UNode (UNode ULeaf 12445 12447 ULeaf) 12449 12538 ULeaf) 12540 12543 (UNode (UNode ULeaf 12549 12591 ULeaf) 12593 12686 ULeaf)) 12690 12693 (UNode (UNode (UNode ULeaf 12704 12735 ULeaf) 12784 12799 ULeaf) 12832 12841 (UNode (UNode ULeaf 12872 12879 ULeaf) 12881 12895 ULeaf))) 12928 12937 (UNode (UNode (UNode (UNode ULeaf 12977 12991 ULeaf) 13312 19903 ULeaf) 19968 42124 (UNode (UNode ULeaf 42192 42237 ULeaf) 42240 42508 ULeaf)) 42512 42539 (UNode (UNode (UNode ULeaf 42560 42606 ULeaf) 42623 42653 ULeaf) 42656 42735 (UNode ULeaf 42775 42783 ULeaf)))) 42786 42888 (UNode (UNode (UNode (UNode (UNode ULeaf 42891 42954 ULeaf) 42960 42961 ULeaf) 42963 42963 (UNode (UNode ULeaf 42965 42969 ULeaf) 42994 43009 ULeaf)) 43011 43013 (UNode (UNode (UNode ULeaf 43015 43018 ULeaf) 43020 43042 ULeaf) 43056 43061 (UNode ULeaf 43072 43123 ULeaf))) 43138 43187 (UNode (UNode (UNode (UNode ULeaf 43216 43225 ULeaf) 43250 43255 ULeaf) 43259 43259 (UNode (UNode ULeaf 43261 43262 ULeaf) 43264 43301 ULeaf)) 43312 43334 (UNode (UNode (UNode ULeaf 43360 43388 ULeaf) 43396 43442 ULeaf) 43471 43481 (UNode ULeaf 43488 43492 ULeaf)))))))) 43494 43518 (UNode (UNode (UNode (UNode (UNode (UNode (UNode (UNode (UNode ULeaf 43520 43560 ULeaf) 43584 43586 ULeaf) 43588 43595 (UNode (UNode ULeaf 43600 43609 ULeaf) 43616 43638 ULeaf)) 43642 43642 (UNode (UNode (UNode ULeaf 43646 43695 ULeaf) 43697 43697 ULeaf) 43701 43702 (UNode (UNode ULeaf 43705 43709 ULeaf) 43712 43712 ULeaf))) 43714 43714 (UNode (UNode (UNode (UNode ULeaf 43739 43741 ULeaf) 43744 43754 ULeaf) 43762 43764 (UNode (UNode ULeaf 43777 43782 ULeaf) 43785 43790 ULeaf)) 43793 43798 (UNode (UNode (UNode ULeaf 43808 43814 ULeaf) 43816 43822 ULeaf) 43824 43866 (UNode ULeaf 43868 43881 ULeaf)))) 43888 44002 (UNode (UNode (UNode (UNode (UNode ULeaf 44016 44025 ULeaf) 44032 55203 ULeaf) 55216 55238 (UNode (UNode ULeaf 55243 55291 ULeaf) 63744 64109 ULeaf)) 64112 64217 (UNode (UNode (UNode ULeaf 64256 64262 ULeaf) 64275 64279 ULeaf) 64285 64285 (UNode (UNode ULeaf 64287 64296 ULeaf) 64298 64310 ULeaf))) 64312 64316 (UNode (UNode (UNode (UNode ULeaf 64318 64318 ULeaf) 64320 64321 ULeaf) 64323 64324 (UNode (UNode ULeaf 64326 64433 ULeaf) 64467 64829 ULeaf)) 64848 64911 (UNode (UNode (UNode ULeaf 64914 64967 ULeaf) 65008 65019 ULeaf) 65136 65140 (UNode ULeaf 65142 65276 ULeaf))))) 65296 65305 (UNode (UNode (UNode (UNode (UNode (UNode ULeaf 65313 65338 ULeaf) 65345 65370 ULeaf) 65382 65470 (UNode (UNode ULeaf 65474 65479 ULeaf) 65482 65487 ULeaf)) 65490 65495 (UNode (UNode (UNode ULeaf 65498 65500 ULeaf) 65536 65547 ULeaf) 65549 65574 (UNode (UNode ULeaf 65576 65594 ULeaf) 65596 65597 ULeaf))) 65599 65613 (UNode (UNode (UNode (UNode ULeaf 65616 65629 ULeaf) 65664 65786 ULeaf) 65799 65843 (UNode (UNode ULeaf 65856 65912 ULeaf) 65930 65931 ULeaf)) 66176 66204 (UNode (UNode (UNode ULeaf 66208 66256 ULeaf) 66273 66299 ULeaf) 66304 66339 (UNode ULeaf 66349 66378 ULeaf)))) 66384 66421 (UNode (UNode (UNode (UNode (UNode ULeaf 66432 66461 ULeaf) 66464 66499 ULeaf) 66504 66511 (UNode (UNode ULeaf 66513 66517 ULeaf) 66560 66717 ULeaf)) 66720 66729 (UNode (UNode (UNode ULeaf 66736 66771 ULeaf) 66776 66811 ULeaf) 66816 66855 (UNode (UNode ULeaf 66864 66915 ULeaf) 66928 66938 ULeaf))) 66940 66954 (UNode (UNode (UNode (UNode ULeaf 66956 66962 ULeaf) 66964 66965 ULeaf) 66967 66977 (UNode (UNode ULeaf 66979 66993 ULeaf) 66995 67001 ULeaf)) 67003 67004 (UNode (UNode (UNode ULeaf 67072 67382 ULeaf) 67392 67413 ULeaf) 67424 67431 (UNode ULeaf 67456 67461 ULeaf)))))) 67463 67504 (UNode (UNode (UNode (UNode (UNode (UNode (UNode ULeaf 67506 67514 ULeaf) 67584 67589 ULeaf) 67592 67592 (UNode (UNode ULeaf 67594 67637 ULeaf) 67639 67640 ULeaf)) 67644 67644 (UNode (UNode (UNode ULeaf 67647 67669 ULeaf) 67672 67702 ULeaf) 67705 67742 (UNode (UNode ULeaf 67751 67759 ULeaf) 67808 67826 ULeaf))) 67828 67829 (UNode (UNode (UNode (UNode ULeaf 67835 67867 ULeaf) 67872 67897 ULeaf) 67968 68023 (UNode (UNode ULeaf 68028 68047 ULeaf) 68050 68096 ULeaf)) 68112 68115 (UNode (UNode (UNode ULeaf 68117 68119 ULeaf) 68121 68149 ULeaf) 68160 68168 (UNode ULeaf 68192 68222 ULeaf)))) 68224 68255 (UNode (UNode (UNode (UNode (UNode ULeaf 68288 68295 ULeaf) 68297 68324 ULeaf) 68331 68335 (UNode (UNode ULeaf 68352 68405 ULeaf) 68416 68437 ULeaf)) 68440 68466 (UNode (UNode (UNode ULeaf 68472 68497 ULeaf) 68521 68527 ULeaf) 68608 68680 (UNode (UNode ULeaf 68736 68786 ULeaf) 68800 68850 ULeaf))) 68858 68899 (UNode (UNode (UNode (UNode ULeaf 68912 68921 ULeaf) 69216 69246 ULeaf) 69248 69289 (UNode (UNode ULeaf 69296 69297 ULeaf) 69376 69415 ULeaf)) 69424 69445 (UNode (UNode (UNode ULeaf 69457 69460 ULeaf) 69488 69505 ULeaf) 69552 69579 (UNode ULeaf 69600 69622 ULeaf))))) 69635 69687 (UNode (UNode (UNode (UNode (UNode (UNode ULeaf 69714 69743 ULeaf) 69745 69746 ULeaf) 69749 69749 (UNode (UNode ULeaf 69763 69807 ULeaf) 69840 69864 ULeaf)) 69872 69881 (UNode (UNode (UNode ULeaf 69891 69926 ULeaf) 69942 69951 ULeaf) 69956 69956 (UNode (UNode ULeaf 69959 69959 ULeaf) 69968 70002 ULeaf))) 70006 70006 (UNode (UNode (UNode (UNode ULeaf 70019 70066 ULeaf) 70081 70084 ULeaf) 70096 70106 (UNode (UNode ULeaf 70108 70108 ULeaf) 70113 70132 ULeaf)) 70144 70161 (UNode (UNode (UNode ULeaf 70163 70187 ULeaf) 70272 70278 ULeaf) 70280 70280 (UNode ULeaf 70282 70285 ULeaf)))) 70287 70301 (UNode (UNode (UNode (UNode (UNode ULeaf 70303 70312 ULeaf) 70320 70366 ULeaf) 70384 70393 (UNode (UNode ULeaf 70405 70412 ULeaf) 70415 70416 ULeaf)) 70419 70440 (UNode (UNode (UNode ULeaf 70442 70448 ULeaf) 70450 70451 ULeaf) 70453 70457 (UNode (UNode ULeaf 70461 70461 ULeaf) 70480 70480 ULeaf))) 70493 70497 (UNode (UNode (UNode (UNode ULeaf 70656 70708 ULeaf) 70727 70730 ULeaf) 70736 70745 (UNode (UNode ULeaf 70751 70753 ULeaf) 70784 70831 ULeaf)) 70852 70853 (UNode (UNode (UNode ULeaf 70855 70855 ULeaf) 70864 70873 ULeaf) 71040 71086 (UNode ULeaf 71128 71131 ULeaf))))))) 71168 71215 (UNode (UNode (UNode (UNode (UNode (UNode (UNode (UNode ULeaf 71236 71236 ULeaf) 71248 71257 ULeaf) 71296 71338 (UNode (UNode ULeaf 71352 71352 ULeaf) 71360 71369 ULeaf)) 71424 71450 (UNode (UNode (UNode ULeaf 71472 71483 ULeaf) 71488 71494 ULeaf) 71680 71723 (UNode (UNode ULeaf 71840 71922 ULeaf) 71935 71942 ULeaf))) 71945 71945 (UNode (UNode (UNode (UNode ULeaf 71948 71955 ULeaf) 71957 71958 ULeaf) 71960 71983 (UNode (UNode ULeaf 71999 71999 ULeaf) 72001 72001 ULeaf)) 72016 72025 (UNode (UNode (UNode ULeaf 72096 72103 ULeaf) 72106 72144 ULeaf) 72161 72161 (UNode ULeaf 72163 72163 ULeaf)))) 72192 72192 (UNode (UNode (UNode (UNode (UNode ULeaf 72203 72242 ULeaf) 72250 72250 ULeaf) 72272 72272 (UNode (UNode ULeaf 72284 72329 ULeaf) 72349 72349 ULeaf)) 72368 72440 (UNode (UNode (UNode ULeaf 72704 72712 ULeaf) 72714 72750 ULeaf) 72768 72768 (UNode (UNode ULeaf 72784 72812 ULeaf) 72818 72847 ULeaf))) 72960 72966 (UNode (UNode (UNode (UNode ULeaf 72968 72969 ULeaf) 72971 73008 ULeaf) 73030 73030 (UNode (UNode ULeaf 73040 73049 ULeaf) 73056 73061 ULeaf)) 73063 73064 (UNode (UNode (UNode ULeaf 73066 73097 ULeaf) 73112 73112 ULeaf) 73120 73129 (UNode ULeaf 73440 73458 ULeaf))))) 73648 73648 (UNode (UNode (UNode (UNode (UNode (UNode ULeaf 73664 73684 ULeaf) 73728 74649 ULeaf) 74752 74862 (UNode (UNode ULeaf 74880 75075 ULeaf) 77712 77808 ULeaf)) 77824 78894 (UNode (UNode (UNode ULeaf 82944 83526 ULeaf) 92160 92728 ULeaf) 92736 92766 (UNode (UNode ULeaf 92768 92777 ULeaf) 92784 92862 ULeaf))) 92864 92873 (UNode (UNode (UNode (UNode ULeaf 92880 92909 ULeaf) 92928 92975 ULeaf) 92992 92995 (UNode (UNode ULeaf 93008 93017 ULeaf) 93019 93025 ULeaf)) 93027 93047 (UNode (UNode (UNode ULeaf 93053 93071 ULeaf) 93760 93846 ULeaf) 93952 94026 (UNode ULeaf 94032 94032 ULeaf)))) 94099 94111 (UNode (UNode (UNode (UNode (UNode ULeaf 94176 94177 ULeaf) 94179 94179 ULeaf) 94208 100343 (UNode (UNode ULeaf 100352 101589 ULeaf) 101632 101640 ULeaf)) 110576 110579 (UNode (UNode (UNode ULeaf 110581 110587 ULeaf) 110589 110590 ULeaf) 110592 110882 (UNode (UNode ULeaf 110928 110930 ULeaf) 110948 110951 ULeaf))) 110960 111355 (UNode (UNode (UNode (UNode ULeaf 113664 113770 ULeaf) 113776 113788 ULeaf) 113792 113800 (UNode (UNode ULeaf 113808 113817 ULeaf) 119520 119539 ULeaf)) 119648 119672 (UNode (UNode (UNode ULeaf 119808 119892 ULeaf) 119894 119964 ULeaf) 119966 119967 (UNode ULeaf 119970 119970 ULeaf)))))) 119973 119974 (UNode (UNode (UNode (UNode (UNode (UNode (UNode ULeaf 119977 119980 ULeaf) 119982 119993 ULeaf) 119995 119995 (UNode (UNode ULeaf 119997 120003 ULeaf) 120005 120069 ULeaf)) 120071 120074 (UNode (UNode (UNode ULeaf 120077 120084 ULeaf) 120086 120092 ULeaf) 120094 120121 (UNode (UNode ULeaf 120123 120126 ULeaf) 120128 120132 ULeaf))) 120134 120134 (UNode (UNode (UNode (UNode ULeaf 120138 120144 ULeaf) 120146 120485 ULeaf) 120488 120512 (UNode (UNode ULeaf 120514 120538 ULeaf) 120540 120570 ULeaf)) 120572 120596 (UNode (UNode (UNode ULeaf 120598 120628 ULeaf) 120630 120654 ULeaf) 120656 120686 (UNode ULeaf 120688 120712 ULeaf)))) 120714 120744 (UNode (UNode (UNode (UNode (UNode ULeaf 120746 120770 ULeaf) 120772 120779 ULeaf) 120782 120831 (UNode (UNode ULeaf 122624 122654 ULeaf) 123136 123180 ULeaf)) 123191 123197 (UNode (UNode (UNode ULeaf 123200 123209 ULeaf) 123214 123214 ULeaf) 123536 123565 (UNode (UNode ULeaf 123584 123627 ULeaf) 123632 123641 ULeaf))) 124896 124902 (UNode (UNode (UNode (UNode ULeaf 124904 124907 ULeaf) 124909 124910 ULeaf) 124912 124926 (UNode (UNode ULeaf 124928 125124 ULeaf) 125127 125135 ULeaf)) 125184 125251 (UNode (UNode (UNode ULeaf 125259 125259 ULeaf) 125264 125273 ULeaf) 126065 126123 (UNode ULeaf 126125 126127 ULeaf))))) 126129 126132 (UNode (UNode (UNode (UNode (UNode (UNode ULeaf 126209 126253 ULeaf) 126255 126269 ULeaf) 126464 126467 (UNode (UNode ULeaf 126469 126495 ULeaf) 126497 126498 ULeaf)) 126500 126500 (UNode (UNode (UNode ULeaf 126503 126503 ULeaf) 126505 126514 ULeaf) 126516 126519 (UNode (UNode ULeaf 126521 126521 ULeaf) 126523 126523 ULeaf))) 126530 126530 (UNode (UNode (UNode (UNode ULeaf 126535 126535 ULeaf) 126537 126537 ULeaf) 126539 126539 (UNode (UNode ULeaf 126541 126543 ULeaf) 126545 126546 ULeaf)) 126548 126548 (UNode (UNode (UNode ULeaf 126551 126551 ULeaf) 126553 126553 ULeaf) 126555 126555 (UNode ULeaf 126557 126557 ULeaf)))) 126559 126559 (UNode (UNode (UNode (UNode (UNode ULeaf 126561 126562 ULeaf) 126564 126564 ULeaf) 126567 126570 (UNode (UNode ULeaf 126572 126578 ULeaf) 126580 126583 ULeaf)) 126585 126588 (UNode (UNode (UNode ULeaf 126590 126590 ULeaf) 126592 126601 ULeaf) 126603 126619 (UNode ULeaf 126625 126627 ULeaf))) 126629 126633 (UNode (UNode (UNode (UNode ULeaf 126635 126651 ULeaf) 127232 127244 ULeaf) 130032 130041 (UNode (UNode ULeaf 131072 173791 ULeaf) 173824 177976 ULeaf)) 177984 178205 (UNode (UNode (UNode ULeaf 178208 183969 ULeaf) 183984 191456 ULeaf) 194560 195101 (UNode ULeaf 196608 201546 ULeaf))))))))).

(** The [Cased] property (DerivedCoreProperties.txt). *)
Definition casedRanges : UTree Z :=
  (UNode (UNode (UNode (UNode (UNode (UNode (UNode (UNode ULeaf 65 90 ULeaf) 97 122 ULeaf) 170 170 (UNode ULeaf 181 181 ULeaf)) 186 186 (UNode (UNode (UNode ULeaf 192 214 ULeaf) 216 246 ULeaf) 248 442 (UNode ULeaf 444 447 ULeaf))) 452 659 (UNode (UNode (UNode (UNode ULeaf 661 687 ULeaf) 880 883 ULeaf) 886 887 (UNode ULeaf 891 893 ULeaf)) 895 895 (UNode (UNode ULeaf 902 902 ULeaf) 904 906 (UNode ULeaf 908 908 ULeaf)))) 910 929 (UNode (UNode (UNode (UNode (UNode ULeaf 931 1013 ULeaf) 1015 1153 ULeaf) 1162 1327 (UNode ULeaf 1329 1366 ULeaf)) 1376 1416 (UNode (UNode (UNode ULeaf 4256 4293 ULeaf) 4295 4295 ULeaf) 4301 4301 (UNode ULeaf 4304 4346 ULeaf))) 4349 4351 (UNode (UNode (UNode (UNode ULeaf 5024 5109 ULeaf) 5112 5117 ULeaf) 7296 7304 (UNode ULeaf 7312 7354 ULeaf)) 7357 7359 (UNode (UNode ULeaf 7424 7467 ULeaf) 7531 7543 (UNode ULeaf 7545 7578 ULeaf))))) 7680 7957 (UNode (UNode (UNode (UNode (UNode (UNode ULeaf 7960 7965 ULeaf) 7968 8005 ULeaf) 8008 8013 (UNode ULeaf 8016 8023 ULeaf)) 8025 8025 (UNode (UNode (UNode ULeaf 8027 8027 ULeaf) 8029 8029 ULeaf) 8031 8061 (UNode ULeaf 8064 8116 ULeaf))) 8118 8124 (UNode (UNode (UNode (UNode ULeaf 8126 8126 ULeaf) 8130 8132 ULeaf) 8134 8140 (UNode ULeaf 8144 8147 ULeaf)) 8150 8155 (UNode (UNode ULeaf 8160 8172 ULeaf) 8178 8180 (UNode ULeaf 8182 8188 ULeaf)))) 8450 8450 (UNode (UNode (UNode (UNode (UNode ULeaf 8455 8455 ULeaf) 8458 8467 ULeaf) 8469 8469 (UNode ULeaf 8473 8477 ULeaf)) 8484 8484 (UNode (UNode ULeaf 8486 8486 ULeaf) 8488 8488 (UNode ULeaf 8490 8493 ULeaf))) 8495 8500 (UNode (UNode (UNode (UNode ULeaf 8505 8505 ULeaf) 8508 8511 ULeaf) 8517 8521 (UNode ULeaf 8526 8526 ULeaf)) 8544 8575 (UNode (UNode ULeaf 8579 8580 ULeaf) 9398 9449 (UNode ULeaf 11264 11387 ULeaf)))))) 11390 11492 (UNode (UNode (UNode (UNode (UNode (UNode (UNode ULeaf 11499 11502 ULeaf) 11506 11507 ULeaf) 11520 11557 (UNode ULeaf 11559 11559 ULeaf)) 11565 11565 (UNode (UNode (UNode ULeaf 42560 42605 ULeaf) 42624 42651 ULeaf) 42786 42863 (UNode ULeaf 42865 42887 ULeaf))) 42891 42894 (UNode (UNode (UNode (UNode ULeaf 42896 42954 ULeaf) 42960 42961 ULeaf) 42963 42963 (UNode ULeaf 42965 42969 ULeaf)) 42997 42998 (UNode (UNode ULeaf 43002 43002 ULeaf) 43824 43866 (UNode ULeaf 43872 43880 ULeaf)))) 43888 43967 (UNode (UNode (UNode (UNode (UNode ULeaf 64256 64262 ULeaf) 64275 64279 ULeaf) 65313 65338 (UNode ULeaf 65345 65370 ULeaf)) 66560 66639 (UNode (UNode (UNode ULeaf 66736 66771 ULeaf) 66776 66811 ULeaf) 66928 66938 (UNode ULeaf 66940 66954 ULeaf))) 66956 66962 (UNode (UNode (UNode (UNode ULeaf 66964 66965 ULeaf) 66967 66977 ULeaf) 66979 66993 (UNode ULeaf 66995 67001 ULeaf)) 67003 67004 (UNode (UNode ULeaf 68736 68786 ULeaf) 68800 68850 (UNode ULeaf 71840 71903 ULeaf))))) 93760 93823 (UNode (UNode (UNode (UNode (UNode (UNode ULeaf 119808 119892 ULeaf) 119894 119964 ULeaf) 119966 119967 (UNode ULeaf 119970 119970 ULeaf)) 119973 119974 (UNode (UNode (UNode ULeaf 119977 119980 ULeaf) 119982 119993 ULeaf) 119995 119995 (UNode ULeaf 119997 120003 ULeaf))) 120005 120069 (UNode (UNode (UNode (UNode ULeaf 120071 120074 ULeaf) 120077 120084 ULeaf) 120086 120092 (UNode ULeaf 120094 120121 ULeaf)) 120123 120126 (UNode (UNode ULeaf 120128 120132 ULeaf) 120134 120134 (UNode ULeaf 120138 120144 ULeaf)))) 120146 120485 (UNode (UNode (UNode (UNode (UNode ULeaf 120488 120512 ULeaf) 120514 120538 ULeaf) 120540 120570 (UNode ULeaf 120572 120596 ULeaf)) 120598 120628 (UNode (UNode ULeaf 120630 120654 ULeaf) 120656 120686 (UNode ULeaf 120688 120712 ULeaf))) 120714 120744 (UNode (UNode (UNode (UNode ULeaf 120746 120770 ULeaf) 120772 120779 ULeaf) 122624 122633 (UNode ULeaf 122635 122654 ULeaf)) 125184 125251 (UNode (UNode ULeaf 127280 127305 ULeaf) 127312 127337 (UNode ULeaf 127344 127369 ULeaf))))))).

(** The [Case_Ignorable] property (DerivedCoreProperties.txt). *)
Definition caseIgnorableRanges : UTree Z :=
  (UNode (UNode (UNode (UNode (UNode (UNode (UNode (UNode (UNode ULeaf 39 39 ULeaf) 46 46 (UNode ULeaf 58 58 ULeaf)) 94 94 (UNode (UNode ULeaf 96 96 ULeaf) 168 168 ULeaf)) 173 173 (UNode (UNode (UNode ULeaf 175 175 ULeaf) 180 180 (UNode ULeaf 183 184 ULeaf)) 688 879 (UNode (UNode ULeaf 884 885 ULeaf) 890 890 ULeaf))) 900 901 (UNode (UNode (UNode (UNode ULeaf 903 903 ULeaf) 1155 1161 (UNode ULeaf 1369 1369 ULeaf)) 1375 1375 (UNode (UNode ULeaf 1425 1469 ULeaf) 1471 1471 ULeaf)) 1473 1474 (UNode (UNode (UNode ULeaf 1476 1477 ULeaf) 1479 1479 ULeaf) 1524 1524 (UNode (UNode ULeaf 1536 1541 ULeaf) 1552 1562 ULeaf)))) 1564 1564 (UNode (UNode (UNode (UNode (UNode ULeaf 1600 1600 ULeaf) 1611 1631 (UNode ULeaf 1648 1648 ULeaf)) 1750 1757 (UNode (UNode ULeaf 1759 1768 ULeaf) 1770 1773 ULeaf)) 1807 1807 (UNode (UNode (UNode ULeaf 1809 1809 ULeaf) 1840 1866 (UNode ULeaf 1958 1968 ULeaf)) 2027 2037 (UNode (UNode ULeaf 2042 2042 ULeaf) 2045 2045 ULeaf))) 2070 2093 (UNode (UNode (UNode (UNode ULeaf 2137 2139 ULeaf) 2184 2184 (UNode ULeaf 2192 2193 ULeaf)) 2200 2207 (UNode (UNode ULeaf 2249 2306 ULeaf) 2362 2362 ULeaf)) 2364 2364 (UNode (UNode (UNode ULeaf 2369 2376 ULeaf) 2381 2381 ULeaf) 2385 2391 (UNode (UNode ULeaf 2402 2403 ULeaf) 2417 2417 ULeaf))))) 2433 2433 (UNode (UNode (UNode (UNode (UNode (UNode ULeaf 2492 2492 ULeaf) 2497 2500 (UNode ULeaf 2509 2509 ULeaf)) 2530 2531 (UNode (UNode ULeaf 2558 2558 ULeaf) 2561 2562 ULeaf)) 2620 2620 (UNode (UNode (UNode ULeaf 2625 2626 ULeaf) 2631 2632 (UNode ULeaf 2635 2637 ULeaf)) 2641 2641 (UNode (UNode ULeaf 2672 2673 ULeaf) 2677 2677 ULeaf))) 2689 2690 (UNode (UNode (UNode (UNode ULeaf 2748 2748 ULeaf) 2753 2757 (UNode ULeaf 2759 2760 ULeaf)) 2765 2765 (UNode (UNode ULeaf 2786 2787 ULeaf) 2810 2815 ULeaf)) 2817 2817 (UNode (UNode (UNode ULeaf 2876 2876 ULeaf) 2879 2879 ULeaf) 2881 2884 (UNode (UNode ULeaf 2893 2893 ULeaf) 2901 2902 ULeaf)))) 2914 2915 (UNode (UNode (UNode (UNode (UNode ULeaf 2946 2946 ULeaf) 3008 3008 (UNode ULeaf 3021 3021 ULeaf)) 3072 3072 (UNode (UNode ULeaf 3076 3076 ULeaf) 3132 3132 ULeaf)) 3134 3136 (UNode (UNode (UNode ULeaf 3142 3144 ULeaf) 3146 3149 ULeaf) 3157 3158 (UNode (UNode ULeaf 3170 3171 ULeaf) 3201 3201 ULeaf))) 3260 3260 (UNode (UNode (UNode (UNode ULeaf 3263 3263 ULeaf) 3270 3270 (UNode ULeaf 3276 3277 ULeaf)) 3298 3299 (UNode (UNode ULeaf 3328 3329 ULeaf) 3387 3388 ULeaf)) 3393 3396 (UNode (UNode (UNode ULeaf 3405 3405 ULeaf) 3426 3427 ULeaf) 3457 3457 (UNode (UNode ULeaf 3530 3530 ULeaf) 3538 3540 ULeaf)))))) 3542 3542 (UNode (UNode (UNode (UNode (UNode (UNode (UNode ULeaf 3633 3633 ULeaf) 3636 3642 (UNode ULeaf 3654 3662 ULeaf)) 3761 3761 (UNode (UNode ULeaf 3764 3772 ULeaf) 3782 3782 ULeaf)) 3784 3789 (UNode (UNode (UNode ULeaf 3864 3865 ULeaf) 3893 3893 (UNode ULeaf 3895 3895 ULeaf)) 3897 3897 (UNode (UNode ULeaf 3953 3966 ULeaf) 3968 3972 ULeaf))) 3974 3975 (UNode (UNode (UNode (UNode ULeaf 3981 3991 ULeaf) 3993 4028 (UNode ULeaf 4038 4038 ULeaf)) 4141 4144 (UNode (UNode ULeaf 4146 4151 ULeaf) 4153 4154 ULeaf)) 4157 4158 (UNode (UNode (UNode ULeaf 4184 4185 ULeaf) 4190 4192 ULeaf) 4209 4212 (UNode (UNode ULeaf 4226 4226 ULeaf) 4229 4230 ULeaf)))) 4237 4237 (UNode (UNode (UNode (UNode (UNode ULeaf 4253 4253 ULeaf) 4348 4348 (UNode ULeaf 4957 4959 ULeaf)) 5906 5908 (UNode (UNode ULeaf 5938 5939 ULeaf) 5970 5971 ULeaf)) 6002 6003 (UNode (UNode (UNode ULeaf 6068 6069 ULeaf) 6071 6077 (UNode ULeaf 6086 6086 ULeaf)) 6089 6099 (UNode (UNode ULeaf 6103 6103 ULeaf) 6109 6109 ULeaf))) 6155 6159 (UNode (UNode (UNode (UNode ULeaf 6211 6211 ULeaf) 6277 6278 (UNode ULeaf 6313 6313 ULeaf)) 6432 6434 (UNode (UNode ULeaf 6439 6440 ULeaf) 6450 6450 ULeaf)) 6457 6459 (UNode (UNode (UNode ULeaf 6679 6680 ULeaf) 6683 6683 ULeaf) 6742 6742 (UNode (UNode ULeaf 6744 6750 ULeaf) 6752 6752 ULeaf))))) 6754 6754 (UNode (UNode (UNode (UNode (UNode (UNode ULeaf 6757 6764 ULeaf) 6771 6780 (UNode ULeaf 6783 6783 ULeaf)) 6823 6823 (UNode (UNode ULeaf 6832 6862 ULeaf) 6912 6915 ULeaf)) 6964 6964 (UNode (UNode (UNode ULeaf 6966 6970 ULeaf) 6972 6972 (UNode ULeaf 6978 6978 ULeaf)) 7019 7027 (UNode (UNode ULeaf 7040 7041 ULeaf) 7074 7077 ULeaf))) 7080 7081 (UNode (UNode (UNode (UNode ULeaf 7083 7085 ULeaf) 7142 7142 (UNode ULeaf 7144 7145 ULeaf)) 7149 7149 (UNode (UNode ULeaf 7151 7153 ULeaf) 7212 7219 ULeaf)) 7222 7223 (UNode (UNode (UNode ULeaf 7288 7293 ULeaf) 7376 7378 ULeaf) 7380 7392 (UNode (UNode ULeaf 7394 7400 ULeaf) 7405 7405 ULeaf)))) 7412 7412 (UNode (UNode (UNode (UNode (UNode ULeaf 7416 7417 ULeaf) 7468 7530 (UNode ULeaf 7544 7544 ULeaf)) 7579 7679 (UNode (UNode ULeaf 8125 8125 ULeaf) 8127 8129 ULeaf)) 8141 8143 (UNode (UNode (UNode ULeaf 8157 8159 ULeaf) 8173 8175 ULeaf) 8189 8190 (UNode (UNode ULeaf 8203 8207 ULeaf) 8216 8217 ULeaf))) 8228 8228 (UNode (UNode (UNode (UNode ULeaf 8231 8231 ULeaf) 8234 8238 (UNode ULeaf 8288 8292 ULeaf)) 8294 8303 (UNode (UNode ULeaf 8305 8305 ULeaf) 8319 8319 ULeaf)) 8336 8348 (UNode (UNode (UNode ULeaf 8400 8432 ULeaf) 11388 11389 ULeaf) 11503 11505 (UNode (UNode ULeaf 11631 11631 ULeaf) 11647 11647 ULeaf))))))) 11744 11775 (UNode (UNode (UNode (UNode (UNode (UNode (UNode (UNode ULeaf 11823 11823 ULeaf) 12293 12293 (UNode ULeaf 12330 12333 ULeaf)) 12337 12341 (UNode (UNode ULeaf 12347 12347 ULeaf) 12441 12446 ULeaf)) 12540 12542 (UNode (UNode (UNode ULeaf 40981 40981 ULeaf) 42232 42237 (UNode ULeaf 42508 42508 ULeaf)) 42607 42610 (UNode (UNode ULeaf 42612 42621 ULeaf) 42623 42623 ULeaf))) 42652 42655 (UNode (UNode (UNode (UNode ULeaf 42736 42737 ULeaf) 42752 42785 (UNode ULeaf 42864 42864 ULeaf)) 42888 42890 (UNode (UNode ULeaf 42994 42996 ULeaf) 43000 43001 ULeaf)) 43010 43010 (UNode (UNode (UNode ULeaf 43014 43014 ULeaf) 43019 43019 ULeaf) 43045 43046 (UNode (UNode ULeaf 43052 43052 ULeaf) 43204 43205 ULeaf)))) 43232 43249 (UNode (UNode (UNode (UNode (UNode ULeaf 43263 43263 ULeaf) 43302 43309 (UNode ULeaf 43335 43345 ULeaf)) 43392 43394 (UNode (UNode ULeaf 43443 43443 ULeaf) 43446 43449 ULeaf)) 43452 43453 (UNode (UNode (UNode ULeaf 43471 43471 ULeaf) 43493 43494 (UNode ULeaf 43561 43566 ULeaf)) 43569 43570 (UNode (UNode ULeaf 43573 43574 ULeaf) 43587 43587 ULeaf))) 43596 43596 (UNode (UNode (UNode (UNode ULeaf 43632 43632 ULeaf) 43644 43644 (UNode ULeaf 43696 43696 ULeaf)) 43698 43700 (UNode (UNode ULeaf 43703 43704 ULeaf) 43710 43711 ULeaf)) 43713 43713 (UNode (UNode (UNode ULeaf 43741 43741 ULeaf) 43756 43757 ULeaf) 43763 43764 (UNode (UNode ULeaf 43766 43766 ULeaf) 43867 43871 ULeaf))))) 43881 43883 (UNode (UNode (UNode (UNode (UNode (UNode ULeaf 44005 44005 ULeaf) 44008 44008 (UNode ULeaf 44013 44013 ULeaf)) 64286 64286 (UNode (UNode ULeaf 64434 64450 ULeaf) 65024 65039 ULeaf)) 65043 65043 (UNode (UNode (UNode ULeaf 65056 65071 ULeaf) 65106 65106 (UNode ULeaf 65109 65109 ULeaf)) 65279 65279 (UNode (UNode ULeaf 65287 65287 ULeaf) 65294 65294 ULeaf))) 65306 65306 (UNode (UNode (UNode (UNode ULeaf 65342 65342 ULeaf) 65344 65344 (UNode ULeaf 65392 65392 ULeaf)) 65438 65439 (UNode (UNode ULeaf 65507 65507 ULeaf) 65529 65531 ULeaf)) 66045 66045 (UNode (UNode (UNode ULeaf 66272 66272 ULeaf) 66422 66426 ULeaf) 67456 67461 (UNode (UNode ULeaf 67463 67504 ULeaf) 67506 67514 ULeaf)))) 68097 68099 (UNode (UNode (UNode (UNode (UNode ULeaf 68101 68102 ULeaf) 68108 68111 (UNode ULeaf 68152 68154 ULeaf)) 68159 68159 (UNode (UNode ULeaf 68325 68326 ULeaf) 68900 68903 ULeaf)) 69291 69292 (UNode (UNode (UNode ULeaf 69446 69456 ULeaf) 69506 69509 ULeaf) 69633 69633 (UNode (UNode ULeaf 69688 69702 ULeaf) 69744 69744 ULeaf))) 69747 69748 (UNode (UNode (UNode (UNode ULeaf 69759 69761 ULeaf) 69811 69814 (UNode ULeaf 69817 69818 ULeaf)) 69821 69821 (UNode (UNode ULeaf 69826 69826 ULeaf) 69837 69837 ULeaf)) 69888 69890 (UNode (UNode (UNode ULeaf 69927 69931 ULeaf) 69933 69940 ULeaf) 70003 70003 (UNode (UNode ULeaf 70016 70017 ULeaf) 70070 70078 ULeaf)))))) 70089 70092 (UNode (UNode (UNode (UNode (UNode (UNode (UNode ULeaf 70095 70095 ULeaf) 70191 70193 (UNode ULeaf 70196 70196 ULeaf)) 70198 70199 (UNode (UNode ULeaf 70206 70206 ULeaf) 70367 70367 ULeaf)) 70371 70378 (UNode (UNode (UNode ULeaf 70400 70401 ULeaf) 70459 70460 (UNode ULeaf 70464 70464 ULeaf)) 70502 70508 (UNode (UNode ULeaf 70512 70516 ULeaf) 70712 70719 ULeaf))) 70722 70724 (UNode (UNode (UNode (UNode ULeaf 70726 70726 ULeaf) 70750 70750 (UNode ULeaf 70835 70840 ULeaf)) 70842 70842 (UNode (UNode ULeaf 70847 70848 ULeaf) 70850 70851 ULeaf)) 71090 71093 (UNode (UNode (UNode ULeaf 71100 71101 ULeaf) 71103 71104 ULeaf) 71132 71133 (UNode (UNode ULeaf 71219 71226 ULeaf) 71229 71229 ULeaf)))) 71231 71232 (UNode (UNode (UNode (UNode (UNode ULeaf 71339 71339 ULeaf) 71341 71341 (UNode ULeaf 71344 71349 ULeaf)) 71351 71351 (UNode (UNode ULeaf 71453 71455 ULeaf) 71458 71461 ULeaf)) 71463 71467 (UNode (UNode (UNode ULeaf 71727 71735 ULeaf) 71737 71738 (UNode ULeaf 71995 71996 ULeaf)) 71998 71998 (UNode (UNode ULeaf 72003 72003 ULeaf) 72148 72151 ULeaf))) 72154 72155 (UNode (UNode (UNode (UNode ULeaf 72160 72160 ULeaf) 72193 72202 (UNode ULeaf 72243 72248 ULeaf)) 72251 72254 (UNode (UNode ULeaf 72263 72263 ULeaf) 72273 72278 ULeaf)) 72281 72283 (UNode (UNode (UNode ULeaf 72330 72342 ULeaf) 72344 72345 ULeaf) 72752 72758 (UNode (UNode ULeaf 72760 72765 ULeaf) 72767 72767 ULeaf))))) 72850 72871 (UNode (UNode (UNode (UNode (UNode (UNode ULeaf 72874 72880 ULeaf) 72882 72883 (UNode ULeaf 72885 72886 ULeaf)) 73009 73014 (UNode (UNode ULeaf 73018 73018 ULeaf) 73020 73021 ULeaf)) 73023 73029 (UNode (UNode (UNode ULeaf 73031 73031 ULeaf) 73104 73105 (UNode ULeaf 73109 73109 ULeaf)) 73111 73111 (UNode (UNode ULeaf 73459 73460 ULeaf) 78896 78904 ULeaf))) 92912 92916 (UNode (UNode (UNode (UNode ULeaf 92976 92982 ULeaf) 92992 92995 (UNode ULeaf 94031 94031 ULeaf)) 94095 94111 (UNode (UNode ULeaf 94176 94177 ULeaf) 94179 94180 ULeaf)) 110576 110579 (UNode (UNode (UNode ULeaf 110581 110587 ULeaf) 110589 110590 ULeaf) 113821 113822 (UNode (UNode ULeaf 113824 113827 ULeaf) 118528 118573 ULeaf)))) 118576 118598 (UNode (UNode (UNode (UNode (UNode ULeaf 119143 119145 ULeaf) 119155 119170 (UNode ULeaf 119173 119179 ULeaf)) 119210 119213 (UNode (UNode ULeaf 119362 119364 ULeaf) 121344 121398 ULeaf)) 121403 121452 (UNode (UNode (UNode ULeaf 121461 121461 ULeaf) 121476 121476 ULeaf) 121499 121503 (UNode (UNode ULeaf 121505 121519 ULeaf) 122880 122886 ULeaf))) 122888 122904 (UNode (UNode (UNode (UNode ULeaf 122907 122913 ULeaf) 122915 122916 (UNode ULeaf 122918 122922 ULeaf)) 123184 123197 (UNode (UNode ULeaf 123566 123566 ULeaf) 123628 123631 ULeaf)) 125136 125142 (UNode (UNode (UNode ULeaf 125252 125259 ULeaf) 127995 127999 ULeaf) 917505 917505 (UNode (UNode ULeaf 917536 917631 ULeaf) 917760 917999 ULeaf)))))))).

(** Hangul syllables and conjoining jamo (Unicode, section 3.12). *)
Definition SBase : Z := 44032.
Definition LBase : Z := 4352.
Definition VBase : Z := 4449.
Definition TBase : Z := 4519.
Definition LCount : Z := 19.
Definition VCount : Z := 21.
Definition TCount : Z := 28.
Definition NCount : Z := 588.
Definition SCount : Z := 11172.

Definition isHangulSyllable (c : Z) : bool := (SBase <=? c) && (c <? SBase + SCount).
Definition isLeadingJamo (c : Z) : bool := (LBase <=? c) && (c <? LBase + LCount).
Definition isVowelJamo (c : Z) : bool := (VBase <=? c) && (c <? VBase + VCount).
Definition isTrailingJamo (c : Z) : bool := (TBase <? c) && (c <? TBase + TCount).

(** The arithmetic decomposition of a Hangul syllable into L V or L V T. *)
Definition hangulDecompose (c : Z) : list Z :=
  let sIndex := c - SBase in
  let l := LBase + sIndex / NCount in
  let v := VBase + (sIndex mod NCount) / TCount in
  let t := TBase + sIndex mod TCount in
  if t =? TBase then [l; v] else [l; v; t].

(** [Canonical_Combining_Class]. *)
Definition ccc (c : Z) : Z :=
  match ulookup cccTable c with Some k => k | None => 0 end.

(** The full compatibility decomposition of one code point. *)
Definition decompFull (c : Z) : list Z :=
  if isHangulSyllable c then hangulDecompose c
  else match ulookup decompTable c with Some d => d | None => [c] end.

(** The canonical ordering algorithm (UAX #15): each run of non-starters is
    sorted by combining class, stably. *)
Fixpoint insertByClass (x : Z) (run : list Z) : list Z :=
  match run with
  | [] => [x]
  | y :: run' => if ccc x <? ccc y then x :: run else y :: insertByClass x run'
  end.

Fixpoint reorderAux (run : list Z) (l : list Z) : list Z :=
  match l with
  | [] => run
  | c :: l' =>
      if ccc c =? 0 then run ++ c :: reorderAux [] l'
      else reorderAux (insertByClass c run) l'
  end.

Definition canonicalOrder (l : list Z) : list Z := reorderAux [] l.

Fixpoint assocZ (a : Z) (ps : list (Z * Z)) : option Z :=
  match ps with
  | [] => None
  | (x, c) :: ps' => if a =? x then Some c else assocZ a ps'
  end.

(** The primary composite of a pair, if any: LV and LVT syllables
    arithmetically, the other pairs from [compTable]. *)
Definition composePair (a b : Z) : option Z :=
  if isLeadingJamo a && isVowelJamo b then
    Some (SBase + ((a - LBase) * VCount + (b - VBase)) * TCount)
  else if isHangulSyllable a && ((a - SBase) mod TCount =? 0) && isTrailingJamo b then
    Some (a + (b - TBase))
  else match ulookup compTable b with
       | Some ps => assocZ a ps
       | None => None
       end.

(** The state of the canonical composition algorithm (UAX #15): the output
    before the last starter (reversed), the last starter, the characters kept
    after it (reversed), and the combining class of the last character kept
    ([cs_last = 0] when none was kept after the starter). *)
Record CState := { cs_pre : list Z; cs_starter : Z; cs_post : list Z; cs_last : Z }.

(** One character: it combines with the last starter when it is not blocked
    from it, else it is kept (a starter becomes the new last starter). *)
Definition composeStep (st : CState) (ch : Z) : CState :=
  let chClass := ccc ch in
  let keep :=
    if chClass =? 0 then
      {| cs_pre := cs_post st ++ cs_starter st :: cs_pre st; cs_starter := ch;
         cs_post := []; cs_last := 0 |}
    else
      {| cs_pre := cs_pre st; cs_starter := cs_starter st;
         cs_post := ch :: cs_post st; cs_last := chClass |} in
  match composePair (cs_starter st) ch with
  | Some comp =>
      if (cs_last st <? chClass) || (cs_last st =? 0)
      then {| cs_pre := cs_pre st; cs_starter := comp; cs_post := cs_post st; cs_last := cs_last st |}
      else keep
  | None => keep
  end.

(** Canonical composition; a first character that is not a starter blocks
    everything after it from combining with it ([cs_last = 256]). *)
Definition compose (l : list Z) : list Z :=
  match l with
  | [] => []
  | c :: t =>
      let st := fold_left composeStep t
        {| cs_pre := []; cs_starter := c; cs_post := [];
           cs_last := if ccc c =? 0 then 0 else 256 |} in
      rev (cs_pre st) ++ cs_starter st :: rev (cs_post st)
  end.

(** NFKC on code points: full compatibility decomposition, canonical
    ordering, canonical composition. *)
Definition nfkc (s : list Z) : list Z := compose (canonicalOrder (flat_map decompFull s)).

Definition lowerFull (c : Z) : list Z :=
  match ulookup lowerTable c with Some l => l | None => [c] end.

Definition isCased (c : Z) : bool := inRanges casedRanges c.
Definition isCaseIgnorable (c : Z) : bool := inRanges caseIgnorableRanges c.

(** The [Final_Sigma] context of SpecialCasing.txt: a cased letter before
    (case-ignorable characters skipped) and none after. *)
Fixpoint precededByCased (beforeRev : list Z) : bool :=
  match beforeRev with
  | [] => false
  | c :: r => if isCaseIgnorable c then precededByCased r else isCased c
  end.

Fixpoint followedByCased (after : list Z) : bool :=
  match after with
  | [] => false
  | c :: r => if isCaseIgnorable c then followedByCased r else isCased c
  end.

(** [toLowerCase] on code points: the full lower-case mapping, with U+03A3
    (capital sigma) becoming U+03C2 (final sigma) in the [Final_Sigma]
    context. *)
Fixpoint toLowerAux (beforeRev : list Z) (l : list Z) : list Z :=
  match l with
  | [] => []
  | c :: l' =>
      (if (c =? 931) && precededByCased beforeRev && negb (followedByCased l')
       then [962] else lowerFull c) ++ toLowerAux (c :: beforeRev) l'
  end.

Definition toLowerCase (s : list Z) : list Z := toLowerAux [] s.

(** [\p{Letter}] or [\p{Number}]. *)
Definition isLetterOrNumber (c : Z) : bool := inRanges letterNumberRanges c.

Definition isHighSurrogate (u : Z) : bool := (55296 <=? u) && (u <=? 56319).
Definition isLowSurrogate (u : Z) : bool := (56320 <=? u) && (u <=? 57343).

(** The code points of a JavaScript string: a high surrogate followed by a
    low one is a pair, any other code unit stands for itself (a lone
    surrogate included). *)
Fixpoint utf16Decode (s : list Z) : list Z :=
  match s with
  | [] => []
  | a :: s' =>
      if isHighSurrogate a then
        match s' with
        | b :: s'' =>
            if isLowSurrogate b then (65536 + (a - 55296) * 1024 + (b - 56320)) :: utf16Decode s''
            else a :: utf16Decode s'
        | [] => [a]
        end
      else a :: utf16Decode s'
  end.

Definition utf16EncodeCP (c : Z) : list Z :=
  if c <? 65536 then [c] else [55296 + (c - 65536) / 1024; 56320 + (c - 65536) mod 1024].

Definition utf16Encode (l : list Z) : list Z := flat_map utf16EncodeCP l.

(** [s.normalize("NFKC")], [s.toLowerCase()] and
    [s.replace(/[^\p{Letter}\p{Number}]+/gu, "")] on code units. *)
Definition jsNormalizeNFKC (s : list Z) : list Z := utf16Encode (nfkc (utf16Decode s)).
Definition jsToLowerCase (s : list Z) : list Z := utf16Encode (toLowerCase (utf16Decode s)).
Definition jsRemoveNonLetterNumber (s : list Z) : list Z :=
  utf16Encode (List.filter isLetterOrNumber (utf16Decode s)).

(** [function normText(text) {
       if (!text) return "";
       return text.normalize("NFKC").toLowerCase().replace(NON_ALNUM_RE, "");
     }] *)
Definition normText (text : list Z) : list Z :=
  if bool_decide (text = []) then []
  else jsRemoveNonLetterNumber (jsToLowerCase (jsNormalizeNFKC text)).

(** Predicates used in the proof that [normText] is idempotent. *)
Fixpoint zeqb (a b : list Z) : bool :=
  match a, b with
  | [], [] => true
  | x :: a', y :: b' => (x =? y) && zeqb a' b'
  | _, _ => false
  end.

Definition isValidCP (c : Z) : bool :=
  (0 <=? c) && (c <=? 1114111) && negb ((55296 <=? c) && (c <=? 57343)).
Definition isSurrogate (c : Z) : bool := (55296 <=? c) && (c <=? 57343).

(** A well-formed JavaScript string: 16-bit code units and no lone
    surrogate. *)
Definition wellFormedUTF16 (s : list Z) : bool :=
  forallb (fun u => (0 <=? u) && (u <? 65536)) s && forallb (fun c => negb (isSurrogate c)) (utf16Decode s).

(** A code point without decomposition. *)
Definition stableCP (c : Z) : bool :=
  negb (isHangulSyllable c) && match ulookup decompTable c with Some _ => false | None => true end.
(** A code point that may be the second of a composing pair. *)
Definition isSecond (b : Z) : bool :=
  isVowelJamo b || isTrailingJamo b || match ulookup compTable b with Some _ => true | None => false end.
(** A code point that [nfkc] and [toLowerCase] leave alone, and that
    nothing before it composes with. *)
Definition fixedCP (c : Z) : bool :=
  zeqb (lowerFull c) [c] && negb (c =? 931) &&
  match decompFull c with h :: _ => (ccc h =? 0) && negb (isSecond h) | [] => false end &&
  zeqb (compose (canonicalOrder (decompFull c))) [c].
Definition lnOk (c : Z) : bool :=
  negb (isLetterOrNumber c) || isVowelJamo c || isTrailingJamo c || fixedCP c.
(** A code point whose lower-case images are either dropped by the last
    step, conjoining jamo, or fixed. *)
Definition okChar (c : Z) : bool :=
  isValidCP c && forallb (fun c' => isValidCP c' && lnOk c') (lowerFull c).
Fixpoint uforall {A} (f : Z -> A -> bool) (t : UTree A) : bool :=
  match t with ULeaf => true | UNode l k v r => f k v && uforall f l && uforall f r end.

Definition stateOk (st : CState) : Prop :=
  okChar (cs_starter st) = true /\ Forall (fun c => okChar c = true) (cs_pre st) /\
  Forall (fun c => okChar c = true) (cs_post st).

(** The code points of [normText x] before the final encoding. *)
Definition normCPs (x : list Z) : list Z :=
  List.filter isLetterOrNumber (toLowerCase (nfkc (utf16Decode x))).

Definition withPre (st : CState) (P : list Z) : CState :=
  {| cs_pre := cs_pre st ++ P; cs_starter := cs_starter st; cs_post := cs_post st; cs_last := cs_last st |}.

Definition stateOutput (st : CState) : list Z := rev (cs_pre st) ++ cs_starter st :: rev (cs_post st).

Section WithNormText.

(** [normText]: NFKC, lower case, then drop every code point that is not a
    letter or a number.  The engine is modelled for any such function; the
    Unicode one is [normText] above. *)
Variable normText : list Z -> list Z.

(** The body of the [for (const p of parts)] loop of [parseQuery]. *)
Definition parseStep (acc : list (list Z) * list (list Z)) (p : list Z)
    : list (list Z) * list (list Z) :=
  let '(include, exclude) := acc in
  let isExclude := partIsExclude p in
  let body := if isExclude then drop 1 p else p in
  let n := normText body in
  if Z.of_nat (length n) <? 2 then (include, exclude)
  else if isExclude then (include, setAdd n exclude)
  else (setAdd n include, exclude).

Definition strGt (a b : list Z) : bool := strLt b a.

Definition parseQuery (raw : list Z) : ParsedQuery :=
  let parts := queryParts raw in
  let '(include, exclude) := fold_left parseStep parts ([], []) in
  let excludeTerms := sortBy strGt exclude in
  let includeTerms :=
    sortBy strGt (filter (fun t => negb (bool_decide (t ∈ exclude))) include) in
  {| pq_include := includeTerms; pq_exclude := excludeTerms |}.

(* ------------------------------------------------------------------ *)
(** ** Tokens and the dictionary *)

(** [uniqNgrams]: the distinct windows of length [n], in first-seen order. *)
Definition uniqNgrams (text : list Z) (n : nat) : list (list Z) :=
  if (length text <? n)%nat then []
  else fold_left (fun st i => setAdd (take n (drop i text)) st)
         (seq 0 (S (length text - n))) [].

Definition tokenKey (token : list Z) : option Z :=
  match token with
  | [a; b] => Some (a * 65536 + b)
  | _ => None
  end.

(** The [while (lo <= hi)] loop of [findKey]; the interval shrinks at every
    step, so [length keys + 1] iterations are enough. *)
Fixpoint findKeyLoop (fuel : nat) (keys : list Z) (key lo hi : Z) : Z :=
  match fuel with
  | O => -1
  | S f =>
      if lo <=? hi then
        let mid := Z.shiftr (lo + hi) 1 in
        let v := zget0 keys mid in
        if v =? key then mid
        else if v <? key then findKeyLoop f keys key (mid + 1) hi
        else findKeyLoop f keys key lo (mid - 1)
      else -1
  end.

Definition findKey (keys : list Z) (key : Z) : Z :=
  findKeyLoop (S (length keys)) keys key 0 (Z.of_nat (length keys) - 1).

(** [DictBin]; [dict_version] is 1 or 2 and [dict_shardIds] is only read
    for version 2. *)
Record DictBin := {
  dict_version : Z;
  dict_n : nat;
  dict_keys : list Z;
  dict_shardIds : list Z;
  dict_offsets : list Z;
  dict_lengths : list Z;
  dict_dfs : list Z
}.

Definition dictShardId (dict : DictBin) (tokenIdx : Z) : Z :=
  if dict_version dict =? 2 then zget0 (dict_shardIds dict) tokenIdx else 0.

(** The token-to-index loop that [buildExcludeMask], the multi-term path and
    the single-term path of [searchSync] each write out:
    [for (const token of termTokens) { key; findKey; push }]. *)
Definition lookupTokenIdxs (dict : DictBin) (tokens : list (list Z)) : list Z :=
  fold_left (fun idxs token =>
    match tokenKey token with
    | None => idxs
    | Some key => let idx := findKey (dict_keys dict) key in
                  if idx <? 0 then idxs else idxs ++ [idx]
    end) tokens [].

(** [tokenIdxs.sort((a, b) => s.dict.dfs[a] - s.dict.dfs[b])] *)
Definition sortByDf (dict : DictBin) (idxs : list Z) : list Z :=
  sortBy (fun y x => 0 <? zget0 (dict_dfs dict) y - zget0 (dict_dfs dict) x) idxs.

(** [Math.max(1, Math.ceil(k * 0.6))] clamped by [Math.min(_, found)].  For an
    integer [k] the double [k * 0.6] has the ceiling of [3k/5]: it is exactly
    [3k/5] when 5 divides [k] and at least [1/5] away from an integer
    otherwise. *)
Definition ceil06 (k : Z) : Z := (3 * k + 4) / 5.

Definition minHitClamped (k found : Z) : Z := Z.min (Z.max 1 (ceil06 k)) found.

(* ------------------------------------------------------------------ *)
(** ** The loaded engine *)

(** The strings [decodeString] gives for a doc from its meta shard (the
    cover already joined from its base and path). *)
Record DocMeta := {
  dm_title : list Z;
  dm_cover : list Z;
  dm_aliases : list Z;
  dm_authors : list Z
}.

(** The part of [LoadedState] that a search only reads.  [metaDocs !! docId]
    is [None] when the meta shard of [docId] is missing ([if (!shard)]). *)
Record Engine := {
  totalCount : Z;
  metaSep : Z;
  metaIds : list Z;
  metaTagLo : list Z;
  metaTagHi : list Z;
  metaFlags : list Z;
  metaDocs : list (option DocMeta);
  tagByBit : list (option (Z * list Z));
  dict : DictBin;
  indexCache : gmap Z (list Z)
}.

(** The fields a search writes: the scratch buffers [counts] (a
    [Uint16Array]), [scores] (a [Float32Array], kept as exact rationals:
    rounding to single precision changes neither which entries are zero nor
    any doc-id set), [touched], and the result cache slot. *)
Record LoadedState := {
  eng : Engine;
  counts : list Z;
  scores : list Q;
  touched : list Z;
  cache : option (list Z * list Z)
}.

Definition setCounts (s : LoadedState) c : LoadedState :=
  {| eng := eng s; counts := c; scores := scores s; touched := touched s; cache := cache s |}.
Definition setScores (s : LoadedState) sc : LoadedState :=
  {| eng := eng s; counts := counts s; scores := sc; touched := touched s; cache := cache s |}.
Definition setTouched (s : LoadedState) t : LoadedState :=
  {| eng := eng s; counts := counts s; scores := scores s; touched := t; cache := cache s |}.
Definition setCache (s : LoadedState) k ids : LoadedState :=
  {| eng := eng s; counts := counts s; scores := scores s; touched := touched s;
     cache := Some (k, ids) |}.

Inductive SearchError := IndexNotLoaded | MetaShardMissing.

Inductive Res (A : Type) := Ok (a : A) | Err (e : SearchError).
#[global] Arguments Ok {A} a.
#[global] Arguments Err {A} e.

(** [decodeTokenIdxPostings]: [None] is the [throw] of an unloaded shard. *)
Definition decodeTokenIdxPostings (e : Engine) (tokenIdx : Z) : option (list Z) :=
  match indexCache e !! dictShardId (dict e) tokenIdx with
  | None => None
  | Some index =>
      Some (decodePostings index (zget0 (dict_offsets (dict e)) tokenIdx)
              (zget0 (dict_lengths (dict e)) tokenIdx))
  end.

(** The [onDoc] callback of the counting loops: unless [skip docId],
    [prev = counts[docId]; if (prev === 0) touched.push(docId);
     counts[docId] = prev + 1] (a [Uint16Array] store).  Out of range,
    [prev] is [undefined]: nothing is pushed and the store does nothing. *)
Definition onDocCount (skip : Z -> bool) (acc : list Z * list Z) (docId : Z)
    : list Z * list Z :=
  let '(cnt, tch) := acc in
  if skip docId then acc
  else match zlookup cnt docId with
       | None => acc
       | Some prev =>
           (zinsert docId ((prev + 1) mod 65536) cnt,
            if prev =? 0 then tch ++ [docId] else tch)
       end.

(** [for (const idx of tokenIdxs) decodeTokenIdxPostings(s, idx, onDoc)]:
    the updated counters and touched list, and the error thrown on the way
    if a shard is not loaded (the updates made before it are kept). *)
Fixpoint countPostings (e : Engine) (skip : Z -> bool) (idxs : list Z)
    (cnt tch : list Z) : list Z * list Z * option SearchError :=
  match idxs with
  | [] => (cnt, tch, None)
  | idx :: rest =>
      match decodeTokenIdxPostings e idx with
      | None => (cnt, tch, Some IndexNotLoaded)
      | Some docIds =>
          let '(cnt', tch') := fold_left (onDocCount skip) docIds (cnt, tch) in
          countPostings e skip rest cnt' tch'
      end
  end.

(** [buildExcludeMask]: for every exclude term, count the hits of the docs
    not yet in the mask over its found tokens, then mark the docs reaching the
    clamped threshold and reset their counters through [termTouched].
    The result is the counters, the mask, and the error if one was thrown. *)
Fixpoint excludeLoop (e : Engine) (terms : list (list Z)) (cnt mask : list Z)
    : list Z * list Z * option SearchError :=
  match terms with
  | [] => (cnt, mask, None)
  | term :: rest =>
      let termTokens := uniqNgrams term (dict_n (dict e)) in
      if bool_decide (termTokens = []) then excludeLoop e rest cnt mask else
      let tokenIdxs := lookupTokenIdxs (dict e) termTokens in
      if bool_decide (tokenIdxs = []) then excludeLoop e rest cnt mask else
      let sorted := sortByDf (dict e) tokenIdxs in
      let mh := minHitClamped (Z.of_nat (length termTokens)) (Z.of_nat (length tokenIdxs)) in
      let '(cnt1, termTouched, err) :=
        countPostings e (fun d => bool_decide (zlookup mask d = Some 1)) sorted cnt [] in
      match err with
      | Some er => (cnt1, mask, Some er)
      | None =>
          let '(cnt2, mask2) :=
            fold_left (fun '(c, m) d =>
              (zinsert d 0 c,
               match zlookup c d with
               | Some h => if mh <=? h then zinsert d 1 m else m
               | None => m
               end)) termTouched (cnt1, mask) in
          excludeLoop e rest cnt2 mask2
      end
  end.

Definition buildExcludeMask (e : Engine) (cnt : list Z) (excludeTerms : list (list Z))
    : list Z * list Z * option SearchError :=
  excludeLoop e excludeTerms cnt (repeat 0 (Z.to_nat (totalCount e))).

(* ------------------------------------------------------------------ *)
(** ** Filters *)

Inductive FilterMode := FAny | FOnly0 | FOnly1.
Inductive SortMode := Relevance | IdDesc | IdAsc.
#[global] Instance FilterMode_eq_dec : EqDecision FilterMode.
Proof. solve_decision. Defined.
#[global] Instance SortMode_eq_dec : EqDecision SortMode.
Proof. solve_decision. Defined.

Definition filterModeStr (m : FilterMode) : list Z :=
  match m with FAny => lit "any" | FOnly0 => lit "only0" | FOnly1 => lit "only1" end.
Definition sortModeStr (m : SortMode) : list Z :=
  match m with Relevance => lit "relevance" | IdDesc => lit "id_desc" | IdAsc => lit "id_asc" end.

(** One status filter of [passesFilters] against one bit of [flags]. *)
Definition flagOk (mode : FilterMode) (f bit : Z) : bool :=
  match mode with
  | FAny => true
  | FOnly0 => Z.land f bit =? 0
  | FOnly1 => negb (Z.land f bit =? 0)
  end.

Definition passesFilters (e : Engine) (docId selectedLo selectedHi excludedLo excludedHi : Z)
    (hidden hideChapter needLogin lock : FilterMode) : bool :=
  let tlo := zget0 (metaTagLo e) docId in
  let thi := zget0 (metaTagHi e) docId in
  let f := zget0 (metaFlags e) docId in
  (if negb (selectedLo =? 0) || negb (selectedHi =? 0) then
     (toInt32 (Z.land (toInt32 tlo) selectedLo) =? selectedLo)
     && (toInt32 (Z.land (toInt32 thi) selectedHi) =? selectedHi)
   else true)
  && negb (negb (excludedLo =? 0) && negb (toInt32 (Z.land (toInt32 tlo) excludedLo) =? 0))
  && negb (negb (excludedHi =? 0) && negb (toInt32 (Z.land (toInt32 thi) excludedHi) =? 0))
  && flagOk hidden f 1 && flagOk hideChapter f 2 && flagOk needLogin f 4 && flagOk lock f 8.

(** [a << b] *)
Definition jsShl (a b : Z) : Z := toInt32 (Z.shiftl (toInt32 a) (b mod 32)).

Definition maskFromBits (bits : list Z) : Z * Z :=
  fold_left (fun '(lo, hi) bit =>
    if bit <? 0 then (lo, hi)
    else if bit <? 32 then (toInt32 (Z.lor lo (jsShl 1 bit)), hi)
    else if bit <? 64 then (lo, toInt32 (Z.lor hi (jsShl 1 (bit - 32))))
    else (lo, hi)) bits (0, 0).

(* ------------------------------------------------------------------ *)
(** ** Messages and result items *)

Record SearchMessage := {
  requestId : Z;
  q : list Z;
  tagBits : list Z;
  excludeTagBits : list Z;
  hidden : FilterMode;
  hideChapter : FilterMode;
  needLogin : FilterMode;
  lock : FilterMode;
  sort : SortMode;
  page : Z;
  size : Z
}.

Record ResultItem := {
  ri_id : Z;
  ri_title : list Z;
  ri_cover : list Z;
  ri_aliases : list (list Z);
  ri_authors : list (list Z);
  ri_tags : list (option (Z * list Z));
  ri_hidden : bool;
  ri_isHideChapter : bool;
  ri_needLogin : bool;
  ri_isLock : bool
}.

Record ResultsMessage := {
  rm_requestId : Z;
  rm_page : Z;
  rm_size : Z;
  rm_total : Z;
  rm_hasMore : bool;
  rm_items : list ResultItem
}.

(** [text.split(sep)] for a one-code-unit separator. *)
Fixpoint splitOn (sep : Z) (text : list Z) : list (list Z) :=
  match text with
  | [] => [[]]
  | c :: t =>
      if c =? sep then [] :: splitOn sep t
      else match splitOn sep t with
           | p :: ps => (c :: p) :: ps
           | [] => [[c]]
           end
  end.

Definition splitList (text : list Z) (sep : Z) : list (list Z) :=
  if bool_decide (text = []) then []
  else filter (fun p => bool_decide (p <> [])) (splitOn sep text).

(** [tagsFromMask]; a hole of [tagByBit] is pushed as [undefined] ([None]). *)
Definition tagsFromMask (tbb : list (option (Z * list Z))) (lo hi : Z)
    : list (option (Z * list Z)) :=
  fold_left (fun out bit =>
    let b := Z.of_nat bit in
    let on := if b <? 32 then Z.land (Z.shiftr (lo mod 2 ^ 32) b) 1 =? 1
              else Z.land (Z.shiftr (hi mod 2 ^ 32) ((b - 32) mod 32)) 1 =? 1 in
    if on then out ++ [match tbb !! bit with Some t => t | None => None end] else out)
    (seq 0 (length tbb)) [].

Definition buildItem (e : Engine) (docId : Z) : Res ResultItem :=
  match mjoin (zlookup (metaDocs e) docId) with
  | None => Err MetaShardMissing
  | Some dm =>
      let f := zget0 (metaFlags e) docId in
      Ok {| ri_id := zget0 (metaIds e) docId;
            ri_title := dm_title dm;
            ri_cover := dm_cover dm;
            ri_aliases := splitList (dm_aliases dm) (metaSep e);
            ri_authors := splitList (dm_authors dm) (metaSep e);
            ri_tags := tagsFromMask (tagByBit e) (zget0 (metaTagLo e) docId)
                         (zget0 (metaTagHi e) docId);
            ri_hidden := negb (Z.land f 1 =? 0);
            ri_isHideChapter := negb (Z.land f 2 =? 0);
            ri_needLogin := negb (Z.land f 4 =? 0);
            ri_isLock := negb (Z.land f 8 =? 0) |}
  end.

(** [for (const docId of slice) items.push(buildItem(s, docId))] *)
Fixpoint buildItems (e : Engine) (docIds : list Z) : Res (list ResultItem) :=
  match docIds with
  | [] => Ok []
  | d :: ds =>
      match buildItem e d with
      | Err er => Err er
      | Ok it => match buildItems e ds with
                 | Err er => Err er
                 | Ok its => Ok (it :: its)
                 end
      end
  end.

(* ------------------------------------------------------------------ *)
(** ** searchSync *)

(** The constants computed at the top of [searchSync]. *)
Record Plan := {
  pl_include : list (list Z);
  pl_exclude : list (list Z);
  pl_qNorm : list Z;
  pl_queryTokens : list (list Z);
  pl_selectedLo : Z;
  pl_selectedHi : Z;
  pl_excludedLo : Z;
  pl_excludedHi : Z;
  pl_hasQuery : bool;
  pl_size : Z;
  pl_page : Z;
  pl_offset : Z;
  pl_cacheKey : list Z
}.

Definition makePlan (e : Engine) (msg : SearchMessage) : Plan :=
  let parsed := parseQuery (q msg) in
  let includeTerms := pq_include parsed in
  let excludeTerms := pq_exclude parsed in
  let qNorm := match includeTerms with [t] => t | _ => [] end in
  let queryTokens := if bool_decide (qNorm = []) then [] else uniqNgrams qNorm (dict_n (dict e)) in
  let qKey := join [32] includeTerms ++ lit "|-" ++ join [32] excludeTerms in
  let '(selectedLo, selectedHi) := maskFromBits (tagBits msg) in
  let '(excludedLo, excludedHi) := maskFromBits (excludeTagBits msg) in
  let hasQuery := negb (bool_decide (includeTerms = [])) || negb (bool_decide (excludeTerms = [])) in
  let sz := Z.max 1 (Z.min 100 (toInt32 (size msg))) in
  let pg := Z.max 1 (toInt32 (page msg)) in
  let cacheKey :=
    sortModeStr (sort msg) ++ [124] ++ filterModeStr (hidden msg) ++ [124]
    ++ filterModeStr (hideChapter msg) ++ [124] ++ filterModeStr (needLogin msg) ++ [124]
    ++ filterModeStr (lock msg) ++ [124] ++ numToString selectedLo ++ [44]
    ++ numToString selectedHi ++ [124] ++ numToString excludedLo ++ [44]
    ++ numToString excludedHi ++ [124] ++ qKey in
  {| pl_include := includeTerms; pl_exclude := excludeTerms; pl_qNorm := qNorm;
     pl_queryTokens := queryTokens; pl_selectedLo := selectedLo; pl_selectedHi := selectedHi;
     pl_excludedLo := excludedLo; pl_excludedHi := excludedHi; pl_hasQuery := hasQuery;
     pl_size := sz; pl_page := pg; pl_offset := (pg - 1) * sz; pl_cacheKey := cacheKey |}.

(** [all.slice(start, end)] for [0 <= start <= end]. *)
Definition jsSlice (l : list Z) (start end_ : Z) : list Z :=
  take (Z.to_nat (end_ - start)) (drop (Z.to_nat start) l).

(** The common tail of every path:
    [total = all.length; hasMore = offset + size < total;
     slice = all.slice(offset, offset + size); items = slice.map(buildItem)]. *)
Definition finish (e : Engine) (msg : SearchMessage) (pl : Plan) (all : list Z)
    : Res ResultsMessage :=
  let total := Z.of_nat (length all) in
  let hasMore := pl_offset pl + pl_size pl <? total in
  let slice := jsSlice all (pl_offset pl) (pl_offset pl + pl_size pl) in
  match buildItems e slice with
  | Err er => Err er
  | Ok items => Ok {| rm_requestId := requestId msg; rm_page := pl_page pl; rm_size := pl_size pl;
                      rm_total := total; rm_hasMore := hasMore; rm_items := items |}
  end.

(** The literal [{ total: 0, hasMore: false, items: [] }] of the early returns. *)
Definition emptyResult (msg : SearchMessage) (pl : Plan) : ResultsMessage :=
  {| rm_requestId := requestId msg; rm_page := pl_page pl; rm_size := pl_size pl;
     rm_total := 0; rm_hasMore := false; rm_items := [] |}.

(** [for (let docId = 0; docId < totalCount; docId += 1)] and the loop
    running downwards. *)
Definition docIdsAsc (n : Z) : list Z := map Z.of_nat (seq 0 (Z.to_nat n)).
Definition docIdsDesc (n : Z) : list Z := rev (docIdsAsc n).

Definition zgetQ (l : list Q) (i : Z) : Q :=
  match zlookup l i with Some v => v | None => 0%Q end.

Definition resetTouched (s : LoadedState) : LoadedState :=
  let '(c, sc) := fold_left (fun '(c, sc) d => (zinsert d 0 c, zinsert d 0%Q sc))
                    (touched s) (counts s, scores s) in
  {| eng := eng s; counts := c; scores := sc; touched := []; cache := cache s |}.

(** The full-text bonus for one term: [+1.4] title, [+0.6] aliases,
    [+0.4] authors. *)
Definition termBonus (titleNorm aliasesNorm authorsNorm term : list Z) (score : Q) : Q :=
  let s1 := if includes titleNorm term then Qplus score (14 # 10) else score in
  let s2 := if includes aliasesNorm term then Qplus s1 (6 # 10) else s1 in
  if includes authorsNorm term then Qplus s2 (4 # 10) else s2.

(** The comparator of the relevance sort: descending score, then descending
    external id; [gtRel y x] is [cmp(y, x) > 0]. *)
Definition gtRel (e : Engine) (sc : list Q) (y x : Z) : bool :=
  let sy := zgetQ sc y in
  let sx := zgetQ sc x in
  if negb (Qeq_bool sx sy) then negb (Qle_bool sx sy)
  else 0 <? zget0 (metaIds e) x - zget0 (metaIds e) y.

(** [candidates.sort((a, b) => (sort === "id_asc" ? a - b : b - a))] *)
Definition gtId (asc : bool) (y x : Z) : bool := if asc then 0 <? y - x else 0 <? x - y.

(** The [for (const term of includeTerms)] loop of the multi-term path:
    count the term's hits, then for every doc of [termTouched] reaching the
    threshold record it as a candidate on its first match (score still 0) and
    set its score, and reset its counter.  Returns the counters, the scores,
    the candidates, and the error thrown on the way. *)
Fixpoint multiTermLoop (e : Engine) (skip : Z -> bool) (isRelevanceSort : bool)
    (terms : list (list Z)) (cnt : list Z) (sc : list Q) (candidates : list Z)
    : list Z * list Q * list Z * option SearchError :=
  match terms with
  | [] => (cnt, sc, candidates, None)
  | term :: rest =>
      let termTokens := uniqNgrams term (dict_n (dict e)) in
      if bool_decide (termTokens = []) then
        multiTermLoop e skip isRelevanceSort rest cnt sc candidates else
      let tokenIdxs := lookupTokenIdxs (dict e) termTokens in
      if bool_decide (tokenIdxs = []) then
        multiTermLoop e skip isRelevanceSort rest cnt sc candidates else
      let sorted := sortByDf (dict e) tokenIdxs in
      let k := Z.of_nat (length termTokens) in
      let mh := minHitClamped k (Z.of_nat (length tokenIdxs)) in
      let '(cnt1, termTouched, err) := countPostings e skip sorted cnt [] in
      match err with
      | Some er => (cnt1, sc, candidates, Some er)
      | None =>
          let '(cnt2, sc2, cands2) :=
            fold_left (fun '(c, s, cs) d =>
              let hit := zget0 c d in
              let '(s', cs') :=
                if mh <=? hit then
                  let prevScore := zgetQ s d in
                  (zinsert d (if isRelevanceSort then Qplus prevScore (inject_Z hit / inject_Z k) else 1%Q) s,
                   if Qeq_bool prevScore 0 then cs ++ [d] else cs)
                else (s, cs) in
              (zinsert d 0 c, s', cs')) termTouched (cnt1, sc, candidates) in
          multiTermLoop e skip isRelevanceSort rest cnt2 sc2 cands2
      end
  end.

(** The relevance pass of the multi-term path over the candidates: add the
    full-text bonus of every include term; a doc whose meta shard is missing
    keeps its score ([continue]). *)
Definition multiTermBonus (e : Engine) (includeTerms : list (list Z)) (candidates : list Z)
    (sc : list Q) : list Q :=
  fold_left (fun sc d =>
    match mjoin (zlookup (metaDocs e) d) with
    | None => sc
    | Some dm =>
        let titleNorm := normText (dm_title dm) in
        let aliasesNorm := normText (dm_aliases dm) in
        let authorsNorm := normText (dm_authors dm) in
        let score := fold_left (fun score term => termBonus titleNorm aliasesNorm authorsNorm term score)
                       includeTerms (zgetQ sc d) in
        zinsert d score sc
    end) candidates sc.

(** The relevance pass of the single-term path over [s.touched]: a doc below
    the threshold, or whose meta shard is missing, is not a candidate. *)
Definition singleTermScores (e : Engine) (qNorm : list Z) (nTokens mh : Z) (cnt : list Z)
    (tch : list Z) (sc : list Q) : list Q * list Z :=
  fold_left (fun '(sc, cands) d =>
    match zlookup cnt d with
    | None => (sc, cands)
    | Some hit =>
        if hit <? mh then (sc, cands) else
        match mjoin (zlookup (metaDocs e) d) with
        | None => (sc, cands)
        | Some dm =>
            let score := termBonus (normText (dm_title dm)) (normText (dm_aliases dm))
                           (normText (dm_authors dm)) qNorm (inject_Z hit / inject_Z nTokens) in
            (zinsert d score sc, cands ++ [d])
        end
    end) tch (sc, []).

(** [searchSync] after the result-cache check. *)
Definition searchMiss (s : LoadedState) (msg : SearchMessage) (pl : Plan)
    : LoadedState * Res ResultsMessage :=
  let e := eng s in
  let key := pl_cacheKey pl in
  let '(cnt0, excludeMask, err0) :=
    if bool_decide (pl_exclude pl = []) then (counts s, None, None)
    else let '(c, m, er) := buildExcludeMask e (counts s) (pl_exclude pl) in (c, Some m, er) in
  match err0 with
  | Some er => (setCounts s cnt0, Err er)
  | None =>
  let s0 := setCounts s cnt0 in
  let excluded d := match excludeMask with
                    | Some m => bool_decide (zlookup m d = Some 1)
                    | None => false
                    end in
  let passes d := passesFilters e d (pl_selectedLo pl) (pl_selectedHi pl) (pl_excludedLo pl)
                    (pl_excludedHi pl) (hidden msg) (hideChapter msg) (needLogin msg) (lock msg) in
  let scan := match sort msg with IdAsc => docIdsAsc (totalCount e) | _ => docIdsDesc (totalCount e) end in
  if negb (pl_hasQuery pl) then
    if (pl_selectedLo pl =? 0) && (pl_selectedHi pl =? 0) && (pl_excludedLo pl =? 0)
       && (pl_excludedHi pl =? 0) && bool_decide (hidden msg = FAny)
       && bool_decide (hideChapter msg = FAny) && bool_decide (needLogin msg = FAny)
       && bool_decide (lock msg = FAny)
    then (setCache s0 key [], Ok (emptyResult msg pl))
    else let docIds := List.filter passes scan in
         (setCache s0 key docIds, finish e msg pl docIds)
  else
  match pl_include pl with
  | [] =>
      let docIds := List.filter (fun d => passes d && negb (excluded d)) scan in
      (setCache s0 key docIds, finish e msg pl docIds)
  | _ :: _ :: _ =>
      let isRelevanceSort := bool_decide (sort msg = Relevance) in
      let skip d := excluded d || negb (passes d) in
      let '(cnt1, sc1, candidates, err1) :=
        multiTermLoop e skip isRelevanceSort (pl_include pl) (counts s0) (scores s0) [] in
      let s1 := setScores (setCounts s0 cnt1) sc1 in
      match err1 with
      | Some er => (s1, Err er)
      | None =>
          if bool_decide (candidates = []) then (setCache s1 key [], Ok (emptyResult msg pl)) else
          let '(sc2, sortedCands) :=
            if isRelevanceSort then
              let sc2 := multiTermBonus e (pl_include pl) candidates sc1 in
              (sc2, sortBy (gtRel e sc2) candidates)
            else (sc1, sortBy (gtId (bool_decide (sort msg = IdAsc))) candidates) in
          let sc3 := fold_left (fun sc d => zinsert d 0%Q sc) sortedCands sc2 in
          (setCache (setScores s1 sc3) key sortedCands, finish e msg pl sortedCands)
      end
  | [_] =>
      let tokenIdxs := lookupTokenIdxs (dict e) (pl_queryTokens pl) in
      if bool_decide (tokenIdxs = []) then (setCache s0 key [], Ok (emptyResult msg pl)) else
      let sorted := sortByDf (dict e) tokenIdxs in
      let nTokens := Z.of_nat (length (pl_queryTokens pl)) in
      let mh := minHitClamped nTokens (Z.of_nat (length tokenIdxs)) in
      let skip d := excluded d || negb (passes d) in
      let '(cnt1, tch1, err1) := countPostings e skip sorted (counts s0) (touched s0) in
      let s1 := setTouched (setCounts s0 cnt1) tch1 in
      match err1 with
      | Some er => (s1, Err er)
      | None =>
          match sort msg with
          | Relevance =>
              let '(sc2, candidates) :=
                singleTermScores e (pl_qNorm pl) nTokens mh cnt1 tch1 (scores s1) in
              let all := sortBy (gtRel e sc2) candidates in
              (setCache (resetTouched (setScores s1 sc2)) key all, finish e msg pl all)
          | _ =>
              let docIds := List.filter (fun d => match zlookup cnt1 d with
                                             | Some c => negb (c <? mh)
                                             | None => true
                                             end) scan in
              (setCache (resetTouched s1) key docIds, finish e msg pl docIds)
          end
      end
  end
  end.

Definition searchSync (s : LoadedState) (msg : SearchMessage) : LoadedState * Res ResultsMessage :=
  let pl := makePlan (eng s) msg in
  match cache s with
  | Some (k, docIds) =>
      if bool_decide (k = pl_cacheKey pl) then (s, finish (eng s) msg pl docIds)
      else searchMiss s msg pl
  | None => searchMiss s msg pl
  end.

End WithNormText.

(* ------------------------------------------------------------------ *)
(** ** Derived notions used by the statements *)

(** Strictly increasing from [prev], each delta below [2^31]. *)
Fixpoint incrFrom (prev : Z) (ids : list Z) : Prop :=
  match ids with
  | [] => True
  | d :: ids' => prev < d /\ d - prev < 2 ^ 31 /\ incrFrom d ids'
  end.

Definition clearCache (s : LoadedState) : LoadedState :=
  {| eng := eng s; counts := counts s; scores := scores s; touched := touched s; cache := None |}.

Section Derived.
Variable normText : list Z -> list Z.

(** The doc-id sequence a search resolves when it is evaluated without the
    result cache: what the miss path stores in the cache ([None] if it throws
    before storing anything). *)
Definition resolve (s : LoadedState) (msg : SearchMessage) : option (list Z) :=
  option_map snd (cache (fst (searchMiss normText (clearCache s) msg (makePlan normText (eng s) msg)))).

(** The cache slot holds, under a key, the sequence resolved for every
    message with that key. *)
Definition cache_ok (s : LoadedState) : Prop :=
  forall k ids, cache s = Some (k, ids) ->
  forall msg, pl_cacheKey (makePlan normText (eng s) msg) = k -> resolve s msg = Some ids.

End Derived.

(** The scratch buffers are clean: every counter and score is zero and the
    touched list is empty. *)
Definition clean (s : LoadedState) : Prop :=
  Forall (fun c => c = 0) (counts s) /\ Forall (fun x => x = 0%Q) (scores s) /\ touched s = [].

(** Every entry equals [z]. *)
Definition allIs {A} (z : A) (l : list A) : Prop :=
  forall d x, zlookup l d = Some x -> x = z.

(** Every doc whose entry differs from [z] is listed in [t]. *)
Definition listed {A} (z : A) (l : list A) (t : list Z) : Prop :=
  forall d x, zlookup l d = Some x -> x <> z -> d ∈ t.

(** Syntactic equality of [Q] records. *)
#[global] Instance Q_eq_dec : EqDecision Q.
Proof. solve_decision. Defined.

(* ------------------------------------------------------------------ *)
(** ** The resolved sequence, doc by doc *)

(** The doc ids of a token's posting list ([] if its shard is not loaded). *)
Definition postingsOf (e : Engine) (idx : Z) : list Z :=
  match decodeTokenIdxPostings e idx with Some l => l | None => [] end.

(** The number of increments [onDocCount] gives a doc over the posting lists
    of [idxs]: one per occurrence of the doc in each list. *)
Definition occHits (e : Engine) (idxs : list Z) (d : Z) : nat :=
  fold_right (fun idx n => (count_occ Z.eq_dec (postingsOf e idx) d + n)%nat) 0%nat idxs.

(** The number of tokens of [idxs] whose posting list contains the doc. *)
Definition docHits (e : Engine) (idxs : list Z) (d : Z) : nat :=
  length (List.filter (fun idx => existsb (Z.eqb d) (postingsOf e idx)) idxs).

(** One increment of a [Uint16Array] counter. *)
Definition inc16 (c : Z) : Z := (c + 1) mod 65536.

(** A doc reaches the clamped threshold of a term with tokens [toks]: the
    hits counted in a [Uint16Array] counter started at 0. *)
Definition termHit (e : Engine) (toks : list (list Z)) (d : Z) : bool :=
  let idxs := lookupTokenIdxs (dict e) toks in
  negb (bool_decide (idxs = [])) &&
  (minHitClamped (Z.of_nat (length toks)) (Z.of_nat (length idxs))
     <=? Z.of_nat (occHits e idxs d) mod 65536).

(** The condition of the early return with no term and no filter. *)
Definition emptyIntent (msg : SearchMessage) (pl : Plan) : bool :=
  negb (pl_hasQuery pl) && (pl_selectedLo pl =? 0) && (pl_selectedHi pl =? 0)
  && (pl_excludedLo pl =? 0) && (pl_excludedHi pl =? 0) && bool_decide (hidden msg = FAny)
  && bool_decide (hideChapter msg = FAny) && bool_decide (needLogin msg = FAny)
  && bool_decide (lock msg = FAny).

(** The docs of the sequence a search resolves from clean scratch buffers,
    path by path. *)
Definition inResult (e : Engine) (msg : SearchMessage) (pl : Plan) (d : Z) : bool :=
  let passes := passesFilters e d (pl_selectedLo pl) (pl_selectedHi pl) (pl_excludedLo pl)
                  (pl_excludedHi pl) (hidden msg) (hideChapter msg) (needLogin msg) (lock msg) in
  let excluded := existsb (fun t => termHit e (uniqNgrams t (dict_n (dict e))) d) (pl_exclude pl) in
  (0 <=? d) && (d <? totalCount e) && passes &&
  (if negb (pl_hasQuery pl) then negb (emptyIntent msg pl) else
   negb excluded &&
   match pl_include pl with
   | [] => true
   | [_] => termHit e (pl_queryTokens pl) d
            && (if bool_decide (sort msg = Relevance)
                then bool_decide (is_Some (mjoin (zlookup (metaDocs e) d))) else true)
   | _ => existsb (fun t => termHit e (uniqNgrams t (dict_n (dict e))) d) (pl_include pl)
   end).

(** The message with its selected tag bits replaced. *)
Definition withTags (msg : SearchMessage) (bits : list Z) : SearchMessage := {|
  requestId := requestId msg; q := q msg; tagBits := bits; excludeTagBits := excludeTagBits msg;
  hidden := hidden msg; hideChapter := hideChapter msg; needLogin := needLogin msg;
  lock := lock msg; sort := sort msg; page := page msg; size := size msg |}.

(** The threshold as the specification words it:
    [min(k, max(1, ceil(k * 0.6)))]. *)
Definition specMinHit (k : Z) : Z := Z.min k (Z.max 1 (ceil06 k)).

(** A doc matches the term [T]: the number of [T]'s tokens found in the
    dictionary whose posting list contains the doc reaches the threshold
    [min(max(1, ceil(0.6 k)), found)], with [k] the number of tokens of [T]
    and [found] the number of them found in the dictionary. *)
Definition termMatch (e : Engine) (T : list Z) (d : Z) : bool :=
  let toks := uniqNgrams T (dict_n (dict e)) in
  let idxs := lookupTokenIdxs (dict e) toks in
  negb (bool_decide (idxs = [])) &&
  (minHitClamped (Z.of_nat (length toks)) (Z.of_nat (length idxs)) <=? Z.of_nat (docHits e idxs d)).

(** The assumptions on a term under which [termMatch] is what the code
    computes: the posting lists of its found tokens have no duplicate, and
    fewer than 65536 of its tokens are found (the per-doc counters are a
    [Uint16Array]). *)
Definition termCountsOk (e : Engine) (T : list Z) : Prop :=
  let idxs := lookupTokenIdxs (dict e) (uniqNgrams T (dict_n (dict e))) in
  Forall (fun idx => NoDup (postingsOf e idx)) idxs /\ Z.of_nat (length idxs) < 65536.

(* ------------------------------------------------------------------ *)
(** ** Index shards and their loading *)

(** [[...idxs]] for a JavaScript [Set] of numbers: [set.add(x)] keeps the
    insertion order. *)
Definition setAddZ (x : Z) (st : list Z) : list Z :=
  if bool_decide (x ∈ st) then st else st ++ [x].

Record AssetRef := { ar_path : list Z; ar_sha256 : list Z; ar_bytes : Z }.

(** [IndexPlan]: one index file, or one file per shard. *)
Inductive IndexPlan :=
| PlanSingle (asset : AssetRef)
| PlanSharded (assets : list AssetRef).

Definition indexShardCount (plan : IndexPlan) : Z :=
  match plan with
  | PlanSingle _ => 1
  | PlanSharded assets => Z.of_nat (length assets)
  end.

(** [getIndexAsset]; [None] is the [throw] of a missing shard
    ([plan.assets[shardId]] is [undefined] out of range). *)
Definition getIndexAsset (plan : IndexPlan) (shardId : Z) : option AssetRef :=
  match plan with
  | PlanSingle asset => if negb (shardId =? 0) then None else Some asset
  | PlanSharded assets => zlookup assets shardId
  end.

(** [indexCache] replaced. *)
Definition setIndexCache (e : Engine) (c : gmap Z (list Z)) : Engine := {|
  totalCount := totalCount e; metaSep := metaSep e; metaIds := metaIds e;
  metaTagLo := metaTagLo e; metaTagHi := metaTagHi e; metaFlags := metaFlags e;
  metaDocs := metaDocs e; tagByBit := tagByBit e; dict := dict e; indexCache := c |}.

Definition setEng (s : LoadedState) (e : Engine) : LoadedState :=
  {| eng := e; counts := counts s; scores := scores s; touched := touched s; cache := cache s |}.

(** [collectTokenIdxs]: the found token indices of all the terms, each
    once, in first-seen order. *)
Definition collectTokenIdxs (d : DictBin) (terms : list (list Z)) : list Z :=
  fold_left (fun idxs term =>
    fold_left (fun idxs token =>
      match tokenKey token with
      | None => idxs
      | Some key => let idx := findKey (dict_keys d) key in
                    if idx <? 0 then idxs else setAddZ idx idxs
      end) (uniqNgrams term (dict_n d)) idxs) terms [].

(** The shard ids of [ensureIndexForTokenIdxs]:
    [for (const idx of tokenIdxs) shardIds.add(dictShardId(s.dict, idx))]. *)
Definition tokenShardIds (d : DictBin) (tokenIdxs : list Z) : list Z :=
  fold_left (fun st idx => setAddZ (dictShardId d idx) st) tokenIdxs [].

(** Every found token of the terms has its posting list at hand. *)
Definition termsLoaded (e : Engine) (terms : list (list Z)) : Prop :=
  forall T idx, T ∈ terms -> idx ∈ lookupTokenIdxs (dict e) (uniqNgrams T (dict_n (dict e))) ->
  is_Some (decodeTokenIdxPostings e idx).

Section Loading.

(** [loadAsset(s.db, asset, signal)]: the bytes of an asset (from the local
    cache or the network, checked and decompressed), or [None] when it
    throws. *)
Variable loadAsset : AssetRef -> option (list Z).

(** [loadIndexShard]: a cached shard is returned as it is; otherwise the
    asset is loaded and stored in [indexCache].  The [indexInflight] map only
    shares one pending load between concurrent callers and is not kept. *)
Definition loadIndexShard (plan : IndexPlan) (e : Engine) (shardId : Z) : option Engine :=
  match indexCache e !! shardId with
  | Some _ => Some e
  | None =>
      match getIndexAsset plan shardId with
      | None => None
      | Some asset =>
          match loadAsset asset with
          | None => None
          | Some u8 => Some (setIndexCache e (<[shardId := u8]> (indexCache e)))
          end
      end
  end.

(** Loading a list of shards; the first failure is the rejection.  Under
    [Promise.all] the loads run concurrently; when they all succeed every one
    has stored its own shard, which is the state this sequence reaches. *)
Definition loadShards (plan : IndexPlan) (e : Engine) (shardIds : list Z) : option Engine :=
  fold_left (fun acc id => match acc with
                           | None => None
                           | Some e' => loadIndexShard plan e' id
                           end) shardIds (Some e).

Definition isSharded (plan : IndexPlan) : bool :=
  match plan with PlanSharded _ => true | PlanSingle _ => false end.

(** [ensureIndexForTokenIdxs]; [None] is a [throw] or a rejected load. *)
Definition ensureIndexForTokenIdxs (plan : IndexPlan) (e : Engine) (tokenIdxs : list Z)
    : option Engine :=
  if bool_decide (tokenIdxs = []) then Some e
  else if (dict_version (dict e) =? 1) && isSharded plan then None
  else loadShards plan e (tokenShardIds (dict e) tokenIdxs).

(** [preloadIndex]: the workers take the shard ids [0 .. total - 1] in
    turn; when every load succeeds all of them have been loaded, as in this
    sequence. *)
Definition preloadIndex (plan : IndexPlan) (e : Engine) : option Engine :=
  if (dict_version (dict e) =? 1) && isSharded plan then Some e
  else let total := indexShardCount plan in
  if total <=? 0 then Some e
  else loadShards plan e (map Z.of_nat (seq 0 (Z.to_nat total))).

(** [searchAsync] without the progress message it posts to the page: when
    the query has terms, load the index shards of all their tokens, then run
    [searchSync] on the loaded state. *)
Definition searchAsync (normText : list Z -> list Z) (plan : IndexPlan) (s : LoadedState)
    (msg : SearchMessage) : option (LoadedState * Res ResultsMessage) :=
  let parsed := parseQuery normText (q msg) in
  if bool_decide (pq_include parsed = []) && bool_decide (pq_exclude parsed = []) then
    Some (searchSync normText s msg)
  else
    let tokenIdxs := collectTokenIdxs (dict (eng s)) (pq_include parsed ++ pq_exclude parsed) in
    match ensureIndexForTokenIdxs plan (eng s) tokenIdxs with
    | None => None
    | Some e' => Some (searchSync normText (setEng s e') msg)
    end.

(** What a successful load leaves: only the cache changed, the shard is
    there, the entries already cached are kept, and every entry was cached
    before or is the bytes of the shard's asset. *)
Definition loadedFrom (plan : IndexPlan) (e e' : Engine) (ids : list Z) : Prop :=
  e' = setIndexCache e (indexCache e') /\
  (forall id, id ∈ ids -> is_Some (indexCache e' !! id)) /\
  (forall k v, indexCache e !! k = Some v -> indexCache e' !! k = Some v) /\
  (forall k v, indexCache e' !! k = Some v ->
     indexCache e !! k = Some v \/ exists a, getIndexAsset plan k = Some a /\ loadAsset a = Some v).

End Loading.

(* ------------------------------------------------------------------ *)
(** ** Meta shards *)

(** [Math.clz32(x)] *)
Definition clz32 (x : Z) : Z :=
  let u := x mod 2 ^ 32 in if u =? 0 then 32 else 31 - Z.log2 u.

(** [shardShiftForDocs]: [log2 n] when [n | 0] is a positive power of two. *)
Definition shardShiftForDocs (shardDocs : Z) : option Z :=
  let n := toInt32 shardDocs in
  if n <=? 0 then None
  else if negb (toInt32 (Z.land (toInt32 n) (toInt32 (n - 1))) =? 0) then None
  else Some (31 - clz32 n).

(** The three fields of [LoadedState] that place a doc in its meta shard. *)
Record MetaLayout := {
  metaShardDocs : Z;
  metaShardShift : option Z;
  metaShardMask : Z
}.

(** The lines of [init] that compute them: [manifest.stats.metaShardDocs]
    if it is a positive number ([n | 0]), else [totalCount]; then
    [shift = shardShiftForDocs(metaShardDocs)] and
    [mask = shift === null ? 0 : (metaShardDocs - 1) | 0]. *)
Definition initMetaLayout (statShardDocs : option Z) (total : Z) : MetaLayout :=
  let docs := match statShardDocs with
              | Some n => if 0 <? n then toInt32 n else total
              | None => total
              end in
  let shift := shardShiftForDocs docs in
  {| metaShardDocs := docs; metaShardShift := shift;
     metaShardMask := match shift with None => 0 | Some _ => toInt32 (docs - 1) end |}.

(** [metaShardId]: [docId >>> shift], else [Math.floor(docId / metaShardDocs)]
    ([metaShardDocs] is [0] only when there is no doc). *)
Definition metaShardId (ml : MetaLayout) (docId : Z) : Z :=
  match metaShardShift ml with
  | Some shift => Z.shiftr (docId mod 2 ^ 32) (shift mod 32)
  | None => docId / metaShardDocs ml
  end.

(** [metaLocalDocId]: [docId & metaShardMask], else
    [docId - shardId * metaShardDocs]. *)
Definition metaLocalDocId (ml : MetaLayout) (docId shardId : Z) : Z :=
  match metaShardShift ml with
  | Some _ => toInt32 (Z.land (toInt32 docId) (toInt32 (metaShardMask ml)))
  | None => docId - shardId * metaShardDocs ml
  end.

(* ------------------------------------------------------------------ *)
(** ** Binary files *)

(** [align4]: [(offset + 3) & ~3]. *)
Definition align4 (offset : Z) : Z :=
  toInt32 (Z.land (toInt32 (offset + 3)) (toInt32 (Z.lnot 3))).

(** [u8[i]] of a [Uint8Array], at an index the code has checked to be in
    range. *)
Definition byteAt (u8 : list Z) (i : Z) : Z := zget0 u8 i.

(** [view.getUint16(off, true)] and [view.getUint32(off, true)]. *)
Definition readU16LE (u8 : list Z) (off : Z) : Z :=
  byteAt u8 off + 256 * byteAt u8 (off + 1).

Definition readU32LE (u8 : list Z) (off : Z) : Z :=
  byteAt u8 off + 256 * byteAt u8 (off + 1) + 65536 * byteAt u8 (off + 2)
  + 16777216 * byteAt u8 (off + 3).

(** [new Uint32Array(buf, off, count)]: a [RangeError] ([None]) unless
    [off] is a non-negative multiple of 4 and the [count] elements fit in
    the buffer; the elements are read in the little-endian byte order of the
    platforms the worker runs on. *)
Definition u32View (u8 : list Z) (off count : Z) : option (list Z) :=
  if (0 <=? off) && (off mod 4 =? 0) && (off + count * 4 <=? Z.of_nat (length u8)) then
    Some (map (fun i => readU32LE u8 (off + 4 * Z.of_nat i)) (seq 0 (Z.to_nat count)))
  else None.

(** [parseDictBin]; [None] is a [throw] (the checks of the code, or the
    [RangeError] of a view that does not fit). *)
Definition parseDictBin (u8 : list Z) : option DictBin :=
  if Z.of_nat (length u8) <? 16 then None
  else if negb ((byteAt u8 0 =? 90) && (byteAt u8 1 =? 77) && (byteAt u8 2 =? 72)
                && (byteAt u8 3 =? 100)) then None
  else
    let version := readU16LE u8 4 in
    let n := readU16LE u8 6 in
    let count := readU32LE u8 8 in
    match u32View u8 16 count with
    | None => None
    | Some keys =>
        let off := 16 + count * 4 in
        if version =? 1 then
          match u32View u8 off count, u32View u8 (off + count * 4) count,
                u32View u8 (off + 2 * (count * 4)) count with
          | Some offsets, Some lengths, Some dfs =>
              Some {| dict_version := 1; dict_n := Z.to_nat n; dict_keys := keys;
                      dict_shardIds := []; dict_offsets := offsets; dict_lengths := lengths;
                      dict_dfs := dfs |}
          | _, _, _ => None
          end
        else if version =? 2 then
          match u32View u8 off count, u32View u8 (off + count * 4) count,
                u32View u8 (off + 2 * (count * 4)) count,
                u32View u8 (off + 3 * (count * 4)) count with
          | Some shardIds, Some offsets, Some lengths, Some dfs =>
              Some {| dict_version := 2; dict_n := Z.to_nat n; dict_keys := keys;
                      dict_shardIds := shardIds; dict_offsets := offsets;
                      dict_lengths := lengths; dict_dfs := dfs |}
          | _, _, _, _ => None
          end
        else None
    end.

(** The writer side of the format description: a [uint16] and a [uint32]
    in little-endian order, and the file: [ZMHd], version, [n], [count], a
    reserved [uint32], then the arrays. *)
Definition u16LE (v : Z) : list Z := [v mod 256; v / 256 mod 256].
Definition u32LE (v : Z) : list Z :=
  [v mod 256; v / 256 mod 256; v / 65536 mod 256; v / 16777216 mod 256].

Definition encodeDictBin (d : DictBin) : list Z :=
  [90; 77; 72; 100] ++ u16LE (dict_version d) ++ u16LE (Z.of_nat (dict_n d))
  ++ u32LE (Z.of_nat (length (dict_keys d))) ++ u32LE 0
  ++ flat_map u32LE (dict_keys d)
  ++ (if dict_version d =? 2 then flat_map u32LE (dict_shardIds d) else [])
  ++ flat_map u32LE (dict_offsets d) ++ flat_map u32LE (dict_lengths d)
  ++ flat_map u32LE (dict_dfs d).

(** The dictionaries the worker reads back as written: version 1 without
    shard ids or version 2 with one per key, [n] a [uint16], [count] a
    [uint32], the arrays of one length, every entry a [uint32]. *)
Definition dictBinOk (d : DictBin) : Prop :=
  ((dict_version d = 1 /\ dict_shardIds d = []) \/
   (dict_version d = 2 /\ length (dict_shardIds d) = length (dict_keys d))) /\
  Z.of_nat (dict_n d) < 65536 /\ Z.of_nat (length (dict_keys d)) < 2 ^ 32 /\
  length (dict_offsets d) = length (dict_keys d) /\
  length (dict_lengths d) = length (dict_keys d) /\
  length (dict_dfs d) = length (dict_keys d) /\
  Forall (fun v => 0 <= v < 2 ^ 32)
    (dict_keys d ++ dict_shardIds d ++ dict_offsets d ++ dict_lengths d ++ dict_dfs d).

(* ------------------------------------------------------------------ *)
(** ** parseMetaBin *)

(** [new Int32Array(buf, off, count)]: the checks of [Uint32Array], each
    element read as a signed 32-bit integer. *)
Definition i32View (u8 : list Z) (off count : Z) : option (list Z) :=
  option_map (map toInt32) (u32View u8 off count).

(** [new Uint16Array(buf, off, count)]: a [RangeError] unless [off] is a
    non-negative multiple of 2 and the elements fit in the buffer. *)
Definition u16View (u8 : list Z) (off count : Z) : option (list Z) :=
  if (0 <=? off) && (off mod 2 =? 0) && (off + count * 2 <=? Z.of_nat (length u8)) then
    Some (map (fun i => readU16LE u8 (off + 2 * Z.of_nat i)) (seq 0 (Z.to_nat count)))
  else None.

(** [new Uint8Array(buf, off, count)]: a [RangeError] unless [off] is
    non-negative and the bytes fit in the buffer. *)
Definition u8View (u8 : list Z) (off count : Z) : option (list Z) :=
  if (0 <=? off) && (off + count <=? Z.of_nat (length u8)) then
    Some (map (fun i => byteAt u8 (off + Z.of_nat i)) (seq 0 (Z.to_nat count)))
  else None.

Record MetaBin := {
  mb_count : Z;
  mb_sep : Z;
  mb_ids : list Z;
  mb_tagLo : list Z;
  mb_tagHi : list Z;
  mb_flags : list Z;
  mb_titlesOffsets : list Z;
  mb_titlesPool : list Z;
  mb_coverBaseOffsets : list Z;
  mb_coverBasePool : list Z;
  mb_coverBaseIds : list Z;
  mb_coverPathsOffsets : list Z;
  mb_coverPathsPool : list Z;
  mb_authorsOffsets : list Z;
  mb_authorsPool : list Z;
  mb_aliasesOffsets : list Z;
  mb_aliasesPool : list Z
}.

(** The closure [readPool(n)] of [parseMetaBin] at offset [off]: the
    offsets, the pool, and the next offset it leaves in [off]. *)
Definition readPool (u8 : list Z) (off n : Z) : option (list Z * list Z * Z) :=
  match u32View u8 off (n + 1) with
  | None => None
  | Some offsets =>
      let off1 := off + (n + 1) * 4 in
      let poolLen := zget0 offsets n in
      match u8View u8 off1 poolLen with
      | None => None
      | Some pool => Some (offsets, pool, align4 (off1 + poolLen))
      end
  end.

(** The cover base ids and the next offset: [uint8] entries widened into
    a new [Uint16Array] when [coverBaseCount <= 0xff], a [Uint16Array]
    view otherwise. *)
Definition readCoverBaseIds (u8 : list Z) (off count coverBaseCount : Z) : option (list Z * Z) :=
  if coverBaseCount <=? 255 then
    match u8View u8 off count with
    | None => None
    | Some ids8 =>
        Some (map (fun i => zget0 ids8 (Z.of_nat i) mod 2 ^ 16) (seq 0 (Z.to_nat count)),
              align4 (off + count))
    end
  else
    match u16View u8 off count with
    | None => None
    | Some ids16 => Some (ids16, align4 (off + count * 2))
    end.

(** [parseMetaBin]; [None] is a [throw]. *)
Definition parseMetaBin (u8 : list Z) : option MetaBin :=
  if Z.of_nat (length u8) <? 16 then None
  else if negb ((byteAt u8 0 =? 90) && (byteAt u8 1 =? 77) && (byteAt u8 2 =? 72)
                && (byteAt u8 3 =? 109)) then None
  else if negb (readU16LE u8 4 =? 2) then None
  else
    let sepCode := readU16LE u8 6 in
    let count := readU32LE u8 8 in
    let coverBaseCount := readU32LE u8 12 in
    let off := 16 in
    match i32View u8 off count with None => None | Some ids =>
    let off := off + count * 4 in
    match u32View u8 off count with None => None | Some tagLo =>
    let off := off + count * 4 in
    match u32View u8 off count with None => None | Some tagHi =>
    let off := off + count * 4 in
    match u8View u8 off count with None => None | Some flags =>
    let off := align4 (off + count) in
    match readPool u8 off count with None => None | Some (titlesOffsets, titlesPool, off) =>
    match readPool u8 off coverBaseCount with None => None | Some (cbOffsets, cbPool, off) =>
    match readCoverBaseIds u8 off count coverBaseCount with None => None | Some (coverBaseIds, off) =>
    match readPool u8 off count with None => None | Some (cpOffsets, cpPool, off) =>
    match readPool u8 off count with None => None | Some (auOffsets, auPool, off) =>
    match readPool u8 off count with None => None | Some (alOffsets, alPool, _) =>
      Some {| mb_count := count; mb_sep := sepCode; mb_ids := ids; mb_tagLo := tagLo;
              mb_tagHi := tagHi; mb_flags := flags;
              mb_titlesOffsets := titlesOffsets; mb_titlesPool := titlesPool;
              mb_coverBaseOffsets := cbOffsets; mb_coverBasePool := cbPool;
              mb_coverBaseIds := coverBaseIds;
              mb_coverPathsOffsets := cpOffsets; mb_coverPathsPool := cpPool;
              mb_authorsOffsets := auOffsets; mb_authorsPool := auPool;
              mb_aliasesOffsets := alOffsets; mb_aliasesPool := alPool |}
    end end end end end end end end end end.

(** A string pool of [n] entries: [n + 1] offsets and a pool of
    [offsets[n]] bytes. *)
Definition poolOk (offsets pool : list Z) (n : nat) : Prop :=
  length offsets = S n /\ Z.of_nat (length pool) = zget0 offsets (Z.of_nat n).

(** The shape the worker relies on when it reads a meta shard of
    [count] documents whose header declares [coverBaseCount] cover bases. *)
Definition metaBinOk (m : MetaBin) (coverBaseCount : Z) : Prop :=
  let n := Z.to_nat (mb_count m) in
  0 <= mb_count m < 2 ^ 32 /\ 0 <= mb_sep m < 2 ^ 16 /\ 0 <= coverBaseCount < 2 ^ 32 /\
  length (mb_ids m) = n /\ length (mb_tagLo m) = n /\ length (mb_tagHi m) = n /\
  length (mb_flags m) = n /\ length (mb_coverBaseIds m) = n /\
  Forall (fun v => - 2 ^ 31 <= v < 2 ^ 31) (mb_ids m) /\
  Forall (fun v => 0 <= v < 2 ^ 32) (mb_tagLo m ++ mb_tagHi m) /\
  Forall (fun v => 0 <= v < 256) (mb_flags m) /\
  Forall (fun v => 0 <= v < 2 ^ 16) (mb_coverBaseIds m) /\
  (coverBaseCount <= 255 -> Forall (fun v => 0 <= v < 256) (mb_coverBaseIds m)) /\
  poolOk (mb_titlesOffsets m) (mb_titlesPool m) n /\
  poolOk (mb_coverBaseOffsets m) (mb_coverBasePool m) (Z.to_nat coverBaseCount) /\
  poolOk (mb_coverPathsOffsets m) (mb_coverPathsPool m) n /\
  poolOk (mb_authorsOffsets m) (mb_authorsPool m) n /\
  poolOk (mb_aliasesOffsets m) (mb_aliasesPool m) n.

(* ------------------------------------------------------------------ *)
(** ** A small engine *)

(** Three docs; the dictionary has the bigrams "ab" and "bc" with the
    postings [[0; 2]] and [[2]], delta-encoded in index shard 0. *)
Definition demoDoc (t : String.string) : option DocMeta :=
  Some {| dm_title := lit t; dm_cover := []; dm_aliases := []; dm_authors := [] |}.

Definition demoEngine : Engine := {|
  totalCount := 3;
  metaSep := 31;
  metaIds := [100; 101; 102];
  metaTagLo := [1; 0; 1];
  metaTagHi := [0; 0; 0];
  metaFlags := [0; 0; 0];
  metaDocs := [demoDoc "ab"; demoDoc "xy"; demoDoc "abc"];
  tagByBit := [Some (7, lit "t")];
  dict := {| dict_version := 1; dict_n := 2;
             dict_keys := [97 * 65536 + 98; 98 * 65536 + 99];
             dict_shardIds := [0; 0]; dict_offsets := [0; 2]; dict_lengths := [2; 1];
             dict_dfs := [2; 1] |};
  indexCache := {[ 0 := deltaEncode (-1) [0; 2] ++ deltaEncode (-1) [2] ]}
|}.

Definition demoState : LoadedState := {|
  eng := demoEngine; counts := [0; 0; 0]; scores := [0%Q; 0%Q; 0%Q]; touched := []; cache := None
|}.

Definition demoMsg (query : String.string) (tags : list Z) (srt : SortMode) (pg sz : Z) : SearchMessage := {|
  requestId := 1; q := lit query; tagBits := tags; excludeTagBits := [];
  hidden := FAny; hideChapter := FAny; needLogin := FAny; lock := FAny;
  sort := srt; page := pg; size := sz
|}.

(** A single-file index plan whose asset holds the index shard of
    [demoEngine], a loader that returns those bytes, and the engine and
    state before any index shard is loaded. *)
Definition demoAsset : AssetRef := {| ar_path := lit "ngram.index.bin"; ar_sha256 := []; ar_bytes := 3 |}.

Definition demoPlan : IndexPlan := PlanSingle demoAsset.

Definition demoLoad (a : AssetRef) : option (list Z) :=
  Some (deltaEncode (-1) [0; 2] ++ deltaEncode (-1) [2]).

Definition demoColdEngine : Engine := setIndexCache demoEngine ∅.

Definition demoColdState : LoadedState := setEng demoState demoColdEngine.

(** A version-2 dictionary with its two keys in two shards. *)
Definition demoDictV2 : DictBin := {|
  dict_version := 2; dict_n := 2; dict_keys := [97 * 65536 + 98; 98 * 65536 + 99];
  dict_shardIds := [0; 1]; dict_offsets := [0; 0]; dict_lengths := [2; 1]; dict_dfs := [2; 1] |}.

(* ================================================================== *)
(** A meta shard of one document and one cover base, as the build writes
    it: the header, the id, both tag masks, the flags, then the pools and
    the cover base ids, each section padded to 4 bytes. *)
Definition demoMetaBytes : list Z :=
  [90; 77; 72; 109; 2; 0; 124; 0; 1; 0; 0; 0; 1; 0; 0; 0;
   7; 0; 0; 0;  1; 0; 0; 0;  0; 0; 0; 0;  1; 0; 0; 0;
   0; 0; 0; 0; 2; 0; 0; 0;  97; 98; 0; 0;
   0; 0; 0; 0; 1; 0; 0; 0;  99; 0; 0; 0;
   0; 0; 0; 0;
   0; 0; 0; 0; 0; 0; 0; 0;
   0; 0; 0; 0; 0; 0; 0; 0;
   0; 0; 0; 0; 1; 0; 0; 0;  100].

Definition demoMetaBin : MetaBin :=
  {| mb_count := 1; mb_sep := 124; mb_ids := [7]; mb_tagLo := [1]; mb_tagHi := [0];
     mb_flags := [1]; mb_titlesOffsets := [0; 2]; mb_titlesPool := [97; 98];
     mb_coverBaseOffsets := [0; 1]; mb_coverBasePool := [99]; mb_coverBaseIds := [0];
     mb_coverPathsOffsets := [0; 0]; mb_coverPathsPool := [];
     mb_authorsOffsets := [0; 0]; mb_authorsPool := [];
     mb_aliasesOffsets := [0; 1]; mb_aliasesPool := [100] |}.

(** * Proofs *)

Example decodePostings_ex :
  decodePostings (deltaEncode (-1) [0; 5; 300; 70000]) 0
    (Z.of_nat (length (deltaEncode (-1) [0; 5; 300; 70000]))) = [0; 5; 300; 70000].
Proof. reflexivity. Qed.

(** ** Varint decoding *)

Lemma toInt32_id z : -2 ^ 31 <= z < 2 ^ 31 -> toInt32 z = z.
Proof.
  intros Hz. unfold toInt32.
  rewrite Z.mod_small by lia. lia.
Qed.

Lemma lor_low_high acc x s :
  0 <= s -> 0 <= acc < 2 ^ s -> 0 <= x ->
  Z.lor acc (Z.shiftl x s) = acc + x * 2 ^ s.
Proof.
  intros Hs Hacc Hx.
  rewrite Z.shiftl_mul_pow2 by lia.
  rewrite <- Z.lxor_lor, <- Z.add_nocarry_lxor; [lia| |];
  apply Z.bits_inj'; intros n Hn; rewrite Z.land_spec, Z.bits_0;
  replace acc with (acc mod 2 ^ s) by (apply Z.mod_small; lia);
  rewrite Z.testbit_mod_pow2 by lia;
  destruct (Z.ltb_spec n s).
  - rewrite Z.mul_pow2_bits_low by lia. apply andb_false_r.
  - reflexivity.
  - rewrite Z.mul_pow2_bits_low by lia. apply andb_false_r.
  - reflexivity.
Qed.

Lemma byte_bits r :
  0 <= r < 128 ->
  Z.land r 128 = 0 /\ Z.land (r + 128) 128 = 128 /\
  Z.land (r + 128) 127 = r /\ Z.land r 127 = r.
Proof.
  intros Hr.
  assert (Hall : forallb (fun r => (Z.land r 128 =? 0) && (Z.land (r + 128) 128 =? 128)
                   && (Z.land (r + 128) 127 =? r) && (Z.land r 127 =? r))
                   (map Z.of_nat (seq 0 128)) = true) by reflexivity.
  rewrite forallb_forall in Hall.
  assert (Hin : In r (map Z.of_nat (seq 0 128))).
  { rewrite in_map_iff. exists (Z.to_nat r). split; [lia|].
    apply in_seq. lia. }
  specialize (Hall r Hin).
  repeat rewrite andb_true_iff in Hall. rewrite !Z.eqb_eq in Hall. tauto.
Qed.

Lemma land127 v : 0 <= v -> Z.land v 127 = v mod 128.
Proof. intros Hv. change 127 with (Z.ones 7). rewrite Z.land_ones; reflexivity || lia. Qed.

Lemma readGroup_lebEncodeN fuel : forall v shift acc rest,
  0 <= v < 2 ^ (7 * Z.of_nat (S fuel)) -> 0 <= shift -> 0 <= acc < 2 ^ shift ->
  acc + v * 2 ^ shift < 2 ^ 31 ->
  readGroup (lebEncodeN fuel v ++ rest) shift acc =
    (acc + v * 2 ^ shift, Z.of_nat (length (lebEncodeN fuel v))).
Proof.
  induction fuel as [|f IH]; intros v shift acc rest Hv Hs Hacc Hsum.
  - (* one byte *)
    simpl lebEncodeN. simpl app. cbn [readGroup].
    assert (Hv' : 0 <= v < 128) by (simpl in Hv; lia).
    destruct (byte_bits v Hv') as (H1 & _ & _ & H4).
    rewrite H1, H4. simpl (0 =? 0).
    destruct (Z.eq_dec v 0) as [->|Hnz].
    + rewrite Z.shiftl_0_l. change (toInt32 0) with 0.
      rewrite Z.lor_0_r, toInt32_id by lia. simpl. f_equal; lia.
    + assert (shift < 31).
      { destruct (Z.lt_ge_cases shift 31); [lia|].
        assert (2 ^ 31 <= 2 ^ shift) by (apply Z.pow_le_mono_r; lia). nia. }
      rewrite Z.mod_small by lia.
      rewrite (toInt32_id (Z.shiftl v shift)) by (rewrite Z.shiftl_mul_pow2 by lia; nia).
      rewrite lor_low_high by lia. rewrite toInt32_id by nia. reflexivity.
  - simpl lebEncodeN. destruct (Z.ltb_spec v 128) as [Hlt|Hge].
    + simpl app. cbn [readGroup].
      destruct (byte_bits v (conj (proj1 Hv) Hlt)) as (H1 & _ & _ & H4).
      rewrite H1, H4. simpl (0 =? 0).
      destruct (Z.eq_dec v 0) as [->|Hnz].
      * rewrite Z.shiftl_0_l. change (toInt32 0) with 0.
      rewrite Z.lor_0_r, toInt32_id by lia. simpl. f_equal; lia.
      * assert (shift < 31).
        { destruct (Z.lt_ge_cases shift 31); [lia|].
          assert (2 ^ 31 <= 2 ^ shift) by (apply Z.pow_le_mono_r; lia). nia. }
        rewrite Z.mod_small by lia.
        rewrite (toInt32_id (Z.shiftl v shift)) by (rewrite Z.shiftl_mul_pow2 by lia; nia).
        rewrite lor_low_high by lia. rewrite toInt32_id by nia. reflexivity.
    + cbn [app readGroup].
      set (r := Z.land v 127).
      assert (Hr : r = v mod 128) by (apply land127; lia).
      assert (Hr' : 0 <= r < 128) by (rewrite Hr; apply Z.mod_pos_bound; lia).
      destruct (byte_bits r Hr') as (_ & H2 & H3 & _).
      rewrite H2, H3. simpl (128 =? 0). cbv iota.
      assert (Hsh : shift < 24).
      { destruct (Z.lt_ge_cases shift 24); [lia|].
        assert (2 ^ 24 <= 2 ^ shift) by (apply Z.pow_le_mono_r; lia).
        assert (2 ^ 31 <= v * 2 ^ shift) by nia. lia. }
      assert (Hdiv : v = 128 * (v / 128) + r) by (rewrite Hr; apply Z.div_mod; lia).
      rewrite Z.mod_small by lia.
      assert (Hrs : r * 2 ^ shift <= v * 2 ^ shift) by nia.
      rewrite (toInt32_id (Z.shiftl r shift)) by (rewrite Z.shiftl_mul_pow2 by lia; nia).
      rewrite lor_low_high by lia. rewrite toInt32_id by nia.
      rewrite Z.shiftr_div_pow2 by lia. change (2 ^ 7) with 128.
      assert (Hpow : 2 ^ (shift + 7) = 2 ^ shift * 128) by (rewrite Z.pow_add_r; lia).
      rewrite IH.
      * f_equal; [rewrite Hpow; lia| simpl length; lia].
      * split; [apply Z.div_pos; lia|].
        apply Z.div_lt_upper_bound; [lia|].
        replace (7 * Z.of_nat (S f)) with (7 * Z.of_nat (S (S f)) - 7) by lia.
        rewrite Z.pow_sub_r by lia. change (2 ^ 7) with 128.
        assert (Hd : 2 ^ (7 * Z.of_nat (S (S f))) = 128 * (2 ^ (7 * Z.of_nat (S (S f))) / 128)).
        { apply Z_div_exact_full_2; [lia|].
          replace (7 * Z.of_nat (S (S f))) with (7 + 7 * Z.of_nat (S f)) by lia.
          rewrite Z.pow_add_r by lia. change (2 ^ 7) with 128.
          rewrite Z.mul_comm, Z_mod_mult. reflexivity. }
        lia.
      * lia.
      * split; [nia|]. rewrite Hpow. nia.
      * rewrite Hpow. nia.
Qed.

Lemma readGroup_lebEncode v rest :
  0 <= v < 2 ^ 31 ->
  readGroup (lebEncode v ++ rest) 0 0 = (v, Z.of_nat (length (lebEncode v))).
Proof.
  intros Hv. unfold lebEncode.
  rewrite readGroup_lebEncodeN; [f_equal; lia | | lia | lia | lia].
  split; [lia|].
  destruct (Z.eq_dec v 0) as [->|Hnz]; [apply Z.pow_pos_nonneg; lia|].
  destruct (Z.log2_spec v) as [_ Hlt]; [lia|].
  eapply Z.lt_le_trans; [exact Hlt|].
  apply Z.pow_le_mono_r; [lia|].
  assert (0 <= Z.log2 v) by apply Z.log2_nonneg. lia.
Qed.

Lemma lebEncodeN_nonempty f v : lebEncodeN f v <> [].
Proof. destruct f; simpl; [|destruct (v <? 128)]; discriminate. Qed.

Lemma decodeLoop_deltaEncode ids : forall prev pre post fuel,
  incrFrom prev ids -> (length ids <= fuel)%nat ->
  decodeLoop fuel (pre ++ deltaEncode prev ids ++ post) (Z.of_nat (length pre))
    (Z.of_nat (length pre) + Z.of_nat (length (deltaEncode prev ids))) prev = ids.
Proof.
  induction ids as [|d ids IH]; intros prev pre post fuel Hinc Hf.
  - destruct fuel; cbn [decodeLoop deltaEncode]; [reflexivity|].
    rewrite (proj2 (Z.ltb_ge _ _)) by (simpl; lia). reflexivity.
  - destruct fuel as [|f]; [simpl in Hf; lia|].
    destruct Hinc as (Hlt & Hd & Hinc).
    cbn [decodeLoop deltaEncode].
    assert (Hne : lebEncode (d - prev) <> []) by apply lebEncodeN_nonempty.
    destruct (lebEncode (d - prev)) eqn:Henc; [congruence|].
    rewrite <- Henc.
    rewrite length_app.
    destruct (Z.ltb_spec (Z.of_nat (length pre))
       (Z.of_nat (length pre) + Z.of_nat (length (lebEncode (d - prev)) + length (deltaEncode d ids))))
      as [_|Hge]; [|rewrite Henc in Hge; simpl in Hge; lia].
    rewrite Nat2Z.id, drop_app_length, <- app_assoc.
    rewrite readGroup_lebEncode by lia.
    replace (prev + (d - prev)) with d by lia. f_equal.
    assert (Hf' : (length ids <= f)%nat) by (simpl in Hf; lia).
    specialize (IH d (pre ++ lebEncode (d - prev)) post f Hinc Hf').
    rewrite <- !app_assoc in IH. rewrite length_app in IH.
    refine (eq_trans _ IH). f_equal; lia.
Qed.


Lemma length_deltaEncode ids : forall prev,
  (length ids <= length (deltaEncode prev ids))%nat.
Proof.
  induction ids as [|d ids IH]; intros prev; simpl; [lia|].
  rewrite length_app.
  assert (length (lebEncode (d - prev)) <> 0%nat)
    by (intros Hl; apply length_zero_iff_nil in Hl; revert Hl; apply lebEncodeN_nonempty).
  specialize (IH d). lia.
Qed.

Lemma incrFrom_of_sorted ids : forall prev,
  -1 <= prev -> Sorted Z.lt ids ->
  Forall (fun d => prev < d /\ d < 2 ^ 31 - 1) ids -> incrFrom prev ids.
Proof.
  induction ids as [|d ids IH]; intros prev Hp Hs Hf; simpl; [exact I|].
  inversion Hf as [|? ? [Hd1 Hd2] Hf']; subst.
  apply Sorted_StronglySorted in Hs; [|intros x y z; lia].
  inversion Hs as [|? ? Hs' Hall]; subst.
  split; [lia|]. split; [lia|].
  apply IH; [lia| apply StronglySorted_Sorted; exact Hs'|].
  rewrite Forall_forall in *. intros x Hx.
  specialize (Hall x Hx). specialize (Hf' x Hx). simpl in *. lia.
Qed.

(** C3: [decodePostings] reads unsigned LEB128 groups (the value of a group
    is the sum of its 7-bit chunks, low chunk first) and emits [prev + delta]
    from [prev = -1]; so on the delta encoding of a strictly increasing list
    of doc-ids (doc-ids lie in [[0, count)] with [count] an int32), placed
    anywhere in an index shard, it emits exactly that list. *)
Theorem decodePostings_roundtrip (pre post ids : list Z) :
  Forall (fun d => 0 <= d < 2 ^ 31 - 1) ids -> Sorted Z.lt ids ->
  (forall v rest, 0 <= v < 2 ^ 31 ->
     readGroup (lebEncode v ++ rest) 0 0 = (v, Z.of_nat (length (lebEncode v)))) /\
  decodePostings (pre ++ deltaEncode (-1) ids ++ post) (Z.of_nat (length pre))
    (Z.of_nat (length (deltaEncode (-1) ids))) = ids.
Proof.
  intros Hb Hs. split; [intros; apply readGroup_lebEncode; lia|].
  unfold decodePostings.
  apply decodeLoop_deltaEncode.
  - apply incrFrom_of_sorted; [lia|exact Hs|].
    eapply Forall_impl; [exact Hb|]. simpl. lia.
  - rewrite Nat2Z.id. apply length_deltaEncode.
Qed.

Lemma decodePostings_roundtrip_witness :
  (Forall (fun d => 0 <= d < 2 ^ 31 - 1) [0; 5; 300; 70000] /\ Sorted Z.lt [0; 5; 300; 70000]) /\
  decodePostings ([7] ++ deltaEncode (-1) [0; 5; 300; 70000] ++ [200]) (Z.of_nat (length [7]))
    (Z.of_nat (length (deltaEncode (-1) [0; 5; 300; 70000]))) = [0; 5; 300; 70000].
Proof.
  assert (H1 : Forall (fun d => 0 <= d < 2 ^ 31 - 1) [0; 5; 300; 70000])
    by (repeat constructor; lia).
  assert (H2 : Sorted Z.lt [0; 5; 300; 70000])
    by (repeat constructor; simpl; lia).
  split; [split; assumption|].
  exact (proj2 (decodePostings_roundtrip [7] [200] [0; 5; 300; 70000] H1 H2)).
Defined.

(* ------------------------------------------------------------------ *)
(** ** The shape of a search *)

Section SearchShape.
Variable normText : list Z -> list Z.

Lemma makePlan_size e msg : 1 <= pl_size (makePlan normText e msg) <= 100.
Proof.
  unfold makePlan. repeat case_match; simpl; lia.
Qed.

Lemma makePlan_page e msg : 1 <= pl_page (makePlan normText e msg).
Proof.
  unfold makePlan. repeat case_match; simpl; lia.
Qed.

Lemma makePlan_offset e msg :
  pl_offset (makePlan normText e msg) = (pl_page (makePlan normText e msg) - 1) * pl_size (makePlan normText e msg).
Proof.
  unfold makePlan. repeat case_match; reflexivity.
Qed.

Lemma finish_nil e msg pl :
  0 <= pl_offset pl -> 1 <= pl_size pl -> finish e msg pl [] = Ok (emptyResult msg pl).
Proof.
  intros Ho Hs. unfold finish, jsSlice, emptyResult.
  rewrite drop_nil, take_nil. cbn -[Z.ltb].
  rewrite (proj2 (Z.ltb_ge _ _)) by lia. reflexivity.
Qed.

(** Every way out of [searchSync] after the cache check: either an error
    thrown before the cache slot is written, or the slot holds the resolved
    sequence under the plan's key and the result is its page. *)
Lemma searchMiss_shape s msg pl :
  0 <= pl_offset pl -> 1 <= pl_size pl ->
  eng (fst (searchMiss normText s msg pl)) = eng s /\
  ((exists er, snd (searchMiss normText s msg pl) = Err er /\ cache (fst (searchMiss normText s msg pl)) = cache s) \/
   (exists ids, cache (fst (searchMiss normText s msg pl)) = Some (pl_cacheKey pl, ids) /\
                snd (searchMiss normText s msg pl) = finish (eng s) msg pl ids)).
Proof.
  intros Ho Hs. unfold searchMiss, resetTouched.
  repeat (case_match; simplify_eq/=);
    (split; [reflexivity|]);
    first [ left; eexists; split; reflexivity
          | right; eexists; split; [reflexivity|]; rewrite ?finish_nil by assumption; reflexivity ].
Qed.

(** [searchMiss] never reads the cache slot. *)
Lemma searchMiss_cache_indep s msg pl c :
  let s' := {| eng := eng s; counts := counts s; scores := scores s; touched := touched s; cache := c |} in
  snd (searchMiss normText s' msg pl) = snd (searchMiss normText s msg pl) /\
  clearCache (fst (searchMiss normText s' msg pl)) = clearCache (fst (searchMiss normText s msg pl)) /\
  ((cache (fst (searchMiss normText s msg pl)) = cache s /\ cache (fst (searchMiss normText s' msg pl)) = c) \/
   cache (fst (searchMiss normText s' msg pl)) = cache (fst (searchMiss normText s msg pl))).
Proof.
  destruct s as [e cnt sc tch ca]. simpl. unfold searchMiss, resetTouched.
  repeat (case_match; simplify_eq/=); unfold clearCache; simpl;
    (split; [reflexivity|]); (split; [reflexivity|]); auto.
Qed.

(** Nor the fields [requestId], [page] and [size] of the message, nor the
    pagination part of the plan. *)
Lemma searchMiss_msg_indep s m1 m2 pl1 pl2 :
  hidden m1 = hidden m2 -> hideChapter m1 = hideChapter m2 -> needLogin m1 = needLogin m2 ->
  lock m1 = lock m2 -> sort m1 = sort m2 ->
  pl_include pl1 = pl_include pl2 -> pl_exclude pl1 = pl_exclude pl2 -> pl_qNorm pl1 = pl_qNorm pl2 ->
  pl_queryTokens pl1 = pl_queryTokens pl2 -> pl_selectedLo pl1 = pl_selectedLo pl2 ->
  pl_selectedHi pl1 = pl_selectedHi pl2 -> pl_excludedLo pl1 = pl_excludedLo pl2 ->
  pl_excludedHi pl1 = pl_excludedHi pl2 -> pl_hasQuery pl1 = pl_hasQuery pl2 ->
  pl_cacheKey pl1 = pl_cacheKey pl2 ->
  fst (searchMiss normText s m1 pl1) = fst (searchMiss normText s m2 pl2).
Proof.
  intros Hh Hc Hn Hl Hs. destruct pl1, pl2; simpl; intros; subst.
  unfold searchMiss, resetTouched. simpl. rewrite Hh, Hc, Hn, Hl, Hs.
  repeat (case_match; simplify_eq/=); reflexivity.
Qed.

(** Two messages that agree on the query, the tag masks, the status filters
    and the sort have the same plan but for the pagination. *)
Lemma makePlan_agree e m1 m2 :
  q m1 = q m2 -> maskFromBits (tagBits m1) = maskFromBits (tagBits m2) ->
  maskFromBits (excludeTagBits m1) = maskFromBits (excludeTagBits m2) ->
  hidden m1 = hidden m2 -> hideChapter m1 = hideChapter m2 -> needLogin m1 = needLogin m2 ->
  lock m1 = lock m2 -> sort m1 = sort m2 ->
  let pl1 := makePlan normText e m1 in let pl2 := makePlan normText e m2 in
  pl_include pl1 = pl_include pl2 /\ pl_exclude pl1 = pl_exclude pl2 /\ pl_qNorm pl1 = pl_qNorm pl2 /\
  pl_queryTokens pl1 = pl_queryTokens pl2 /\ pl_selectedLo pl1 = pl_selectedLo pl2 /\
  pl_selectedHi pl1 = pl_selectedHi pl2 /\ pl_excludedLo pl1 = pl_excludedLo pl2 /\
  pl_excludedHi pl1 = pl_excludedHi pl2 /\ pl_hasQuery pl1 = pl_hasQuery pl2 /\
  pl_cacheKey pl1 = pl_cacheKey pl2.
Proof.
  intros Hq Ht Hx Hh Hc Hn Hl Hs. unfold makePlan.
  rewrite Hq, Ht, Hx, Hh, Hc, Hn, Hl, Hs.
  repeat case_match; simpl; repeat split.
Qed.

End SearchShape.

(* ------------------------------------------------------------------ *)
(** ** Results and pagination *)

Lemma buildItems_length e l its : buildItems e l = Ok its -> length its = length l.
Proof.
  revert its. induction l as [|d l IH]; intros its H; simpl in H.
  - injection H as <-. reflexivity.
  - destruct (buildItem e d); [|discriminate].
    destruct (buildItems e l) eqn:E; [|discriminate].
    injection H as <-. simpl. f_equal. apply IH. reflexivity.
Qed.

Lemma finish_ok e msg pl ids r :
  finish e msg pl ids = Ok r ->
  rm_size r = pl_size pl /\ rm_page r = pl_page pl /\ rm_total r = Z.of_nat (length ids) /\
  rm_hasMore r = (pl_offset pl + pl_size pl <? Z.of_nat (length ids)) /\
  buildItems e (jsSlice ids (pl_offset pl) (pl_offset pl + pl_size pl)) = Ok (rm_items r).
Proof.
  unfold finish. destruct (buildItems _ _) eqn:E; intros H; [|discriminate].
  injection H as <-. simpl. repeat split; exact E.
Qed.

(** Pages of [k] entries, as many as it takes, put back together. *)
Lemma concat_pages (k : nat) n : forall l : list Z,
  (length l <= n * k)%nat ->
  concat (map (fun i => take k (drop (i * k) l)) (seq 0 n)) = l.
Proof.
  induction n as [|n IH]; intros l Hl.
  - simpl in Hl. destruct l; [reflexivity|simpl in Hl; lia].
  - rewrite <- cons_seq, map_cons, <- seq_shift, map_map. simpl concat.
    rewrite drop_0.
    replace (map (fun x => take k (drop (k + x * k) l)) (seq 0 n))
      with (map (fun i => take k (drop (i * k) (drop k l))) (seq 0 n)).
    2:{ apply map_ext. intros i. rewrite drop_drop. reflexivity. }
    rewrite IH.
    + apply take_drop.
    + rewrite length_drop. simpl in Hl. lia.
Qed.

Section Results.
Variable normText : list Z -> list Z.

(** The result of a completed search is the page of a doc-id sequence that is
    left in the cache slot: the cached one on a hit, the resolved one on a
    miss. *)
Lemma searchSync_result s msg r :
  snd (searchSync normText s msg) = Ok r ->
  exists ids, finish (eng s) msg (makePlan normText (eng s) msg) ids = Ok r /\
    cache (fst (searchSync normText s msg)) = Some (pl_cacheKey (makePlan normText (eng s) msg), ids) /\
    (cache_ok normText s -> resolve normText s msg = Some ids).
Proof.
  pose proof (makePlan_size normText (eng s) msg) as Hsz.
  pose proof (makePlan_page normText (eng s) msg) as Hpg.
  pose proof (makePlan_offset normText (eng s) msg) as Hoff.
  set (pl := makePlan normText (eng s) msg) in *.
  assert (Ho : 0 <= pl_offset pl) by (rewrite Hoff; nia).
  assert (Hs : 1 <= pl_size pl) by lia.
  intros Hr.
  assert (Hmiss : snd (searchMiss normText s msg pl) = Ok r ->
    exists ids, finish (eng s) msg pl ids = Ok r /\
      cache (fst (searchMiss normText s msg pl)) = Some (pl_cacheKey pl, ids) /\
      resolve normText s msg = Some ids).
  { intros Hm.
    destruct (searchMiss_shape normText s msg pl Ho Hs) as [_ [[er [Her _]]|[ids [Hc Hf]]]];
      [congruence|].
    exists ids. split; [congruence|]. split; [exact Hc|].
    unfold resolve. fold pl.
    destruct (searchMiss_cache_indep normText s msg pl None) as [Hsnd [_ Hca]].
    change {| eng := eng s; counts := counts s; scores := scores s; touched := touched s; cache := None |}
      with (clearCache s) in Hsnd, Hca.
    destruct Hca as [[_ Hnone]|Heq].
    - destruct (searchMiss_shape normText (clearCache s) msg pl Ho Hs)
        as [_ [[er [Her _]]|[ids' [Hc' _]]]]; congruence.
    - rewrite Heq, Hc. reflexivity. }
  unfold searchSync in *. fold pl in Hr |- *.
  destruct (cache s) as [[k cached]|] eqn:Hcache.
  - destruct (bool_decide_reflect (k = pl_cacheKey pl)) as [Hk|Hk].
    + exists cached. split; [exact Hr|]. split; [simpl; rewrite Hcache; congruence|].
      intros Hok. apply (Hok k cached Hcache). rewrite Hk. reflexivity.
    + destruct (Hmiss Hr) as [ids [H1 [H2 H3]]]. eauto.
  - destruct (Hmiss Hr) as [ids [H1 [H2 H3]]]. eauto.
Qed.

End Results.

Section Claims1.
Variable normText : list Z -> list Z.

Lemma makePlan_fields e msg :
  let pl := makePlan normText e msg in
  pl_include pl = pq_include (parseQuery normText (q msg)) /\
  pl_exclude pl = pq_exclude (parseQuery normText (q msg)) /\
  (pl_selectedLo pl, pl_selectedHi pl) = maskFromBits (tagBits msg) /\
  (pl_excludedLo pl, pl_excludedHi pl) = maskFromBits (excludeTagBits msg) /\
  pl_hasQuery pl = negb (bool_decide (pl_include pl = [])) || negb (bool_decide (pl_exclude pl = [])) /\
  pl_size pl = Z.max 1 (Z.min 100 (toInt32 (size msg))) /\
  pl_page pl = Z.max 1 (toInt32 (page msg)).
Proof.
  unfold makePlan. repeat case_match; simpl; repeat split; congruence.
Qed.

Lemma searchSync_eng s msg : eng (fst (searchSync normText s msg)) = eng s.
Proof.
  pose proof (makePlan_size normText (eng s) msg) as Hsz.
  pose proof (makePlan_page normText (eng s) msg) as Hpg.
  pose proof (makePlan_offset normText (eng s) msg) as Hoff.
  unfold searchSync.
  assert (Hm : eng (fst (searchMiss normText s msg (makePlan normText (eng s) msg))) = eng s).
  { apply searchMiss_shape; [rewrite Hoff|]; nia. }
  repeat case_match; simpl; auto.
Qed.

(** [searchSync] on a message with no term and no filter, after the cache
    check. *)
Lemma searchMiss_empty_intent s msg pl :
  pl_exclude pl = [] -> pl_hasQuery pl = false ->
  pl_selectedLo pl = 0 -> pl_selectedHi pl = 0 -> pl_excludedLo pl = 0 -> pl_excludedHi pl = 0 ->
  hidden msg = FAny -> hideChapter msg = FAny -> needLogin msg = FAny -> lock msg = FAny ->
  searchMiss normText s msg pl = (setCache s (pl_cacheKey pl) [], Ok (emptyResult msg pl)).
Proof.
  intros He Hq H1 H2 H3 H4 Hh Hc Hn Hl. unfold searchMiss.
  rewrite He, Hq, H1, H2, H3, H4, Hh, Hc, Hn, Hl.
  rewrite bool_decide_eq_true_2 by reflexivity. simpl.
  destruct s; reflexivity.
Qed.

(** C10: the page size and the page are clamped after the [|0] conversion:
    [size = max(1, min(100, ToInt32(msg.size)))] and
    [page = max(1, ToInt32(msg.page))]; the results message echoes them and
    holds at most 100 items. *)
Theorem searchSync_page_clamp s msg r :
  snd (searchSync normText s msg) = Ok r ->
  rm_size r = Z.max 1 (Z.min 100 (toInt32 (size msg))) /\
  rm_page r = Z.max 1 (toInt32 (page msg)) /\
  (length (rm_items r) <= 100)%nat.
Proof.
  intros Hr.
  destruct (searchSync_result normText s msg r Hr) as [ids [Hf _]].
  destruct (finish_ok _ _ _ _ _ Hf) as (Hs & Hp & _ & _ & Hi).
  destruct (makePlan_fields (eng s) msg) as (_ & _ & _ & _ & _ & Hsz & Hpg).
  pose proof (makePlan_size normText (eng s) msg) as Hb.
  split; [congruence|]. split; [congruence|].
  apply buildItems_length in Hi. rewrite Hi. unfold jsSlice.
  rewrite length_take. lia.
Qed.

(** C4: a completed search returns page [p] of size [k] of the resolved
    sequence [all]: [total = |all|], [hasMore] iff [(p-1)*k + k < total], the
    items are those of the entries [(p-1)*k .. min(p*k, total)), and the pages
    of size [k] put together give back [all].  The cache slot is assumed to
    hold what it was built for ([cache_ok]). *)
Theorem searchSync_pagination s msg r :
  cache_ok normText s ->
  snd (searchSync normText s msg) = Ok r ->
  exists all, resolve normText s msg = Some all /\
    rm_total r = Z.of_nat (length all) /\
    rm_hasMore r = ((rm_page r - 1) * rm_size r + rm_size r <? rm_total r) /\
    buildItems (eng s) (take (Z.to_nat (rm_size r)) (drop (Z.to_nat ((rm_page r - 1) * rm_size r)) all))
      = Ok (rm_items r) /\
    (forall n, (length all <= n * Z.to_nat (rm_size r))%nat ->
       concat (map (fun i => take (Z.to_nat (rm_size r)) (drop (i * Z.to_nat (rm_size r)) all)) (seq 0 n))
       = all).
Proof.
  intros Hok Hr.
  destruct (searchSync_result normText s msg r Hr) as [ids [Hf [_ Hres]]].
  destruct (finish_ok _ _ _ _ _ Hf) as (Hs & Hp & Ht & Hm & Hi).
  pose proof (makePlan_size normText (eng s) msg) as Hsz.
  pose proof (makePlan_offset normText (eng s) msg) as Hoff.
  exists ids. split; [exact (Hres Hok)|]. split; [exact Ht|].
  rewrite Hs, Hp, Ht, <- Hoff. split; [exact Hm|]. split.
  - rewrite <- Hi. unfold jsSlice. do 3 f_equal. lia.
  - intros n Hn. apply concat_pages. exact Hn.
Qed.


(** C8: after a completed search for [m1], a search for [m2] that agrees with
    it on the query, the tag masks, the status filters and the sort gives
    the result that evaluating [m2] alone on the same state without a cached
    entry gives; the cached sequence is the one resolved for [m2]. *)
Theorem searchSync_cache_refines s m1 m2 s1 r1 :
  cache_ok normText s ->
  q m1 = q m2 -> maskFromBits (tagBits m1) = maskFromBits (tagBits m2) ->
  maskFromBits (excludeTagBits m1) = maskFromBits (excludeTagBits m2) ->
  hidden m1 = hidden m2 -> hideChapter m1 = hideChapter m2 -> needLogin m1 = needLogin m2 ->
  lock m1 = lock m2 -> sort m1 = sort m2 ->
  searchSync normText s m1 = (s1, Ok r1) ->
  snd (searchSync normText s1 m2) = snd (searchSync normText (clearCache s) m2) /\
  exists ids, cache s1 = Some (pl_cacheKey (makePlan normText (eng s) m2), ids) /\
              resolve normText s m2 = Some ids.
Proof.
  intros Hok Hq Ht Hx Hh Hc Hn Hl Hs Hrun.
  destruct (makePlan_agree normText (eng s) m1 m2 Hq Ht Hx Hh Hc Hn Hl Hs)
    as (A1 & A2 & A3 & A4 & A5 & A6 & A7 & A8 & A9 & A10).
  pose proof (makePlan_size normText (eng s) m2) as Hsz.
  pose proof (makePlan_page normText (eng s) m2) as Hpg.
  pose proof (makePlan_offset normText (eng s) m2) as Hoff.
  assert (Hr1 : snd (searchSync normText s m1) = Ok r1) by (rewrite Hrun; reflexivity).
  destruct (searchSync_result normText s m1 r1 Hr1) as [ids [_ [Hc1 Hres]]].
  specialize (Hres Hok). rewrite Hrun in Hc1. simpl in Hc1.
  assert (He1 : eng s1 = eng s) by (rewrite <- (searchSync_eng s m1), Hrun; reflexivity).
  assert (Hres2 : resolve normText s m2 = Some ids).
  { rewrite <- Hres. unfold resolve. f_equal. f_equal.
    symmetry. apply searchMiss_msg_indep; assumption. }
  split.
  - unfold searchSync at 1. rewrite He1, Hc1, <- A10.
    rewrite bool_decide_eq_true_2 by reflexivity. simpl.
    unfold searchSync. simpl.
    set (pl2 := makePlan normText (eng s) m2) in *.
    assert (Ho : 0 <= pl_offset pl2) by (rewrite Hoff; nia).
    destruct (searchMiss_shape normText (clearCache s) m2 pl2 Ho ltac:(lia))
      as [_ [[er [_ Hnone]]|[ids' [Hc' Hf']]]].
    + unfold resolve in Hres2. fold pl2 in Hres2. rewrite Hnone in Hres2. discriminate.
    + unfold resolve in Hres2. fold pl2 in Hres2. rewrite Hc' in Hres2.
      injection Hres2 as ->. rewrite Hf'. reflexivity.
  - exists ids. split; [|exact Hres2]. rewrite Hc1, A10. reflexivity.
Qed.

End Claims1.

(* ------------------------------------------------------------------ *)
(** ** The scratch buffers are reset *)

Section ScratchBuffers.
Variable normText : list Z -> list Z.

Lemma zlookup_zinsert_Some {A} (l : list A) i v j y :
  zlookup (zinsert i v l) j = Some y -> (i = j /\ y = v) \/ (i <> j /\ zlookup l j = Some y).
Proof.
  unfold zlookup, zinsert.
  destruct (Z.ltb_spec j 0); [discriminate|].
  destruct (Z.ltb_spec i 0).
  - intros H'. right. split; [lia|exact H'].
  - rewrite list_lookup_insert_Some. intros [(Hij & -> & _) | (Hne & Hl)].
    + left. split; [lia|reflexivity].
    + right. split; [intros ->; congruence|exact Hl].
Qed.

Lemma fold_left_invariant {A B} (P : A -> Prop) (g : A -> B -> A) (L : list B) (a : A) :
  (forall a d, d ∈ L -> P a -> P (g a d)) -> P a -> P (fold_left g L a).
Proof.
  revert a. induction L as [|d L IH]; intros a Hg Ha; simpl; [exact Ha|].
  apply IH.
  - intros a' d' Hin. apply Hg. by right.
  - apply Hg; [left|exact Ha].
Qed.

Lemma fold_left_proj {A B C} (g : A -> C -> A) (h : B -> C -> B) (p : A -> B) L a :
  (forall a d, p (g a d) = h (p a) d) -> p (fold_left g L a) = fold_left h L (p a).
Proof.
  intros Hp. revert a. induction L as [|d L IH]; intros a; simpl; [reflexivity|].
  rewrite IH, Hp. reflexivity.
Qed.

Lemma allIs_listed {A} (z : A) l t : allIs z l -> listed z l t.
Proof. intros H d x Hx Hne. exfalso. exact (Hne (H d x Hx)). Qed.

Lemma listed_nil {A} `{EqDecision A} (z : A) l : listed z l [] -> allIs z l.
Proof.
  intros H d x Hx. destruct (decide (x = z)) as [|Hne]; [assumption|].
  pose proof (H d x Hx Hne) as Hin. inversion Hin.
Qed.

Lemma listed_app {A} (z : A) l t t' : listed z l t -> listed z l (t ++ t').
Proof. intros H d x Hx Hne. apply elem_of_app. left. exact (H d x Hx Hne). Qed.

Lemma listed_perm {A} (z : A) l t t' : t ≡ₚ t' -> listed z l t -> listed z l t'.
Proof. intros Hp H d x Hx Hne. rewrite <- Hp. exact (H d x Hx Hne). Qed.

(** Writing [z] over every listed doc zeroes the array. *)
Lemma zero_fold_allIs {A} `{EqDecision A} (z : A) L l :
  listed z l L -> allIs z (fold_left (fun l d => zinsert d z l) L l).
Proof.
  revert l. induction L as [|d L IH]; intros l H; simpl.
  - by apply listed_nil.
  - apply IH. intros d' x Hx Hne.
    apply zlookup_zinsert_Some in Hx as [[_ ->]|[Hdd Hx]]; [contradiction|].
    pose proof (H d' x Hx Hne) as Hin. apply elem_of_cons in Hin as [->|Hin]; [congruence|exact Hin].
Qed.

(** A write at a listed doc keeps the listing. *)
Lemma listed_zinsert {A} (z : A) l t d v :
  d ∈ t -> listed z l t -> listed z (zinsert d v l) t.
Proof.
  intros Hd H d' x Hx Hne.
  apply zlookup_zinsert_Some in Hx as [[<- _]|[_ Hx]]; [exact Hd|exact (H d' x Hx Hne)].
Qed.

Lemma insertBy_perm {A} (gt : A -> A -> bool) x l : insertBy gt x l ≡ₚ x :: l.
Proof.
  induction l as [|y l IH]; simpl; [reflexivity|].
  destruct (gt y x); [reflexivity|].
  rewrite IH. constructor.
Qed.

Lemma sortBy_perm {A} (gt : A -> A -> bool) l : sortBy gt l ≡ₚ l.
Proof.
  unfold sortBy.
  assert (forall acc, fold_left (fun acc x => insertBy gt x acc) l acc ≡ₚ l ++ acc) as H.
  { induction l as [|x l IH]; intros acc; simpl; [reflexivity|].
    rewrite IH, insertBy_perm. symmetry. apply Permutation_middle. }
  rewrite H, app_nil_r. reflexivity.
Qed.

Lemma onDocCount_listed skip cnt tch ds :
  listed 0 cnt tch ->
  listed 0 (fst (fold_left (onDocCount skip) ds (cnt, tch))) (snd (fold_left (onDocCount skip) ds (cnt, tch))).
Proof.
  intros H.
  apply (fold_left_invariant (fun a => listed 0 (fst a) (snd a))); [|exact H].
  intros [c t] d _ Hl. unfold onDocCount. simpl.
  destruct (skip d); [exact Hl|].
  destruct (zlookup c d) as [prev|] eqn:Hp; [|exact Hl].
  simpl. intros d' x Hx Hne.
  apply zlookup_zinsert_Some in Hx as [[<- _]|[_ Hx]].
  - destruct (Z.eqb_spec prev 0).
    + apply elem_of_app. right. by left.
    + exact (Hl d prev Hp n).
  - pose proof (Hl d' x Hx Hne) as Hin. simpl in Hin.
    destruct (prev =? 0); [apply elem_of_app; left|]; exact Hin.
Qed.

Lemma countPostings_listed e skip idxs cnt tch cnt' tch' err :
  countPostings e skip idxs cnt tch = (cnt', tch', err) ->
  listed 0 cnt tch -> listed 0 cnt' tch'.
Proof.
  revert cnt tch. induction idxs as [|idx idxs IH]; intros cnt tch Hc Hl; simpl in Hc.
  - injection Hc as <- <- _. exact Hl.
  - destruct (decodeTokenIdxPostings e idx) as [ds|]; [|injection Hc as <- <- _; exact Hl].
    pose proof (onDocCount_listed skip cnt tch ds Hl) as H1.
    destruct (fold_left (onDocCount skip) ds (cnt, tch)) as [c1 t1].
    exact (IH _ _ Hc H1).
Qed.

Lemma excludeLoop_zero e terms cnt mask cnt' mask' :
  excludeLoop e terms cnt mask = (cnt', mask', None) -> allIs 0 cnt -> allIs 0 cnt'.
Proof.
  revert cnt mask. induction terms as [|term terms IH]; intros cnt mask He Hz; simpl in He.
  - injection He as <- _. exact Hz.
  - repeat case_match; simplify_eq; try (eapply IH; eassumption).
    eapply IH; [eassumption|].
    match goal with
    | Hf : fold_left ?g ?L (?c1, mask) = (?c2, ?m2) |- allIs 0 ?c2 =>
        assert (c2 = fold_left (fun c d => zinsert d 0 c) L c1) as ->
    end.
    { match goal with Hf : fold_left _ _ _ = (_, _) |- _ =>
        apply (f_equal fst) in Hf; simpl in Hf; rewrite <- Hf end.
      apply (fold_left_proj _ _ fst). intros [c m] d. reflexivity. }
    apply zero_fold_allIs.
    match goal with Hc : countPostings _ _ _ _ _ = _ |- _ =>
      eapply (countPostings_listed _ _ _ _ _ _ _ _ Hc) end.
    by apply allIs_listed.
Qed.

Lemma multiTermLoop_inv e skip rel terms cnt sc cands cnt' sc' cands' :
  multiTermLoop e skip rel terms cnt sc cands = (cnt', sc', cands', None) ->
  allIs 0 cnt -> listed 0%Q sc cands -> allIs 0 cnt' /\ listed 0%Q sc' cands'.
Proof.
  revert cnt sc cands. induction terms as [|term terms IH]; intros cnt sc cands He Hz Hl;
    simpl in He.
  - injection He as <- <- <-. split; assumption.
  - destruct (bool_decide _); [eapply IH; eassumption|].
    destruct (bool_decide _); [eapply IH; eassumption|].
    match type of He with context [countPostings ?a ?b ?c ?d ?f] =>
      destruct (countPostings a b c d f) as [[c1 tt] err] eqn:Hc end.
    destruct err; [discriminate|].
    match type of He with context [fold_left ?g tt ?a] =>
      destruct (fold_left g tt a) as [[c2 s2] cs2] eqn:Hf end.
    pose proof (countPostings_listed _ _ _ _ _ _ _ _ Hc (allIs_listed _ _ _ Hz)) as Hc1.
    eapply IH; [exact He| |].
    + assert (c2 = fold_left (fun c d => zinsert d 0 c) tt c1) as ->.
      { match goal with Hf : fold_left _ _ _ = (_, _, _) |- _ =>
          apply (f_equal (fun a => fst (fst a))) in Hf; simpl in Hf; rewrite <- Hf end.
        apply (fold_left_proj _ _ (fun a => fst (fst a))).
        intros [[c s] cs] d. simpl. destruct (_ <=? zget0 c d); reflexivity. }
      by apply zero_fold_allIs.
    + enough (Hp : listed 0%Q (snd (fst (c2, s2, cs2))) (snd (c2, s2, cs2))) by exact Hp.
      rewrite <- Hf.
      apply (fold_left_invariant (fun a => listed 0%Q (snd (fst a)) (snd a))); [|exact Hl].
      intros [[c s] cs] d _ Hs. simpl in *.
      destruct (_ <=? _); simpl; [|exact Hs].
      intros d' x Hx Hne.
      apply zlookup_zinsert_Some in Hx as [[<- _]|[_ Hx]].
      * destruct (Qeq_bool (zgetQ s d) 0) eqn:Hq.
        -- apply elem_of_app. right. by left.
        -- unfold zgetQ in Hq. destruct (zlookup s d) as [p|] eqn:Hsd.
           ++ apply (Hs d p Hsd). intros ->. compute in Hq. discriminate.
           ++ compute in Hq. discriminate.
      * pose proof (Hs d' x Hx Hne) as Hin.
        destruct (Qeq_bool _ _); [apply elem_of_app; left|]; exact Hin.
Qed.

Lemma multiTermBonus_listed e terms cands sc :
  listed 0%Q sc cands -> listed 0%Q (multiTermBonus normText e terms cands sc) cands.
Proof.
  intros H. unfold multiTermBonus.
  apply (fold_left_invariant (fun s => listed 0%Q s cands)); [|exact H].
  intros sc' d Hin Hl. case_match; [apply listed_zinsert|]; assumption.
Qed.

Lemma singleTermScores_listed e qN nT mh cnt tch sc :
  listed 0%Q sc tch -> listed 0%Q (fst (singleTermScores normText e qN nT mh cnt tch sc)) tch.
Proof.
  intros Hl. unfold singleTermScores.
  apply (fold_left_invariant (fun a => listed 0%Q (fst a) tch)); [|exact Hl].
  intros [sc' cs] d Hin Hs. simpl in Hs.
  repeat case_match; simpl; try exact Hs. by apply listed_zinsert.
Qed.

Lemma allIs_Forall {A} (z : A) l : allIs z l <-> Forall (fun x => x = z) l.
Proof.
  rewrite Forall_lookup. split.
  - intros H i x Hi. apply (H (Z.of_nat i)). unfold zlookup.
    rewrite (proj2 (Z.ltb_ge _ _)) by lia. by rewrite Nat2Z.id.
  - intros H d x Hx. unfold zlookup in Hx.
    destruct (d <? 0); [discriminate|]. exact (H _ _ Hx).
Qed.

Lemma clean_allIs s :
  clean s <-> allIs 0 (counts s) /\ allIs 0%Q (scores s) /\ touched s = [].
Proof. unfold clean. by rewrite !allIs_Forall. Qed.

Lemma resetTouched_clean s :
  listed 0 (counts s) (touched s) -> listed 0%Q (scores s) (touched s) -> clean (resetTouched s).
Proof.
  intros Hc Hs. unfold resetTouched.
  destruct (fold_left _ (touched s) (counts s, scores s)) as [c sc] eqn:Hf.
  apply clean_allIs. simpl. split; [|split; [|reflexivity]].
  - replace c with (fold_left (fun c d => zinsert d 0 c) (touched s) (counts s)).
    + by apply zero_fold_allIs.
    + apply (f_equal fst) in Hf. simpl in Hf. rewrite <- Hf. symmetry.
      apply (fold_left_proj _ _ fst). intros [c' sc'] d. reflexivity.
  - replace sc with (fold_left (fun sc d => zinsert d 0%Q sc) (touched s) (scores s)).
    + by apply zero_fold_allIs.
    + apply (f_equal snd) in Hf. simpl in Hf. rewrite <- Hf. symmetry.
      apply (fold_left_proj _ _ snd). intros [c' sc'] d. reflexivity.
Qed.

Lemma clean_setCache s k v : clean s -> clean (setCache s k v).
Proof. unfold clean. simpl. exact id. Qed.

Ltac clean_leaf Hc Hs :=
  apply clean_setCache;
  repeat match goal with
  | Hm : multiTermLoop _ _ _ _ ?c _ [] = (_, _, _, None) |- _ =>
      let H0 := fresh "Hm" in let H1 := fresh "Hm" in let H2 := fresh "Hm" in
      assert (H0 : allIs 0 c) by assumption;
      pose proof (multiTermLoop_inv _ _ _ _ _ _ _ _ _ _ Hm H0
                    (allIs_listed _ _ _ Hs)) as [H1 H2]; clear Hm
  | Hp : countPostings _ _ _ ?c ?t = (_, _, None) |- _ =>
      let H0 := fresh "Hp" in let H1 := fresh "Hp" in
      assert (H0 : listed 0 c t) by (apply allIs_listed; assumption);
      pose proof (countPostings_listed _ _ _ _ _ _ _ _ Hp H0) as H1; clear Hp
  | Hq : singleTermScores ?nt ?e ?a ?b ?c ?d ?t ?sc = (?sc2, _) |- _ =>
      let H1 := fresh "Hq" in
      pose proof (f_equal fst Hq) as H1; simpl in H1; subst sc2;
      pose proof (singleTermScores_listed e a b c d t sc (allIs_listed _ _ _ Hs));
      clear Hq
  end;
  first
  [ apply resetTouched_clean; simpl; first [assumption | apply allIs_listed; assumption]
  | apply clean_allIs; simpl; split; [|split];
    [ assumption
    | first [ apply listed_nil; assumption
            | apply zero_fold_allIs; eapply listed_perm; [symmetry; apply sortBy_perm|];
              first [ apply multiTermBonus_listed; assumption | assumption ]
            | assumption ]
    | assumption ] ].

#[local] Opaque multiTermLoop countPostings singleTermScores multiTermBonus.

Lemma searchMiss_clean s msg pl s' r :
  clean s -> searchMiss normText s msg pl = (s', Ok r) -> clean s'.
Proof.
  intros Hcl H. apply clean_allIs in Hcl as (Hc & Hs & Ht).
  unfold searchMiss in H.
  destruct (bool_decide (pl_exclude pl = [])) eqn:Eb.
  2: destruct (buildExcludeMask (eng s) (counts s) (pl_exclude pl)) as [[c0 m0] er0] eqn:Em;
     destruct er0; [discriminate|];
     pose proof (excludeLoop_zero _ _ _ _ _ _ Em Hc) as Hc0.
  all: simpl in H; repeat (case_match; simplify_eq/=);
    repeat match goal with Hb : bool_decide (_ = []) = true |- _ =>
      apply bool_decide_eq_true in Hb; subst end.
  all: clean_leaf Hc Hs.
Qed.

(** C9: started from clean scratch buffers (all counters and scores zero,
    no touched doc), a [searchSync] call that completes leaves them clean
    again: every counter and score raised while counting hits or building
    the exclude mask is reset before it returns. *)
Theorem searchSync_scratch_clean s msg s' r :
  clean s -> searchSync normText s msg = (s', Ok r) -> clean s'.
Proof.
  intros Hcl H. unfold searchSync in H.
  destruct (cache s) as [[k ids]|]; [destruct (bool_decide _)|].
  - injection H as <- _. exact Hcl.
  - exact (searchMiss_clean _ _ _ _ _ Hcl H).
  - exact (searchMiss_clean _ _ _ _ _ Hcl H).
Qed.

End ScratchBuffers.

(* ------------------------------------------------------------------ *)
(** ** normText is idempotent

    The checks on the tables run by [vm_compute]; the rest is proved on the
    definitions. *)

Lemma zeqb_eq a b : zeqb a b = true <-> a = b.
Proof.
  revert b. induction a as [|x a IH]; intros [|y b]; simpl; try (split; congruence).
  rewrite andb_true_iff, Z.eqb_eq, IH. split; [intros [-> ->]; reflexivity|intros H; injection H; auto].
Qed.

Lemma uforall_lookup {A} (f : Z -> A -> bool) t k v :
  uforall f t = true -> ulookup t k = Some v -> f k v = true.
Proof.
  induction t as [|l IHl k' v' r IHr]; simpl; [discriminate|].
  rewrite !andb_true_iff. intros [[Hf Hl] Hr].
  destruct (Z.compare_spec k k') as [->|_|_]; auto. intros H; injection H as <-. exact Hf.
Qed.

Lemma inRanges_uforall f t c :
  uforall f t = true -> inRanges t c = true -> exists lo hi, f lo hi = true /\ lo <= c <= hi.
Proof.
  induction t as [|l IHl lo hi r IHr]; simpl; [discriminate|].
  rewrite !andb_true_iff. intros [[Hf Hl] Hr].
  destruct (Z.ltb_spec c lo); [auto|]. destruct (Z.leb_spec c hi); [|auto].
  intros _. exists lo, hi. split; [exact Hf|lia].
Qed.

Lemma decompTable_ok :
  uforall (fun _ v => forallb (fun c => stableCP c && okChar c) v) decompTable = true.
Proof. vm_compute. reflexivity. Qed.
Lemma jamo_ok :
  forallb (fun c => stableCP c && okChar c) (map (fun i => LBase + Z.of_nat i) (seq 0 256)) = true.
Proof. vm_compute. reflexivity. Qed.
Lemma lowerTable_noSyllable : uforall (fun k _ => negb (isHangulSyllable k)) lowerTable = true.
Proof. vm_compute. reflexivity. Qed.
Lemma cccTable_noJamo :
  uforall (fun k _ => negb ((LBase <=? k) && (k <? LBase + 256))) cccTable = true.
Proof. vm_compute. reflexivity. Qed.
Lemma compTable_noJamo :
  uforall (fun k _ => negb ((LBase <=? k) && (k <? LBase + 256))) compTable = true.
Proof. vm_compute. reflexivity. Qed.
Lemma compTable_closed :
  uforall (fun b ps => negb (stableCP b) || forallb (fun '(a, c) => negb (okChar a) || okChar c) ps)
    compTable = true.
Proof. vm_compute. reflexivity. Qed.
Lemma lowerTable_ok :
  uforall (fun k v => match ulookup decompTable k with
                      | Some _ => true
                      | None => forallb (fun c' => isValidCP c' && lnOk c') v end) lowerTable = true.
Proof. vm_compute. reflexivity. Qed.
Lemma cccTable_notLN : uforall (fun k _ => negb (isLetterOrNumber k)) cccTable = true.
Proof. vm_compute. reflexivity. Qed.
Lemma compTable_notLN : uforall (fun k _ => negb (isLetterOrNumber k)) compTable = true.
Proof. vm_compute. reflexivity. Qed.
Lemma finalSigma_ok : isValidCP 962 && fixedCP 962 = true.
Proof. vm_compute. reflexivity. Qed.
Lemma letterNumber_valid :
  uforall (fun lo hi => (0 <=? lo) && (hi <=? 1114111) && ((hi <? 55296) || (57343 <? lo)))
    letterNumberRanges = true.
Proof. vm_compute. reflexivity. Qed.
Lemma lower_931 : ulookup lowerTable 931 = Some [963].
Proof. vm_compute. reflexivity. Qed.

Lemma isLN_valid c : isLetterOrNumber c = true -> isValidCP c = true.
Proof.
  intros H. destruct (inRanges_uforall _ _ _ letterNumber_valid H) as (lo & hi & Hf & Hc).
  rewrite !andb_true_iff, orb_true_iff, !Z.leb_le, !Z.ltb_lt in Hf.
  unfold isValidCP. rewrite !andb_true_iff, negb_true_iff, !Z.leb_le. split; [lia|].
  apply not_true_iff_false. rewrite andb_true_iff, !Z.leb_le. lia.
Qed.

Lemma jamo_ccc j : LBase <= j < LBase + 256 -> ccc j = 0.
Proof.
  intros Hj. unfold ccc. destruct (ulookup cccTable j) eqn:E; [|reflexivity].
  pose proof (uforall_lookup _ _ _ _ cccTable_noJamo E) as H. cbv beta in H.
  rewrite (proj2 (Z.leb_le _ _)), (proj2 (Z.ltb_lt _ _)) in H by lia. discriminate.
Qed.

Lemma composeStep_comp st ch comp :
  cs_last st = 0 -> composePair (cs_starter st) ch = Some comp ->
  composeStep st ch = {| cs_pre := cs_pre st; cs_starter := comp; cs_post := cs_post st; cs_last := cs_last st |}.
Proof.
  intros H0 H. unfold composeStep. rewrite H, H0, (Z.eqb_refl 0), orb_true_r. reflexivity.
Qed.

Lemma compose_pair a b c : ccc a = 0 -> composePair a b = Some c -> compose [a; b] = [c].
Proof.
  intros Ha Hab. unfold compose. rewrite Ha. cbn [fold_left].
  rewrite (composeStep_comp _ b c) by (reflexivity || exact Hab). reflexivity.
Qed.

Lemma compose_triple a b c d e :
  ccc a = 0 -> composePair a b = Some d -> composePair d c = Some e -> compose [a; b; c] = [e].
Proof.
  intros Ha Hab Hdc. unfold compose. rewrite Ha. cbn [fold_left].
  rewrite (composeStep_comp _ b d) by (reflexivity || exact Hab).
  rewrite (composeStep_comp _ c e) by (reflexivity || exact Hdc). reflexivity.
Qed.

Lemma syllable_okChar c : isHangulSyllable c = true -> okChar c = true.
Proof.
  intros Hs. pose proof Hs as Hs'.
  unfold isHangulSyllable in Hs'. rewrite andb_true_iff, Z.leb_le, Z.ltb_lt in Hs'.
  unfold SBase, SCount in Hs'.
  assert (Hv : isValidCP c = true).
  { unfold isValidCP. rewrite (proj2 (Z.leb_le 0 c)), (proj2 (Z.leb_le c 1114111)) by lia.
    destruct (Z.leb_spec 55296 c); [lia|reflexivity]. }
  assert (Hl : lowerFull c = [c]).
  { unfold lowerFull. destruct (ulookup lowerTable c) eqn:E; [|reflexivity].
    pose proof (uforall_lookup _ _ _ _ lowerTable_noSyllable E) as H. cbv beta in H.
    rewrite Hs in H. discriminate. }
  unfold okChar. rewrite Hl. cbn [forallb]. rewrite Hv, andb_true_r. cbn [andb].
  unfold lnOk. rewrite orb_true_iff. right.
  unfold fixedCP. rewrite Hl. cbn [zeqb]. rewrite Z.eqb_refl.
  rewrite (proj2 (Z.eqb_neq c 931)) by lia. cbn [andb negb].
  unfold decompFull. rewrite Hs. unfold hangulDecompose. cbv zeta.
  unfold SBase, NCount, TCount, LBase, VBase, TBase.
  set (i := c - 44032).
  assert (Hi : 0 <= i < 11172) by (unfold i; lia).
  pose proof (Z.div_mod i 588 ltac:(lia)) as D1.
  pose proof (Z.mod_pos_bound i 588 ltac:(lia)) as M1.
  pose proof (Z.div_mod (i mod 588) 28 ltac:(lia)) as D2.
  pose proof (Z.mod_pos_bound (i mod 588) 28 ltac:(lia)) as M2.
  assert (Q1 : 0 <= i / 588 < 19).
  { split; [apply Z.div_pos; lia|apply Z.div_lt_upper_bound; lia]. }
  assert (Q2 : 0 <= i mod 588 / 28 < 21).
  { split; [apply Z.div_pos; lia|apply Z.div_lt_upper_bound; lia]. }
  assert (E28 : i mod 28 = i mod 588 mod 28).
  { symmetry. apply (Z.mod_unique i 28 (21 * (i / 588) + i mod 588 / 28)); lia. }
  set (q := i / 588) in *. set (r := i mod 588) in *. set (q2 := r / 28) in *.
  rewrite E28. set (r2 := r mod 28) in *.
  assert (Hlj : ccc (4352 + q) = 0) by (apply jamo_ccc; unfold LBase; lia).
  assert (Hvj : ccc (4449 + q2) = 0) by (apply jamo_ccc; unfold LBase; lia).
  assert (Hsec : isSecond (4352 + q) = false).
  { unfold isSecond, isVowelJamo, isTrailingJamo, VBase, VCount, TBase, TCount.
    rewrite (proj2 (Z.leb_gt 4449 (4352 + q))) by lia. rewrite (proj2 (Z.ltb_ge 4519 (4352 + q))) by lia.
    cbn [andb orb]. destruct (ulookup compTable (4352 + q)) eqn:E; [|reflexivity].
    pose proof (uforall_lookup _ _ _ _ compTable_noJamo E) as H. cbv beta in H.
    unfold LBase in H. rewrite (proj2 (Z.leb_le _ _)), (proj2 (Z.ltb_lt _ _)) in H by lia. discriminate. }
  assert (HLV : composePair (4352 + q) (4449 + q2) = Some (c - r2)).
  { unfold composePair, isLeadingJamo, isVowelJamo, LBase, LCount, VBase, VCount, SBase, TCount.
    rewrite (proj2 (Z.leb_le 4352 _)), (proj2 (Z.ltb_lt _ (4352 + 19))), (proj2 (Z.leb_le 4449 _)),
            (proj2 (Z.ltb_lt _ (4449 + 21))) by lia.
    cbn [andb]. f_equal. unfold i in *. lia. }
  destruct (Z.eqb_spec (4519 + r2) 4519) as [Ht|Ht]; cbv beta iota;
    rewrite Hlj, Hsec, Z.eqb_refl; cbn [andb negb].
  - assert (Hr2 : r2 = 0) by lia. rewrite Hr2, Z.sub_0_r in HLV.
    unfold canonicalOrder. cbn [reorderAux]. rewrite Hlj, Hvj. cbn [Z.eqb app].
    rewrite (compose_pair _ _ _ Hlj HLV). cbn [zeqb]. rewrite Z.eqb_refl. reflexivity.
  - assert (Htj : ccc (4519 + r2) = 0) by (apply jamo_ccc; unfold LBase; lia).
    assert (HLVT : composePair (c - r2) (4519 + r2) = Some c).
    { unfold composePair, isLeadingJamo, isHangulSyllable, isTrailingJamo.
      unfold LBase, LCount, SBase, SCount, TBase, TCount.
      destruct (Z.leb_spec 4352 (c - r2)); [|lia]. destruct (Z.ltb_spec (c - r2) (4352 + 19)); [lia|].
      cbn [andb].
      rewrite (proj2 (Z.leb_le 44032 _)), (proj2 (Z.ltb_lt _ (44032 + 11172))) by lia.
      assert (Hm : (c - r2 - 44032) mod 28 = 0).
      { symmetry. apply (Z.mod_unique _ 28 (21 * q + q2)); unfold i in *; lia. }
      rewrite Hm, (proj2 (Z.ltb_lt 4519 _)), (proj2 (Z.ltb_lt _ (4519 + 28))) by lia.
      cbn [andb Z.eqb]. f_equal. lia. }
    unfold canonicalOrder. cbn [reorderAux]. rewrite Hlj, Hvj, Htj. cbn [Z.eqb app].
    rewrite (compose_triple _ _ _ _ _ Hlj HLV HLVT). cbn [zeqb]. rewrite Z.eqb_refl. reflexivity.
Qed.

Lemma jamo_okChar c : LBase <= c < LBase + 256 -> stableCP c && okChar c = true.
Proof.
  intros H. pose proof jamo_ok as Hs. rewrite forallb_forall in Hs. apply Hs.
  apply in_map_iff. exists (Z.to_nat (c - LBase)). split; [rewrite Z2Nat.id; lia|].
  apply in_seq. lia.
Qed.

Lemma hangulDecompose_jamo s c :
  isHangulSyllable s = true -> In c (hangulDecompose s) -> LBase <= c < LBase + 256.
Proof.
  unfold isHangulSyllable, hangulDecompose. rewrite andb_true_iff, Z.leb_le, Z.ltb_lt.
  unfold SBase, SCount, LBase, NCount, TCount, VBase, TBase in *. intros Hs.
  pose proof (Z.div_pos (s - 44032) 588 ltac:(lia) ltac:(lia)).
  pose proof (Z.div_lt_upper_bound (s - 44032) 588 19 ltac:(lia) ltac:(lia)).
  pose proof (Z.mod_pos_bound (s - 44032) 588 ltac:(lia)).
  pose proof (Z.mod_pos_bound (s - 44032) 28 ltac:(lia)).
  pose proof (Z.div_pos ((s - 44032) mod 588) 28 ltac:(lia) ltac:(lia)).
  pose proof (Z.div_lt_upper_bound ((s - 44032) mod 588) 28 21 ltac:(lia) ltac:(lia)).
  destruct (_ =? _); simpl; intros Hc; repeat destruct Hc as [<-|Hc]; try lia; contradiction.
Qed.

Lemma generic_okChar d :
  isValidCP d = true -> stableCP d = true -> ulookup lowerTable d = None -> okChar d = true.
Proof.
  intros Hv Hst Hl. unfold stableCP in Hst. rewrite andb_true_iff, negb_true_iff in Hst.
  destruct Hst as [Hsy Hd]. destruct (ulookup decompTable d) eqn:Hd'; [discriminate|].
  unfold okChar, lowerFull. rewrite Hl. simpl. rewrite Hv. simpl. rewrite andb_true_r.
  unfold lnOk. destruct (isLetterOrNumber d) eqn:HLN; [|reflexivity].
  destruct (isVowelJamo d) eqn:HV; [reflexivity|]. destruct (isTrailingJamo d) eqn:HT; [reflexivity|].
  simpl. unfold fixedCP, lowerFull, decompFull. rewrite Hl, Hsy, Hd'.
  assert (Hc : ccc d = 0).
  { unfold ccc. destruct (ulookup cccTable d) eqn:E; [|reflexivity].
    pose proof (uforall_lookup _ _ _ _ cccTable_notLN E) as H. simpl in H. rewrite HLN in H. discriminate. }
  assert (H931 : (d =? 931) = false).
  { apply Z.eqb_neq. intros ->. rewrite lower_931 in Hl. discriminate. }
  assert (Hsec : isSecond d = false).
  { unfold isSecond. rewrite HV, HT. destruct (ulookup compTable d) eqn:E; [|reflexivity].
    pose proof (uforall_lookup _ _ _ _ compTable_notLN E) as H. simpl in H. rewrite HLN in H. discriminate. }
  rewrite H931, Hc, Hsec. unfold canonicalOrder. simpl. rewrite Hc. simpl.
  unfold compose. simpl. rewrite !Z.eqb_refl. reflexivity.
Qed.

Lemma decomp_ok d c : isValidCP d = true -> In c (decompFull d) -> stableCP c && okChar c = true.
Proof.
  intros Hv. unfold decompFull. destruct (isHangulSyllable d) eqn:Hs.
  - intros Hc. apply jamo_okChar. exact (hangulDecompose_jamo d c Hs Hc).
  - destruct (ulookup decompTable d) as [v|] eqn:Hd.
    + intros Hc. pose proof (uforall_lookup _ _ _ _ decompTable_ok Hd) as H. cbv beta in H.
      rewrite forallb_forall in H. exact (H c Hc).
    + intros [Hcd|[]]. subst d.
      assert (Hst : stableCP c = true) by (unfold stableCP; rewrite Hs, Hd; reflexivity).
      rewrite Hst, andb_true_l.
      destruct (ulookup lowerTable c) as [w|] eqn:Hl.
      * pose proof (uforall_lookup _ _ _ _ lowerTable_ok Hl) as H. cbv beta in H. rewrite Hd in H.
        unfold okChar, lowerFull. rewrite Hl, Hv, H. reflexivity.
      * apply generic_okChar; assumption.
Qed.

Lemma assocZ_In a ps c : assocZ a ps = Some c -> In (a, c) ps.
Proof.
  induction ps as [|[x y] ps IH]; simpl; [discriminate|].
  destruct (Z.eqb_spec a x) as [->|_]; [intros H; injection H as <-; left; reflexivity|].
  intros H. right. auto.
Qed.

Lemma composePair_second a b c : composePair a b = Some c -> isSecond b = true.
Proof.
  unfold composePair, isSecond.
  destruct (isLeadingJamo a && isVowelJamo b) eqn:E1.
  { apply andb_true_iff in E1 as [_ ->]. reflexivity. }
  destruct (isHangulSyllable a && ((a - SBase) mod TCount =? 0) && isTrailingJamo b) eqn:E2.
  { apply andb_true_iff in E2 as [_ ->]. rewrite orb_true_r. reflexivity. }
  destruct (ulookup compTable b); [|discriminate]. rewrite !orb_true_r. reflexivity.
Qed.

Lemma composePair_ok a b c :
  okChar a = true -> stableCP b = true -> composePair a b = Some c -> okChar c = true.
Proof.
  intros Ha Hb. unfold composePair.
  destruct (isLeadingJamo a && isVowelJamo b) eqn:E1.
  { intros H. injection H as <-. apply syllable_okChar.
    unfold isLeadingJamo, isVowelJamo in E1. unfold isHangulSyllable.
    apply andb_true_iff in E1 as [E1 E1']. apply andb_true_iff in E1 as [E1a E1b].
    apply andb_true_iff in E1' as [E1c E1d].
    apply Z.leb_le in E1a, E1c. apply Z.ltb_lt in E1b, E1d.
    apply andb_true_iff. rewrite Z.leb_le, Z.ltb_lt.
    unfold SBase, LBase, VBase, VCount, TCount, SCount, LCount in *. lia. }
  destruct (isHangulSyllable a && ((a - SBase) mod TCount =? 0) && isTrailingJamo b) eqn:E2.
  { intros H. injection H as <-. apply syllable_okChar.
    unfold isTrailingJamo, isHangulSyllable in *.
    apply andb_true_iff in E2 as [E2 E2']. apply andb_true_iff in E2 as [E2 H3].
    apply andb_true_iff in E2 as [H1 H2]. apply andb_true_iff in E2' as [H4 H5].
    apply Z.leb_le in H1. apply Z.ltb_lt in H2, H4, H5. apply Z.eqb_eq in H3.
    apply andb_true_iff. rewrite Z.leb_le, Z.ltb_lt.
    unfold SBase, TBase, TCount, SCount in *.
    pose proof (Z.div_mod (a - 44032) 28 ltac:(lia)) as Hdm. rewrite H3 in Hdm.
    assert ((a - 44032) / 28 <= 398).
    { apply Z.lt_succ_r. apply Z.div_lt_upper_bound; lia. }
    lia. }
  destruct (ulookup compTable b) as [ps|] eqn:Hl; [|discriminate].
  intros H. apply assocZ_In in H.
  pose proof (uforall_lookup _ _ _ _ compTable_closed Hl) as Hc. simpl in Hc.
  rewrite Hb in Hc. simpl in Hc. rewrite forallb_forall in Hc.
  specialize (Hc _ H). simpl in Hc. rewrite Ha in Hc. exact Hc.
Qed.

Lemma insertByClass_In x run c : In c (insertByClass x run) -> c = x \/ In c run.
Proof.
  induction run as [|y run IH]; simpl; [intros [<-|[]]; auto|].
  destruct (ccc x <? ccc y); simpl.
  - intros [<-|[<-|H]]; auto.
  - intros [<-|H]; [auto|]. destruct (IH H); auto.
Qed.

Lemma reorderAux_In l : forall run c, In c (reorderAux run l) -> In c run \/ In c l.
Proof.
  induction l as [|x l IH]; simpl; intros run c; [auto|].
  destruct (ccc x =? 0).
  - rewrite in_app_iff. intros [H|[<-|H]]; auto. destruct (IH [] c H) as [[]|]; auto.
  - intros H. destruct (IH _ c H) as [H'|H']; auto.
    destruct (insertByClass_In _ _ _ H'); auto.
Qed.

Lemma composeStep_ok st ch :
  stateOk st -> stableCP ch && okChar ch = true -> stateOk (composeStep st ch).
Proof.
  intros (Hs & Hp & Hq) Hch. apply andb_true_iff in Hch as [Hst Hok].
  unfold composeStep.
  assert (Hkeep : stateOk (if ccc ch =? 0 then
      {| cs_pre := cs_post st ++ cs_starter st :: cs_pre st; cs_starter := ch; cs_post := []; cs_last := 0 |}
    else {| cs_pre := cs_pre st; cs_starter := cs_starter st; cs_post := ch :: cs_post st; cs_last := ccc ch |})).
  { destruct (ccc ch =? 0); repeat split; simpl; auto.
    apply Forall_app; split; [exact Hq|constructor; assumption]. }
  destruct (composePair (cs_starter st) ch) as [comp|] eqn:E; [|exact Hkeep].
  destruct (_ || _); [|exact Hkeep].
  repeat split; simpl; auto. exact (composePair_ok _ _ _ Hs Hst E).
Qed.

Lemma compose_ok l :
  (forall c, In c l -> stableCP c && okChar c = true) -> forall c, In c (compose l) -> okChar c = true.
Proof.
  destruct l as [|h t]; simpl; [intros _ _ []|]. intros Hall.
  assert (Hfold : forall t st, (forall c, In c t -> stableCP c && okChar c = true) -> stateOk st ->
            stateOk (fold_left composeStep t st)).
  { clear. induction t as [|x t IH]; simpl; intros st Ht Hst; [exact Hst|].
    apply IH; [auto|]. apply composeStep_ok; auto. }
  destruct (Hfold t {| cs_pre := []; cs_starter := h; cs_post := [];
                      cs_last := if ccc h =? 0 then 0 else 256 |}) as (Hs & Hp & Hq).
  - auto.
  - repeat split; simpl; auto. specialize (Hall h (or_introl eq_refl)).
    apply andb_true_iff in Hall. tauto.
  - intros c Hc. rewrite List.Forall_forall in Hp, Hq. apply in_app_iff in Hc as [Hc|[<-|Hc]].
    + apply Hp. apply in_rev. exact Hc.
    + exact Hs.
    + apply Hq. apply in_rev. exact Hc.
Qed.

Lemma toLowerAux_In l : forall br c',
  In c' (toLowerAux br l) -> c' = 962 \/ exists c, In c l /\ In c' (lowerFull c).
Proof.
  induction l as [|c l IH]; simpl; intros br c'; [intros []|].
  rewrite in_app_iff. intros [H|H].
  - destruct (_ && _ && _); [destruct H as [<-|[]]; auto|]. right. eauto.
  - destruct (IH _ _ H) as [?|(c0 & H1 & H2)]; [auto|]. right. eauto.
Qed.

Lemma decode_encode z :
  Forall (fun c => isValidCP c = true) z -> utf16Decode (utf16Encode z) = z.
Proof.
  induction 1 as [|c z Hc _ IH]; [reflexivity|].
  unfold isValidCP in Hc. rewrite !andb_true_iff, negb_true_iff, !Z.leb_le in Hc.
  destruct Hc as [Hr Hs]. unfold utf16Encode in *. simpl. unfold utf16EncodeCP at 1.
  destruct (Z.ltb_spec c 65536).
  - simpl. unfold isHighSurrogate. destruct (55296 <=? c) eqn:E1; destruct (c <=? 56319) eqn:E2; simpl;
      try (rewrite IH; reflexivity).
    exfalso. apply Z.leb_le in E2.
    rewrite (proj2 (Z.leb_le c 57343)) in Hs by lia. discriminate.
  - pose proof (Z.div_pos (c - 65536) 1024 ltac:(lia) ltac:(lia)).
    pose proof (Z.div_lt_upper_bound (c - 65536) 1024 1024 ltac:(lia) ltac:(lia)).
    pose proof (Z.mod_pos_bound (c - 65536) 1024 ltac:(lia)).
    pose proof (Z.div_mod (c - 65536) 1024 ltac:(lia)).
    simpl. unfold isHighSurrogate, isLowSurrogate.
    rewrite (proj2 (Z.leb_le 55296 _)) by lia. rewrite (proj2 (Z.leb_le _ 56319)) by lia.
    rewrite (proj2 (Z.leb_le 56320 _)) by lia. rewrite (proj2 (Z.leb_le _ 57343)) by lia.
    simpl. rewrite IH. f_equal. lia.
Qed.

Lemma utf16Decode_range n : forall s, (length s <= n)%nat ->
  Forall (fun u => 0 <= u < 65536) s -> Forall (fun c => 0 <= c <= 1114111) (utf16Decode s).
Proof.
  induction n as [|n IH]; intros s Hl Hs.
  - destruct s; [constructor|simpl in Hl; lia].
  - destruct s as [|a s]; [constructor|]. inversion Hs as [|? ? Ha Hs']; subst. simpl in Hl.
    simpl. destruct (isHighSurrogate a) eqn:Ea.
    + destruct s as [|b s'].
      * constructor; [lia|constructor].
      * inversion Hs' as [|? ? Hb Hs'']; subst. simpl in Hl.
        destruct (isLowSurrogate b) eqn:Eb.
        -- unfold isHighSurrogate, isLowSurrogate in *. rewrite andb_true_iff, !Z.leb_le in Ea, Eb.
           constructor; [lia|]. apply IH; [lia|exact Hs''].
        -- constructor; [lia|]. apply IH; [simpl; lia|exact Hs'].
    + constructor; [lia|]. apply IH; [lia|exact Hs'].
Qed.

Lemma wellFormed_valid x :
  wellFormedUTF16 x = true -> Forall (fun c => isValidCP c = true) (utf16Decode x).
Proof.
  unfold wellFormedUTF16. rewrite andb_true_iff, !forallb_forall. intros [Hu Hs].
  assert (Hr : Forall (fun c => 0 <= c <= 1114111) (utf16Decode x)).
  { apply (utf16Decode_range (length x)); [lia|]. apply List.Forall_forall. intros u Hu'.
    specialize (Hu u Hu'). rewrite andb_true_iff, Z.leb_le, Z.ltb_lt in Hu. exact Hu. }
  rewrite List.Forall_forall in Hr |- *. intros c Hc. specialize (Hr c Hc). specialize (Hs c Hc).
  unfold isValidCP. unfold isSurrogate in Hs. rewrite Hs. rewrite andb_true_r, andb_true_iff, !Z.leb_le. lia.
Qed.

(** The code points left by [normText] before they are encoded again. *)
Lemma nfkc_ok u :
  Forall (fun c => isValidCP c = true) u -> forall c, In c (nfkc u) -> okChar c = true.
Proof.
  intros Hu. unfold nfkc. apply compose_ok. intros c Hc.
  unfold canonicalOrder in Hc. destruct (reorderAux_In _ _ _ Hc) as [[]|H].
  apply in_flat_map in H as (d & Hd & Hc'). rewrite List.Forall_forall in Hu.
  exact (decomp_ok d c (Hu d Hd) Hc').
Qed.

Lemma normText_cps x : wellFormedUTF16 x = true -> normText x = utf16Encode (normCPs x).
Proof.
  intros Hw. pose proof (wellFormed_valid x Hw) as Hv. unfold normText, normCPs.
  destruct (bool_decide_reflect (x = [])) as [->|Hne]; [reflexivity|].
  unfold jsRemoveNonLetterNumber, jsToLowerCase, jsNormalizeNFKC.
  pose proof (nfkc_ok _ Hv) as Hn.
  rewrite (decode_encode (nfkc (utf16Decode x))).
  2:{ apply List.Forall_forall. intros c Hc. specialize (Hn c Hc). unfold okChar in Hn.
      apply andb_true_iff in Hn. tauto. }
  rewrite decode_encode; [reflexivity|].
  apply List.Forall_forall. intros c' Hc'. unfold toLowerCase in Hc'.
  destruct (toLowerAux_In _ _ _ Hc') as [->|(c & Hc & Hl)]; [reflexivity|].
  specialize (Hn c Hc). unfold okChar in Hn. rewrite andb_true_iff, forallb_forall in Hn.
  destruct Hn as [_ Hn]. specialize (Hn c' Hl). apply andb_true_iff in Hn. tauto.
Qed.

Lemma normCPs_good x : wellFormedUTF16 x = true ->
  forall c, In c (normCPs x) ->
    isLetterOrNumber c = true /\ (isVowelJamo c || isTrailingJamo c || fixedCP c) = true.
Proof.
  intros Hw c Hc. unfold normCPs in Hc. apply filter_In in Hc as [Hc HLN]. split; [exact HLN|].
  unfold toLowerCase in Hc. destruct (toLowerAux_In _ _ _ Hc) as [->|(c0 & Hc0 & Hl)].
  - pose proof finalSigma_ok as H. apply andb_true_iff in H as [_ ->]. apply orb_true_r.
  - pose proof (nfkc_ok _ (wellFormed_valid x Hw) c0 Hc0) as Hn.
    unfold okChar in Hn. rewrite andb_true_iff, forallb_forall in Hn.
    destruct Hn as [_ Hn]. specialize (Hn c Hl). rewrite andb_true_iff in Hn.
    destruct Hn as [_ Hn]. unfold lnOk in Hn. rewrite HLN in Hn. exact Hn.
Qed.

(** Second pass. *)
Lemma good_block c : fixedCP c = true ->
  exists h t, canonicalOrder (decompFull c) = h :: t /\ ccc h = 0 /\ isSecond h = false /\
    compose (h :: t) = [c] /\ exists t', decompFull c = h :: t'.
Proof.
  unfold fixedCP. rewrite !andb_true_iff. intros [[[_ _] Hh] Hc].
  destruct (decompFull c) as [|h t'] eqn:Ed; [discriminate|].
  rewrite andb_true_iff, negb_true_iff, Z.eqb_eq in Hh. destruct Hh as [Hh Hs].
  unfold canonicalOrder in *. simpl in *. rewrite Hh in *. simpl in *.
  exists h, (reorderAux [] t'). apply zeqb_eq in Hc. eauto 10.
Qed.

Lemma reorderAux_app l : forall run h r, ccc h = 0 ->
  reorderAux run (l ++ h :: r) = reorderAux run l ++ h :: reorderAux [] r.
Proof.
  induction l as [|x l IH]; simpl; intros run h r Hh.
  - rewrite Hh. reflexivity.
  - destruct (ccc x =? 0).
    + rewrite IH by exact Hh. rewrite <- app_assoc. reflexivity.
    + apply IH. exact Hh.
Qed.

Lemma canonicalOrder_blocks y : (forall c, In c y -> fixedCP c = true) ->
  canonicalOrder (flat_map decompFull y) = flat_map (fun c => canonicalOrder (decompFull c)) y.
Proof.
  induction y as [|c y IH]; intros Hy; [reflexivity|]. simpl.
  rewrite <- IH by (intros; apply Hy; right; assumption).
  destruct y as [|c2 y'].
  - simpl. rewrite !app_nil_r. reflexivity.
  - destruct (good_block c2 (Hy c2 (or_intror (or_introl eq_refl)))) as (h & t & _ & Hh & _ & _ & t' & Ed).
    simpl. rewrite Ed. simpl. unfold canonicalOrder. rewrite reorderAux_app by exact Hh.
    simpl. rewrite Hh. reflexivity.
Qed.

Lemma composeStep_withPre st P ch :
  composeStep (withPre st P) ch = withPre (composeStep st ch) P.
Proof.
  unfold composeStep, withPre. simpl.
  destruct (composePair (cs_starter st) ch); [destruct (_ || _)|];
    destruct (ccc ch =? 0); simpl; rewrite <- ?app_assoc; reflexivity.
Qed.

Lemma fold_withPre t : forall st P,
  fold_left composeStep t (withPre st P) = withPre (fold_left composeStep t st) P.
Proof.
  induction t as [|x t IH]; intros st P; [reflexivity|]. simpl.
  rewrite composeStep_withPre. apply IH.
Qed.


Lemma compose_blocks y' : forall c P, fixedCP c = true -> (forall c', In c' y' -> fixedCP c' = true) ->
  forall h t, canonicalOrder (decompFull c) = h :: t -> ccc h = 0 ->
  stateOutput (fold_left composeStep (t ++ flat_map (fun c => canonicalOrder (decompFull c)) y')
            {| cs_pre := P; cs_starter := h; cs_post := []; cs_last := 0 |}) = rev P ++ c :: y'.
Proof.
  induction y' as [|c2 y' IH]; intros c P Hc Hy h t Hb Hh.
  all: destruct (good_block c Hc) as (h0 & t0 & Hb0 & _ & _ & Hcomp & _).
  all: rewrite Hb in Hb0; injection Hb0 as <- <-.
  all: unfold compose in Hcomp; rewrite Hh in Hcomp; simpl in Hcomp.
  all: set (S := fold_left composeStep t {| cs_pre := []; cs_starter := h; cs_post := []; cs_last := 0 |}) in Hcomp.
  all: assert (HS : cs_pre S = [] /\ cs_starter S = c /\ cs_post S = []);
         [ destruct (cs_pre S) as [|a p] eqn:E1; destruct (cs_post S) as [|b q] eqn:E2; simpl in Hcomp;
           [injection Hcomp as ->; auto | | |];
           exfalso; apply (f_equal (@length Z)) in Hcomp; simpl in Hcomp;
           rewrite ?length_app in Hcomp; simpl in Hcomp; rewrite ?length_app in Hcomp; simpl in Hcomp; lia
       |].
  all: replace {| cs_pre := P; cs_starter := h; cs_post := []; cs_last := 0 |}
         with (withPre {| cs_pre := []; cs_starter := h; cs_post := []; cs_last := 0 |} P) by reflexivity.
  - simpl. rewrite app_nil_r, fold_withPre. fold S. destruct HS as (H1 & H2 & H3).
    unfold stateOutput, withPre. simpl. rewrite H1, H2, H3. reflexivity.
  - destruct (good_block c2 (Hy c2 (or_introl eq_refl))) as (h2 & t2 & Hb2 & Hh2 & Hs2 & _).
    simpl. rewrite Hb2. rewrite fold_left_app, fold_withPre. fold S. simpl.
    destruct HS as (H1 & H2 & H3).
    assert (Hstep : composeStep (withPre S P) h2 =
                    {| cs_pre := c :: P; cs_starter := h2; cs_post := []; cs_last := 0 |}).
    { unfold composeStep, withPre. simpl. rewrite H1, H2, H3.
      destruct (composePair c h2) eqn:E.
      - apply composePair_second in E. congruence.
      - rewrite Hh2. reflexivity. }
    rewrite Hstep. rewrite (IH c2 (c :: P)); [| | intros; apply Hy; right; assumption | exact Hb2 | exact Hh2].
    + simpl. rewrite <- app_assoc. reflexivity.
    + apply Hy. left. reflexivity.
Qed.

Lemma nfkc_good y : (forall c, In c y -> fixedCP c = true) -> nfkc y = y.
Proof.
  intros Hy. unfold nfkc. rewrite canonicalOrder_blocks by exact Hy.
  destruct y as [|c y']; [reflexivity|].
  destruct (good_block c (Hy c (or_introl eq_refl))) as (h & t & Hb & Hh & _ & _).
  simpl. rewrite Hb. simpl. rewrite Hh. simpl.
  exact (compose_blocks y' c [] (Hy c (or_introl eq_refl)) (fun c' H => Hy c' (or_intror H)) h t Hb Hh).
Qed.

Lemma toLowerAux_good y : forall br, (forall c, In c y -> fixedCP c = true) -> toLowerAux br y = y.
Proof.
  induction y as [|c y IH]; intros br Hy; [reflexivity|]. simpl.
  pose proof (Hy c (or_introl eq_refl)) as Hc. unfold fixedCP in Hc.
  rewrite !andb_true_iff, negb_true_iff in Hc. destruct Hc as [[[Hl H931] _] _].
  apply zeqb_eq in Hl. rewrite H931, Hl. simpl. f_equal. apply IH. intros; apply Hy; right; assumption.
Qed.

Lemma encode_units z : Forall (fun c => isValidCP c = true) z ->
  forallb (fun u => (0 <=? u) && (u <? 65536)) (utf16Encode z) = true.
Proof.
  induction 1 as [|c z Hc _ IH]; [reflexivity|]. unfold utf16Encode in *. simpl.
  rewrite forallb_app, IH, andb_true_r. unfold isValidCP in Hc.
  rewrite !andb_true_iff, !Z.leb_le in Hc. unfold utf16EncodeCP.
  destruct (Z.ltb_spec c 65536); simpl.
  - rewrite andb_true_r, andb_true_iff, Z.leb_le, Z.ltb_lt. lia.
  - pose proof (Z.div_pos (c - 65536) 1024 ltac:(lia) ltac:(lia)).
    pose proof (Z.div_lt_upper_bound (c - 65536) 1024 1024 ltac:(lia) ltac:(lia)).
    pose proof (Z.mod_pos_bound (c - 65536) 1024 ltac:(lia)).
    rewrite !andb_true_iff, !Z.leb_le, !Z.ltb_lt. lia.
Qed.

Lemma encode_bmp z c : In c z -> 0 <= c < 65536 -> In c (utf16Encode z).
Proof.
  intros Hc Hr. unfold utf16Encode. apply in_flat_map. exists c. split; [exact Hc|].
  unfold utf16EncodeCP. rewrite (proj2 (Z.ltb_lt _ _)) by lia. left. reflexivity.
Qed.

(** C7 (corrected).  For every well-formed string [x] (16-bit code units,
    no lone surrogate), [normText (normText x) = normText x] as soon as
    [normText x] contains no Hangul vowel jamo (U+1161..U+1175) and no
    trailing consonant jamo (U+11A8..U+11C2): every code point that the last
    step keeps is then left alone by NFKC and by [toLowerCase], and no two of
    them compose. *)
Theorem normText_idempotent x :
  wellFormedUTF16 x = true ->
  forallb (fun u => negb (isVowelJamo u || isTrailingJamo u)) (normText x) = true ->
  normText (normText x) = normText x.
Proof.
  intros Hw Hj. rewrite (normText_cps x Hw) in Hj |- *.
  set (y := normCPs x) in *.
  pose proof (normCPs_good x Hw) as Hg. fold y in Hg.
  assert (Hgood : forall c, In c y -> fixedCP c = true).
  { intros c Hc. destruct (Hg c Hc) as [_ H]. apply orb_true_iff in H as [H|H]; [|exact H].
    exfalso. rewrite forallb_forall in Hj.
    assert (Hr : 0 <= c < 65536).
    { apply orb_true_iff in H as [H|H]; unfold isVowelJamo, isTrailingJamo in H;
        rewrite andb_true_iff, ?Z.leb_le, !Z.ltb_lt in H; unfold VBase, VCount, TBase, TCount in H; lia. }
    specialize (Hj c (encode_bmp y c Hc Hr)). rewrite H in Hj. discriminate. }
  assert (Hvalid : Forall (fun c => isValidCP c = true) y).
  { apply List.Forall_forall. intros c Hc. apply isLN_valid. apply (Hg c Hc). }
  assert (Hw' : wellFormedUTF16 (utf16Encode y) = true).
  { unfold wellFormedUTF16. rewrite encode_units by exact Hvalid. rewrite decode_encode by exact Hvalid.
    apply forallb_forall. intros c Hc. rewrite List.Forall_forall in Hvalid. specialize (Hvalid c Hc).
    unfold isValidCP in Hvalid. rewrite !andb_true_iff in Hvalid. unfold isSurrogate. tauto. }
  rewrite (normText_cps _ Hw'). f_equal. unfold normCPs.
  rewrite decode_encode by exact Hvalid. rewrite nfkc_good by exact Hgood.
  unfold toLowerCase. rewrite toLowerAux_good by exact Hgood.
  apply forallb_filter_id. apply forallb_forall. intros c Hc. apply (Hg c Hc).
Qed.

(* ------------------------------------------------------------------ *)
(** ** parseQuery *)

Lemma strLt_irrefl a : strLt a a = false.
Proof.
  induction a as [|x a IH]; simpl; [reflexivity|].
  rewrite Z.ltb_irrefl, Z.eqb_refl, IH. reflexivity.
Qed.

Lemma strLt_asym a b : strLt a b = true -> strLt b a = false.
Proof.
  revert b. induction a as [|x a IH]; intros [|y b]; simpl; try easy.
  intros H. apply orb_true_iff in H as [H|H].
  - apply Z.ltb_lt in H.
    rewrite (proj2 (Z.ltb_ge y x)) by lia. rewrite (proj2 (Z.eqb_neq y x)) by lia. reflexivity.
  - apply andb_prop in H as [Hxy H]. apply Z.eqb_eq in Hxy. subst y.
    rewrite Z.ltb_irrefl, Z.eqb_refl, (IH b H). reflexivity.
Qed.

Lemma strLt_total a b : a <> b -> strLt a b = true \/ strLt b a = true.
Proof.
  revert b. induction a as [|x a IH]; intros [|y b] Hne; simpl; try tauto.
  destruct (Z.lt_trichotomy x y) as [Hl|[->|Hl]].
  - left. apply orb_true_iff. left. by apply Z.ltb_lt.
  - rewrite Z.ltb_irrefl, Z.eqb_refl. simpl.
    apply IH. intros ->. apply Hne. reflexivity.
  - right. apply orb_true_iff. left. by apply Z.ltb_lt.
Qed.

Section SortByGt.
Context {A : Type} (gt : A -> A -> bool).
Hypothesis gt_asym : forall x y, gt y x = true -> gt x y = false.

Lemma insertBy_hd y x l :
  gt y x = false -> HdRel (fun a b => gt a b = false) y l ->
  HdRel (fun a b => gt a b = false) y (insertBy gt x l).
Proof.
  intros Hyx Hl. destruct l as [|z l]; simpl; [by constructor|].
  destruct (gt z x); constructor; [exact Hyx|]. by inversion Hl.
Qed.

Lemma insertBy_sorted x l :
  Sorted (fun a b => gt a b = false) l -> Sorted (fun a b => gt a b = false) (insertBy gt x l).
Proof.
  induction l as [|y l IH]; intros Hs; simpl; [by repeat constructor|].
  inversion Hs as [|? ? Hs' Hhd]; subst.
  destruct (gt y x) eqn:E.
  - constructor; [exact Hs|]. constructor. by apply gt_asym.
  - constructor; [by apply IH|]. by apply insertBy_hd.
Qed.

Lemma sortBy_sorted l : Sorted (fun a b => gt a b = false) (sortBy gt l).
Proof.
  unfold sortBy.
  assert (forall acc, Sorted (fun a b => gt a b = false) acc ->
            Sorted (fun a b => gt a b = false) (fold_left (fun acc x => insertBy gt x acc) l acc))
    as H by (induction l as [|x l IH]; intros acc Ha; simpl; [exact Ha|];
             apply IH, insertBy_sorted, Ha).
  apply H. constructor.
Qed.

End SortByGt.

(** The sort of [parseQuery] on distinct strings is strictly increasing. *)
Lemma sortBy_strGt_sorted l : NoDup l -> Sorted (fun a b => strLt a b = true) (sortBy strGt l).
Proof.
  intros Hnd.
  assert (NoDup (sortBy strGt l)) as Hnd' by (rewrite sortBy_perm; exact Hnd).
  pose proof (sortBy_sorted strGt (fun x y H => strLt_asym x y H) l) as Hs.
  revert Hnd' Hs. generalize (sortBy strGt l) as m.
  clear Hnd. induction m as [|a m IH]; intros Hnd Hs; [constructor|].
  inversion Hs as [|? ? Hs' Hhd]; subst. apply NoDup_cons in Hnd as [Hna Hnd].
  constructor; [by apply IH|].
  destruct m as [|b m]; constructor.
  inversion Hhd as [|? ? Hab]; subst. unfold strGt in Hab.
  destruct (strLt_total a b) as [H|H]; [intros ->; apply Hna; left|exact H|congruence].
Qed.

Lemma setAdd_elem t n st : t ∈ setAdd n st <-> t = n \/ t ∈ st.
Proof.
  unfold setAdd. case_bool_decide.
  - split; [tauto|]. intros [->|?]; assumption.
  - rewrite elem_of_app, list_elem_of_singleton. tauto.
Qed.

Lemma setAdd_NoDup n st : NoDup st -> NoDup (setAdd n st).
Proof.
  intros H. unfold setAdd. case_bool_decide; [exact H|].
  apply NoDup_app. split; [exact H|]. split; [|apply NoDup_singleton].
  intros x Hx Hx'. apply list_elem_of_singleton in Hx'. subst. contradiction.
Qed.

Section ParseQuery.
Variable normText : list Z -> list Z.

(** The loop of [parseQuery]: after the parts [P], the include and exclude
    sets hold no duplicate and exactly the normalised bodies of length at
    least 2 of the include parts and of the exclude parts. *)
Lemma parseLoop_inv R : forall Q acc,
  NoDup acc.1 -> NoDup acc.2 ->
  (forall t, t ∈ acc.2 <-> (2 <= length t)%nat /\
     exists p, p ∈ Q /\ partIsExclude p = true /\ normText (drop 1 p) = t) ->
  (forall t, t ∈ acc.1 <-> (2 <= length t)%nat /\
     exists p, p ∈ Q /\ partIsExclude p = false /\ normText p = t) ->
  let acc' := fold_left (parseStep normText) R acc in
  NoDup acc'.1 /\ NoDup acc'.2 /\
  (forall t, t ∈ acc'.2 <-> (2 <= length t)%nat /\
     exists p, p ∈ Q ++ R /\ partIsExclude p = true /\ normText (drop 1 p) = t) /\
  (forall t, t ∈ acc'.1 <-> (2 <= length t)%nat /\
     exists p, p ∈ Q ++ R /\ partIsExclude p = false /\ normText p = t).
Proof.
  induction R as [|p R IH]; intros Q [inc exc] H1 H2 H3 H4; cbn [fold_left fst snd] in *.
  - rewrite app_nil_r. tauto.
  - replace (Q ++ p :: R) with ((Q ++ [p]) ++ R) by (rewrite <- app_assoc; reflexivity).
    remember (normText (if partIsExclude p then drop 1 p else p)) as n eqn:En.
    assert (Hstep : parseStep normText (inc, exc) p =
      if Z.of_nat (length n) <? 2 then (inc, exc)
      else if partIsExclude p then (inc, setAdd n exc) else (setAdd n inc, exc))
      by (subst n; reflexivity).
    rewrite Hstep. clear Hstep.
    destruct (Z.ltb_spec (Z.of_nat (length n)) 2) as [Hl|Hl];
      [|destruct (partIsExclude p) eqn:Ex; simpl in En];
      apply IH; simpl; try assumption; try (apply setAdd_NoDup; assumption);
      intros t; setoid_rewrite elem_of_app; setoid_rewrite list_elem_of_singleton.
    + rewrite H3. split.
      * intros [Ht [p' Hp']]. split; [exact Ht|]. exists p'. tauto.
      * intros [Ht [p' [[Hp' | ->] [Hx Hn]]]]; [split; [exact Ht|]; exists p'; tauto|].
        rewrite Hx in En. subst. lia.
    + rewrite H4. split.
      * intros [Ht [p' Hp']]. split; [exact Ht|]. exists p'. tauto.
      * intros [Ht [p' [[Hp' | ->] [Hx Hn]]]]; [split; [exact Ht|]; exists p'; tauto|].
        rewrite Hx in En. subst. lia.
    + rewrite setAdd_elem, H3. split.
      * intros [->|[Ht [p' Hp']]].
        -- split; [lia|]. exists p. split; [right; reflexivity|]. split; [exact Ex|symmetry; exact En].
        -- split; [exact Ht|]. exists p'. tauto.
      * intros [Ht [p' [[Hp' | ->] Hq]]]; [right; split; [exact Ht|]; exists p'; tauto|].
        left. destruct Hq as [_ Hq]. subst. reflexivity.
    + rewrite H4. split.
      * intros [Ht [p' Hp']]. split; [exact Ht|]. exists p'. tauto.
      * intros [Ht [p' [[Hp' | ->] Hq]]]; [split; [exact Ht|]; exists p'; tauto|].
        rewrite Ex in Hq. destruct Hq as [Hq _]. discriminate.
    + rewrite H3. split.
      * intros [Ht [p' Hp']]. split; [exact Ht|]. exists p'. tauto.
      * intros [Ht [p' [[Hp' | ->] Hq]]]; [split; [exact Ht|]; exists p'; tauto|].
        rewrite Ex in Hq. destruct Hq as [Hq _]. discriminate.
    + rewrite setAdd_elem, H4. split.
      * intros [->|[Ht [p' Hp']]].
        -- split; [lia|]. exists p. split; [right; reflexivity|]. split; [exact Ex|symmetry; exact En].
        -- split; [exact Ht|]. exists p'. tauto.
      * intros [Ht [p' [[Hp' | ->] Hq]]]; [right; split; [exact Ht|]; exists p'; tauto|].
        left. destruct Hq as [_ Hq]. subst. reflexivity.
Qed.

(** C5: [parseQuery] returns include and exclude lists without duplicates,
    strictly increasing in code-unit order; a term is an exclude term iff it
    is the normalised body, of length at least 2, of some exclude part; it is
    an include term iff it is the normalised text, of length at least 2, of
    some other part and not an exclude term.  So a term given both ways is
    kept only as an exclude term, the two lists are disjoint, and no term is
    shorter than 2. *)
Theorem parseQuery_terms raw :
  let pq := parseQuery normText raw in
  NoDup (pq_include pq) /\ NoDup (pq_exclude pq) /\
  Sorted (fun a b => strLt a b = true) (pq_include pq) /\
  Sorted (fun a b => strLt a b = true) (pq_exclude pq) /\
  (forall t, t ∈ pq_exclude pq <-> (2 <= length t)%nat /\
     exists p, p ∈ queryParts raw /\ partIsExclude p = true /\ normText (drop 1 p) = t) /\
  (forall t, t ∈ pq_include pq <-> (2 <= length t)%nat /\
     (exists p, p ∈ queryParts raw /\ partIsExclude p = false /\ normText p = t) /\
     t ∉ pq_exclude pq) /\
  (forall t, (2 <= length t)%nat ->
     (exists p, p ∈ queryParts raw /\ partIsExclude p = false /\ normText p = t) ->
     (exists p, p ∈ queryParts raw /\ partIsExclude p = true /\ normText (drop 1 p) = t) ->
     t ∈ pq_exclude pq /\ t ∉ pq_include pq) /\
  (forall t, t ∈ pq_include pq -> t ∉ pq_exclude pq) /\
  (forall t, t ∈ pq_include pq \/ t ∈ pq_exclude pq -> (2 <= length t)%nat).
Proof.
  unfold parseQuery.
  pose proof (parseLoop_inv (queryParts raw) [] ([], []) NoDup_nil_2 NoDup_nil_2)
    as Hinv; cbn [fst snd app] in Hinv.
  destruct (fold_left (parseStep normText) (queryParts raw) ([], [])) as [inc exc] eqn:E.
  cbn [fst snd] in Hinv.
  destruct Hinv as (Hn1 & Hn2 & Hex & Hin).
  { intros t. split; [intros Ht; inversion Ht|]. intros [_ [p [Hp _]]]. inversion Hp. }
  { intros t. split; [intros Ht; inversion Ht|]. intros [_ [p [Hp _]]]. inversion Hp. }
  simpl.
  assert (Hexc : forall t, t ∈ sortBy strGt exc <-> t ∈ exc)
    by (intros t; rewrite sortBy_perm; reflexivity).
  assert (Hinc : forall t, t ∈ sortBy strGt (filter (fun t => negb (bool_decide (t ∈ exc))) inc)
                 <-> t ∈ inc /\ t ∉ exc).
  { intros t. rewrite sortBy_perm, list_elem_of_filter.
    case_bool_decide; simpl; tauto. }
  assert (Hnd : NoDup (filter (fun t => negb (bool_decide (t ∈ exc))) inc))
    by (apply NoDup_filter; exact Hn1).
  split; [rewrite sortBy_perm; exact Hnd|].
  split; [rewrite sortBy_perm; exact Hn2|].
  split; [by apply sortBy_strGt_sorted|].
  split; [by apply sortBy_strGt_sorted|].
  split; [intros t; rewrite Hexc; apply Hex|].
  split; [intros t; rewrite Hinc, Hexc, Hin; tauto|].
  split.
  { intros t Ht Hp Hq. rewrite Hinc, Hexc.
    assert (t ∈ exc) by (apply Hex; tauto). tauto. }
  split; [intros t; rewrite Hinc, Hexc; tauto|].
  intros t [Ht|Ht]; [rewrite Hinc, Hin in Ht|rewrite Hexc, Hex in Ht]; tauto.
Qed.

End ParseQuery.

(* ------------------------------------------------------------------ *)
(** ** Membership in the resolved sequence; term thresholds and tag filters *)

Section DocByDoc.
Variable normText : list Z -> list Z.

Lemma zlookup_is_Some {A} (l : list A) d :
  is_Some (zlookup l d) <-> 0 <= d < Z.of_nat (length l).
Proof.
  unfold zlookup. destruct (Z.ltb_spec d 0).
  - split; [intros [? ?]; discriminate|lia].
  - rewrite lookup_lt_is_Some. lia.
Qed.

Lemma zlookup_zinsert_eq {A} (l : list A) i v :
  is_Some (zlookup l i) -> zlookup (zinsert i v l) i = Some v.
Proof.
  unfold zlookup, zinsert. destruct (Z.ltb_spec i 0); [intros [? ?]; discriminate|].
  intros Hs. rewrite list_lookup_insert, decide_True; [reflexivity|].
  split; [reflexivity|]. by apply lookup_lt_is_Some.
Qed.

Lemma zlookup_zinsert_ne {A} (l : list A) i v j :
  i <> j -> zlookup (zinsert i v l) j = zlookup l j.
Proof.
  unfold zlookup, zinsert. intros Hij.
  destruct (Z.ltb_spec i 0), (Z.ltb_spec j 0); try reflexivity.
  apply list_lookup_insert_ne. lia.
Qed.

Lemma zlookup_zinsert_is_Some {A} (l : list A) i v j :
  is_Some (zlookup (zinsert i v l) j) <-> is_Some (zlookup l j).
Proof.
  rewrite !zlookup_is_Some. unfold zinsert.
  destruct (i <? 0); [reflexivity|]. by rewrite length_insert.
Qed.

Lemma inc16_iter_zero n : Nat.iter n inc16 0 = Z.of_nat n mod 65536.
Proof.
  induction n as [|n IH]; [reflexivity|].
  rewrite Nat.iter_succ, IH. unfold inc16.
  rewrite Zplus_mod_idemp_l. f_equal. lia.
Qed.

Lemma exists_below_add (P : nat -> Prop) a b :
  (exists j, (j < a + b)%nat /\ P j) <->
  (exists j, (j < a)%nat /\ P j) \/ (exists j, (j < b)%nat /\ P (a + j)%nat).
Proof.
  split.
  - intros [j [Hj Pj]]. destruct (Nat.lt_ge_cases j a).
    + left. eauto.
    + right. exists (j - a)%nat. split; [lia|]. by replace (a + (j - a))%nat with j by lia.
  - intros [[j [Hj Pj]]|[j [Hj Pj]]]; eexists; split; [|exact Pj| |exact Pj]; lia.
Qed.

(** What one posting list does to one doc. *)
Lemma onDocFold_doc skip ds : forall cnt tch cnt' tch' d,
  fold_left (onDocCount skip) ds (cnt, tch) = (cnt', tch') ->
  zlookup cnt' d = (fun c => if skip d then c else Nat.iter (count_occ Z.eq_dec ds d) inc16 c)
                     <$> zlookup cnt d /\
  (d ∈ tch' <-> d ∈ tch \/ (skip d = false /\ exists c, zlookup cnt d = Some c /\
     exists j, (j < count_occ Z.eq_dec ds d)%nat /\ Nat.iter j inc16 c = 0)).
Proof.
  induction ds as [|x ds IH]; intros cnt tch cnt' tch' d Hf; simpl in Hf.
  - injection Hf as <- <-. split.
    + destruct (zlookup cnt d); simpl; [destruct (skip d)|]; reflexivity.
    + split; [by left|]. intros [H|(_ & c & _ & j & Hj & _)]; [exact H|simpl in Hj; lia].
  - destruct (decide (x = d)) as [<-|Hxd].
    + rewrite count_occ_cons_eq by reflexivity.
      destruct (skip x) eqn:Hs.
      { destruct (IH _ _ _ _ x Hf) as [H1 H2]. rewrite Hs in H1, H2. split; [exact H1|].
        rewrite H2. split; intros [H|(? & _)]; [by left|discriminate|by left|discriminate]. }
      destruct (zlookup cnt x) as [prev|] eqn:Hp.
      2:{ destruct (IH _ _ _ _ x Hf) as [H1 H2]. rewrite Hs, Hp in *. split; [exact H1|].
          rewrite H2. split; intros [H|(_ & c & ? & _)]; [by left|discriminate|by left|discriminate]. }
      destruct (IH _ _ _ _ x Hf) as [H1 H2]. rewrite Hs in *.
      rewrite zlookup_zinsert_eq in H1, H2 by (rewrite Hp; eauto).
      split.
      * rewrite H1.
        change (Some (Nat.iter (count_occ Z.eq_dec ds x) inc16 (inc16 prev))
                = Some (Nat.iter (S (count_occ Z.eq_dec ds x)) inc16 prev)).
        by rewrite Nat.iter_succ_r.
      * rewrite H2. destruct (Z.eqb_spec prev 0) as [->|Hne].
        -- split.
           ++ intros _. right. split; [reflexivity|]. exists 0. split; [reflexivity|].
              exists 0%nat. split; [lia|reflexivity].
           ++ intros _. left. apply elem_of_app. right. by left.
        -- split.
           ++ intros [H|(_ & c & Hc & j & Hj & Hz)]; [left; exact H|].
              injection Hc as <-. right. split; [reflexivity|]. exists prev. split; [reflexivity|].
              exists (S j). split; [lia|]. rewrite Nat.iter_succ_r. exact Hz.
           ++ intros [H|(_ & c & Hc & j & Hj & Hz)]; [left; exact H|].
              injection Hc as <-.
              destruct j as [|j]; [simpl in Hz; contradiction|].
              right. split; [reflexivity|]. eexists. split; [reflexivity|].
              exists j. split; [lia|]. rewrite Nat.iter_succ_r in Hz. exact Hz.
    + rewrite count_occ_cons_neq by exact Hxd.
      destruct (skip x); [exact (IH _ _ _ _ d Hf)|].
      destruct (zlookup cnt x) as [prev|] eqn:Hp; [|exact (IH _ _ _ _ d Hf)].
      destruct (IH _ _ _ _ d Hf) as [H1 H2].
      rewrite zlookup_zinsert_ne in H1, H2 by exact Hxd.
      split; [exact H1|]. rewrite H2.
      assert (d ∈ (if prev =? 0 then tch ++ [x] else tch) <-> d ∈ tch) as ->; [|reflexivity].
      destruct (prev =? 0); [|reflexivity].
      rewrite elem_of_app, list_elem_of_singleton. split; [intros [H|H]; [exact H|congruence]|by left].
Qed.

Lemma occHits_cons e idx idxs d :
  occHits e (idx :: idxs) d = (count_occ Z.eq_dec (postingsOf e idx) d + occHits e idxs d)%nat.
Proof. reflexivity. Qed.

(** What [countPostings] does to one doc. *)
Lemma countPostings_doc e skip idxs : forall cnt tch cnt' tch' d,
  countPostings e skip idxs cnt tch = (cnt', tch', None) ->
  zlookup cnt' d = (fun c => if skip d then c else Nat.iter (occHits e idxs d) inc16 c)
                     <$> zlookup cnt d /\
  (d ∈ tch' <-> d ∈ tch \/ (skip d = false /\ exists c, zlookup cnt d = Some c /\
     exists j, (j < occHits e idxs d)%nat /\ Nat.iter j inc16 c = 0)).
Proof.
  induction idxs as [|idx idxs IH]; intros cnt tch cnt' tch' d Hc; simpl in Hc.
  - injection Hc as <- <-. split.
    + destruct (zlookup cnt d); simpl; [destruct (skip d)|]; reflexivity.
    + split; [by left|]. intros [H|(_ & c & _ & j & Hj & _)]; [exact H|simpl in Hj; lia].
  - rewrite occHits_cons. unfold postingsOf.
    destruct (decodeTokenIdxPostings e idx) as [ds|]; [|discriminate].
    destruct (fold_left (onDocCount skip) ds (cnt, tch)) as [c1 t1] eqn:Hf.
    destruct (onDocFold_doc skip ds _ _ _ _ d Hf) as [F1 F2].
    destruct (IH _ _ _ _ d Hc) as [H1 H2].
    split.
    + rewrite H1, F1. destruct (zlookup cnt d); simpl; [|reflexivity].
      destruct (skip d); [reflexivity|]. f_equal.
      rewrite Nat.add_comm, Nat.iter_add. reflexivity.
    + rewrite H2, F2, F1. setoid_rewrite exists_below_add.
      destruct (skip d) eqn:Hs; simpl.
      * split; [intros [[H|(? & _)]|(? & _)]|intros [H|(? & _)]]; try discriminate.
        -- left. exact H.
        -- do 2 left. exact H.
      * destruct (zlookup cnt d) as [c|] eqn:Hcd; simpl.
        -- split.
           ++ intros [[H|(_ & c' & Hc' & J)]|(_ & c' & Hc' & j & Hj & Hz)].
              ** by left.
              ** right. split; [reflexivity|]. exists c'. split; [exact Hc'|]. by left.
              ** injection Hc' as <-. right. split; [reflexivity|]. exists c. split; [reflexivity|].
                 right. exists j. split; [exact Hj|]. rewrite Nat.add_comm, Nat.iter_add. exact Hz.
           ++ intros [H|(_ & c' & Hc' & [J|(j & Hj & Hz)])].
              ** by do 2 left.
              ** left. right. split; [reflexivity|]. eauto.
              ** injection Hc' as <-. right. split; [reflexivity|]. eexists. split; [reflexivity|].
                 exists j. split; [exact Hj|]. rewrite Nat.add_comm, Nat.iter_add in Hz. exact Hz.
        -- split.
           ++ intros [[H|(_ & c' & Hc' & _)]|(_ & c' & Hc' & _)]; [by left|discriminate|discriminate].
           ++ intros [H|(_ & c' & Hc' & _)]; [by do 2 left|discriminate].
Qed.

(** From zeroed counters and an empty touched list. *)
Lemma countPostings_zero e skip idxs cnt cnt' tch' d :
  countPostings e skip idxs cnt [] = (cnt', tch', None) -> allIs 0 cnt ->
  (is_Some (zlookup cnt' d) <-> is_Some (zlookup cnt d)) /\
  (forall c, zlookup cnt' d = Some c ->
     c = if skip d then 0 else Z.of_nat (occHits e idxs d) mod 65536) /\
  (d ∈ tch' <-> skip d = false /\ is_Some (zlookup cnt d) /\ (0 < occHits e idxs d)%nat).
Proof.
  intros Hc Hz. destruct (countPostings_doc _ _ _ _ _ _ _ d Hc) as [H1 H2].
  destruct (zlookup cnt d) as [c0|] eqn:Hc0.
  - pose proof (Hz d c0 Hc0) as ->. simpl in H1. split; [|split].
    + rewrite H1. split; eauto.
    + intros c. rewrite H1. intros Hc'. injection Hc' as <-.
      destruct (skip d); [reflexivity|]. apply inc16_iter_zero.
    + rewrite H2. split.
      * intros [Hn|(Hs & c & Hc' & j & Hj & _)]; [inversion Hn|]. split; [exact Hs|]. eauto with lia.
      * intros (Hs & _ & Hp). right. split; [exact Hs|]. exists 0. split; [reflexivity|].
        exists 0%nat. split; [exact Hp|reflexivity].
  - simpl in H1. rewrite H1. split; [|split].
    + reflexivity.
    + intros c Hc'. discriminate.
    + rewrite H2. split.
      * intros [Hn|(_ & c & Hc' & _)]; [inversion Hn|discriminate].
      * intros (_ & [? Hs] & _). discriminate.
Qed.

Lemma occHits_perm e l l' d : l ≡ₚ l' -> occHits e l d = occHits e l' d.
Proof.
  induction 1; unfold occHits in *; simpl in *; lia.
Qed.

Lemma minHitClamped_pos k found : 1 <= found -> 1 <= minHitClamped k found.
Proof. unfold minHitClamped. lia. Qed.

Lemma zlookup_zinsert_same {A} (l : list A) i v :
  zlookup (zinsert i v l) i = (fun _ => v) <$> zlookup l i.
Proof.
  destruct (zlookup l i) as [x|] eqn:Hx.
  - apply zlookup_zinsert_eq. rewrite Hx. eauto.
  - destruct (zlookup (zinsert i v l) i) as [y|] eqn:Hy; [|reflexivity].
    assert (Hs : is_Some (zlookup (zinsert i v l) i)) by (rewrite Hy; eauto).
    apply zlookup_zinsert_is_Some in Hs. rewrite Hx in Hs. by destruct Hs.
Qed.

Lemma zget0_zinsert_same l i : zget0 (zinsert i 0 l) i = 0.
Proof. unfold zget0. rewrite zlookup_zinsert_same. by destruct (zlookup l i). Qed.

Lemma zget0_zinsert_ne l i v j : i <> j -> zget0 (zinsert i v l) j = zget0 l j.
Proof. intros H. unfold zget0. by rewrite zlookup_zinsert_ne. Qed.

Lemma zget0_pos_is_Some l d : 1 <= zget0 l d -> is_Some (zlookup l d).
Proof. unfold zget0. destruct (zlookup l d); [eauto|lia]. Qed.

(** The hits of one term, counted from zeroed counters. *)
Lemma countTerm_doc e skip toks cnt cnt1 tt d :
  lookupTokenIdxs (dict e) toks <> [] ->
  countPostings e skip (sortByDf (dict e) (lookupTokenIdxs (dict e) toks)) cnt [] = (cnt1, tt, None) ->
  allIs 0 cnt ->
  let mh := minHitClamped (Z.of_nat (length toks)) (Z.of_nat (length (lookupTokenIdxs (dict e) toks))) in
  (is_Some (zlookup cnt1 d) <-> is_Some (zlookup cnt d)) /\
  (is_Some (zlookup cnt d) -> (mh <= zget0 cnt1 d <-> skip d = false /\ termHit e toks d = true)) /\
  (d ∈ tt /\ mh <= zget0 cnt1 d <-> skip d = false /\ is_Some (zlookup cnt d) /\ termHit e toks d = true).
Proof.
  intros Hne Hc Hz mh.
  destruct (countPostings_zero _ _ _ _ _ _ d Hc Hz) as (H1 & H2 & H3).
  assert (Hmh : 1 <= mh).
  { apply minHitClamped_pos. destruct (lookupTokenIdxs (dict e) toks); [congruence|simpl; lia]. }
  rewrite (occHits_perm e (sortByDf (dict e) (lookupTokenIdxs (dict e) toks))
             (lookupTokenIdxs (dict e) toks) d (sortBy_perm _ _)) in H2, H3.
  assert (Ht : termHit e toks d = true <-> mh <= Z.of_nat (occHits e (lookupTokenIdxs (dict e) toks) d) mod 65536).
  { unfold termHit. rewrite bool_decide_false by exact Hne. simpl. fold mh. apply Z.leb_le. }
  assert (Hv : is_Some (zlookup cnt d) ->
               (mh <= zget0 cnt1 d <-> skip d = false /\ termHit e toks d = true)).
  { intros Hs. apply H1 in Hs as [c Hc1]. unfold zget0. rewrite Hc1.
    rewrite (H2 c Hc1), Ht. destruct (skip d); split; try lia; intuition congruence. }
  split; [exact H1|]. split; [exact Hv|].
  rewrite H3. split.
  - intros ((Hs & HS & _) & Hm). split; [exact Hs|]. split; [exact HS|]. by apply Hv.
  - intros (Hs & HS & Hh). pose proof (proj2 (Hv HS) (conj Hs Hh)) as Hm.
    split; [|exact Hm]. split; [exact Hs|]. split; [exact HS|].
    apply Ht in Hh. destruct (occHits e (lookupTokenIdxs (dict e) toks) d); [|lia].
    rewrite Zmod_0_l in Hh. lia.
Qed.

(** The mask fold of [buildExcludeMask] over [termTouched]. *)
Lemma maskFold_doc (mh : Z) L : forall c m c' m',
  1 <= mh ->
  fold_left (fun '(c, m) d =>
    (zinsert d 0 c,
     match zlookup c d with
     | Some h => if mh <=? h then zinsert d 1 m else m
     | None => m
     end)) L (c, m) = (c', m') ->
  c' = fold_left (fun c d => zinsert d 0 c) L c /\
  forall d,
  (zlookup m' d = Some 1 <-> zlookup m d = Some 1 \/
     (is_Some (zlookup m d) /\ d ∈ L /\ mh <= zget0 c d)) /\
  (is_Some (zlookup m' d) <-> is_Some (zlookup m d)).
Proof.
  induction L as [|x L IH]; intros c m c' m' Hmh Hf; simpl in Hf.
  - injection Hf as <- <-. split; [reflexivity|]. intros d. split; [|reflexivity].
    split; [by left|]. intros [H|(_ & Hn & _)]; [exact H|inversion Hn].
  - destruct (IH _ _ _ _ Hmh Hf) as [Hc IHd]. split; [exact Hc|]. intros d.
    destruct (IHd d) as [I1 I2]. clear IHd Hf Hc.
    set (m1 := match zlookup c x with
               | Some h => if mh <=? h then zinsert x 1 m else m
               | None => m end) in *.
    assert (Hm1s : forall j, is_Some (zlookup m1 j) <-> is_Some (zlookup m j)).
    { intros j. unfold m1. destruct (zlookup c x); [destruct (mh <=? _)|];
        [apply zlookup_zinsert_is_Some|reflexivity|reflexivity]. }
    split; [|rewrite I2; apply Hm1s].
    rewrite I1, Hm1s. rewrite elem_of_cons.
    destruct (decide (x = d)) as [<-|Hxd].
    + rewrite zget0_zinsert_same.
      unfold m1, zget0. destruct (zlookup c x) as [h|] eqn:Hcx.
      * destruct (Z.leb_spec mh h) as [Hle|Hgt].
        -- rewrite zlookup_zinsert_same.
           destruct (zlookup m x) as [v|]; simpl.
           ++ split; [intros _; right; split; [eauto|split; [by left|lia]]|intros _; by left].
           ++ split; [intros [H|(_ & _ & ?)]; [discriminate|lia]|intros [H|([? ?] & _)]; discriminate].
        -- split; [intros [H|(_ & _ & ?)]; [by left|lia]|].
           intros [H|(_ & _ & ?)]; [by left|lia].
      * split; [intros [H|(_ & _ & ?)]; [by left|lia]|].
        intros [H|(_ & _ & ?)]; [by left|lia].
    + rewrite zget0_zinsert_ne by exact Hxd.
      assert (Hm1 : zlookup m1 d = zlookup m d).
      { unfold m1. destruct (zlookup c x); [destruct (mh <=? _)|];
          [apply zlookup_zinsert_ne; exact Hxd|reflexivity|reflexivity]. }
      rewrite Hm1. split.
      * intros [H|(H1 & H2 & H3)]; [by left|right; split; [exact H1|split; [by right|exact H3]]].
      * intros [H|(H1 & [H2|H2] & H3)]; [by left|congruence|right; auto].
Qed.

(** The candidate fold of the multi-term path over [termTouched]. *)
Lemma candFold_doc (mh k : Z) (isRelevanceSort : bool) L : forall c s cs c' s' cs',
  1 <= mh ->
  fold_left (fun '(c, s, cs) d =>
    let hit := zget0 c d in
    let '(s', cs') :=
      if mh <=? hit then
        let prevScore := zgetQ s d in
        (zinsert d (if isRelevanceSort then Qplus prevScore (inject_Z hit / inject_Z k) else 1%Q) s,
         if Qeq_bool prevScore 0 then cs ++ [d] else cs)
      else (s, cs) in
    (zinsert d 0 c, s', cs')) L (c, s, cs) = (c', s', cs') ->
  listed 0%Q s cs ->
  c' = fold_left (fun c d => zinsert d 0 c) L c /\ listed 0%Q s' cs' /\
  forall d, d ∈ cs' <-> d ∈ cs \/ (d ∈ L /\ mh <= zget0 c d).
Proof.
  induction L as [|x L IH]; intros c s cs c' s' cs' Hmh Hf Hl; simpl in Hf.
  - injection Hf as <- <- <-. split; [reflexivity|]. split; [exact Hl|].
    intros d. split; [by left|]. intros [H|(Hn & _)]; [exact H|inversion Hn].
  - destruct (Z.leb_spec mh (zget0 c x)) as [Hle|Hgt]; simpl in Hf.
    + assert (Hl1 : listed 0%Q
                (zinsert x (if isRelevanceSort then Qplus (zgetQ s x) (inject_Z (zget0 c x) / inject_Z k) else 1%Q) s)
                (if Qeq_bool (zgetQ s x) 0 then cs ++ [x] else cs)).
      { intros d' v Hv Hne.
        apply zlookup_zinsert_Some in Hv as [[<- _]|[_ Hv]].
        - destruct (Qeq_bool (zgetQ s x) 0) eqn:Hq.
          + apply elem_of_app. right. by left.
          + unfold zgetQ in Hq. destruct (zlookup s x) as [p|] eqn:Hsd.
            * apply (Hl x p Hsd). intros ->. compute in Hq. discriminate.
            * compute in Hq. discriminate.
        - pose proof (Hl d' v Hv Hne) as Hin.
          destruct (Qeq_bool _ _); [apply elem_of_app; left|]; exact Hin. }
      destruct (IH _ _ _ _ _ _ Hmh Hf Hl1) as (Hc & Hl' & Hd).
      split; [exact Hc|]. split; [exact Hl'|]. intros d. rewrite Hd, elem_of_cons.
      destruct (decide (x = d)) as [<-|Hxd].
      * rewrite zget0_zinsert_same. split; [intros _; right; split; [by left|exact Hle]|intros _].
        left. destruct (Qeq_bool (zgetQ s x) 0) eqn:Hq.
        -- apply elem_of_app. right. by left.
        -- unfold zgetQ in Hq. destruct (zlookup s x) as [p|] eqn:Hsd.
           ++ apply (Hl x p Hsd). intros ->. compute in Hq. discriminate.
           ++ compute in Hq. discriminate.
      * rewrite zget0_zinsert_ne by exact Hxd.
        assert (Hc1 : d ∈ (if Qeq_bool (zgetQ s x) 0 then cs ++ [x] else cs) <-> d ∈ cs).
        { destruct (Qeq_bool _ _); [|reflexivity].
          rewrite elem_of_app, list_elem_of_singleton. split; [intros [H|H]; [exact H|congruence]|by left]. }
        rewrite Hc1. split.
        -- intros [H|(H1 & H2)]; [by left|right; split; [by right|exact H2]].
        -- intros [H|([H1|H1] & H2)]; [by left|congruence|right; auto].
    + destruct (IH _ _ _ _ _ _ Hmh Hf Hl) as (Hc & Hl' & Hd).
      split; [exact Hc|]. split; [exact Hl'|]. intros d. rewrite Hd, elem_of_cons.
      destruct (decide (x = d)) as [<-|Hxd].
      * rewrite zget0_zinsert_same. split; [intros [H|(_ & ?)]; [by left|lia]|].
        intros [H|(_ & ?)]; [by left|lia].
      * rewrite zget0_zinsert_ne by exact Hxd. split.
        -- intros [H|(H1 & H2)]; [by left|right; split; [by right|exact H2]].
        -- intros [H|([H1|H1] & H2)]; [by left|congruence|right; auto].
Qed.

(** A fold that appends the docs meeting a condition. *)
Lemma fold_collect {A} (g : A * list Z -> Z -> A * list Z) (P : Z -> Prop) L :
  (forall a cs x, x ∈ L -> ((g (a, cs) x).2 = cs ++ [x] /\ P x) \/ ((g (a, cs) x).2 = cs /\ ~ P x)) ->
  forall a cs d, d ∈ (fold_left g L (a, cs)).2 <-> d ∈ cs \/ (d ∈ L /\ P d).
Proof.
  induction L as [|x L IH]; intros Hg a cs d; simpl.
  - split; [by left|]. intros [H|(Hn & _)]; [exact H|inversion Hn].
  - destruct (g (a, cs) x) as [a1 cs1] eqn:Hgx.
    rewrite IH by (intros; apply Hg; by right).
    rewrite elem_of_cons.
    destruct (Hg a cs x ltac:(by left)) as [[Hc Hp]|[Hc Hp]]; rewrite Hgx in Hc; simpl in Hc; subst cs1.
    + rewrite elem_of_app, list_elem_of_singleton. split.
      * intros [[H | ->]|(H1 & H2)]; [by left|right; split; [by left|exact Hp]|right; split; [by right|exact H2]].
      * intros [H|([-> | H1] & H2)]; [by do 2 left|left; by right|right; auto].
    + split.
      * intros [H|(H1 & H2)]; [by left|right; split; [by right|exact H2]].
      * intros [H|([-> | H1] & H2)]; [by left|contradiction|right; auto].
Qed.

Lemma termHit_noIdxs e toks d : lookupTokenIdxs (dict e) toks = [] -> termHit e toks d = false.
Proof. intros H. unfold termHit. rewrite H, bool_decide_true by reflexivity. reflexivity. Qed.

Lemma termHit_noToks e d : termHit e [] d = false.
Proof. by apply termHit_noIdxs. Qed.

Lemma fold_zinsert_is_Some L : forall (c : list Z) d,
  is_Some (zlookup (fold_left (fun c d => zinsert d 0 c) L c) d) <-> is_Some (zlookup c d).
Proof.
  induction L as [|x L IH]; intros c d; simpl; [reflexivity|].
  rewrite IH. apply zlookup_zinsert_is_Some.
Qed.

(** Every [1] of the mask built by [buildExcludeMask] marks a doc reaching
    the threshold of one of the exclude terms. *)
Lemma excludeLoop_mask e terms : forall cnt mask cnt' mask',
  excludeLoop e terms cnt mask = (cnt', mask', None) -> allIs 0 cnt ->
  allIs 0 cnt' /\ forall d,
  (zlookup mask' d = Some 1 <-> zlookup mask d = Some 1 \/
     (is_Some (zlookup mask d) /\ is_Some (zlookup cnt d) /\
      existsb (fun t => termHit e (uniqNgrams t (dict_n (dict e))) d) terms = true)) /\
  (is_Some (zlookup cnt' d) <-> is_Some (zlookup cnt d)).
Proof.
  induction terms as [|T terms IH]; intros cnt mask cnt' mask' He Hz; simpl in He.
  - injection He as <- <-. split; [exact Hz|]. intros d. split; [|reflexivity].
    split; [by left|]. intros [H|(_ & _ & ?)]; [exact H|discriminate].
  - cbn [existsb].
    set (toks := uniqNgrams T (dict_n (dict e))) in *.
    set (idxs := lookupTokenIdxs (dict e) toks) in *.
    destruct (bool_decide_reflect (toks = [])) as [Ht|Ht].
    { destruct (IH _ _ _ _ He Hz) as [Hz' Hd]. split; [exact Hz'|]. intros d.
      rewrite Ht, termHit_noToks. apply Hd. }
    destruct (bool_decide_reflect (idxs = [])) as [Hi|Hi].
    { destruct (IH _ _ _ _ He Hz) as [Hz' Hd]. split; [exact Hz'|]. intros d.
      rewrite termHit_noIdxs by exact Hi. apply Hd. }
    destruct (countPostings e _ (sortByDf (dict e) idxs) cnt []) as [[c1 tt] err] eqn:Hc.
    destruct err as [er|]; [discriminate|].
    set (mh := minHitClamped (Z.of_nat (length toks)) (Z.of_nat (length idxs))) in *.
    assert (Hmh : 1 <= mh).
    { apply minHitClamped_pos. destruct idxs; [congruence|simpl; lia]. }
    destruct (fold_left _ tt (c1, mask)) as [c2 m2] eqn:Hf.
    destruct (maskFold_doc mh tt c1 mask c2 m2 Hmh Hf) as [Hc2 Hm2].
    assert (Hz2 : allIs 0 c2).
    { rewrite Hc2. apply zero_fold_allIs.
      exact (countPostings_listed _ _ _ _ _ _ _ _ Hc (allIs_listed _ _ _ Hz)). }
    destruct (IH _ _ _ _ He Hz2) as [Hz' Hd]. split; [exact Hz'|]. intros d.
    destruct (Hd d) as [D1 D2]. destruct (Hm2 d) as [M1 M2].
    destruct (countTerm_doc e _ toks cnt c1 tt d Hi Hc Hz) as (C1 & _ & C3).
    fold idxs mh in C3.
    assert (Hs2 : is_Some (zlookup c2 d) <-> is_Some (zlookup cnt d)).
    { rewrite Hc2, fold_zinsert_is_Some. exact C1. }
    split; [|rewrite D2; exact Hs2].
    rewrite D1, M1, M2, Hs2, orb_true_iff.
    destruct (decide (zlookup mask d = Some 1)) as [E|E].
    + split; [intros _; by left|intros _; by do 2 left].
    + rewrite bool_decide_false in C3 by exact E.
      split.
      * intros [[H|(H1 & H2)]|(H1 & H2 & H3)]; [contradiction| |].
        -- apply C3 in H2 as (_ & H2 & H3). right. auto.
        -- right. auto.
      * intros [H|(H1 & H2 & [H3|H3])]; [contradiction| |].
        -- left. right. split; [exact H1|]. apply C3. auto.
        -- right. auto.
Qed.

(** The candidates of the multi-term path are the docs not skipped that
    reach the threshold of one of the include terms. *)
Lemma multiTermLoop_cands e skip rel terms : forall cnt sc cands cnt' sc' cands',
  multiTermLoop e skip rel terms cnt sc cands = (cnt', sc', cands', None) ->
  allIs 0 cnt -> listed 0%Q sc cands ->
  forall d, d ∈ cands' <-> d ∈ cands \/
    (skip d = false /\ is_Some (zlookup cnt d) /\
     existsb (fun t => termHit e (uniqNgrams t (dict_n (dict e))) d) terms = true).
Proof.
  induction terms as [|T terms IH]; intros cnt sc cands cnt' sc' cands' He Hz Hl d; simpl in He.
  - injection He as <- <- <-. split; [by left|]. intros [H|(_ & _ & ?)]; [exact H|discriminate].
  - cbn [existsb].
    set (toks := uniqNgrams T (dict_n (dict e))) in *.
    set (idxs := lookupTokenIdxs (dict e) toks) in *.
    destruct (bool_decide_reflect (toks = [])) as [Ht|Ht].
    { rewrite (IH _ _ _ _ _ _ He Hz Hl d). rewrite Ht, termHit_noToks. reflexivity. }
    destruct (bool_decide_reflect (idxs = [])) as [Hi|Hi].
    { rewrite (IH _ _ _ _ _ _ He Hz Hl d). rewrite termHit_noIdxs by exact Hi. reflexivity. }
    destruct (countPostings e skip (sortByDf (dict e) idxs) cnt []) as [[c1 tt] err] eqn:Hc.
    destruct err as [er|]; [discriminate|].
    set (mh := minHitClamped (Z.of_nat (length toks)) (Z.of_nat (length idxs))) in *.
    assert (Hmh : 1 <= mh).
    { apply minHitClamped_pos. destruct idxs; [congruence|simpl; lia]. }
    destruct (fold_left _ tt (c1, sc, cands)) as [[c2 s2] cs2] eqn:Hf.
    destruct (candFold_doc _ _ _ _ _ _ _ _ _ _ Hmh Hf Hl) as (Hc2 & Hl2 & Hd2).
    assert (Hz2 : allIs 0 c2).
    { rewrite Hc2. apply zero_fold_allIs.
      exact (countPostings_listed _ _ _ _ _ _ _ _ Hc (allIs_listed _ _ _ Hz)). }
    destruct (countTerm_doc e skip toks cnt c1 tt d Hi Hc Hz) as (C1 & _ & C3).
    fold idxs mh in C3.
    assert (Hs2 : is_Some (zlookup c2 d) <-> is_Some (zlookup cnt d)).
    { rewrite Hc2, fold_zinsert_is_Some. exact C1. }
    rewrite (IH _ _ _ _ _ _ He Hz2 Hl2 d), Hd2, C3, Hs2, orb_true_iff.
    split.
    + intros [[H|(H1 & H2 & H3)]|(H1 & H2 & H3)]; [by left|right; auto|right; auto].
    + intros [H|(H1 & H2 & [H3|H3])]; [by do 2 left|left; right; auto|right; auto].
Qed.

(** The candidates of the single-term relevance pass. *)
Lemma singleTermScores_cands e qN nT mh cnt tch sc d :
  d ∈ (singleTermScores normText e qN nT mh cnt tch sc).2 <->
  d ∈ tch /\ (exists hit, zlookup cnt d = Some hit /\ mh <= hit) /\
  is_Some (mjoin (zlookup (metaDocs e) d)).
Proof.
  unfold singleTermScores.
  rewrite (fold_collect _ (fun d => (exists hit, zlookup cnt d = Some hit /\ mh <= hit) /\
                                    is_Some (mjoin (zlookup (metaDocs e) d)))).
  - split; [intros [H|H]; [inversion H|exact H]|intros H; by right].
  - intros a cs x _. simpl.
    destruct (zlookup cnt x) as [hit|] eqn:Hh.
    2:{ right. split; [reflexivity|]. intros ((h & Hh' & _) & _). discriminate. }
    destruct (Z.ltb_spec hit mh).
    { right. split; [reflexivity|]. intros ((h & Hh' & Hm) & _). injection Hh' as <-. lia. }
    destruct (mjoin (zlookup (metaDocs e) x)) as [dm|] eqn:Hm.
    + left. split; [reflexivity|]. split; [eauto|eauto].
    + right. split; [reflexivity|]. intros (_ & [? ?]). discriminate.
Qed.

Lemma docIdsAsc_elem n d : d ∈ docIdsAsc n <-> 0 <= d < n.
Proof.
  unfold docIdsAsc. rewrite list_elem_of_In, in_map_iff. split.
  - intros (i & <- & Hi). apply in_seq in Hi. lia.
  - intros Hd. exists (Z.to_nat d). split; [lia|]. apply in_seq. lia.
Qed.

Lemma docIdsDesc_elem n d : d ∈ docIdsDesc n <-> 0 <= d < n.
Proof.
  unfold docIdsDesc. rewrite <- docIdsAsc_elem, !list_elem_of_In. symmetry. apply in_rev.
Qed.

Lemma filter_elem (f : Z -> bool) l d : d ∈ List.filter f l <-> d ∈ l /\ f d = true.
Proof. rewrite !list_elem_of_In. apply filter_In. Qed.

Lemma range_bool (d n : Z) : (0 <=? d) && (d <? n) = bool_decide (0 <= d < n).
Proof.
  apply Bool.eq_iff_eq_true. rewrite andb_true_iff, Z.leb_le, Z.ltb_lt, bool_decide_eq_true.
  reflexivity.
Qed.

Lemma exists_hit_zget0 (l : list Z) d mh :
  1 <= mh -> (exists h, zlookup l d = Some h /\ mh <= h) <-> mh <= zget0 l d.
Proof.
  intros Hmh. unfold zget0. destruct (zlookup l d) as [h|]; split.
  - intros (h' & Hh & Hle). injection Hh as <-. exact Hle.
  - intros Hle. eauto.
  - intros (h' & Hh & _). discriminate.
  - lia.
Qed.

#[local] Opaque multiTermLoop countPostings singleTermScores multiTermBonus buildExcludeMask.

Lemma resolve_inResult s msg R :
  clean s -> length (counts s) = Z.to_nat (totalCount (eng s)) ->
  resolve normText s msg = Some R ->
  forall d, d ∈ R <-> inResult (eng s) msg (makePlan normText (eng s) msg) d = true.
Proof.
  intros Hcl Hlen HR d. apply clean_allIs in Hcl as (Hc & Hs & Ht).
  pose proof (makePlan_fields normText (eng s) msg) as PF. simpl in PF.
  unfold resolve in HR. set (pl := makePlan normText (eng s) msg) in *.
  destruct PF as (PFi & PFe & PFs & PFx & PFq & _).
  unfold searchMiss in HR. cbn [clearCache eng counts scores touched cache] in HR.
  revert HR.
  remember (if bool_decide (pl_exclude pl = []) then (counts s, None, None)
            else let '(c, m, er) := buildExcludeMask (eng s) (counts s) (pl_exclude pl) in
                 (c, Some m, er)) as E0 eqn:HE0d.
  intros HR.
  set (ex := existsb (fun t => termHit (eng s) (uniqNgrams t (dict_n (dict (eng s)))) d) (pl_exclude pl)).
  assert (HE0 : forall cnt0 exm, E0 = (cnt0, exm, None) ->
    allIs 0 cnt0 /\ (forall j, is_Some (zlookup cnt0 j) <-> 0 <= j < totalCount (eng s)) /\
    (0 <= d < totalCount (eng s) ->
     match exm with Some m => bool_decide (zlookup m d = Some 1) | None => false end = ex)).
  { intros cnt0 exm HE. rewrite HE0d in HE.
    assert (Hr : forall j, is_Some (zlookup (counts s) j) <-> 0 <= j < totalCount (eng s)).
    { intros j. rewrite zlookup_is_Some, Hlen. lia. }
    destruct (bool_decide_reflect (pl_exclude pl = [])) as [Hx|Hx].
    - injection HE as <- <-. split; [exact Hc|]. split; [exact Hr|].
      intros _. unfold ex. rewrite Hx. reflexivity.
    - Local Transparent buildExcludeMask.
      unfold buildExcludeMask in HE.
      destruct (excludeLoop _ _ _ _) as [[c m] er] eqn:Hel. injection HE as <- <- ->.
      destruct (excludeLoop_mask _ _ _ _ _ _ Hel Hc) as [Hz Hd].
      split; [exact Hz|]. split; [intros j; rewrite (proj2 (Hd j)); apply Hr|].
      intros Hdr. destruct (Hd d) as [D1 _]. apply Bool.eq_iff_eq_true. rewrite bool_decide_eq_true.
      rewrite D1. unfold ex. split.
      + intros [H|(_ & _ & H)]; [|exact H].
        unfold zlookup in H. destruct (d <? 0); [discriminate|].
        apply list_elem_of_lookup_2, list_elem_of_In, repeat_spec in H. discriminate.
      + intros H. right. split; [|split; [apply Hr; exact Hdr|exact H]].
        apply zlookup_is_Some. rewrite repeat_length. lia. }
  Local Opaque buildExcludeMask.
  destruct E0 as [[cnt0 exm] [er|]] eqn:HE; [discriminate|].
  destruct (HE0 cnt0 exm eq_refl) as (Hz0 & Hr0 & Hx0). clear HE0 HE HE0d.
  unfold inResult. cbv zeta. fold ex. rewrite range_bool.
  destruct (pl_hasQuery pl) eqn:Hq; cbn [negb] in HR |- *.
  - destruct (pl_include pl) as [|T [|T2 rest]] eqn:Hinc.
    + (* exclude terms only *)
      cbn [option_map cache setCache snd] in HR. injection HR as <-.
      rewrite filter_elem. cbn beta.
      assert (Hscan : d ∈ match sort msg with IdAsc => docIdsAsc (totalCount (eng s))
                            | _ => docIdsDesc (totalCount (eng s)) end <-> 0 <= d < totalCount (eng s))
        by (destruct (sort msg); [apply docIdsDesc_elem|apply docIdsDesc_elem|apply docIdsAsc_elem]).
      rewrite Hscan. destruct (bool_decide_reflect (0 <= d < totalCount (eng s))) as [Hd|Hd]; simpl.
      * rewrite (Hx0 Hd), andb_true_r, !andb_true_iff. tauto.
      * split; [intros [? _]; contradiction|discriminate].
    + (* one include term *)
      destruct (bool_decide_reflect (lookupTokenIdxs (dict (eng s)) (pl_queryTokens pl) = [])) as [Hi|Hi].
      { cbn [option_map cache setCache snd] in HR. injection HR as <-.
        rewrite termHit_noIdxs by exact Hi. rewrite !andb_false_r.
        split; [intros Hn; inversion Hn|discriminate]. }
      cbn [setCounts setCache setTouched setScores clearCache eng counts scores touched cache] in HR.
      rewrite Ht in HR.
      match type of HR with context [countPostings ?a ?b ?c ?f ?g] =>
        destruct (countPostings a b c f g) as [[cnt1 tch1] [er|]] eqn:Hc1 end;
        [discriminate|].
      destruct (countTerm_doc _ _ _ _ _ _ d Hi Hc1 Hz0) as (C1 & C2 & C3).
      set (mh := minHitClamped _ _) in *.
      assert (Hmh : 1 <= mh).
      { apply minHitClamped_pos. destruct (lookupTokenIdxs _ _); [congruence|simpl; lia]. }
      destruct (sort msg) eqn:Hsort.
      * (* relevance *)
        match type of HR with context [singleTermScores ?nt ?a ?b ?c ?f ?g ?h ?i] =>
          pose proof (singleTermScores_cands a b c f g h i d) as Hsc;
          destruct (singleTermScores nt a b c f g h i) as [sc2 cands] eqn:Hsts end.
        cbn [option_map cache setCache snd] in HR. injection HR as <-.
        rewrite (sortBy_perm _ cands). simpl in Hsc. rewrite Hsc, (exists_hit_zget0 _ _ _ Hmh).
        rewrite (bool_decide_true (Relevance = Relevance)) by reflexivity.
        destruct (bool_decide_reflect (0 <= d < totalCount (eng s))) as [Hd|Hd]; simpl.
        -- pose proof (proj2 (Hr0 d) Hd) as HS.
           rewrite (Hx0 Hd), orb_false_iff, negb_false_iff in C3.
           rewrite !andb_true_iff, !negb_true_iff, bool_decide_eq_true.
           tauto.
        -- split; [|discriminate]. intros (H1 & H2 & _).
           destruct (proj1 C3 (conj H1 H2)) as (_ & H & _). apply Hr0 in H. contradiction.
      * (* id_desc *)
        cbn [option_map cache setCache snd] in HR. injection HR as <-.
        rewrite filter_elem, docIdsDesc_elem. cbn beta.
        destruct (bool_decide_reflect (0 <= d < totalCount (eng s))) as [Hd|Hd]; simpl; [|split; [intros [? _]; contradiction|discriminate]].
        pose proof (proj2 (Hr0 d) Hd) as HS. specialize (C2 HS).
        apply C1 in HS as [c Hc1d]. rewrite Hc1d. unfold zget0 in C2. rewrite Hc1d in C2.
        rewrite (Hx0 Hd) in C2. rewrite negb_true_iff, Z.ltb_ge, C2, andb_true_r, !andb_true_iff, orb_false_iff,
          !negb_true_iff, negb_false_iff.
        tauto.
      * (* id_asc *)
        cbn [option_map cache setCache snd] in HR. injection HR as <-.
        rewrite filter_elem, docIdsAsc_elem. cbn beta.
        destruct (bool_decide_reflect (0 <= d < totalCount (eng s))) as [Hd|Hd]; simpl; [|split; [intros [? _]; contradiction|discriminate]].
        pose proof (proj2 (Hr0 d) Hd) as HS. specialize (C2 HS).
        apply C1 in HS as [c Hc1d]. rewrite Hc1d. unfold zget0 in C2. rewrite Hc1d in C2.
        rewrite (Hx0 Hd) in C2. rewrite negb_true_iff, Z.ltb_ge, C2, andb_true_r, !andb_true_iff, orb_false_iff,
          !negb_true_iff, negb_false_iff.
        tauto.
    + (* several include terms *)
      cbn [setCounts setCache setTouched setScores clearCache eng counts scores touched cache] in HR.
      match type of HR with context [multiTermLoop ?a ?b ?c ?f ?g ?h ?i] =>
        destruct (multiTermLoop a b c f g h i) as [[[cnt1 sc1] cands] [er|]] eqn:Hm end;
        [discriminate|].
      pose proof (multiTermLoop_cands _ _ _ _ _ _ _ _ _ _ Hm Hz0 (allIs_listed _ _ _ Hs) d) as Hmc.
      assert (HR' : d ∈ R <-> d ∈ cands).
      { destruct (bool_decide_reflect (cands = [])) as [Hcn|Hcn].
        - cbn [option_map cache setCache snd] in HR. injection HR as <-. subst cands. reflexivity.
        - destruct (bool_decide (sort msg = Relevance));
            cbn [option_map cache setCache setScores snd] in HR; injection HR as <-;
            rewrite (sortBy_perm _ cands); reflexivity. }
      rewrite HR', Hmc, <- Hinc.
      destruct (bool_decide_reflect (0 <= d < totalCount (eng s))) as [Hd|Hd]; simpl.
      * pose proof (proj2 (Hr0 d) Hd) as HS. cbn beta.
        assert (Hn : ~ d ∈ ([] : list Z)) by (intros Hn; inversion Hn).
        rewrite (Hx0 Hd), orb_false_iff, negb_false_iff, !andb_true_iff, !negb_true_iff.
        tauto.
      * split; [|discriminate]. intros [Hn|(_ & H & _)]; [inversion Hn|]. apply Hr0 in H. contradiction.
  - (* no term *)
    destruct (_ && _ && _ && _ && _ && _ && _ && _) eqn:G;
      cbn [option_map cache setCache snd] in HR; injection HR as <-.
    + unfold emptyIntent. rewrite Hq. cbn [negb andb]. rewrite G. rewrite andb_false_r.
      split; [intros Hn; inversion Hn|discriminate].
    + unfold emptyIntent. rewrite Hq. cbn [negb andb]. rewrite G. rewrite andb_true_r.
      rewrite filter_elem. cbn beta.
      assert (Hscan : d ∈ match sort msg with IdAsc => docIdsAsc (totalCount (eng s))
                            | _ => docIdsDesc (totalCount (eng s)) end <-> 0 <= d < totalCount (eng s))
        by (destruct (sort msg); [apply docIdsDesc_elem|apply docIdsDesc_elem|apply docIdsAsc_elem]).
      rewrite Hscan. destruct (bool_decide_reflect (0 <= d < totalCount (eng s))) as [Hd|Hd]; simpl.
      * tauto.
      * split; [intros [? _]; contradiction|discriminate].
Qed.

Lemma toInt32_mod z : toInt32 z mod 2 ^ 32 = z mod 2 ^ 32.
Proof.
  unfold toInt32. rewrite Zminus_mod_idemp_l. f_equal. lia.
Qed.

Lemma toInt32_mod_eq x y : x mod 2 ^ 32 = y mod 2 ^ 32 -> toInt32 x = toInt32 y.
Proof.
  intros H. unfold toInt32.
  rewrite <- (Zplus_mod_idemp_l x), <- (Zplus_mod_idemp_l y), H. reflexivity.
Qed.

Lemma testbit_toInt32 z i : 0 <= i < 32 -> Z.testbit (toInt32 z) i = Z.testbit z i.
Proof.
  intros Hi. rewrite <- (Z.mod_pow2_bits_low (toInt32 z) 32 i) by lia.
  rewrite toInt32_mod. apply Z.mod_pow2_bits_low. lia.
Qed.

Lemma toInt32_eq_bits x y :
  (forall i, 0 <= i < 32 -> Z.testbit x i = Z.testbit y i) -> toInt32 x = toInt32 y.
Proof.
  intros H. apply toInt32_mod_eq. apply Z.bits_inj'. intros n Hn.
  destruct (Z.lt_ge_cases n 32).
  - rewrite !Z.mod_pow2_bits_low by lia. apply H. lia.
  - rewrite !Z.mod_pow2_bits_high by lia. reflexivity.
Qed.

Lemma toInt32_idem z : toInt32 (toInt32 z) = toInt32 z.
Proof. apply toInt32_mod_eq, toInt32_mod. Qed.

(** The selected-tag test [(t & sel) === sel] of an int32 mask: every bit
    of [sel] is set in [t]. *)
Lemma selOk_iff t sel : toInt32 sel = sel ->
  (toInt32 (Z.land (toInt32 t) sel) =? sel) = true <->
  forall i, 0 <= i < 32 -> Z.testbit sel i = true -> Z.testbit t i = true.
Proof.
  intros Hfix. rewrite Z.eqb_eq. split.
  - intros H i Hi Hs.
    assert (Hb : Z.testbit (toInt32 (Z.land (toInt32 t) sel)) i = Z.testbit sel i) by (rewrite H; reflexivity).
    rewrite testbit_toInt32, Z.land_spec, testbit_toInt32, Hs, andb_true_r in Hb by exact Hi.
    exact Hb.
  - intros H. transitivity (toInt32 sel); [|exact Hfix].
    apply toInt32_eq_bits. intros i Hi.
    rewrite Z.land_spec, testbit_toInt32 by exact Hi.
    destruct (Z.testbit sel i) eqn:Hs; [rewrite (H i Hi Hs); reflexivity|apply andb_false_r].
Qed.

(** With both masks zero the guard of [passesFilters] can be dropped. *)
Lemma sel_guard tlo thi lo hi :
  (if negb (lo =? 0) || negb (hi =? 0) then
     (toInt32 (Z.land (toInt32 tlo) lo) =? lo) && (toInt32 (Z.land (toInt32 thi) hi) =? hi)
   else true) =
  (toInt32 (Z.land (toInt32 tlo) lo) =? lo) && (toInt32 (Z.land (toInt32 thi) hi) =? hi).
Proof.
  destruct (Z.eqb_spec lo 0) as [->|Hl], (Z.eqb_spec hi 0) as [->|Hh]; try reflexivity.
  rewrite !Z.land_0_r. reflexivity.
Qed.

Lemma passes_mono e d lo hi lo' hi' xlo xhi h1 h2 h3 h4 :
  toInt32 lo = lo -> toInt32 hi = hi ->
  (forall i, 0 <= i < 32 -> Z.testbit lo i = true -> Z.testbit lo' i = true) ->
  (forall i, 0 <= i < 32 -> Z.testbit hi i = true -> Z.testbit hi' i = true) ->
  toInt32 lo' = lo' -> toInt32 hi' = hi' ->
  passesFilters e d lo' hi' xlo xhi h1 h2 h3 h4 = true ->
  passesFilters e d lo hi xlo xhi h1 h2 h3 h4 = true.
Proof.
  intros Fl Fh Sl Sh Fl' Fh'. unfold passesFilters. cbv zeta. rewrite !sel_guard.
  rewrite !andb_true_iff, !selOk_iff by assumption.
  intros H. destruct_and! H. repeat split; try assumption; intros i Hi Hs; eauto.
Qed.

(** The two words built by [maskFromBits]: int32 values whose bit [i] is
    set iff [i] (resp. [i + 32]) is one of the bits. *)
Lemma maskFromBits_fold bits : forall lo0 hi0 lo hi,
  fold_left (fun '(lo, hi) bit =>
    if bit <? 0 then (lo, hi)
    else if bit <? 32 then (toInt32 (Z.lor lo (jsShl 1 bit)), hi)
    else if bit <? 64 then (lo, toInt32 (Z.lor hi (jsShl 1 (bit - 32))))
    else (lo, hi)) bits (lo0, hi0) = (lo, hi) ->
  toInt32 lo0 = lo0 -> toInt32 hi0 = hi0 ->
  toInt32 lo = lo /\ toInt32 hi = hi /\
  (forall i, 0 <= i < 32 -> Z.testbit lo i = Z.testbit lo0 i || existsb (Z.eqb i) bits) /\
  (forall i, 0 <= i < 32 -> Z.testbit hi i = Z.testbit hi0 i || existsb (Z.eqb (i + 32)) bits).
Proof.
  induction bits as [|b bits IH]; intros lo0 hi0 lo hi Hf F0 G0; simpl in Hf.
  - injection Hf as <- <-. split; [exact F0|]. split; [exact G0|].
    split; intros i _; rewrite orb_false_r; reflexivity.
  - assert (Hsh : forall k, 0 <= k < 32 -> forall i, 0 <= i < 32 ->
              Z.testbit (jsShl 1 k) i = (i =? k)).
    { intros k Hk i Hi. unfold jsShl. rewrite testbit_toInt32 by exact Hi.
      rewrite Z.mod_small by lia. change (toInt32 1) with 1.
      rewrite Z.shiftl_1_l, Z.pow2_bits_eqb by lia. apply Z.eqb_sym. }
    cbn [existsb].
    destruct (Z.ltb_spec b 0).
    { destruct (IH _ _ _ _ Hf F0 G0) as (A1 & A2 & A3 & A4). split; [exact A1|]. split; [exact A2|].
      split; intros i Hi; [rewrite A3 by exact Hi|rewrite A4 by exact Hi];
        [replace (i =? b) with false by lia|replace (i + 32 =? b) with false by lia]; reflexivity. }
    destruct (Z.ltb_spec b 32).
    { destruct (IH _ _ _ _ Hf (toInt32_idem _) G0) as (A1 & A2 & A3 & A4).
      split; [exact A1|]. split; [exact A2|]. split; intros i Hi.
      - rewrite A3, testbit_toInt32, Z.lor_spec, Hsh by lia. symmetry. apply orb_assoc.
      - rewrite A4 by exact Hi. replace (i + 32 =? b) with false by lia. reflexivity. }
    destruct (Z.ltb_spec b 64).
    { destruct (IH _ _ _ _ Hf F0 (toInt32_idem _)) as (A1 & A2 & A3 & A4).
      split; [exact A1|]. split; [exact A2|]. split; intros i Hi.
      - rewrite A3 by exact Hi. replace (i =? b) with false by lia. reflexivity.
      - rewrite A4, testbit_toInt32, Z.lor_spec, Hsh by lia. rewrite <- orb_assoc. f_equal.
        f_equal. apply Bool.eq_iff_eq_true. rewrite !Z.eqb_eq. lia. }
    destruct (IH _ _ _ _ Hf F0 G0) as (A1 & A2 & A3 & A4). split; [exact A1|]. split; [exact A2|].
    split; intros i Hi; [rewrite A3 by exact Hi|rewrite A4 by exact Hi];
      [replace (i =? b) with false by lia|replace (i + 32 =? b) with false by lia]; reflexivity.
Qed.

Lemma maskFromBits_spec bits lo hi :
  maskFromBits bits = (lo, hi) ->
  toInt32 lo = lo /\ toInt32 hi = hi /\
  (forall i, 0 <= i < 32 -> Z.testbit lo i = existsb (Z.eqb i) bits) /\
  (forall i, 0 <= i < 32 -> Z.testbit hi i = existsb (Z.eqb (i + 32)) bits).
Proof.
  intros H. destruct (maskFromBits_fold bits 0 0 lo hi H eq_refl eq_refl) as (A1 & A2 & A3 & A4).
  split; [exact A1|]. split; [exact A2|].
  split; intros i Hi; [rewrite A3 by exact Hi|rewrite A4 by exact Hi]; rewrite Z.testbit_0_l; reflexivity.
Qed.

(** Two messages that differ only in their selected tag bits give plans that
    differ only in the selected masks (and the cache key). *)
Lemma makePlan_withTags e m X Y :
  let plX := makePlan normText e (withTags m X) in
  let plY := makePlan normText e (withTags m Y) in
  pl_include plX = pl_include plY /\ pl_exclude plX = pl_exclude plY /\
  pl_queryTokens plX = pl_queryTokens plY /\ pl_hasQuery plX = pl_hasQuery plY /\
  pl_excludedLo plX = pl_excludedLo plY /\ pl_excludedHi plX = pl_excludedHi plY /\
  (pl_selectedLo plX, pl_selectedHi plX) = maskFromBits X /\
  (pl_selectedLo plY, pl_selectedHi plY) = maskFromBits Y.
Proof.
  unfold makePlan, withTags. cbn [q tagBits excludeTagBits]. repeat case_match; simpl; repeat split; congruence.
Qed.

Lemma inResult_sel_mono e msg msg' pl pl' d :
  pl_include pl = pl_include pl' -> pl_exclude pl = pl_exclude pl' ->
  pl_queryTokens pl = pl_queryTokens pl' -> pl_hasQuery pl = pl_hasQuery pl' ->
  pl_excludedLo pl = pl_excludedLo pl' -> pl_excludedHi pl = pl_excludedHi pl' ->
  hidden msg = hidden msg' -> hideChapter msg = hideChapter msg' ->
  needLogin msg = needLogin msg' -> lock msg = lock msg' -> sort msg = sort msg' ->
  toInt32 (pl_selectedLo pl) = pl_selectedLo pl -> toInt32 (pl_selectedHi pl) = pl_selectedHi pl ->
  toInt32 (pl_selectedLo pl') = pl_selectedLo pl' -> toInt32 (pl_selectedHi pl') = pl_selectedHi pl' ->
  (forall i, 0 <= i < 32 -> Z.testbit (pl_selectedLo pl) i = true -> Z.testbit (pl_selectedLo pl') i = true) ->
  (forall i, 0 <= i < 32 -> Z.testbit (pl_selectedHi pl) i = true -> Z.testbit (pl_selectedHi pl') i = true) ->
  emptyIntent msg pl = false ->
  inResult e msg' pl' d = true -> inResult e msg pl d = true.
Proof.
  intros E1 E2 E3 E4 E5 E6 M1 M2 M3 M4 M5 F1 F2 F3 F4 S1 S2 HE.
  unfold inResult. cbv zeta. rewrite HE, E1, E2, E3, E4, E5, E6, M1, M2, M3, M4, M5.
  rewrite !andb_true_iff. intros (((Hd1 & Hd2) & Hp) & Ht). repeat split; try assumption.
  - exact (passes_mono _ _ _ _ _ _ _ _ _ _ _ _ F1 F2 S1 S2 F3 F4 Hp).
  - destruct (pl_hasQuery pl'); [exact Ht|reflexivity].
Qed.

(** Selecting more tag bits can only shrink the result. *)
Lemma resolve_withTags_mono s m X Y RX RY :
  clean s -> length (counts s) = Z.to_nat (totalCount (eng s)) ->
  (forall i, existsb (Z.eqb i) X = true -> existsb (Z.eqb i) Y = true) ->
  emptyIntent (withTags m X) (makePlan normText (eng s) (withTags m X)) = false ->
  resolve normText s (withTags m X) = Some RX ->
  resolve normText s (withTags m Y) = Some RY ->
  forall d, d ∈ RY -> d ∈ RX.
Proof.
  intros Hcl Hlen Hsub HE HX HY d Hd.
  apply (resolve_inResult _ _ _ Hcl Hlen HX).
  apply (resolve_inResult _ _ _ Hcl Hlen HY) in Hd.
  destruct (makePlan_withTags (eng s) m X Y) as (E1 & E2 & E3 & E4 & E5 & E6 & MX & MY).
  destruct (maskFromBits_spec _ _ _ (eq_sym MX)) as (F1 & F2 & B1 & B2).
  destruct (maskFromBits_spec _ _ _ (eq_sym MY)) as (F3 & F4 & B3 & B4).
  refine (inResult_sel_mono _ _ _ _ _ _ E1 E2 E3 E4 E5 E6 eq_refl eq_refl eq_refl eq_refl eq_refl
            F1 F2 F3 F4 _ _ HE Hd).
  - intros i Hi. rewrite B1, B3 by exact Hi. apply Hsub.
  - intros i Hi. rewrite B2, B4 by exact Hi. apply Hsub.
Qed.

Lemma count_occ_NoDup (l : list Z) d :
  NoDup l -> count_occ Z.eq_dec l d = if existsb (Z.eqb d) l then 1%nat else 0%nat.
Proof.
  intros H0. apply NoDup_ListNoDup in H0. pose proof (proj1 (NoDup_count_occ Z.eq_dec l) H0 d) as H.
  destruct (existsb (Z.eqb d) l) eqn:E.
  - apply existsb_exists in E as (x & Hx & Hdx). apply Z.eqb_eq in Hdx. subst x.
    apply (count_occ_In Z.eq_dec) in Hx. lia.
  - destruct (count_occ Z.eq_dec l d) eqn:C; [reflexivity|].
    assert (Hin : In d l) by (apply (count_occ_In Z.eq_dec); lia).
    assert (existsb (Z.eqb d) l = true) by (apply existsb_exists; exists d; split; [exact Hin|apply Z.eqb_refl]).
    congruence.
Qed.

(** With duplicate-free posting lists a doc gets one increment per token
    whose list contains it. *)
Lemma occHits_docHits e idxs d :
  Forall (fun idx => NoDup (postingsOf e idx)) idxs -> occHits e idxs d = docHits e idxs d.
Proof.
  induction 1 as [|idx idxs Hn _ IH]; [reflexivity|].
  rewrite occHits_cons, IH, count_occ_NoDup by exact Hn. unfold docHits. simpl.
  destruct (existsb (Z.eqb d) (postingsOf e idx)); reflexivity.
Qed.

Lemma termHit_termMatch e T d :
  Forall (fun idx => NoDup (postingsOf e idx)) (lookupTokenIdxs (dict e) (uniqNgrams T (dict_n (dict e)))) ->
  Z.of_nat (length (lookupTokenIdxs (dict e) (uniqNgrams T (dict_n (dict e))))) < 65536 ->
  termHit e (uniqNgrams T (dict_n (dict e))) d = termMatch e T d.
Proof.
  intros HN Hl. unfold termHit, termMatch. cbv zeta. rewrite occHits_docHits by exact HN.
  rewrite Z.mod_small; [reflexivity|]. unfold docHits.
  pose proof (filter_length_le (A:=Z) (fun idx => existsb (Z.eqb d) (postingsOf e idx))
                (lookupTokenIdxs (dict e) (uniqNgrams T (dict_n (dict e))))).
  lia.
Qed.

Lemma makePlan_queryTokens e msg :
  pl_queryTokens (makePlan normText e msg) =
  let qNorm := match pq_include (parseQuery normText (q msg)) with [t] => t | _ => [] end in
  if bool_decide (qNorm = []) then [] else uniqNgrams qNorm (dict_n (dict e)).
Proof.
  unfold makePlan. destruct (maskFromBits (tagBits msg)), (maskFromBits (excludeTagBits msg)).
  reflexivity.
Qed.


(** C6 (corrected).  Selecting the tag bits [A ++ B] (the union of [A] and
    [B]) gives a subset of the docs selected by [A] and of those selected by
    [B], for the same query, filters and clean scratch buffers, as long as
    neither search with [A] nor search with [B] alone is an empty intent
    (no term, no selected tag, no excluded tag, every status filter "any"),
    which returns no doc. *)
Theorem tagFilter_compose s m A B RAB RA RB :
  clean s -> length (counts s) = Z.to_nat (totalCount (eng s)) ->
  emptyIntent (withTags m A) (makePlan normText (eng s) (withTags m A)) = false ->
  emptyIntent (withTags m B) (makePlan normText (eng s) (withTags m B)) = false ->
  resolve normText s (withTags m (A ++ B)) = Some RAB ->
  resolve normText s (withTags m A) = Some RA ->
  resolve normText s (withTags m B) = Some RB ->
  forall d, d ∈ RAB -> d ∈ RA /\ d ∈ RB.
Proof.
  intros Hcl Hlen HEA HEB HAB HA HB d Hd. split.
  - refine (resolve_withTags_mono s m A (A ++ B) RA RAB Hcl Hlen _ HEA HA HAB d Hd).
    intros i Hi. rewrite existsb_app, Hi. reflexivity.
  - refine (resolve_withTags_mono s m B (A ++ B) RB RAB Hcl Hlen _ HEB HB HAB d Hd).
    intros i Hi. rewrite existsb_app, Hi, orb_true_r. reflexivity.
Qed.

End DocByDoc.

(* ------------------------------------------------------------------ *)
(** ** Index assets *)

(** [getIndexAsset] finds an asset for exactly the shard ids [0 <= id <
    indexShardCount plan]: only id 0 for a single-file plan, the ids of
    the asset list for a sharded plan; every other id is its throw. *)
Theorem getIndexAsset_range plan shardId :
  is_Some (getIndexAsset plan shardId) <-> 0 <= shardId < indexShardCount plan.
Proof.
  destruct plan as [a|assets]; simpl.
  - destruct (Z.eqb_spec shardId 0) as [->|Hne]; simpl.
    + split; [lia|eauto].
    + split; [intros [? [=]]|lia].
  - apply zlookup_is_Some.
Qed.

(** ** align4 *)

Lemma land_lnot3 a : 0 <= a -> Z.land a (Z.lnot 3) = a / 4 * 4.
Proof.
  intros Ha. rewrite <- Z.ldiff_land.
  change 3 with (Z.ones 2). rewrite Z.ldiff_ones_r by lia.
  rewrite Z.shiftl_mul_pow2, Z.shiftr_div_pow2 by lia. reflexivity.
Qed.

(** For [0 <= offset <= 2^31 - 4], [align4 offset] is the multiple of 4 in
    [[offset, offset + 4)], the least multiple of 4 not below [offset]. *)
Theorem align4_spec offset :
  0 <= offset <= 2 ^ 31 - 4 ->
  align4 offset mod 4 = 0 /\ offset <= align4 offset < offset + 4.
Proof.
  intros H. unfold align4.
  rewrite (toInt32_id (offset + 3)) by lia.
  change (toInt32 (Z.lnot 3)) with (Z.lnot 3).
  rewrite land_lnot3 by lia.
  pose proof (Z.div_mod (offset + 3) 4 ltac:(lia)).
  pose proof (Z.mod_pos_bound (offset + 3) 4 ltac:(lia)).
  rewrite toInt32_id by lia.
  split; [rewrite Z.mod_mul; lia | lia].
Qed.

(** ** Meta shards *)

Lemma land_pred_pow2 m : 0 < m -> (Z.land m (m - 1) = 0 <-> m = 2 ^ Z.log2 m).
Proof.
  intros Hm. pose proof (Z.log2_spec m Hm) as [Hlo Hhi].
  pose proof (Z.log2_nonneg m).
  split.
  - intros Hl. destruct (Z.eq_dec m (2 ^ Z.log2 m)) as [E|E]; [exact E|exfalso].
    assert (Hb : Z.testbit (m - 1) (Z.log2 m) = true).
    { assert (Z.log2 (m - 1) = Z.log2 m) as <-.
      { apply Z.log2_unique; lia. }
      apply Z.bit_log2; lia. }
    pose proof (Z.bit_log2 m Hm) as Hb'.
    assert (Z.testbit (Z.land m (m - 1)) (Z.log2 m) = true) as Ht
      by (rewrite Z.land_spec, Hb, Hb'; reflexivity).
    rewrite Hl, Z.testbit_0_l in Ht. discriminate.
  - intros E. rewrite E at 1 2.
    replace (2 ^ Z.log2 m - 1) with (Z.ones (Z.log2 m)) by (rewrite Z.ones_equiv; lia).
    rewrite Z.land_ones by lia. apply Z.mod_same. lia.
Qed.

Lemma toInt32_range z : -2 ^ 31 <= toInt32 z < 2 ^ 31.
Proof.
  unfold toInt32. pose proof (Z.mod_pos_bound (z + 2 ^ 31) (2 ^ 32) ltac:(lia)). lia.
Qed.

Lemma shardShiftForDocs_iff n k :
  shardShiftForDocs n = Some k <-> 0 <= k <= 30 /\ toInt32 n = 2 ^ k.
Proof.
  unfold shardShiftForDocs. rewrite toInt32_idem.
  pose proof (toInt32_range n) as Hr. set (m := toInt32 n) in *.
  destruct (Z.leb_spec m 0) as [Hle|Hgt].
  - split; [discriminate|]. intros [Hk E]. pose proof (Z.pow_pos_nonneg 2 k). lia.
  - rewrite (toInt32_id (m - 1)) by lia.
    assert (0 <= Z.land m (m - 1) < 2 ^ 31).
    { split; [apply Z.land_nonneg; lia|].
      destruct (Z.lt_ge_cases (Z.land m (m - 1)) (2 ^ 31)) as [|Hge]; [assumption|].
      pose proof (Z.log2_land m (m - 1) ltac:(lia) ltac:(lia)).
      pose proof (Z.log2_le_mono _ _ Hge). rewrite Z.log2_pow2 in * by lia.
      assert (Z.log2 m < 31) by (apply Z.log2_lt_pow2; lia). lia. }
    rewrite (toInt32_id (Z.land m (m - 1))) by lia.
    assert (Hclz : 31 - clz32 m = Z.log2 m).
    { unfold clz32. rewrite Z.mod_small by lia.
      destruct (Z.eqb_spec m 0); lia. }
    pose proof (land_pred_pow2 m Hgt) as Hp.
    assert (Z.log2 m <= 30).
    { apply Z.lt_succ_r. apply Z.log2_lt_pow2; lia. }
    pose proof (Z.log2_nonneg m).
    destruct (Z.eqb_spec (Z.land m (m - 1)) 0) as [E|E]; simpl.
    + rewrite Hclz. split.
      * intros [= <-]. split; [lia|]. apply Hp, E.
      * intros [Hk Em]. f_equal. rewrite Em. apply Z.log2_pow2. lia.
    + split; [discriminate|]. intros [Hk Em]. exfalso. apply E, Hp.
      rewrite Em, Z.log2_pow2 by lia. reflexivity.
Qed.

(** [shardShiftForDocs n] returns a shift [k] exactly when [n], as an
    int32, is [2^k] with [0 <= k <= 30]; for zero, a negative number or a
    non-power of two it returns [null]. *)
Theorem shardShiftForDocs_pow2 n k :
  shardShiftForDocs n = Some k <-> 0 <= k <= 30 /\ toInt32 n = 2 ^ k.
Proof. apply shardShiftForDocs_iff. Qed.

(** With the layout [init] builds, for a shard size in [(0, 2^31)] and [0
    <= docId < 2^32], [metaShardId] is [docId / shardDocs] and
    [metaLocalDocId] in that shard is [docId mod shardDocs], on the shift-
    and-mask path as on the division path. *)
Theorem metaShard_divmod stat total docId :
  let ml := initMetaLayout stat total in
  0 < metaShardDocs ml < 2 ^ 31 -> 0 <= docId < 2 ^ 32 ->
  metaShardId ml docId = docId / metaShardDocs ml /\
  metaLocalDocId ml docId (metaShardId ml docId) = docId mod metaShardDocs ml.
Proof.
  cbv zeta. intros Hd Hid.
  unfold metaShardId, metaLocalDocId, initMetaLayout; simpl in *.
  set (docs := match stat with
               | Some n => if 0 <? n then toInt32 n else total
               | None => total
               end) in *.
  destruct (shardShiftForDocs docs) as [k|] eqn:Hs.
  - apply shardShiftForDocs_iff in Hs as [Hk E].
    rewrite toInt32_id in E by lia. rewrite E.
    rewrite (Z.mod_small k 32) by lia.
    rewrite (Z.mod_small docId) by lia.
    split; [apply Z.shiftr_div_pow2; lia|].
    rewrite toInt32_idem.
    assert (0 < 2 ^ k) by (apply Z.pow_pos_nonneg; lia).
    rewrite (toInt32_id (2 ^ k - 1)) by (pose proof (Z.pow_le_mono_r 2 k 30); lia).
    replace (2 ^ k - 1) with (Z.ones k) by (rewrite Z.ones_equiv; lia).
    rewrite Z.land_ones by lia.
    assert (Hdiv : (2 ^ k | 2 ^ 32)).
    { exists (2 ^ (32 - k)). rewrite <- Z.pow_add_r by lia. f_equal. lia. }
    rewrite <- (Z.mod_mod_divide (toInt32 docId) (2 ^ 32) (2 ^ k) Hdiv).
    rewrite toInt32_mod, (Z.mod_mod_divide docId (2 ^ 32) (2 ^ k) Hdiv).
    pose proof (Z.mod_pos_bound docId (2 ^ k) ltac:(lia)).
    apply toInt32_id. pose proof (Z.pow_le_mono_r 2 k 30). lia.
  - split; [reflexivity|]. rewrite Z.mod_eq by lia. lia.
Qed.

(** ** Tokens *)

(** On UTF-16 code units, [tokenKey] is injective on the tokens it
    accepts: equal keys come from equal tokens, and every key is a
    [uint32]. *)
Theorem tokenKey_injective t1 t2 k1 k2 :
  Forall (fun c => 0 <= c < 65536) (t1 ++ t2) ->
  tokenKey t1 = Some k1 -> tokenKey t2 = Some k2 ->
  (k1 = k2 <-> t1 = t2) /\ 0 <= k1 < 2 ^ 32.
Proof.
  intros Hr H1 H2.
  destruct t1 as [|a [|b [|]]]; try discriminate.
  destruct t2 as [|c [|d [|]]]; try discriminate.
  simpl in *. injection H1 as <-. injection H2 as <-.
  rewrite !Forall_cons in Hr. destruct Hr as (Ha & Hb & Hc & Hd & _).
  split; [|lia]. split.
  - intros E. assert (a = c) by nia. assert (b = d) by nia. subst; reflexivity.
  - intros [= -> ->]. reflexivity.
Qed.

(** ** splitList *)

Lemma splitOn_concat sep text :
  concat (splitOn sep text) = List.filter (fun c => negb (c =? sep)) text.
Proof.
  induction text as [|c t IH]; [reflexivity|]. simpl.
  destruct (Z.eqb_spec c sep) as [->|Hne]; simpl; [exact IH|].
  destruct (splitOn sep t) as [|p ps]; simpl in *; rewrite <- IH; reflexivity.
Qed.

Lemma splitOn_no_sep sep text p : p ∈ splitOn sep text -> sep ∉ p.
Proof.
  revert p. induction text as [|c t IH]; intros p Hp; simpl in *.
  - apply list_elem_of_singleton in Hp as ->. apply not_elem_of_nil.
  - destruct (Z.eqb_spec c sep) as [->|Hne].
    + apply elem_of_cons in Hp as [->|Hp]; [apply not_elem_of_nil|auto].
    + destruct (splitOn sep t) as [|q ps] eqn:Hs.
      * apply list_elem_of_singleton in Hp as ->.
        rewrite list_elem_of_singleton. congruence.
      * apply elem_of_cons in Hp as [->|Hp].
        -- rewrite elem_of_cons. intros [E|E]; [congruence|].
           apply (IH q); [left|exact E].
        -- apply IH. right. exact Hp.
Qed.

Lemma concat_filter_nonempty (l : list (list Z)) :
  concat (filter (fun p => bool_decide (p <> [])) l) = concat l.
Proof.
  induction l as [|p l IH]; [reflexivity|]. rewrite filter_cons.
  case_decide as Hd; simpl; rewrite IH; [reflexivity|].
  destruct p; [reflexivity|]. exfalso. apply Hd.
  rewrite bool_decide_true by discriminate. exact I.
Qed.

(** [splitList] never returns an empty part nor a part containing the
    separator, and its parts concatenated give the text with every
    separator removed. *)
Theorem splitList_parts text sep :
  (forall p, p ∈ splitList text sep -> p <> [] /\ sep ∉ p) /\
  concat (splitList text sep) = List.filter (fun c => negb (c =? sep)) text.
Proof.
  unfold splitList. destruct text as [|c t].
  - rewrite (bool_decide_true (@nil Z = [])) by reflexivity.
    split; [intros p Hp; apply not_elem_of_nil in Hp; contradiction|reflexivity].
  - rewrite (bool_decide_false (c :: t = [])) by discriminate. split.
    + intros p Hp. apply list_elem_of_filter in Hp. destruct Hp as [Hne Hp].
      split; [apply bool_decide_unpack in Hne; exact Hne|].
      apply (splitOn_no_sep sep (c :: t)). exact Hp.
    + rewrite concat_filter_nonempty. apply splitOn_concat.
Qed.

(** ** uniqNgrams *)

Lemma fold_setAdd_elem {B} (f : B -> list Z) (l : list B) st w :
  w ∈ fold_left (fun st i => setAdd (f i) st) l st <-> w ∈ st \/ exists i, In i l /\ w = f i.
Proof.
  revert st. induction l as [|i l IH]; intros st; simpl.
  - split; [auto|]. intros [H|[i [[] _]]]; exact H.
  - rewrite IH, setAdd_elem. split.
    + intros [[E|H]|[j [Hj E]]]; eauto.
    + intros [H|[j [[<-|Hj] E]]]; eauto.
Qed.

Lemma fold_setAdd_NoDup {B} (f : B -> list Z) (l : list B) st :
  NoDup st -> NoDup (fold_left (fun st i => setAdd (f i) st) l st).
Proof.
  revert st. induction l as [|i l IH]; intros st H; simpl; [exact H|].
  apply IH, setAdd_NoDup, H.
Qed.

(** [uniqNgrams text n] is duplicate-free and holds exactly the windows
    [text[i, i + n)] with [i + n <= |text|]. *)
Theorem uniqNgrams_windows text n :
  NoDup (uniqNgrams text n) /\
  (forall w, w ∈ uniqNgrams text n <->
     exists i, (i + n <= length text)%nat /\ w = take n (drop i text)).
Proof.
  unfold uniqNgrams. destruct (Nat.ltb_spec (length text) n) as [Hlt|Hge].
  - split; [constructor|]. intros w. split.
    + intros Hw. apply not_elem_of_nil in Hw. contradiction.
    + intros [i [Hi _]]. lia.
  - split; [apply fold_setAdd_NoDup; constructor|].
    intros w. rewrite fold_setAdd_elem. split.
    + intros [Hw|[i [Hi E]]]; [apply not_elem_of_nil in Hw; contradiction|].
      apply in_seq in Hi. exists i. split; [lia|exact E].
    + intros [i [Hi E]]. right. exists i. split; [apply in_seq; lia|exact E].
Qed.

(** ** findKey *)

Lemma sorted_lookup_lt (keys : list Z) :
  Sorted Z.lt keys ->
  forall i j x y, (i < j)%nat -> keys !! i = Some x -> keys !! j = Some y -> x < y.
Proof.
  intros Hs. apply Sorted_StronglySorted in Hs; [|intros a b c; lia].
  induction Hs as [|a l Hl IH Hf]; intros i j x y Hij Hi Hj; [discriminate|].
  destruct j as [|j]; [lia|]. destruct i as [|i].
  - simpl in Hi, Hj. injection Hi as <-.
    rewrite Forall_forall in Hf. apply Hf.
    apply list_elem_of_lookup. eauto.
  - simpl in Hi, Hj. eapply IH; [|exact Hi|exact Hj]. lia.
Qed.

Lemma zget0_in (keys : list Z) p :
  0 <= p < Z.of_nat (length keys) -> zlookup keys p = Some (zget0 keys p).
Proof.
  intros Hp. unfold zget0. destruct (zlookup keys p) eqn:E; [reflexivity|].
  pose proof (proj2 (zlookup_is_Some keys p) Hp) as [v Hv]. congruence.
Qed.

Lemma zget0_mono (keys : list Z) p q :
  Sorted Z.lt keys -> 0 <= p -> p < q -> q < Z.of_nat (length keys) ->
  zget0 keys p < zget0 keys q.
Proof.
  intros Hs Hp Hpq Hq.
  pose proof (zget0_in keys p ltac:(lia)) as Ep.
  pose proof (zget0_in keys q ltac:(lia)) as Eq.
  unfold zlookup in Ep, Eq.
  destruct (Z.ltb_spec p 0); [lia|]. destruct (Z.ltb_spec q 0); [lia|].
  eapply (sorted_lookup_lt keys Hs (Z.to_nat p) (Z.to_nat q)); [lia|exact Ep|exact Eq].
Qed.

Lemma findKeyLoop_spec keys key :
  Sorted Z.lt keys ->
  forall fuel lo hi, 0 <= lo -> hi < Z.of_nat (length keys) -> hi - lo + 1 < Z.of_nat fuel ->
  let r := findKeyLoop fuel keys key lo hi in
  (r = -1 /\ forall p, lo <= p <= hi -> zget0 keys p <> key) \/
  (lo <= r <= hi /\ zget0 keys r = key).
Proof.
  intros Hs fuel. induction fuel as [|f IH]; intros lo hi Hlo Hhi Hf; simpl.
  - left. split; [reflexivity|]. intros p Hp. lia.
  - destruct (Z.leb_spec lo hi) as [Hle|Hgt].
    2:{ left. split; [reflexivity|]. intros p Hp. lia. }
    set (mid := Z.shiftr (lo + hi) 1).
    assert (Hmid : lo <= mid <= hi).
    { unfold mid. rewrite Z.shiftr_div_pow2 by lia. change (2 ^ 1) with 2.
      split; [apply Z.div_le_lower_bound|apply Z.div_le_upper_bound]; lia. }
    destruct (Z.eqb_spec (zget0 keys mid) key) as [E|Ne].
    + right. split; [lia|exact E].
    + destruct (Z.ltb_spec (zget0 keys mid) key) as [Lt|Ge].
      * destruct (IH (mid + 1) hi ltac:(lia) Hhi ltac:(lia)) as [[R Hn]|[R E]].
        -- left. split; [exact R|]. intros p Hp.
           destruct (Z.leb_spec p mid).
           ++ destruct (Z.eq_dec p mid) as [->|Hpm]; [exact Ne|].
              pose proof (zget0_mono keys p mid Hs ltac:(lia) ltac:(lia) ltac:(lia)). lia.
           ++ apply Hn. lia.
        -- right. split; [lia|exact E].
      * destruct (IH lo (mid - 1) Hlo ltac:(lia) ltac:(lia)) as [[R Hn]|[R E]].
        -- left. split; [exact R|]. intros p Hp.
           destruct (Z.leb_spec mid p).
           ++ destruct (Z.eq_dec p mid) as [->|Hpm]; [exact Ne|].
              pose proof (zget0_mono keys mid p Hs ltac:(lia) ltac:(lia) ltac:(lia)). lia.
           ++ apply Hn. lia.
        -- right. split; [lia|exact E].
Qed.

Lemma findKey_spec keys key :
  Sorted Z.lt keys ->
  (key ∈ keys -> 0 <= findKey keys key /\ zlookup keys (findKey keys key) = Some key) /\
  (key ∉ keys -> findKey keys key = -1).
Proof.
  intros Hs. unfold findKey.
  destruct (findKeyLoop_spec keys key Hs (S (length keys)) 0 (Z.of_nat (length keys) - 1)
              ltac:(lia) ltac:(lia) ltac:(lia)) as [[R Hn]|[R E]]; cbv zeta in *.
  - split; [|intros; exact R].
    intros Hin. exfalso. apply list_elem_of_lookup in Hin as [i Hi].
    pose proof (lookup_lt_Some _ _ _ Hi).
    apply (Hn (Z.of_nat i)); [lia|].
    unfold zget0, zlookup. destruct (Z.ltb_spec (Z.of_nat i) 0); [lia|].
    rewrite Nat2Z.id, Hi. reflexivity.
  - assert (Hl : zlookup keys (findKeyLoop (S (length keys)) keys key 0 (Z.of_nat (length keys) - 1))
                 = Some key).
    { rewrite zget0_in by lia. rewrite E. reflexivity. }
    split; [intros _; split; [lia|exact Hl]|].
    intros Hn. exfalso. apply Hn. unfold zlookup in Hl.
    destruct (_ <? 0); [discriminate|]. apply list_elem_of_lookup. eauto.
Qed.

(** On a strictly increasing key array, [findKey] returns an index that
    holds the key when the key is present, and [-1] when it is absent. *)
Theorem findKey_sorted keys key :
  Sorted Z.lt keys ->
  (key ∈ keys -> 0 <= findKey keys key /\ zlookup keys (findKey keys key) = Some key) /\
  (key ∉ keys -> findKey keys key = -1).
Proof. apply findKey_spec. Qed.

(** ** collectTokenIdxs *)

Lemma setAddZ_elem x y st : x ∈ setAddZ y st <-> x = y \/ x ∈ st.
Proof.
  unfold setAddZ. case_bool_decide as H.
  - split; [auto|]. intros [->|Hx]; assumption.
  - rewrite elem_of_app, list_elem_of_singleton. tauto.
Qed.

Lemma setAddZ_NoDup y st : NoDup st -> NoDup (setAddZ y st).
Proof.
  unfold setAddZ. case_bool_decide as H; intros Hn; [exact Hn|].
  apply NoDup_app. split; [exact Hn|]. split; [|apply NoDup_singleton].
  intros x Hx Hy. apply list_elem_of_singleton in Hy. subst. contradiction.
Qed.

Lemma lookupTokenIdxs_app d toks acc :
  fold_left (fun idxs token =>
    match tokenKey token with
    | None => idxs
    | Some key => let idx := findKey (dict_keys d) key in
                  if idx <? 0 then idxs else idxs ++ [idx]
    end) toks acc = acc ++ lookupTokenIdxs d toks.
Proof.
  unfold lookupTokenIdxs. revert acc. induction toks as [|t toks IH]; intros acc; simpl.
  - rewrite app_nil_r. reflexivity.
  - rewrite IH, (IH (match tokenKey t with Some _ => _ | None => [] end)).
    destruct (tokenKey t); simpl; [|reflexivity].
    destruct (findKey _ _ <? 0); simpl; [reflexivity|]. rewrite <- app_assoc. reflexivity.
Qed.

Lemma lookupTokenIdxs_cons d t toks :
  lookupTokenIdxs d (t :: toks) =
  match tokenKey t with
  | None => []
  | Some key => let idx := findKey (dict_keys d) key in if idx <? 0 then [] else [idx]
  end ++ lookupTokenIdxs d toks.
Proof.
  unfold lookupTokenIdxs at 1. simpl. rewrite lookupTokenIdxs_app. reflexivity.
Qed.

Lemma collect_inner_elem d toks acc idx :
  idx ∈ fold_left (fun idxs token =>
    match tokenKey token with
    | None => idxs
    | Some key => let idx := findKey (dict_keys d) key in
                  if idx <? 0 then idxs else setAddZ idx idxs
    end) toks acc <-> idx ∈ acc \/ idx ∈ lookupTokenIdxs d toks.
Proof.
  revert acc. induction toks as [|t toks IH]; intros acc; simpl.
  - unfold lookupTokenIdxs. simpl. split; [auto|]. intros [H|H]; [exact H|].
    apply not_elem_of_nil in H. contradiction.
  - rewrite IH, lookupTokenIdxs_cons, elem_of_app.
    destruct (tokenKey t); simpl; [|split; [intros [H|H]; auto|intros [H|[H|H]]; auto;
                                           apply not_elem_of_nil in H; contradiction]].
    destruct (findKey _ _ <? 0); simpl.
    + split; [intros [H|H]; auto|intros [H|[H|H]]; auto; apply not_elem_of_nil in H; contradiction].
    + rewrite setAddZ_elem, list_elem_of_singleton. tauto.
Qed.

Lemma collect_inner_NoDup d toks acc :
  NoDup acc ->
  NoDup (fold_left (fun idxs token =>
    match tokenKey token with
    | None => idxs
    | Some key => let idx := findKey (dict_keys d) key in
                  if idx <? 0 then idxs else setAddZ idx idxs
    end) toks acc).
Proof.
  revert acc. induction toks as [|t toks IH]; intros acc Hn; simpl; [exact Hn|].
  apply IH. destruct (tokenKey t); [|exact Hn].
  cbv zeta. destruct (_ <? 0); [exact Hn|]. apply setAddZ_NoDup, Hn.
Qed.

Lemma collectTokenIdxs_elem d terms idx :
  idx ∈ collectTokenIdxs d terms <->
  exists T, T ∈ terms /\ idx ∈ lookupTokenIdxs d (uniqNgrams T (dict_n d)).
Proof.
  unfold collectTokenIdxs.
  assert (G : forall acc, idx ∈ fold_left (fun idxs term =>
    fold_left (fun idxs token =>
      match tokenKey token with
      | None => idxs
      | Some key => let idx := findKey (dict_keys d) key in
                    if idx <? 0 then idxs else setAddZ idx idxs
      end) (uniqNgrams term (dict_n d)) idxs) terms acc <->
    idx ∈ acc \/ exists T, T ∈ terms /\ idx ∈ lookupTokenIdxs d (uniqNgrams T (dict_n d))).
  { induction terms as [|T terms IH]; intros acc; simpl.
    - split; [auto|]. intros [H|[T [HT _]]]; [exact H|]. apply not_elem_of_nil in HT. contradiction.
    - rewrite IH, collect_inner_elem. split.
      + intros [[H|H]|[T' [HT H]]]; [auto|right; exists T|right; exists T'];
          rewrite ?elem_of_cons; auto.
      + intros [H|[T' [HT H]]]; [auto|]. apply elem_of_cons in HT as [->|HT]; eauto. }
  rewrite G. split; [intros [H|H]; [apply not_elem_of_nil in H; contradiction|exact H]|auto].
Qed.

Lemma collectTokenIdxs_NoDup d terms : NoDup (collectTokenIdxs d terms).
Proof.
  unfold collectTokenIdxs.
  assert (G : forall acc, NoDup acc -> NoDup (fold_left (fun idxs term =>
    fold_left (fun idxs token =>
      match tokenKey token with
      | None => idxs
      | Some key => let idx := findKey (dict_keys d) key in
                    if idx <? 0 then idxs else setAddZ idx idxs
      end) (uniqNgrams term (dict_n d)) idxs) terms acc)).
  { induction terms as [|T terms IH]; intros acc Hn; simpl; [exact Hn|].
    apply IH, collect_inner_NoDup, Hn. }
  apply G. constructor.
Qed.

(** [collectTokenIdxs] lists each dictionary index at most once, and
    exactly the indexes found for the accepted n-gram tokens of the terms. *)
Theorem collectTokenIdxs_spec d terms :
  NoDup (collectTokenIdxs d terms) /\
  (forall idx, idx ∈ collectTokenIdxs d terms <->
     exists T, T ∈ terms /\ idx ∈ lookupTokenIdxs d (uniqNgrams T (dict_n d))).
Proof. split; [apply collectTokenIdxs_NoDup|apply collectTokenIdxs_elem]. Qed.

(** ** Loading index shards *)

Lemma setIndexCache_self e : setIndexCache e (indexCache e) = e.
Proof. destruct e; reflexivity. Qed.

Lemma setIndexCache_twice e c c' : setIndexCache (setIndexCache e c) c' = setIndexCache e c'.
Proof. reflexivity. Qed.

Section LoadingProofs.
Variable loadAsset : AssetRef -> option (list Z).

Lemma loadIndexShard_spec plan e id e' :
  loadIndexShard loadAsset plan e id = Some e' -> loadedFrom loadAsset plan e e' [id].
Proof.
  unfold loadIndexShard, loadedFrom. destruct (indexCache e !! id) as [u|] eqn:Hc.
  - intros [= <-]. split; [symmetry; apply setIndexCache_self|].
    split; [intros i Hi; apply list_elem_of_singleton in Hi as ->; eauto|].
    split; auto.
  - destruct (getIndexAsset plan id) as [a|] eqn:Ha; [|discriminate].
    destruct (loadAsset a) as [u8|] eqn:Hl; [|discriminate].
    intros [= <-]. simpl. split; [reflexivity|]. split.
    { intros i Hi. apply list_elem_of_singleton in Hi as ->. rewrite lookup_insert_eq. eauto. }
    split.
    + intros k v Hk. destruct (Z.eq_dec k id) as [->|Hne]; [congruence|].
      rewrite lookup_insert_ne by congruence. exact Hk.
    + intros k v Hk. destruct (Z.eq_dec k id) as [->|Hne].
      * rewrite lookup_insert_eq in Hk. injection Hk as <-. right. eauto.
      * rewrite lookup_insert_ne in Hk by congruence. left. exact Hk.
Qed.

Lemma loadShards_None plan ids :
  fold_left (fun acc id => match acc with
                           | None => None
                           | Some e' => loadIndexShard loadAsset plan e' id
                           end) ids None = None.
Proof. induction ids; simpl; auto. Qed.

Lemma loadShards_spec plan ids e e' :
  loadShards loadAsset plan e ids = Some e' -> loadedFrom loadAsset plan e e' ids.
Proof.
  unfold loadShards. revert e. induction ids as [|id ids IH]; intros e H; simpl in H.
  - injection H as <-. unfold loadedFrom.
    split; [symmetry; apply setIndexCache_self|].
    split; [intros i Hi; apply not_elem_of_nil in Hi; contradiction|]. split; auto.
  - destruct (loadIndexShard loadAsset plan e id) as [e0|] eqn:H0;
      [|rewrite loadShards_None in H; discriminate].
    apply loadIndexShard_spec in H0 as (E0 & S0 & M0 & P0).
    apply IH in H as (E1 & S1 & M1 & P1).
    split; [rewrite E1, E0; reflexivity|].
    split; [|split].
    + intros i Hi. apply elem_of_cons in Hi as [->|Hi]; [|auto].
      destruct (S0 id (proj2 (list_elem_of_singleton _ _) eq_refl)) as [v Hv]. exists v. apply M1, Hv.
    + auto.
    + intros k v Hk. destruct (P1 k v Hk) as [H|H]; [|right; exact H].
      apply P0. exact H.
Qed.

Lemma loadShards_cached plan ids e :
  (forall id, id ∈ ids -> is_Some (indexCache e !! id)) -> loadShards loadAsset plan e ids = Some e.
Proof.
  unfold loadShards. induction ids as [|id ids IH]; intros H; simpl; [reflexivity|].
  unfold loadIndexShard at 2.
  destruct (H id (list_elem_of_here _ _)) as [v Hv]. rewrite Hv.
  apply IH. intros i Hi. apply H. right. exact Hi.
Qed.

End LoadingProofs.

Lemma tokenShardIds_elem d idxs x :
  x ∈ tokenShardIds d idxs <-> exists idx, idx ∈ idxs /\ x = dictShardId d idx.
Proof.
  unfold tokenShardIds.
  assert (G : forall st, x ∈ fold_left (fun st idx => setAddZ (dictShardId d idx) st) idxs st <->
                         x ∈ st \/ exists idx, idx ∈ idxs /\ x = dictShardId d idx).
  { induction idxs as [|i idxs IH]; intros st; simpl.
    - split; [auto|]. intros [H|[i [Hi _]]]; [exact H|]. apply not_elem_of_nil in Hi. contradiction.
    - rewrite IH, setAddZ_elem. split.
      + intros [[->|H]|[j [Hj ->]]]; [right; exists i; split; [left|reflexivity]|auto|].
        right. exists j. split; [right; exact Hj|reflexivity].
      + intros [H|[j [Hj ->]]]; [auto|]. apply elem_of_cons in Hj as [->|Hj]; [auto|].
        right. eauto. }
  rewrite G. split; [intros [H|H]; [apply not_elem_of_nil in H; contradiction|exact H]|auto].
Qed.

(** When [ensureIndexForTokenIdxs] succeeds, the shard of every requested
    token index is cached; nothing but the cache changes, cached shards
    are kept, and each new entry is the loaded asset [getIndexAsset] names
    for its shard. *)
Theorem ensureIndex_loaded loadAsset plan e idxs e' :
  ensureIndexForTokenIdxs loadAsset plan e idxs = Some e' ->
  e' = setIndexCache e (indexCache e') /\
  (forall idx, idx ∈ idxs -> is_Some (indexCache e' !! dictShardId (dict e) idx)) /\
  (forall k v, indexCache e !! k = Some v -> indexCache e' !! k = Some v) /\
  (forall k v, indexCache e' !! k = Some v ->
     indexCache e !! k = Some v \/ exists a, getIndexAsset plan k = Some a /\ loadAsset a = Some v).
Proof.
  unfold ensureIndexForTokenIdxs. case_bool_decide as Hn.
  - intros [= <-]. subst idxs. split; [symmetry; apply setIndexCache_self|].
    split; [intros i Hi; apply not_elem_of_nil in Hi; contradiction|]. split; auto.
  - destruct (_ && _); [discriminate|]. intros H.
    apply loadShards_spec in H as (E & S & M & P).
    split; [exact E|]. split; [|split; assumption].
    intros idx Hidx. apply S, tokenShardIds_elem. eauto.
Qed.

(** After [preloadIndex] succeeds on a plan that fits the dictionary
    version, [ensureIndexForTokenIdxs] on token indexes whose shard ids
    lie in the plan succeeds without loading anything: the state is
    unchanged, whatever a further load would do. *)
Theorem preloadIndex_then_ensure loadAsset loadAsset' plan e e1 idxs :
  preloadIndex loadAsset plan e = Some e1 ->
  negb ((dict_version (dict e) =? 1) && isSharded plan) = true ->
  (forall idx, idx ∈ idxs -> 0 <= dictShardId (dict e) idx < indexShardCount plan) ->
  ensureIndexForTokenIdxs loadAsset' plan e1 idxs = Some e1.
Proof.
  intros Hp Hv Hr. unfold preloadIndex in Hp.
  destruct (_ && _) eqn:Hb; [discriminate|]. clear Hv.
  unfold ensureIndexForTokenIdxs. case_bool_decide as Hn; [reflexivity|].
  destruct (Z.leb_spec (indexShardCount plan) 0) as [Hle|Hgt].
  - exfalso. destruct idxs as [|i idxs]; [contradiction|].
    specialize (Hr i (list_elem_of_here _ _)). lia.
  - apply loadShards_spec in Hp as (E & S & _ & _).
    assert (Hd : dict e1 = dict e) by (rewrite E; reflexivity).
    rewrite Hd, Hb. apply loadShards_cached.
    intros id Hid. apply tokenShardIds_elem in Hid as [idx [Hidx ->]].
    apply S. apply list_elem_of_In, in_map_iff. exists (Z.to_nat (dictShardId (dict e) idx)).
    specialize (Hr idx Hidx). split; [lia|]. apply in_seq. lia.
Qed.

(** ** No unloaded shard after [searchAsync] *)

Lemma buildItems_err e l er : buildItems e l = Err er -> er = MetaShardMissing.
Proof.
  induction l as [|d l IH]; simpl; [discriminate|].
  unfold buildItem. destruct (mjoin _); [|intros [= <-]; reflexivity].
  destruct (buildItems e l); [discriminate|]. intros H. apply IH. congruence.
Qed.

Lemma finish_err e msg pl ids er : finish e msg pl ids = Err er -> er = MetaShardMissing.
Proof.
  unfold finish. destruct (buildItems _ _) eqn:E; [discriminate|].
  intros [= <-]. eapply buildItems_err, E.
Qed.

Lemma countPostings_noerr e skip idxs cnt tch :
  (forall idx, idx ∈ idxs -> is_Some (decodeTokenIdxPostings e idx)) ->
  snd (countPostings e skip idxs cnt tch) = None.
Proof.
  revert cnt tch. induction idxs as [|idx idxs IH]; intros cnt tch H; simpl; [reflexivity|].
  destruct (H idx (list_elem_of_here _ _)) as [docIds Hd]. rewrite Hd.
  destruct (fold_left _ _ _) as [c t]. apply IH. intros i Hi. apply H. right. exact Hi.
Qed.

Lemma sortByDf_elem d l x : x ∈ sortByDf d l <-> x ∈ l.
Proof. unfold sortByDf. rewrite (sortBy_perm _ l). reflexivity. Qed.

Lemma excludeLoop_noerr e terms cnt mask :
  termsLoaded e terms -> snd (excludeLoop e terms cnt mask) = None.
Proof.
  revert cnt mask. induction terms as [|T terms IH]; intros cnt mask H; simpl; [reflexivity|].
  assert (H' : termsLoaded e terms) by (intros T' i HT; apply H; right; exact HT).
  case_bool_decide; [apply IH, H'|]. case_bool_decide; [apply IH, H'|].
  destruct (countPostings _ _ _ _ _) as [[c1 tt] err] eqn:Hc.
  assert (err = None) as ->.
  { change err with (snd (c1, tt, err)). rewrite <- Hc. apply countPostings_noerr.
    intros idx Hidx. apply sortByDf_elem in Hidx. apply (H T); [left|exact Hidx]. }
  destruct (fold_left _ _ _) as [c2 m2]. apply IH, H'.
Qed.

Lemma multiTermLoop_noerr e skip rel terms cnt sc cands :
  termsLoaded e terms -> snd (multiTermLoop e skip rel terms cnt sc cands) = None.
Proof.
  revert cnt sc cands. induction terms as [|T terms IH]; intros cnt sc cands H; simpl; [reflexivity|].
  assert (H' : termsLoaded e terms) by (intros T' i HT; apply H; right; exact HT).
  case_bool_decide; [apply IH, H'|]. case_bool_decide; [apply IH, H'|].
  destruct (countPostings _ _ _ _ _) as [[c1 tt] err] eqn:Hc.
  assert (err = None) as ->.
  { change err with (snd (c1, tt, err)). rewrite <- Hc. apply countPostings_noerr.
    intros idx Hidx. apply sortByDf_elem in Hidx. apply (H T); [left|exact Hidx]. }
  destruct (fold_left _ _ _) as [[c2 s2] cs2]. apply IH, H'.
Qed.

Section NoIndexError.
Variable normText : list Z -> list Z.

#[local] Opaque multiTermLoop countPostings singleTermScores multiTermBonus excludeLoop.

Lemma searchMiss_noIndexErr s msg er :
  let pl := makePlan normText (eng s) msg in
  termsLoaded (eng s) (pl_include pl ++ pl_exclude pl) ->
  snd (searchMiss normText s msg pl) = Err er -> er = MetaShardMissing.
Proof.
  cbv zeta. intros H. set (pl := makePlan normText (eng s) msg) in *.
  assert (Hin : termsLoaded (eng s) (pl_include pl))
    by (intros T i HT; apply H; apply elem_of_app; left; exact HT).
  assert (Hex : termsLoaded (eng s) (pl_exclude pl))
    by (intros T i HT; apply H; apply elem_of_app; right; exact HT).
  unfold searchMiss.
  remember (if bool_decide (pl_exclude pl = []) then (counts s, None, None)
            else let '(c, m, er) := buildExcludeMask (eng s) (counts s) (pl_exclude pl) in
                 (c, Some m, er)) as E0 eqn:HE0.
  assert (Herr0 : snd E0 = None).
  { rewrite HE0. case_bool_decide; [reflexivity|]. unfold buildExcludeMask.
    destruct (excludeLoop _ _ _ _) as [[c m] err] eqn:Hel.
    change err with (snd (c, m, err)). rewrite <- Hel. apply excludeLoop_noerr, Hex. }
  destruct E0 as [[cnt0 exm] err0]. simpl in Herr0. subst err0. clear HE0.
  destruct (negb (pl_hasQuery pl)).
  { destruct (_ && _ && _ && _ && _ && _ && _ && _); simpl; [discriminate|apply finish_err]. }
  destruct (pl_include pl) as [|T [|T2 rest]] eqn:Hinc.
  - simpl. apply finish_err.
  - case_bool_decide as Hi; [simpl; discriminate|].
    match goal with |- context [countPostings ?a ?b ?c ?f ?g] =>
      pose proof (countPostings_noerr a b c f g) as Hc;
      destruct (countPostings a b c f g) as [[cnt1 tch1] err1] eqn:Hc1 end.
    assert (err1 = None) as ->.
    { apply Hc. intros idx Hidx. apply sortByDf_elem in Hidx.
      pose proof (makePlan_queryTokens normText (eng s) msg) as Q. fold pl in Q.
      assert (Hpi : pl_include pl = pq_include (parseQuery normText (q msg)))
        by apply (makePlan_fields normText (eng s) msg).
      rewrite <- Hpi, Hinc in Q. cbv zeta in Q. rewrite Q in Hidx.
      destruct (bool_decide (T = [])); [apply not_elem_of_nil in Hidx; contradiction|].
      apply (Hin T); [left|exact Hidx]. }
    destruct (sort msg).
    + destruct (singleTermScores _ _ _ _ _ _ _ _) as [sc2 cands]. simpl. apply finish_err.
    + simpl. apply finish_err.
    + simpl. apply finish_err.
  - match goal with |- context [multiTermLoop ?a ?b ?c ?f ?g ?h ?i] =>
      pose proof (multiTermLoop_noerr a b c f g h i) as Hm;
      destruct (multiTermLoop a b c f g h i) as [[[cnt1 sc1] cands] err1] eqn:Hm1 end.
    assert (err1 = None) as ->.
    { apply Hm. exact Hin. }
    destruct (bool_decide_reflect (cands = [])); [simpl; discriminate|].
    destruct (if bool_decide (sort msg = Relevance) then _ else _) as [sc2 sorted].
    simpl. apply finish_err.
Qed.

End NoIndexError.

(** When [searchAsync] completes, its search never raises the index-not-
    loaded error: the only error left is a missing meta shard while
    building the items. *)
Theorem searchAsync_no_IndexNotLoaded loadAsset normText plan s msg s' r :
  searchAsync loadAsset normText plan s msg = Some (s', r) ->
  forall er, r = Err er -> er = MetaShardMissing.
Proof.
  unfold searchAsync. intros H er ->.
  pose proof (makePlan_fields normText (eng s) msg) as PF. simpl in PF.
  destruct PF as (PFi & PFe & _).
  destruct (bool_decide (pq_include _ = []) && bool_decide (pq_exclude _ = [])) eqn:Hb.
  - injection H as Hr.
    assert (Hs : snd (searchSync normText s msg) = Err er) by (rewrite Hr; reflexivity).
    clear Hr. unfold searchSync in Hs.
    apply andb_true_iff in Hb as [Hb1 Hb2].
    apply bool_decide_eq_true in Hb1, Hb2.
    assert (HL : termsLoaded (eng s) (pl_include (makePlan normText (eng s) msg)
                                      ++ pl_exclude (makePlan normText (eng s) msg))).
    { rewrite PFi, PFe, Hb1, Hb2. intros T i HT. apply not_elem_of_nil in HT. contradiction. }
    destruct (cache s) as [[k ids]|].
    + case_bool_decide; [apply (finish_err _ _ _ _ _ Hs)|].
      apply (searchMiss_noIndexErr normText s msg er HL Hs).
    + apply (searchMiss_noIndexErr normText s msg er HL Hs).
  - destruct (ensureIndexForTokenIdxs _ _ _ _) as [e'|] eqn:He; [|discriminate].
    injection H as Hr.
    assert (Hs : snd (searchSync normText (setEng s e') msg) = Err er) by (rewrite Hr; reflexivity).
    clear Hr.
    apply ensureIndex_loaded in He as (E & S & _ & _).
    assert (Hd : dict e' = dict (eng s)) by (rewrite E; reflexivity).
    pose proof (makePlan_fields normText e' msg) as PF'. simpl in PF'.
    destruct PF' as (PFi' & PFe' & _).
    assert (HL : termsLoaded e' (pl_include (makePlan normText e' msg)
                                 ++ pl_exclude (makePlan normText e' msg))).
    { rewrite PFi', PFe'. intros T idx HT Hidx. rewrite Hd in Hidx.
      assert (Hc : idx ∈ collectTokenIdxs (dict (eng s))
                     (pq_include (parseQuery normText (q msg)) ++ pq_exclude (parseQuery normText (q msg))))
        by (apply collectTokenIdxs_elem; eauto).
      destruct (S idx Hc) as [index Hix].
      unfold decodeTokenIdxPostings. rewrite Hd, Hix. eauto. }
    unfold searchSync in Hs. cbn [eng setEng cache] in Hs.
    destruct (cache s) as [[k ids]|].
    + case_bool_decide; [apply (finish_err _ _ _ _ _ Hs)|].
      apply (searchMiss_noIndexErr normText (setEng s e') msg er HL Hs).
    + apply (searchMiss_noIndexErr normText (setEng s e') msg er HL Hs).
Qed.

(** ** Filters and exclusions in the resolved sequence *)

Lemma existsb_false_elem {A} (f : A -> bool) l x : existsb f l = false -> x ∈ l -> f x = false.
Proof.
  intros H Hx. apply list_elem_of_In in Hx. destruct (f x) eqn:E; [|reflexivity].
  assert (existsb f l = true) by (apply existsb_exists; eauto). congruence.
Qed.

Lemma sel_bits t bits sel selHi b :
  maskFromBits bits = (sel, selHi) -> 0 <= b < 32 -> b ∈ bits ->
  (toInt32 (Z.land (toInt32 t) sel) =? sel) = true -> Z.testbit t b = true.
Proof.
  intros M Hb Hin H. destruct (maskFromBits_spec _ _ _ M) as (F1 & _ & B1 & _).
  apply (proj1 (selOk_iff t sel F1) H b Hb). rewrite B1 by exact Hb.
  apply existsb_exists. exists b. split; [apply list_elem_of_In, Hin|apply Z.eqb_refl].
Qed.

Lemma sel_bits_hi t bits selLo sel b :
  maskFromBits bits = (selLo, sel) -> 32 <= b < 64 -> b ∈ bits ->
  (toInt32 (Z.land (toInt32 t) sel) =? sel) = true -> Z.testbit t (b - 32) = true.
Proof.
  intros M Hb Hin H. destruct (maskFromBits_spec _ _ _ M) as (_ & F2 & _ & B2).
  apply (proj1 (selOk_iff t sel F2) H (b - 32)); [lia|]. rewrite B2 by lia.
  apply existsb_exists. exists b. split; [apply list_elem_of_In, Hin|]. apply Z.eqb_eq. lia.
Qed.

Lemma ex_bits t ex b :
  toInt32 ex = ex -> 0 <= b < 32 -> Z.testbit ex b = true ->
  negb (negb (ex =? 0) && negb (toInt32 (Z.land (toInt32 t) ex) =? 0)) = true ->
  Z.testbit t b = false.
Proof.
  intros F Hb Hx H. destruct (Z.eqb_spec ex 0) as [->|Hne].
  { rewrite Z.testbit_0_l in Hx. discriminate. }
  simpl in H. apply negb_true_iff, negb_false_iff, Z.eqb_eq in H.
  assert (Hb' : Z.testbit (toInt32 (Z.land (toInt32 t) ex)) b = false) by (rewrite H; apply Z.testbit_0_l).
  rewrite testbit_toInt32, Z.land_spec, testbit_toInt32, Hx, andb_true_r in Hb' by exact Hb.
  exact Hb'.
Qed.

(** From clean scratch buffers, every doc of the sequence a search
    resolves lies in [[0, totalCount)], has every selected tag bit below
    64 set and no excluded one, and reaches the threshold of no exclude
    term. *)
Theorem resolve_filters normText s msg R d :
  clean s -> length (counts s) = Z.to_nat (totalCount (eng s)) ->
  resolve normText s msg = Some R -> d ∈ R ->
  let e := eng s in
  0 <= d < totalCount e /\
  (forall b, b ∈ tagBits msg -> 0 <= b < 32 -> Z.testbit (zget0 (metaTagLo e) d) b = true) /\
  (forall b, b ∈ tagBits msg -> 32 <= b < 64 -> Z.testbit (zget0 (metaTagHi e) d) (b - 32) = true) /\
  (forall b, b ∈ excludeTagBits msg -> 0 <= b < 32 -> Z.testbit (zget0 (metaTagLo e) d) b = false) /\
  (forall b, b ∈ excludeTagBits msg -> 32 <= b < 64 ->
     Z.testbit (zget0 (metaTagHi e) d) (b - 32) = false) /\
  (forall T, T ∈ pq_exclude (parseQuery normText (q msg)) ->
     termHit e (uniqNgrams T (dict_n (dict e))) d = false).
Proof.
  intros Hcl Hlen HR Hd. cbv zeta.
  apply (resolve_inResult normText s msg R Hcl Hlen HR d) in Hd.
  pose proof (makePlan_fields normText (eng s) msg) as PF. simpl in PF.
  destruct PF as (_ & PFe & PFs & PFx & PFq & _).
  set (pl := makePlan normText (eng s) msg) in *.
  unfold inResult in Hd. fold pl in Hd.
  apply andb_true_iff in Hd as [Hd Hrest]. apply andb_true_iff in Hd as [Hd Hpass].
  rewrite range_bool in Hd. apply bool_decide_eq_true in Hd.
  split; [exact Hd|].
  unfold passesFilters in Hpass. rewrite sel_guard in Hpass.
  apply andb_true_iff in Hpass as [Hpass _]. apply andb_true_iff in Hpass as [Hpass _].
  apply andb_true_iff in Hpass as [Hpass _]. apply andb_true_iff in Hpass as [Hpass _].
  apply andb_true_iff in Hpass as [Hpass Hxh]. apply andb_true_iff in Hpass as [Hpass Hxl].
  apply andb_true_iff in Hpass as [Hsl Hsh].
  destruct (maskFromBits (tagBits msg)) as [sl sh] eqn:MS.
  destruct (maskFromBits (excludeTagBits msg)) as [xl xh] eqn:MX.
  injection PFs as Esl Esh. injection PFx as Exl Exh.
  rewrite Esl, Esh in *. rewrite Exl, Exh in *.
  destruct (maskFromBits_spec _ _ _ MX) as (FX1 & FX2 & BX1 & BX2).
  split; [intros b Hb Hr; exact (sel_bits _ _ _ _ _ MS Hr Hb Hsl)|].
  split; [intros b Hb Hr; exact (sel_bits_hi _ _ _ _ _ MS Hr Hb Hsh)|].
  split.
  { intros b Hb Hr. apply (ex_bits _ xl b FX1 Hr); [|exact Hxl]. rewrite BX1 by exact Hr.
    apply existsb_exists. exists b. split; [apply list_elem_of_In, Hb|apply Z.eqb_refl]. }
  split.
  { intros b Hb Hr. apply (ex_bits _ xh (b - 32) FX2); [lia| |exact Hxh]. rewrite BX2 by lia.
    apply existsb_exists. exists b. split; [apply list_elem_of_In, Hb|]. apply Z.eqb_eq. lia. }
  intros T HT. rewrite <- PFe in HT.
  destruct (pl_hasQuery pl) eqn:Hq.
  - simpl in Hrest. apply andb_true_iff in Hrest as [Hx _]. apply negb_true_iff in Hx.
    exact (existsb_false_elem _ _ _ Hx HT).
  - symmetry in PFq. apply orb_false_iff in PFq as [_ Hq'].
    apply negb_false_iff, bool_decide_eq_true in Hq'. rewrite Hq' in HT.
    apply not_elem_of_nil in HT. contradiction.
Qed.

(** ** [tagsFromMask] after [maskFromBits] *)

Lemma fold_push_filter {A B} (g : list B -> A -> list B) (p : A -> bool) (f : A -> B) l acc :
  (forall out x, g out x = if p x then out ++ [f x] else out) ->
  fold_left g l acc = acc ++ map f (List.filter p l).
Proof.
  intros Hg. revert acc. induction l as [|x l IH]; intros acc; simpl.
  - rewrite app_nil_r. reflexivity.
  - rewrite IH, Hg. destruct (p x); simpl; [rewrite <- app_assoc|]; reflexivity.
Qed.

Lemma land_shiftr_1 x b : 0 <= b -> (Z.land (Z.shiftr x b) 1 =? 1) = Z.testbit x b.
Proof.
  intros Hb. change (Z.land (Z.shiftr x b) 1) with (Z.land (Z.shiftr x b) (Z.ones 1)).
  rewrite Z.land_ones by lia. change (2 ^ 1) with 2.
  rewrite <- Z.bit0_eqb, Z.shiftr_spec by lia. rewrite Z.add_0_l. reflexivity.
Qed.

(** For a tag table of at most 64 entries, [tagsFromMask] on the masks
    [maskFromBits] builds from a bit list returns, in ascending bit order,
    the table entries at exactly the bits of the list. *)
Theorem tagsFromMask_maskFromBits tbb bits lo hi :
  maskFromBits bits = (lo, hi) -> (length tbb <= 64)%nat ->
  tagsFromMask tbb lo hi =
  map (fun bit => match tbb !! bit with Some t => t | None => None end)
      (List.filter (fun bit => existsb (Z.eqb (Z.of_nat bit)) bits) (seq 0 (length tbb))).
Proof.
  intros M Hlen. destruct (maskFromBits_spec _ _ _ M) as (_ & _ & B1 & B2).
  unfold tagsFromMask.
  rewrite (fold_push_filter _
    (fun bit => let b := Z.of_nat bit in
       if b <? 32 then Z.land (Z.shiftr (lo mod 2 ^ 32) b) 1 =? 1
       else Z.land (Z.shiftr (hi mod 2 ^ 32) ((b - 32) mod 32)) 1 =? 1)
    (fun bit => match tbb !! bit with Some t => t | None => None end)) by reflexivity.
  simpl. f_equal. apply filter_ext_in. intros bit Hin. apply in_seq in Hin. cbv zeta.
  destruct (Z.ltb_spec (Z.of_nat bit) 32).
  - rewrite land_shiftr_1, Z.mod_pow2_bits_low, B1 by lia. reflexivity.
  - rewrite (Z.mod_small (Z.of_nat bit - 32) 32) by lia. rewrite land_shiftr_1, Z.mod_pow2_bits_low, B2 by lia.
    rewrite Z.sub_add. reflexivity.
Qed.

(** ** [parseDictBin] *)

Lemma byteAt_app pre l k : 0 <= k ->
  byteAt (pre ++ l) (Z.of_nat (length pre) + k) = byteAt l k.
Proof.
  intros Hk. unfold byteAt, zget0, zlookup.
  rewrite (proj2 (Z.ltb_ge (Z.of_nat (length pre) + k) 0)) by lia.
  rewrite (proj2 (Z.ltb_ge k 0)) by lia.
  rewrite lookup_app_r by lia.
  replace (Z.to_nat (Z.of_nat (length pre) + k) - length pre)%nat with (Z.to_nat k) by lia.
  reflexivity.
Qed.

Lemma u32LE_sum v : 0 <= v < 2 ^ 32 -> v mod 256 + 256 * (v / 256 mod 256) + 65536 * (v / 65536 mod 256) + 16777216 * (v / 16777216 mod 256) = v.
Proof.
  intros Hv.
  replace (v / 65536) with (v / 256 / 256) by (rewrite Z.div_div by lia; reflexivity).
  replace (v / 16777216) with (v / 256 / 256 / 256) by (rewrite !Z.div_div by lia; reflexivity).
  pose proof (Z.div_mod v 256 ltac:(lia)).
  pose proof (Z.div_mod (v / 256) 256 ltac:(lia)).
  pose proof (Z.div_mod (v / 256 / 256) 256 ltac:(lia)).
  assert (v / 256 / 256 / 256 < 256).
  { apply Z.div_lt_upper_bound; [lia|]. apply Z.div_lt_upper_bound; [lia|]. apply Z.div_lt_upper_bound; lia. }
  assert (0 <= v / 256 / 256 / 256) by (apply Z.div_pos; [apply Z.div_pos; [apply Z.div_pos|]|]; lia).
  rewrite (Z.mod_small (v / 256 / 256 / 256)) by lia. lia.
Qed.

Lemma u16LE_sum v : 0 <= v < 2 ^ 16 -> v mod 256 + 256 * (v / 256 mod 256) = v.
Proof.
  intros Hv. pose proof (Z.div_mod v 256 ltac:(lia)).
  assert (v / 256 < 256) by (apply Z.div_lt_upper_bound; lia).
  assert (0 <= v / 256) by (apply Z.div_pos; lia).
  rewrite (Z.mod_small (v / 256)) by lia. lia.
Qed.

Lemma readU32LE_at pre v post : 0 <= v < 2 ^ 32 ->
  readU32LE (pre ++ u32LE v ++ post) (Z.of_nat (length pre)) = v.
Proof.
  intros Hv. unfold readU32LE.
  rewrite <- (Z.add_0_r (Z.of_nat (length pre))) at 1.
  rewrite <- !Z.add_assoc, !byteAt_app by lia. simpl.
  unfold byteAt, zget0, zlookup. simpl. pose proof (u32LE_sum v Hv). lia.
Qed.

Lemma readU16LE_at pre v post : 0 <= v < 2 ^ 16 ->
  readU16LE (pre ++ u16LE v ++ post) (Z.of_nat (length pre)) = v.
Proof.
  intros Hv. unfold readU16LE.
  rewrite <- (Z.add_0_r (Z.of_nat (length pre))) at 1.
  rewrite !byteAt_app by lia. simpl.
  unfold byteAt, zget0, zlookup. simpl. pose proof (u16LE_sum v Hv). lia.
Qed.

Lemma length_flat_u32LE l : length (flat_map u32LE l) = (4 * length l)%nat.
Proof. induction l as [|v l IH]; simpl; [reflexivity|]. rewrite IH. lia. Qed.

Lemma readAll_u32LE vs pre post :
  Forall (fun v => 0 <= v < 2 ^ 32) vs ->
  map (fun i => readU32LE (pre ++ flat_map u32LE vs ++ post) (Z.of_nat (length pre) + 4 * Z.of_nat i))
      (seq 0 (length vs)) = vs.
Proof.
  revert pre. induction vs as [|v vs IH]; intros pre Hf; [reflexivity|].
  apply Forall_cons in Hf as [Hv Hf].
  cbn [length seq map flat_map]. f_equal.
  - rewrite Z.add_0_r, <- app_assoc. apply readU32LE_at, Hv.
  - rewrite <- seq_shift, map_map. rewrite <- (IH (pre ++ u32LE v) Hf) at 2.
    apply map_ext. intros i. rewrite <- !app_assoc, length_app. f_equal.
    simpl. lia.
Qed.

Lemma u32View_at pre vs post off cnt :
  off = Z.of_nat (length pre) -> off mod 4 = 0 -> cnt = Z.of_nat (length vs) ->
  Forall (fun v => 0 <= v < 2 ^ 32) vs ->
  u32View (pre ++ flat_map u32LE vs ++ post) off cnt = Some vs.
Proof.
  intros -> Hm -> Hf. unfold u32View.
  rewrite !length_app, length_flat_u32LE.
  rewrite (proj2 (Z.leb_le 0 (Z.of_nat (length pre)))) by lia.
  rewrite (proj2 (Z.eqb_eq _ _) Hm).
  rewrite (proj2 (Z.leb_le (Z.of_nat (length pre) + Z.of_nat (length vs) * 4)
                           (Z.of_nat (length pre + (4 * length vs + length post))))) by lia.
  simpl. rewrite Nat2Z.id. f_equal. apply readAll_u32LE, Hf.
Qed.

Lemma magic_encodeDictBin d :
  (byteAt (encodeDictBin d) 0 =? 90) && (byteAt (encodeDictBin d) 1 =? 77)
  && (byteAt (encodeDictBin d) 2 =? 72) && (byteAt (encodeDictBin d) 3 =? 100) = true.
Proof. reflexivity. Qed.

Ltac view_side_goal :=
  first [ assumption
        | rewrite ?Z.mul_assoc, ?Z.mod_add by discriminate; reflexivity
        | rewrite ?length_app, ?length_flat_u32LE;
          match goal with Hh : length ?h = 16%nat |- _ => rewrite ?Hh end ].

(** [parseDictBin] reads back every well-formed dictionary of version 1 or
    2 written in the documented layout ([ZMHd], version, [n], [count], a
    reserved word, then the [uint32] arrays). *)
Theorem parseDictBin_encodeDictBin d :
  dictBinOk d -> parseDictBin (encodeDictBin d) = Some d.
Proof.
  destruct d as [ver n keys sh offs lens dfs].
  unfold dictBinOk. cbn [dict_version dict_n dict_keys dict_shardIds dict_offsets dict_lengths dict_dfs].
  intros (Hv & Hn & Hc & Ho & Hl & Hd & Hf).
  rewrite !Forall_app in Hf. destruct Hf as (Fk & Fs & Fo & Fl & Fd).
  set (hdr := [90; 77; 72; 100] ++ u16LE ver ++ u16LE (Z.of_nat n)
              ++ u32LE (Z.of_nat (length keys)) ++ u32LE 0).
  assert (Hh : length hdr = 16%nat) by reflexivity.
  set (c := Z.of_nat (length keys)).
  assert (Hver : 0 <= ver < 2 ^ 16) by (destruct Hv as [[-> _]|[-> _]]; lia).
  assert (E4 : readU16LE (encodeDictBin {| dict_version := ver; dict_n := n; dict_keys := keys;
      dict_shardIds := sh; dict_offsets := offs; dict_lengths := lens; dict_dfs := dfs |}) 4 = ver)
    by exact (readU16LE_at [90; 77; 72; 100] ver _ Hver).
  assert (E6 : readU16LE (encodeDictBin {| dict_version := ver; dict_n := n; dict_keys := keys;
      dict_shardIds := sh; dict_offsets := offs; dict_lengths := lens; dict_dfs := dfs |}) 6
      = Z.of_nat n)
    by (exact (readU16LE_at [90; 77; 72; 100; ver mod 256; ver / 256 mod 256] (Z.of_nat n) _
                 ltac:(lia))).
  assert (E8 : readU32LE (encodeDictBin {| dict_version := ver; dict_n := n; dict_keys := keys;
      dict_shardIds := sh; dict_offsets := offs; dict_lengths := lens; dict_dfs := dfs |}) 8 = c)
    by (exact (readU32LE_at [90; 77; 72; 100; ver mod 256; ver / 256 mod 256;
                             Z.of_nat n mod 256; Z.of_nat n / 256 mod 256] c _ ltac:(lia))).
  assert (Ec : c = Z.of_nat (length keys)) by reflexivity. clearbody c.
  unfold parseDictBin. rewrite E4, E6, E8, magic_encodeDictBin. cbn [negb].
  destruct Hv as [[-> ->]|[-> Hs]].
  - assert (Enc : encodeDictBin {| dict_version := 1; dict_n := n; dict_keys := keys;
      dict_shardIds := []; dict_offsets := offs; dict_lengths := lens; dict_dfs := dfs |}
      = hdr ++ (flat_map u32LE keys) ++ (flat_map u32LE offs) ++ (flat_map u32LE lens) ++ (flat_map u32LE dfs)) by reflexivity.
    rewrite Enc. clearbody hdr.
    rewrite (proj2 (Z.ltb_ge (Z.of_nat (length (hdr ++ (flat_map u32LE keys) ++ (flat_map u32LE offs) ++ (flat_map u32LE lens) ++ (flat_map u32LE dfs)))) 16))
      by (rewrite !length_app; lia).
    rewrite (u32View_at hdr keys ((flat_map u32LE offs) ++ (flat_map u32LE lens) ++ (flat_map u32LE dfs)) 16 c) by (view_side_goal; clear - Ec Ho Hl Hd; lia).
    rewrite (app_assoc hdr (flat_map u32LE keys)).
    rewrite (u32View_at (hdr ++ (flat_map u32LE keys)) offs ((flat_map u32LE lens) ++ (flat_map u32LE dfs)) (16 + c * 4) c)
      by (view_side_goal; clear - Ec Ho Hl Hd; lia).
    rewrite (app_assoc (hdr ++ (flat_map u32LE keys)) (flat_map u32LE offs)).
    rewrite (u32View_at ((hdr ++ (flat_map u32LE keys)) ++ (flat_map u32LE offs)) lens (flat_map u32LE dfs) (16 + c * 4 + c * 4) c)
      by (view_side_goal; clear - Ec Ho Hl Hd; lia).
    rewrite (app_assoc ((hdr ++ (flat_map u32LE keys)) ++ (flat_map u32LE offs)) (flat_map u32LE lens)), <- (app_nil_r (flat_map u32LE dfs)).
    rewrite (u32View_at (((hdr ++ (flat_map u32LE keys)) ++ (flat_map u32LE offs)) ++ (flat_map u32LE lens)) dfs [] (16 + c * 4 + 2 * (c * 4)) c)
      by (view_side_goal; clear - Ec Ho Hl Hd; lia).
    simpl. rewrite Nat2Z.id. reflexivity.
  - assert (Enc : encodeDictBin {| dict_version := 2; dict_n := n; dict_keys := keys;
      dict_shardIds := sh; dict_offsets := offs; dict_lengths := lens; dict_dfs := dfs |}
      = hdr ++ (flat_map u32LE keys) ++ (flat_map u32LE sh) ++ (flat_map u32LE offs) ++ (flat_map u32LE lens) ++ (flat_map u32LE dfs)) by reflexivity.
    rewrite Enc. clearbody hdr.
    rewrite (proj2 (Z.ltb_ge (Z.of_nat (length (hdr ++ (flat_map u32LE keys) ++ (flat_map u32LE sh) ++ (flat_map u32LE offs) ++ (flat_map u32LE lens) ++ (flat_map u32LE dfs)))) 16))
      by (rewrite !length_app; lia).
    rewrite (u32View_at hdr keys ((flat_map u32LE sh) ++ (flat_map u32LE offs) ++ (flat_map u32LE lens) ++ (flat_map u32LE dfs)) 16 c) by (view_side_goal; clear - Ec Ho Hl Hd Hs; lia).
    rewrite (app_assoc hdr (flat_map u32LE keys)).
    rewrite (u32View_at (hdr ++ (flat_map u32LE keys)) sh ((flat_map u32LE offs) ++ (flat_map u32LE lens) ++ (flat_map u32LE dfs)) (16 + c * 4) c)
      by (view_side_goal; clear - Ec Ho Hl Hd Hs; lia).
    rewrite (app_assoc (hdr ++ (flat_map u32LE keys)) (flat_map u32LE sh)).
    rewrite (u32View_at ((hdr ++ (flat_map u32LE keys)) ++ (flat_map u32LE sh)) offs ((flat_map u32LE lens) ++ (flat_map u32LE dfs)) (16 + c * 4 + c * 4) c)
      by (view_side_goal; clear - Ec Ho Hl Hd Hs; lia).
    rewrite (app_assoc ((hdr ++ (flat_map u32LE keys)) ++ (flat_map u32LE sh)) (flat_map u32LE offs)).
    rewrite (u32View_at (((hdr ++ (flat_map u32LE keys)) ++ (flat_map u32LE sh)) ++ (flat_map u32LE offs)) lens (flat_map u32LE dfs) (16 + c * 4 + 2 * (c * 4)) c)
      by (view_side_goal; clear - Ec Ho Hl Hd Hs; lia).
    rewrite (app_assoc (((hdr ++ (flat_map u32LE keys)) ++ (flat_map u32LE sh)) ++ (flat_map u32LE offs)) (flat_map u32LE lens)), <- (app_nil_r (flat_map u32LE dfs)).
    rewrite (u32View_at ((((hdr ++ (flat_map u32LE keys)) ++ (flat_map u32LE sh)) ++ (flat_map u32LE offs)) ++ (flat_map u32LE lens)) dfs [] (16 + c * 4 + 3 * (c * 4)) c)
      by (view_side_goal; clear - Ec Ho Hl Hd Hs; lia).
    simpl. rewrite Nat2Z.id. reflexivity.
Qed.

Lemma byteAt_range u8 i : Forall (fun b => 0 <= b < 256) u8 -> 0 <= byteAt u8 i < 256.
Proof.
  intros Hf. unfold byteAt, zget0, zlookup. destruct (i <? 0); [lia|].
  destruct (u8 !! Z.to_nat i) eqn:E; [|lia].
  rewrite Forall_lookup in Hf. exact (Hf _ _ E).
Qed.

Lemma readU32LE_range u8 off : Forall (fun b => 0 <= b < 256) u8 -> 0 <= readU32LE u8 off < 2 ^ 32.
Proof.
  intros Hf. unfold readU32LE.
  pose proof (byteAt_range u8 off Hf). pose proof (byteAt_range u8 (off + 1) Hf).
  pose proof (byteAt_range u8 (off + 2) Hf). pose proof (byteAt_range u8 (off + 3) Hf). lia.
Qed.

Lemma readU16LE_range u8 off : Forall (fun b => 0 <= b < 256) u8 -> 0 <= readU16LE u8 off < 2 ^ 16.
Proof.
  intros Hf. unfold readU16LE.
  pose proof (byteAt_range u8 off Hf). pose proof (byteAt_range u8 (off + 1) Hf). lia.
Qed.

Lemma u32View_spec u8 off cnt vs : Forall (fun b => 0 <= b < 256) u8 ->
  u32View u8 off cnt = Some vs ->
  length vs = Z.to_nat cnt /\ Forall (fun v => 0 <= v < 2 ^ 32) vs.
Proof.
  intros Hf. unfold u32View. destruct (_ && _); [|discriminate]. intros [= <-].
  rewrite length_map, length_seq. split; [reflexivity|].
  apply Forall_forall. intros v Hv. apply list_elem_of_In, in_map_iff in Hv as (i & <- & _).
  apply readU32LE_range, Hf.
Qed.

(** Whatever byte array [parseDictBin] accepts gives a well-formed
    dictionary: version 1 without shard ids or version 2 with one per key,
    [n < 65536], [count < 2^32], every array of [count] entries, every
    entry a [uint32]. *)
Theorem parseDictBin_ok u8 d :
  Forall (fun b => 0 <= b < 256) u8 -> parseDictBin u8 = Some d -> dictBinOk d.
Proof.
  intros Hf. unfold parseDictBin.
  destruct (_ <? 16); [discriminate|]. destruct (negb _); [discriminate|].
  pose proof (readU16LE_range u8 6 Hf) as Rn. pose proof (readU32LE_range u8 8 Hf) as Rc.
  set (c := readU32LE u8 8) in *. clearbody c.
  destruct (u32View u8 16 c) as [keys|] eqn:Ek; [|discriminate].
  apply (u32View_spec _ _ _ _ Hf) in Ek as [Lk Fk].
  destruct (_ =? 1).
  - destruct (u32View u8 (16 + c * 4) c) as [offs|] eqn:Eo; [|discriminate].
    destruct (u32View u8 (16 + c * 4 + c * 4) c) as [lens|] eqn:El; [|discriminate].
    destruct (u32View u8 (16 + c * 4 + 2 * (c * 4)) c) as [dfs|] eqn:Ed; [|discriminate].
    intros [= <-].
    apply (u32View_spec _ _ _ _ Hf) in Eo as [Lo Fo], El as [Ll Fl], Ed as [Ld Fd].
    unfold dictBinOk; cbn [dict_version dict_n dict_keys dict_shardIds dict_offsets dict_lengths dict_dfs].
    split; [left; split; reflexivity|].
    split; [lia|]. split; [lia|]. split; [lia|]. split; [lia|]. split; [lia|].
    rewrite !Forall_app. repeat split; auto.
  - destruct (_ =? 2); [|discriminate].
    destruct (u32View u8 (16 + c * 4) c) as [sh|] eqn:Es; [|discriminate].
    destruct (u32View u8 (16 + c * 4 + c * 4) c) as [offs|] eqn:Eo; [|discriminate].
    destruct (u32View u8 (16 + c * 4 + 2 * (c * 4)) c) as [lens|] eqn:El; [|discriminate].
    destruct (u32View u8 (16 + c * 4 + 3 * (c * 4)) c) as [dfs|] eqn:Ed; [|discriminate].
    intros [= <-].
    apply (u32View_spec _ _ _ _ Hf) in Es as [Ls Fs], Eo as [Lo Fo], El as [Ll Fl], Ed as [Ld Fd].
    unfold dictBinOk; cbn [dict_version dict_n dict_keys dict_shardIds dict_offsets dict_lengths dict_dfs].
    split; [right; split; [reflexivity|lia]|].
    split; [lia|]. split; [lia|]. split; [lia|]. split; [lia|]. split; [lia|].
    rewrite !Forall_app. repeat split; auto.
Qed.

(** ** The shape of a parsed meta shard *)

Lemma u8View_spec u8 off cnt vs : Forall (fun b => 0 <= b < 256) u8 ->
  u8View u8 off cnt = Some vs ->
  length vs = Z.to_nat cnt /\ Forall (fun v => 0 <= v < 256) vs.
Proof.
  intros Hf. unfold u8View. destruct (_ && _); [|discriminate]. intros [= <-].
  rewrite length_map, length_seq. split; [reflexivity|].
  apply Forall_forall. intros v Hv. apply list_elem_of_In, in_map_iff in Hv as (i & <- & _).
  apply byteAt_range, Hf.
Qed.

Lemma u16View_spec u8 off cnt vs : Forall (fun b => 0 <= b < 256) u8 ->
  u16View u8 off cnt = Some vs ->
  length vs = Z.to_nat cnt /\ Forall (fun v => 0 <= v < 2 ^ 16) vs.
Proof.
  intros Hf. unfold u16View. destruct (_ && _); [|discriminate]. intros [= <-].
  rewrite length_map, length_seq. split; [reflexivity|].
  apply Forall_forall. intros v Hv. apply list_elem_of_In, in_map_iff in Hv as (i & <- & _).
  apply readU16LE_range, Hf.
Qed.

Lemma i32View_spec u8 off cnt vs :
  i32View u8 off cnt = Some vs ->
  length vs = Z.to_nat cnt /\ Forall (fun v => - 2 ^ 31 <= v < 2 ^ 31) vs.
Proof.
  unfold i32View, u32View. destruct (_ && _); [|discriminate]. simpl. intros [= <-].
  rewrite !length_map, length_seq. split; [reflexivity|].
  apply Forall_forall. intros v Hv. apply list_elem_of_In, in_map_iff in Hv as (w & <- & _).
  unfold toInt32. pose proof (Z.mod_pos_bound (w + 2 ^ 31) (2 ^ 32)). lia.
Qed.

Lemma readPool_spec u8 off n offs pool off' : Forall (fun b => 0 <= b < 256) u8 -> 0 <= n ->
  readPool u8 off n = Some (offs, pool, off') -> poolOk offs pool (Z.to_nat n).
Proof.
  intros Hf Hn. unfold readPool.
  destruct (u32View u8 off (n + 1)) as [o|] eqn:Eo; [|discriminate].
  destruct (u8View _ _ _) as [p|] eqn:Ep; [|discriminate]. intros [= <- <- _].
  apply (u32View_spec _ _ _ _ Hf) in Eo as [Lo Fo].
  apply (u8View_spec _ _ _ _ Hf) in Ep as [Lp _].
  split; [rewrite Lo; lia|].
  assert (0 <= zget0 o n).
  { unfold zget0, zlookup. destruct (n <? 0); [lia|].
    destruct (o !! Z.to_nat n) eqn:E; [|lia].
    rewrite Forall_lookup in Fo. pose proof (Fo _ _ E). lia. }
  rewrite Lp, !Z2Nat.id; lia.
Qed.

Lemma readCoverBaseIds_spec u8 off count cbc ids off' : Forall (fun b => 0 <= b < 256) u8 ->
  readCoverBaseIds u8 off count cbc = Some (ids, off') ->
  length ids = Z.to_nat count /\ Forall (fun v => 0 <= v < 2 ^ 16) ids /\
  (cbc <= 255 -> Forall (fun v => 0 <= v < 256) ids).
Proof.
  intros Hf. unfold readCoverBaseIds. destruct (cbc <=? 255) eqn:Ec.
  - destruct (u8View u8 off count) as [i8|] eqn:E8; [|discriminate]. intros [= <- _].
    apply (u8View_spec _ _ _ _ Hf) in E8 as [L8 F8].
    assert (Hb : forall i : nat, 0 <= zget0 i8 (Z.of_nat i) < 256).
    { intros i. unfold zget0, zlookup. destruct (Z.of_nat i <? 0); [lia|].
      destruct (i8 !! Z.to_nat (Z.of_nat i)) eqn:E; [|lia].
      rewrite Forall_lookup in F8. exact (F8 _ _ E). }
    rewrite length_map, length_seq.
    assert (Hall : Forall (fun v => 0 <= v < 256)
                     (map (fun i => zget0 i8 (Z.of_nat i) mod 2 ^ 16) (seq 0 (Z.to_nat count)))).
    { apply Forall_forall. intros v Hv. apply list_elem_of_In, in_map_iff in Hv as (i & <- & _).
      specialize (Hb i). rewrite Z.mod_small by lia. exact Hb. }
    split; [reflexivity|]. split; [|intros _; exact Hall].
    eapply Forall_impl; [exact Hall|]. simpl. intros v Hv; lia.
  - destruct (u16View u8 off count) as [i16|] eqn:E16; [|discriminate]. intros [= <- _].
    apply (u16View_spec _ _ _ _ Hf) in E16 as [L16 F16].
    split; [exact L16|]. split; [exact F16|]. intros H. apply Z.leb_gt in Ec. lia.
Qed.

(** Whatever byte array [parseMetaBin] accepts gives a meta shard of the
    shape the search reads: [count] and the separator code come from the
    header; ids, both tag masks, flags and cover base ids have one entry
    per document; ids are [int32], masks [uint32], flags bytes, cover base
    ids [uint16] (bytes when the header declares at most 255 cover bases);
    every string pool has one more offset than entries and exactly as many
    bytes as its last offset says. *)
Theorem parseMetaBin_ok u8 m : Forall (fun b => 0 <= b < 256) u8 ->
  parseMetaBin u8 = Some m ->
  mb_count m = readU32LE u8 8 /\ mb_sep m = readU16LE u8 6 /\
  metaBinOk m (readU32LE u8 12).
Proof.
  intros Hf. unfold parseMetaBin.
  destruct (_ <? 16); [discriminate|]. destruct (negb _); [discriminate|].
  destruct (negb _); [discriminate|].
  pose proof (readU16LE_range u8 6 Hf) as Rs. pose proof (readU32LE_range u8 8 Hf) as Rc.
  pose proof (readU32LE_range u8 12 Hf) as Rb.
  set (c := readU32LE u8 8) in *. set (cb := readU32LE u8 12) in *.
  clearbody c cb.
  destruct (i32View u8 16 c) as [ids|] eqn:Ei; [|discriminate].
  destruct (u32View u8 (16 + c * 4) c) as [lo|] eqn:Elo; [|discriminate].
  destruct (u32View u8 (16 + c * 4 + c * 4) c) as [hi|] eqn:Ehi; [|discriminate].
  destruct (u8View u8 (16 + c * 4 + c * 4 + c * 4) c) as [fl|] eqn:Efl; [|discriminate].
  destruct (readPool u8 _ c) as [[[tO tP] o1]|] eqn:Et; [|discriminate].
  destruct (readPool u8 o1 cb) as [[[bO bP] o2]|] eqn:Eb; [|discriminate].
  destruct (readCoverBaseIds u8 o2 c cb) as [[cbi o3]|] eqn:Eci; [|discriminate].
  destruct (readPool u8 o3 c) as [[[pO pP] o4]|] eqn:Ep; [|discriminate].
  destruct (readPool u8 o4 c) as [[[aO aP] o5]|] eqn:Ea; [|discriminate].
  destruct (readPool u8 o5 c) as [[[lO lP] o6]|] eqn:El; [|discriminate].
  intros [= <-].
  apply i32View_spec in Ei as [Li Fi].
  apply (u32View_spec _ _ _ _ Hf) in Elo as [Llo Flo], Ehi as [Lhi Fhi].
  apply (u8View_spec _ _ _ _ Hf) in Efl as [Lfl Ffl].
  apply (readCoverBaseIds_spec _ _ _ _ _ _ Hf) in Eci as (Lci & Fci & Gci).
  apply (readPool_spec _ _ _ _ _ _ Hf) in Et, Eb, Ep, Ea, El; try lia.
  cbn [mb_count mb_sep]. split; [reflexivity|]. split; [reflexivity|].
  unfold metaBinOk; cbn -[Z.pow].
  destruct Et, Eb, Ep, Ea, El.
  repeat split; try assumption; try lia.
  apply Forall_app; split; assumption.
Qed.


(* ------------------------------------------------------------------ *)
(** ** The result of a query with terms *)

(** The empty term matches no doc. *)
Lemma termMatch_nil e d : termMatch e [] d = false.
Proof. unfold termMatch, uniqNgrams. destruct (dict_n (dict e)); reflexivity. Qed.

Lemma termHit_termMatch' e T d : termCountsOk e T ->
  termHit e (uniqNgrams T (dict_n (dict e))) d = termMatch e T d.
Proof. intros [H1 H2]. apply termHit_termMatch; assumption. Qed.

Section Terms.
Variable normText : list Z -> list Z.

(** The docs of the result of a query with terms. *)
Lemma resolve_terms s msg R :
  clean s -> length (counts s) = Z.to_nat (totalCount (eng s)) ->
  (forall T, T ∈ pq_include (parseQuery normText (q msg)) ++ pq_exclude (parseQuery normText (q msg)) ->
     termCountsOk (eng s) T) ->
  resolve normText s msg = Some R ->
  pq_include (parseQuery normText (q msg)) <> [] \/ pq_exclude (parseQuery normText (q msg)) <> [] ->
  let e := eng s in
  let pl := makePlan normText e msg in
  forall d, d ∈ R <-> 0 <= d < totalCount e /\
    passesFilters e d (pl_selectedLo pl) (pl_selectedHi pl) (pl_excludedLo pl) (pl_excludedHi pl)
      (hidden msg) (hideChapter msg) (needLogin msg) (lock msg) = true /\
    (forall T, T ∈ pq_exclude (parseQuery normText (q msg)) -> termMatch e T d = false) /\
    match pq_include (parseQuery normText (q msg)) with
    | [] => True
    | [T] => termMatch e T d = true /\ (sort msg = Relevance -> is_Some (mjoin (zlookup (metaDocs e) d)))
    | Ts => exists T, T ∈ Ts /\ termMatch e T d = true
    end.
Proof.
  intros Hcl Hlen Hok HR Hne e pl d.
  rewrite (resolve_inResult normText s msg R Hcl Hlen HR d).
  pose proof (makePlan_fields normText e msg) as PF. simpl in PF. fold pl in PF.
  destruct PF as (PFi & PFe & _ & _ & PFq & _).
  pose proof (makePlan_queryTokens normText e msg) as PQ. fold pl in PQ.
  assert (Hq : pl_hasQuery pl = true).
  { rewrite PFq, PFi, PFe. destruct Hne as [H|H].
    - rewrite (bool_decide_false _ H). reflexivity.
    - rewrite (bool_decide_false (pq_exclude _ = []) H). apply orb_true_r. }
  assert (Hex : existsb (fun t => termHit e (uniqNgrams t (dict_n (dict e))) d) (pl_exclude pl) = false
                <-> forall T, T ∈ pq_exclude (parseQuery normText (q msg)) -> termMatch e T d = false).
  { rewrite PFe. split.
    - intros H T HT. rewrite <- termHit_termMatch'.
      + exact (existsb_false_elem _ _ _ H HT).
      + apply Hok, elem_of_app. right. exact HT.
    - intros H. apply not_true_iff_false. intros Ht. apply existsb_exists in Ht as (T & HT & Hm).
      apply list_elem_of_In in HT.
      rewrite termHit_termMatch' in Hm by (apply Hok, elem_of_app; right; exact HT).
      rewrite H in Hm by exact HT. discriminate. }
  assert (Hin : forall Ts, (forall T, T ∈ Ts -> T ∈ pq_include (parseQuery normText (q msg))) ->
            existsb (fun t => termHit e (uniqNgrams t (dict_n (dict e))) d) Ts = true
            <-> exists T, T ∈ Ts /\ termMatch e T d = true).
  { intros Ts HTs. rewrite existsb_exists. split.
    - intros (T & HT & Hm). apply list_elem_of_In in HT. exists T. split; [exact HT|].
      rewrite <- termHit_termMatch'; [exact Hm|]. apply Hok, elem_of_app. left. apply HTs, HT.
    - intros (T & HT & Hm). exists T. split; [apply list_elem_of_In, HT|].
      rewrite termHit_termMatch'; [exact Hm|]. apply Hok, elem_of_app. left. apply HTs, HT. }
  unfold inResult. fold e. fold pl. rewrite Hq. cbn [negb].
  rewrite !andb_true_iff, negb_true_iff, Z.leb_le, Z.ltb_lt.
  rewrite <- Hex.
  rewrite PFi.
  destruct (pq_include (parseQuery normText (q msg))) as [|T [|T2 Ts]] eqn:Hi.
  - tauto.
  - cbv zeta in PQ. rewrite PQ.
    assert (Hm : termHit e (if bool_decide (T = []) then [] else uniqNgrams T (dict_n (dict e))) d
                 = termMatch e T d).
    { case_bool_decide as HT.
      - subst T. rewrite termMatch_nil. reflexivity.
      - apply termHit_termMatch', Hok, elem_of_app. left. left. }
    rewrite Hm, andb_true_iff. split.
    + intros [[H1 H2] [H3 [H5 H6]]]. repeat split; try assumption; try lia.
      intros Hs. rewrite (bool_decide_true _ Hs) in H6. apply bool_decide_eq_true in H6. exact H6.
    + intros (H1 & H2 & H3 & H5 & H6). repeat split; try assumption; try lia.
      destruct (bool_decide_reflect (sort msg = Relevance)) as [Hs|Hs]; [apply bool_decide_eq_true, H6, Hs|reflexivity].
  - rewrite (Hin (T :: T2 :: Ts)) by (intros T' H; exact H). tauto.
Qed.

End Terms.

Section Terms2.
Variable normText : list Z -> list Z.

Lemma passesFilters_identity e d : passesFilters e d 0 0 0 0 FAny FAny FAny FAny = true.
Proof. reflexivity. Qed.

(** C1 (corrected).  For a query with at least one include term, the docs
    of the result are the docs in range that pass the filters, match no
    exclude term by [termMatch], and match an include term by [termMatch];
    for a single include term, in relevance order, the doc's meta shard must
    also be loaded.  For a query with exclude terms only, the docs of the
    result are the docs in range that pass the filters and match no exclude
    term.  [termMatch e T d]: at least [min(max(1, ceil(0.6 k)), found)] of
    [T]'s tokens found in the dictionary have the doc in their posting list,
    [k] counting all distinct tokens of [T] and [found] those present in the
    dictionary.  The posting lists of the terms' tokens are assumed
    duplicate-free and the number of found tokens of a term below 65536 (the
    counters are a [Uint16Array]). *)
Theorem termMatch_threshold s msg R :
  clean s -> length (counts s) = Z.to_nat (totalCount (eng s)) ->
  (forall T, T ∈ pq_include (parseQuery normText (q msg)) ++ pq_exclude (parseQuery normText (q msg)) ->
     termCountsOk (eng s) T) ->
  resolve normText s msg = Some R ->
  let e := eng s in
  let pl := makePlan normText e msg in
  let passes d := passesFilters e d (pl_selectedLo pl) (pl_selectedHi pl)
                    (pl_excludedLo pl) (pl_excludedHi pl)
                    (hidden msg) (hideChapter msg) (needLogin msg) (lock msg) in
  (pq_include (parseQuery normText (q msg)) <> [] ->
   forall d, d ∈ R <-> 0 <= d < totalCount e /\ passes d = true /\
     (forall T, T ∈ pq_exclude (parseQuery normText (q msg)) -> termMatch e T d = false) /\
     match pq_include (parseQuery normText (q msg)) with
     | [T] => termMatch e T d = true /\
              (sort msg = Relevance -> is_Some (mjoin (zlookup (metaDocs e) d)))
     | Ts => exists T, T ∈ Ts /\ termMatch e T d = true
     end) /\
  (pq_include (parseQuery normText (q msg)) = [] -> pq_exclude (parseQuery normText (q msg)) <> [] ->
   forall d, d ∈ R <-> 0 <= d < totalCount e /\ passes d = true /\
     (forall T, T ∈ pq_exclude (parseQuery normText (q msg)) -> termMatch e T d = false)).
Proof.
  intros Hcl Hlen Hok HR e pl passes. split.
  - intros Hne d. rewrite (resolve_terms normText s msg R Hcl Hlen Hok HR (or_introl Hne) d).
    fold e pl passes.
    destruct (pq_include (parseQuery normText (q msg))) as [|T [|T2 Ts]]; [congruence| |]; reflexivity.
  - intros Hi Hne d. rewrite (resolve_terms normText s msg R Hcl Hlen Hok HR (or_intror Hne) d).
    fold e pl passes. rewrite Hi. tauto.
Qed.

End Terms2.

Section Terms3.
Variable normText : list Z -> list Z.

(** C2 (corrected).  Let the query have no include term and let every
    filter be the identity (tag masks 0, the four status filters "any").
    With no exclude term either, the search returns the empty result, not an
    error.  With exclude terms, the search succeeds with the total number of
    docs in range that match no exclude term, and these docs are the result
    list (posting lists as in C1). *)
Theorem searchSync_empty_intent s msg :
  cache_ok normText s ->
  pq_include (parseQuery normText (q msg)) = [] ->
  maskFromBits (tagBits msg) = (0, 0) -> maskFromBits (excludeTagBits msg) = (0, 0) ->
  hidden msg = FAny -> hideChapter msg = FAny -> needLogin msg = FAny -> lock msg = FAny ->
  (pq_exclude (parseQuery normText (q msg)) = [] ->
   snd (searchSync normText s msg) = Ok (emptyResult msg (makePlan normText (eng s) msg))) /\
  (pq_exclude (parseQuery normText (q msg)) <> [] ->
   clean s -> length (counts s) = Z.to_nat (totalCount (eng s)) ->
   (forall T, T ∈ pq_exclude (parseQuery normText (q msg)) -> termCountsOk (eng s) T) ->
   forall r, snd (searchSync normText s msg) = Ok r ->
   exists all, resolve normText s msg = Some all /\ rm_total r = Z.of_nat (length all) /\
     forall d, d ∈ all <-> 0 <= d < totalCount (eng s) /\
       (forall T, T ∈ pq_exclude (parseQuery normText (q msg)) -> termMatch (eng s) T d = false)).
Proof.
  intros Hok Hi Ht Hx Hh Hc Hn Hl.
  destruct (makePlan_fields normText (eng s) msg) as (Hpi & Hpe & Hpt & Hpx & Hpq & _).
  pose proof (makePlan_size normText (eng s) msg) as Hsz.
  pose proof (makePlan_page normText (eng s) msg) as Hpg.
  pose proof (makePlan_offset normText (eng s) msg) as Hoff.
  set (pl := makePlan normText (eng s) msg) in *.
  rewrite Ht in Hpt. rewrite Hx in Hpx. injection Hpt as Hsl Hsh. injection Hpx as Hxl Hxh.
  split.
  - intros He.
    assert (Hpe' : pl_exclude pl = []) by congruence.
    assert (Hpq' : pl_hasQuery pl = false) by (rewrite Hpq, Hpi, Hi, Hpe'; reflexivity).
    assert (Hmiss : forall s0, searchMiss normText s0 msg pl = (setCache s0 (pl_cacheKey pl) [], Ok (emptyResult msg pl)))
      by (intros s0; apply searchMiss_empty_intent; assumption).
    unfold searchSync. fold pl.
    destruct (cache s) as [[k ids]|] eqn:Hcache.
    + destruct (bool_decide_reflect (k = pl_cacheKey pl)) as [Hk|Hk].
      * specialize (Hok k ids Hcache msg (eq_sym Hk)).
        unfold resolve in Hok. fold pl in Hok. rewrite Hmiss in Hok. simpl in Hok.
        injection Hok as <-. simpl. apply finish_nil; [rewrite Hoff|]; nia.
      * rewrite Hmiss. reflexivity.
    + rewrite Hmiss. reflexivity.
  - intros He Hcl Hlen HT r Hr.
    destruct (searchSync_result normText s msg r Hr) as (all & Hf & _ & Hres).
    specialize (Hres Hok). exists all. split; [exact Hres|]. split.
    + destruct (finish_ok _ _ _ _ _ Hf) as (_ & _ & Htot & _). exact Htot.
    + intros d.
      assert (Hok' : forall T, T ∈ pq_include (parseQuery normText (q msg)) ++ pq_exclude (parseQuery normText (q msg)) ->
                termCountsOk (eng s) T).
      { intros T HT'. rewrite Hi in HT'. apply HT, HT'. }
      rewrite (resolve_terms normText s msg all Hcl Hlen Hok' Hres (or_intror He) d).
      fold pl. rewrite Hsl, Hsh, Hxl, Hxh, Hh, Hc, Hn, Hl, passesFilters_identity, Hi. tauto.
Qed.

End Terms3.


(* ------------------------------------------------------------------ *)
(** ** Runs on the small engine *)

Lemma demoState_cache_ok : cache_ok normText demoState.
Proof. intros k ids H. discriminate. Qed.

Lemma searchSync_page_clamp_witness :
  exists r, snd (searchSync normText demoState (demoMsg "ab" [] IdAsc 2 1)) = Ok r /\
    rm_size r = Z.max 1 (Z.min 100 (toInt32 1)) /\ rm_page r = Z.max 1 (toInt32 2) /\
    (length (rm_items r) <= 100)%nat.
Proof.
  eexists. split; [vm_compute; reflexivity|].
  apply (searchSync_page_clamp normText demoState (demoMsg "ab" [] IdAsc 2 1)). vm_compute. reflexivity.
Defined.

(** C10: a size of [2^32 + 5] is taken as [5], not as [100]. *)
Lemma searchSync_page_clamp_counterexample :
  Z.max 1 (Z.min 100 (2 ^ 32 + 5)) = 100 /\
  exists r, snd (searchSync normText demoState (demoMsg "ab" [] IdAsc 1 (2 ^ 32 + 5))) = Ok r /\
            rm_size r = 5.
Proof. split; [reflexivity|]. eexists. split; vm_compute; reflexivity. Qed.

Lemma searchSync_pagination_witness :
  cache_ok normText demoState /\
  exists r, snd (searchSync normText demoState (demoMsg "ab" [] IdAsc 2 1)) = Ok r /\
  exists all, resolve normText demoState (demoMsg "ab" [] IdAsc 2 1) = Some all /\
    rm_total r = Z.of_nat (length all) /\
    rm_hasMore r = ((rm_page r - 1) * rm_size r + rm_size r <? rm_total r) /\
    buildItems (eng demoState)
      (take (Z.to_nat (rm_size r)) (drop (Z.to_nat ((rm_page r - 1) * rm_size r)) all))
      = Ok (rm_items r) /\
    (forall n, (length all <= n * Z.to_nat (rm_size r))%nat ->
       concat (map (fun i => take (Z.to_nat (rm_size r)) (drop (i * Z.to_nat (rm_size r)) all)) (seq 0 n))
       = all).
Proof.
  split; [exact demoState_cache_ok|].
  eexists. split; [vm_compute; reflexivity|].
  apply (searchSync_pagination normText demoState (demoMsg "ab" [] IdAsc 2 1));
    [exact demoState_cache_ok|vm_compute; reflexivity].
Defined.

(** C2: the query [-bc] has no include term, the filters are the identity,
    and the result lists the two docs without "bc". *)
Lemma searchSync_empty_intent_counterexample :
  let msg := demoMsg "-bc" [] Relevance 1 20 in
  pq_include (parseQuery normText (q msg)) = [] /\
  maskFromBits (tagBits msg) = (0, 0) /\ maskFromBits (excludeTagBits msg) = (0, 0) /\
  hidden msg = FAny /\ hideChapter msg = FAny /\ needLogin msg = FAny /\ lock msg = FAny /\
  exists r, snd (searchSync normText demoState msg) = Ok r /\ rm_total r = 2 /\
            map ri_id (rm_items r) = [101; 100].
Proof.
  cbv zeta. repeat split; try (vm_compute; reflexivity).
  eexists. split; [vm_compute; reflexivity|]. split; vm_compute; reflexivity.
Qed.

Lemma searchSync_cache_refines_witness :
  exists s1 r1, searchSync normText demoState (demoMsg "ab" [] IdAsc 1 1) = (s1, Ok r1) /\
  snd (searchSync normText s1 (demoMsg "ab" [] IdAsc 2 1))
    = snd (searchSync normText (clearCache demoState) (demoMsg "ab" [] IdAsc 2 1)) /\
  exists ids, cache s1 = Some (pl_cacheKey (makePlan normText (eng demoState) (demoMsg "ab" [] IdAsc 2 1)), ids) /\
              resolve normText demoState (demoMsg "ab" [] IdAsc 2 1) = Some ids.
Proof.
  do 2 eexists. split; [vm_compute; reflexivity|].
  eapply (searchSync_cache_refines normText demoState (demoMsg "ab" [] IdAsc 1 1) (demoMsg "ab" [] IdAsc 2 1));
    first [exact demoState_cache_ok | vm_compute; reflexivity].
Defined.

Lemma demoState_clean : clean demoState.
Proof. repeat constructor. Qed.

Lemma searchSync_scratch_clean_witness :
  clean demoState /\
  exists s' r, searchSync normText demoState (demoMsg "ab" [] Relevance 1 20) = (s', Ok r) /\
               clean s'.
Proof.
  split; [exact demoState_clean|].
  do 2 eexists. split; [vm_compute; reflexivity|].
  eapply (searchSync_scratch_clean normText demoState (demoMsg "ab" [] Relevance 1 20));
    [exact demoState_clean | vm_compute; reflexivity].
Defined.

(** The term "ab" given both ways is kept as an exclude term only; "x" is
    too short. *)
Example parseQuery_ex :
  parseQuery normText (lit " AB -ab cd x -ab") = {| pq_include := [lit "cd"]; pq_exclude := [lit "ab"] |}.
Proof. vm_compute. reflexivity. Qed.

(** C1: the term "abxy" has the three tokens "ab", "bx" and "xy", and only
    "ab" is in the dictionary.  The search returns doc 0, whose hit count is
    1, below the threshold [min(3, max(1, ceil(1.8))) = 2] of the spec: the
    code clamps the threshold by the number of tokens found. *)
Lemma termMatch_threshold_counterexample :
  length (uniqNgrams (lit "abxy") (dict_n (dict demoEngine))) = 3%nat /\
  lookupTokenIdxs (dict demoEngine) (uniqNgrams (lit "abxy") (dict_n (dict demoEngine))) = [0] /\
  specMinHit 3 = 2 /\ docHits demoEngine [0] 0 = 1%nat /\
  resolve normText demoState (demoMsg "abxy" [] IdDesc 1 20) = Some [2; 0].
Proof.
  refine (conj _ (conj _ (conj _ (conj _ _)))); vm_compute; reflexivity.
Qed.

Lemma termMatch_threshold_witness :
  clean demoState /\
  (forall T, T ∈ pq_include (parseQuery normText (lit "ab -bc")) ++ pq_exclude (parseQuery normText (lit "ab -bc")) ->
     termCountsOk demoEngine T) /\
  exists R, resolve normText demoState (demoMsg "ab -bc" [] Relevance 1 20) = Some R /\
  forall d, d ∈ R <-> 0 <= d < totalCount demoEngine /\
    passesFilters demoEngine d 0 0 0 0 FAny FAny FAny FAny = true /\
    (forall T, T ∈ [lit "bc"] -> termMatch demoEngine T d = false) /\
    (termMatch demoEngine (lit "ab") d = true /\
     (Relevance = Relevance -> is_Some (mjoin (zlookup (metaDocs demoEngine) d)))).
Proof.
  assert (Hok : forall T, T ∈ pq_include (parseQuery normText (lit "ab -bc")) ++ pq_exclude (parseQuery normText (lit "ab -bc")) ->
     termCountsOk demoEngine T).
  { intros T HT. apply list_elem_of_In in HT. vm_compute in HT.
    destruct HT as [<-|[<-|[]]]; apply (bool_decide_unpack _); vm_compute; exact I. }
  split; [exact demoState_clean|]. split; [exact Hok|].
  eexists. split; [vm_compute; reflexivity|].
  refine (proj1 (termMatch_threshold normText demoState (demoMsg "ab -bc" [] Relevance 1 20) _
            demoState_clean eq_refl Hok _) _).
  - vm_compute. reflexivity.
  - vm_compute. discriminate.
Defined.

Lemma searchSync_empty_intent_witness :
  snd (searchSync normText demoState (demoMsg "" [] Relevance 1 20))
  = Ok (emptyResult (demoMsg "" [] Relevance 1 20)
          (makePlan normText (eng demoState) (demoMsg "" [] Relevance 1 20))) /\
  exists r, snd (searchSync normText demoState (demoMsg "-bc" [] Relevance 1 20)) = Ok r /\
  exists all, resolve normText demoState (demoMsg "-bc" [] Relevance 1 20) = Some all /\
    rm_total r = Z.of_nat (length all) /\
    forall d, d ∈ all <-> 0 <= d < totalCount demoEngine /\
      (forall T, T ∈ pq_exclude (parseQuery normText (lit "-bc")) -> termMatch demoEngine T d = false).
Proof.
  split.
  - apply (proj1 (searchSync_empty_intent normText demoState (demoMsg "" [] Relevance 1 20)
                   demoState_cache_ok eq_refl eq_refl eq_refl eq_refl eq_refl eq_refl eq_refl)).
    vm_compute. reflexivity.
  - eexists. split; [vm_compute; reflexivity|].
    refine (proj2 (searchSync_empty_intent normText demoState (demoMsg "-bc" [] Relevance 1 20)
                   demoState_cache_ok _ eq_refl eq_refl eq_refl eq_refl eq_refl eq_refl)
              _ demoState_clean eq_refl _ _ _).
    + vm_compute. reflexivity.
    + vm_compute. discriminate.
    + intros T HT. apply list_elem_of_In in HT. vm_compute in HT.
      destruct HT as [<-|[]]. apply (bool_decide_unpack _). vm_compute. exact I.
    + vm_compute. reflexivity.
Defined.

(** The string "Ab 1가!Ａ𝐀": letters, a digit, a Hangul syllable, a full
    stop, a fullwidth letter and a letter outside the BMP (a surrogate
    pair). *)
Lemma normText_idempotent_witness :
  wellFormedUTF16 (lit "Ab 1" ++ [44032] ++ lit "!" ++ [65313; 55349; 56320]) = true /\
  forallb (fun u => negb (isVowelJamo u || isTrailingJamo u))
    (normText (lit "Ab 1" ++ [44032] ++ lit "!" ++ [65313; 55349; 56320])) = true /\
  normText (normText (lit "Ab 1" ++ [44032] ++ lit "!" ++ [65313; 55349; 56320]))
    = normText (lit "Ab 1" ++ [44032] ++ lit "!" ++ [65313; 55349; 56320]).
Proof.
  split; [vm_compute; reflexivity|]. split; [vm_compute; reflexivity|].
  apply (normText_idempotent (lit "Ab 1" ++ [44032] ++ lit "!" ++ [65313; 55349; 56320]));
    vm_compute; reflexivity.
Defined.

(** C7: the Hangul compatibility letters U+3131 and U+314F separated by a
    full stop.  NFKC maps them to the conjoining jamo U+1100 and U+1161, the
    full stop is dropped, and a second [normText] composes the two jamo into
    the syllable U+AC00. *)
Lemma normText_idempotent_counterexample :
  wellFormedUTF16 [12593; 46; 12623] = true /\
  normText [12593; 46; 12623] = [4352; 4449] /\
  normText [4352; 4449] = [44032] /\
  normText (normText [12593; 46; 12623]) <> normText [12593; 46; 12623].
Proof.
  split; [vm_compute; reflexivity|]. split; [vm_compute; reflexivity|].
  split; [vm_compute; reflexivity|]. vm_compute. discriminate.
Qed.

Lemma tagFilter_compose_witness :
  clean demoState /\
  exists RAB RA RB,
    resolve normText demoState (withTags (demoMsg "ab" [] IdDesc 1 20) ([0] ++ [])) = Some RAB /\
    resolve normText demoState (withTags (demoMsg "ab" [] IdDesc 1 20) [0]) = Some RA /\
    resolve normText demoState (withTags (demoMsg "ab" [] IdDesc 1 20) []) = Some RB /\
    forall d, d ∈ RAB -> d ∈ RA /\ d ∈ RB.
Proof.
  split; [exact demoState_clean|]. do 3 eexists.
  split; [vm_compute; reflexivity|]. split; [vm_compute; reflexivity|]. split; [vm_compute; reflexivity|].
  apply (tagFilter_compose normText demoState (demoMsg "ab" [] IdDesc 1 20) [0] []);
    first [exact demoState_clean | vm_compute; reflexivity].
Defined.

(** C6: with no query and no other filter, the tag bits [[0]] select the
    docs 2 and 0, while the empty tag set is an empty intent and selects no
    doc: the result for [[] ++ [0]] is not a subset of the result for [[]]. *)
Lemma tagFilter_compose_counterexample :
  exists RAB RA,
    resolve normText demoState (withTags (demoMsg "" [] IdDesc 1 20) ([] ++ [0])) = Some RAB /\
    resolve normText demoState (withTags (demoMsg "" [] IdDesc 1 20) []) = Some RA /\
    2 ∈ RAB /\ ~ 2 ∈ RA.
Proof.
  do 2 eexists. split; [vm_compute; reflexivity|]. split; [vm_compute; reflexivity|]. split.
  - apply list_elem_of_In. simpl. auto.
  - intros H. inversion H.
Qed.

(** ** Runs of the loading, layout and binary-format functions *)

Lemma align4_spec_witness :
  0 <= 5 <= 2 ^ 31 - 4 /\ (align4 5 mod 4 = 0 /\ 5 <= align4 5 < 5 + 4).
Proof. split; [lia|apply (align4_spec 5); lia]. Defined.

Lemma metaShard_divmod_witness :
  metaShardId (initMetaLayout (Some 1024) 3000) 2500 = 2500 / 1024 /\
  metaLocalDocId (initMetaLayout (Some 1024) 3000) 2500
    (metaShardId (initMetaLayout (Some 1024) 3000) 2500) = 2500 mod 1024.
Proof. apply (metaShard_divmod (Some 1024) 3000 2500); [vm_compute; split; reflexivity|lia]. Defined.

Lemma tokenKey_injective_witness :
  (97 * 65536 + 98 = 98 * 65536 + 99 <-> lit "ab" = lit "bc") /\ 0 <= 97 * 65536 + 98 < 2 ^ 32.
Proof.
  apply (tokenKey_injective (lit "ab") (lit "bc")); [|reflexivity|reflexivity].
  refine (bool_decide_unpack _ _). vm_compute. exact I.
Defined.

Lemma findKey_sorted_witness :
  Sorted Z.lt [3; 5; 9] /\
  ((5 ∈ [3; 5; 9] -> 0 <= findKey [3; 5; 9] 5 /\ zlookup [3; 5; 9] (findKey [3; 5; 9] 5) = Some 5) /\
   (5 ∉ [3; 5; 9] -> findKey [3; 5; 9] 5 = -1)).
Proof.
  assert (Hs : Sorted Z.lt [3; 5; 9]) by (repeat constructor).
  split; [exact Hs|apply (findKey_sorted [3; 5; 9] 5 Hs)].
Defined.

Lemma ensureIndex_loaded_witness :
  exists e', ensureIndexForTokenIdxs demoLoad demoPlan demoColdEngine [0; 1] = Some e' /\
  (e' = setIndexCache demoColdEngine (indexCache e') /\
   (forall idx, idx ∈ [0; 1] -> is_Some (indexCache e' !! dictShardId (dict demoColdEngine) idx)) /\
   (forall k v, indexCache demoColdEngine !! k = Some v -> indexCache e' !! k = Some v) /\
   (forall k v, indexCache e' !! k = Some v ->
      indexCache demoColdEngine !! k = Some v \/
      exists a, getIndexAsset demoPlan k = Some a /\ demoLoad a = Some v)).
Proof.
  eexists. split; [vm_compute; reflexivity|].
  apply (ensureIndex_loaded demoLoad demoPlan demoColdEngine [0; 1]). vm_compute. reflexivity.
Defined.

Lemma preloadIndex_then_ensure_witness :
  exists e1, preloadIndex demoLoad demoPlan demoColdEngine = Some e1 /\
  ensureIndexForTokenIdxs (fun _ => None) demoPlan e1 [0; 1] = Some e1.
Proof.
  eexists. split; [vm_compute; reflexivity|].
  apply (preloadIndex_then_ensure demoLoad (fun _ => None) demoPlan demoColdEngine);
    [vm_compute; reflexivity|reflexivity|].
  intros idx Hidx. apply list_elem_of_In in Hidx.
  destruct Hidx as [<-|[<-|[]]]; vm_compute; split; congruence.
Defined.

Lemma searchAsync_no_IndexNotLoaded_witness :
  exists s' r, searchAsync demoLoad normText demoPlan demoColdState (demoMsg "ab" [] IdDesc 1 20)
                 = Some (s', r) /\
  (forall er, r = Err er -> er = MetaShardMissing).
Proof.
  do 2 eexists. split; [vm_compute; reflexivity|].
  eapply (searchAsync_no_IndexNotLoaded demoLoad normText demoPlan demoColdState
           (demoMsg "ab" [] IdDesc 1 20)).
  vm_compute. reflexivity.
Defined.

Lemma resolve_filters_witness :
  exists R, resolve normText demoState (demoMsg "ab -xy" [0] IdDesc 1 20) = Some R /\
  forall d, d ∈ R ->
  let e := eng demoState in
  0 <= d < totalCount e /\
  (forall b, b ∈ tagBits (demoMsg "ab -xy" [0] IdDesc 1 20) -> 0 <= b < 32 ->
     Z.testbit (zget0 (metaTagLo e) d) b = true) /\
  (forall b, b ∈ tagBits (demoMsg "ab -xy" [0] IdDesc 1 20) -> 32 <= b < 64 ->
     Z.testbit (zget0 (metaTagHi e) d) (b - 32) = true) /\
  (forall b, b ∈ excludeTagBits (demoMsg "ab -xy" [0] IdDesc 1 20) -> 0 <= b < 32 ->
     Z.testbit (zget0 (metaTagLo e) d) b = false) /\
  (forall b, b ∈ excludeTagBits (demoMsg "ab -xy" [0] IdDesc 1 20) -> 32 <= b < 64 ->
     Z.testbit (zget0 (metaTagHi e) d) (b - 32) = false) /\
  (forall T, T ∈ pq_exclude (parseQuery normText (q (demoMsg "ab -xy" [0] IdDesc 1 20))) ->
     termHit e (uniqNgrams T (dict_n (dict e))) d = false).
Proof.
  eexists. split; [vm_compute; reflexivity|].
  intros d Hd. eapply (resolve_filters normText demoState (demoMsg "ab -xy" [0] IdDesc 1 20) _ d
                        demoState_clean eq_refl); [vm_compute; reflexivity|exact Hd].
Defined.

Lemma tagsFromMask_maskFromBits_witness :
  exists lo hi, maskFromBits [0; 40] = (lo, hi) /\
  tagsFromMask (repeat None 40 ++ [Some (7, lit "t")]) lo hi =
  map (fun bit => match (repeat None 40 ++ [Some (7, lit "t")]) !! bit with Some t => t | None => None end)
      (List.filter (fun bit => existsb (Z.eqb (Z.of_nat bit)) [0; 40])
         (seq 0 (length (repeat None 40 ++ [Some (7, lit "t")])))).
Proof.
  do 2 eexists. split; [vm_compute; reflexivity|].
  apply tagsFromMask_maskFromBits; [vm_compute; reflexivity|simpl; lia].
Defined.

Lemma demoDictV2_ok : dictBinOk demoDictV2.
Proof.
  unfold dictBinOk. simpl. split; [right; split; reflexivity|].
  split; [lia|]. split; [lia|]. split; [reflexivity|]. split; [reflexivity|]. split; [reflexivity|].
  refine (bool_decide_unpack _ _). vm_compute. exact I.
Qed.

Lemma parseDictBin_encodeDictBin_witness :
  dictBinOk demoDictV2 /\ parseDictBin (encodeDictBin demoDictV2) = Some demoDictV2.
Proof. split; [exact demoDictV2_ok|apply (parseDictBin_encodeDictBin demoDictV2 demoDictV2_ok)]. Defined.

Lemma parseDictBin_ok_witness :
  Forall (fun b => 0 <= b < 256) (encodeDictBin demoDictV2) /\
  parseDictBin (encodeDictBin demoDictV2) = Some demoDictV2 /\ dictBinOk demoDictV2.
Proof.
  assert (Hf : Forall (fun b => 0 <= b < 256) (encodeDictBin demoDictV2))
    by (refine (bool_decide_unpack _ _); vm_compute; exact I).
  assert (Hp : parseDictBin (encodeDictBin demoDictV2) = Some demoDictV2) by (vm_compute; reflexivity).
  split; [exact Hf|]. split; [exact Hp|]. apply (parseDictBin_ok _ _ Hf Hp).
Defined.

Lemma parseMetaBin_ok_witness :
  Forall (fun b => 0 <= b < 256) demoMetaBytes /\
  parseMetaBin demoMetaBytes = Some demoMetaBin /\
  mb_count demoMetaBin = readU32LE demoMetaBytes 8 /\ mb_sep demoMetaBin = readU16LE demoMetaBytes 6 /\
  metaBinOk demoMetaBin (readU32LE demoMetaBytes 12).
Proof.
  assert (Hf : Forall (fun b => 0 <= b < 256) demoMetaBytes)
    by (refine (bool_decide_unpack _ _); vm_compute; exact I).
  assert (Hp : parseMetaBin demoMetaBytes = Some demoMetaBin) by (vm_compute; reflexivity).
  split; [exact Hf|]. split; [exact Hp|]. apply (parseMetaBin_ok _ _ Hf Hp).
Defined.
